(** * WrenchEX backend: appointment booking and seller availability

    A shallow embedding of the scheduling core of the backend:
    [AppointmentService] (services/appointmentService.ts) and
    [AvailabilityService] (services/availabilityService.ts), over a model
    of the relational store they query through Prisma.

    Conventions.
    - A JavaScript [Date] is its time value: an integer number of
      milliseconds since the epoch ([Z]).  The local-time accessors
      ([getDay], [setHours], ...) are those of a server whose local zone
      is UTC.  Invalid Dates are not modelled: a theorem that tells which
      dates a method computes from its arguments assumes that they stay
      within [JsDate.MAX_TIME] of the epoch.
    - A table is the list of its rows, in insertion order.
    - An [async] method is a function in the monad [M]: it reads and
      updates the store and either returns a value or throws an [Error]
      with a message.  This is the method as a call that no other call
      interrupts; the two methods that write appointments are also given
      request by request ([Concurrent]), for calls that overlap in time.
    - What a call takes from its environment (the clock, the random
      suffix of the appointment number, the key generated for a new row,
      whether the datastore rejects a write) is passed in an [Env.t]. *)

From Stdlib Require Import ZArith List String Ascii Bool Lia DecimalString Sorted Permutation.
Import ListNotations.
Local Open Scope string_scope.
Local Open Scope Z_scope.

(** ** JavaScript dates and strings *)

Module JsDate.

Definition MS_PER_MINUTE : Z := 60000.
Definition MS_PER_HOUR : Z := 3600000.
Definition MS_PER_DAY : Z := 86400000.

(** [d.setHours(0, 0, 0, 0)] *)
Definition startOfDay (t : Z) : Z := t - t mod MS_PER_DAY.

(** [d.getDay()]: 0 is Sunday; the epoch was a Thursday. *)
Definition getDay (t : Z) : Z := (t / MS_PER_DAY + 4) mod 7.

Definition getHours (t : Z) : Z := (t mod MS_PER_DAY) / MS_PER_HOUR.

Definition getMinutes (t : Z) : Z := (t mod MS_PER_HOUR) / MS_PER_MINUTE.

(** [d.setHours(h, m, s, ms)]; out-of-range fields carry over. *)
Definition setHours (t h m s ms : Z) : Z :=
  startOfDay t + h * MS_PER_HOUR + m * MS_PER_MINUTE + s * 1000 + ms.

(** [d.setMinutes(m)]: hours, seconds and milliseconds are kept. *)
Definition setMinutes (t m : Z) : Z :=
  t - getMinutes t * MS_PER_MINUTE + m * MS_PER_MINUTE.

(** [d.setDate(d.getDate() + 1)] *)
Definition nextDate (t : Z) : Z := t + MS_PER_DAY.

(** [a.toDateString() === b.toDateString()]: the same calendar day. *)
Definition sameDateString (a b : Z) : bool :=
  (a / MS_PER_DAY =? b / MS_PER_DAY).

Definition digit (n : Z) : ascii := ascii_of_nat (48 + Z.to_nat n).

Definition pad2 (n : Z) : string :=
  String (digit (n / 10)) (String (digit (n mod 10)) EmptyString).

(** [d.toTimeString().slice(0, 5)], the local time as "HH:MM". *)
Definition toTimeStringHM (t : Z) : string :=
  pad2 (getHours t) ++ ":" ++ pad2 (getMinutes t).

(** [Math.ceil(m / 30) * 30] on an integer [m]. *)
Definition ceil30 (m : Z) : Z := (m + 29) / 30 * 30.

(** The largest time value of a [Date]: 100,000,000 days from the epoch.
    A date set beyond it, on either side, is an Invalid Date. *)
Definition MAX_TIME : Z := 8640000000000000.

(** A time value that a valid [Date] holds. *)
Definition inRange (t : Z) : Prop := - MAX_TIME <= t <= MAX_TIME.

End JsDate.

Module JsString.

(** [s.split(sep)] for a one-character separator. *)
Fixpoint split (sep : ascii) (s : string) : list string :=
  match s with
  | EmptyString => [EmptyString]
  | String c rest =>
      if Ascii.eqb c sep then EmptyString :: split sep rest
      else match split sep rest with
           | [] => [String c EmptyString]
           | h :: t => String c h :: t
           end
  end.

Definition digitValue (c : ascii) : option Z :=
  let n := Z.of_nat (nat_of_ascii c) in
  if (48 <=? n) && (n <=? 57) then Some (n - 48) else None.

Fixpoint digits (acc : Z) (s : string) : option Z :=
  match s with
  | EmptyString => Some acc
  | String c rest =>
      match digitValue c with
      | Some d => digits (acc * 10 + d) rest
      | None => None
      end
  end.

(** [Number(s)] on the fields of a time that the request validation
    lets through ([Validators.timePattern]): a run of decimal digits is
    its value and the empty string is 0.  Every other string is taken to
    [None], JavaScript's [NaN]; JavaScript also reads numbers written
    with surrounding white space, a sign, a decimal point, an exponent or
    a radix prefix, which are not modelled: a theorem that tells what a
    stored time parses to assumes rows that pass the validation
    pattern. *)
Definition Number (s : string) : option Z := digits 0 s.

(** [`${n}`] for an integer. *)
Definition ofZ (n : Z) : string := NilZero.string_of_int (Z.to_int n).

End JsString.

(** ** The data model *)

Inductive AppointmentStatus : Type :=
| PENDING | CONFIRMED | IN_PROGRESS | COMPLETED | CANCELLED.

Definition AppointmentStatus_eqb (a b : AppointmentStatus) : bool :=
  match a, b with
  | PENDING, PENDING | CONFIRMED, CONFIRMED | IN_PROGRESS, IN_PROGRESS
  | COMPLETED, COMPLETED | CANCELLED, CANCELLED => true
  | _, _ => false
  end.

(** The enum's string value, as a template literal prints it. *)
Definition statusName (s : AppointmentStatus) : string :=
  match s with
  | PENDING => "PENDING"
  | CONFIRMED => "CONFIRMED"
  | IN_PROGRESS => "IN_PROGRESS"
  | COMPLETED => "COMPLETED"
  | CANCELLED => "CANCELLED"
  end.

(** [xs.includes(x)] *)
Definition includes (xs : list AppointmentStatus) (x : AppointmentStatus) : bool :=
  existsb (AppointmentStatus_eqb x) xs.

Module Seller.
Record t : Type := mk { id : string; isApproved : bool }.
End Seller.

(** A service row together with the seller row that [include: { seller }]
    joins to it. *)
Module Service.
Record t : Type := mk {
  id : string;
  seller : Seller.t;
  durationMinutes : Z;
  price : Z;   (* a double in the schema; only ever copied *)
  isActive : bool
}.
End Service.

Module Appointment.
Record t : Type := mk {
  id : string;
  appointmentNumber : string;
  buyerId : string;
  sellerId : string;
  serviceId : string;
  scheduledDate : Z;
  scheduledTimeStart : Z;
  scheduledTimeEnd : Z;
  totalAmount : Z;
  serviceLocation : option string;   (* a JSON document; only ever copied *)
  notes : option string;
  status : AppointmentStatus;
  createdAt : Z;
  updatedAt : Z
}.

Definition withStatus (a : t) (s : AppointmentStatus) (at_ : Z) : t :=
  mk (id a) (appointmentNumber a) (buyerId a) (sellerId a) (serviceId a)
     (scheduledDate a) (scheduledTimeStart a) (scheduledTimeEnd a)
     (totalAmount a) (serviceLocation a) (notes a) s (createdAt a) at_.
End Appointment.

(** A row of the audit log.  Its surrogate key is never read by the
    services and is left out. *)
Module StatusHistory.
Record t : Type := mk {
  appointmentId : string;
  status : AppointmentStatus;
  notes : option string;
  changedBy : string;
  changedAt : Z
}.
End StatusHistory.

Module SellerAvailability.
Record t : Type := mk {
  sellerId : string;
  dayOfWeek : Z;
  startTime : string;   (* "HH:MM" *)
  endTime : string;     (* "HH:MM" *)
  isAvailable : bool
}.
End SellerAvailability.

Module SellerTimeOff.
Record t : Type := mk {
  id : string;
  sellerId : string;
  startDate : Z;
  endDate : Z;
  reason : option string;
  isActive : bool
}.
End SellerTimeOff.

Module AppointmentCreateData.
Record t : Type := mk {
  serviceId : string;
  scheduledDate : Z;
  scheduledTimeStart : Z;
  scheduledTimeEnd : Z;
  serviceLocation : option string;
  notes : option string
}.
End AppointmentCreateData.

(** What [getAppointmentById] returns: the row and its audit log.  The
    joined buyer, seller, service and messages are presentation only. *)
Module AppointmentDetails.
Record t : Type := mk {
  appointment : Appointment.t;
  statusHistory : list StatusHistory.t
}.
End AppointmentDetails.

Module Db.
Record t : Type := mk {
  service : list Service.t;
  appointment : list Appointment.t;
  appointmentStatusHistory : list StatusHistory.t;
  sellerAvailability : list SellerAvailability.t;
  sellerTimeOff : list SellerTimeOff.t
}.

Definition setAppointment (db : t) (rows : list Appointment.t) : t :=
  mk (service db) rows (appointmentStatusHistory db)
     (sellerAvailability db) (sellerTimeOff db).

Definition setAppointmentStatusHistory (db : t) (rows : list StatusHistory.t) : t :=
  mk (service db) (appointment db) rows
     (sellerAvailability db) (sellerTimeOff db).

Definition setSellerTimeOff (db : t) (rows : list SellerTimeOff.t) : t :=
  mk (service db) (appointment db) (appointmentStatusHistory db)
     (sellerAvailability db) rows.

Definition setSellerAvailability (db : t) (rows : list SellerAvailability.t) : t :=
  mk (service db) (appointment db) (appointmentStatusHistory db)
     rows (sellerTimeOff db).
End Db.

(** ** The environment of a call *)

Module Env.
Record t : Type := mk {
  now : Z;                   (* [new Date()], [Date.now()] *)
  random : string;           (* [Math.random().toString(36).substring(2, 7).toUpperCase()] *)
  cuid : string;             (* the key the datastore generates for a new row *)
  writeFails : nat -> bool   (* the datastore rejects the n-th write of the call *)
}.

(** The environment of a call whose first write is the k-th write of the
    calling operation. *)
Definition shift (env : t) (k : nat) : t :=
  mk (now env) (random env) (cuid env) (fun n => writeFails env (k + n)).
End Env.

(** ** Results and the store monad *)

Inductive Result (A : Type) : Type :=
| Ok (a : A)
| Throw (message : string).
Arguments Ok {A} a.
Arguments Throw {A} message.

Definition isOk {A : Type} (r : Result A) : bool :=
  match r with Ok _ => true | Throw _ => false end.

Definition M (A : Type) : Type := Db.t -> Result A * Db.t.

Definition ret {A : Type} (a : A) : M A := fun db => (Ok a, db).

Definition throw {A : Type} (message : string) : M A := fun db => (Throw message, db).

Definition bind {A B : Type} (m : M A) (k : A -> M B) : M B :=
  fun db =>
    match m db with
    | (Ok a, db') => k a db'
    | (Throw e, db') => (Throw e, db')
    end.

Notation "x <- m ;; k" := (bind m (fun x => k))
  (at level 61, m at next level, right associativity).

(** A read-only query. *)
Definition query {A : Type} (q : Db.t -> A) : M A := fun db => (Ok (q db), db).

(** ** The Prisma client *)

Module Prisma.

(** [prisma.service.findFirst({ where })] *)
Definition service_findFirst (where_ : Service.t -> bool) : M (option Service.t) :=
  query (fun db => find where_ (Db.service db)).

(** [prisma.service.findUnique({ where: { id } })] *)
Definition service_findUnique (id : string) : M (option Service.t) :=
  query (fun db => find (fun s => String.eqb (Service.id s) id) (Db.service db)).

(** [prisma.appointment.findUnique({ where: { id } })] *)
Definition appointment_findUnique (id : string) : M (option Appointment.t) :=
  query (fun db => find (fun a => String.eqb (Appointment.id a) id) (Db.appointment db)).

(** [prisma.appointment.count({ where })] *)
Definition appointment_count (where_ : Appointment.t -> bool) : M nat :=
  query (fun db => List.length (filter where_ (Db.appointment db))).

(** [prisma.sellerAvailability.findUnique({ where: { sellerId_dayOfWeek } })] *)
Definition sellerAvailability_findUnique (sellerId : string) (dayOfWeek : Z)
  : M (option SellerAvailability.t) :=
  query (fun db =>
    find (fun r => String.eqb (SellerAvailability.sellerId r) sellerId
                   && (SellerAvailability.dayOfWeek r =? dayOfWeek))
         (Db.sellerAvailability db)).

Fixpoint insertByStartTime (r : SellerAvailability.t) (rows : list SellerAvailability.t)
  : list SellerAvailability.t :=
  match rows with
  | [] => [r]
  | r' :: rest =>
      if String.leb (SellerAvailability.startTime r) (SellerAvailability.startTime r')
      then r :: rows
      else r' :: insertByStartTime r rest
  end.

(** [prisma.sellerAvailability.findMany({ where, orderBy: { startTime: 'asc' } })] *)
Definition sellerAvailability_findMany (where_ : SellerAvailability.t -> bool)
  : M (list SellerAvailability.t) :=
  query (fun db =>
    fold_right insertByStartTime [] (filter where_ (Db.sellerAvailability db))).

(** [prisma.sellerTimeOff.findFirst({ where })] *)
Definition sellerTimeOff_findFirst (where_ : SellerTimeOff.t -> bool)
  : M (option SellerTimeOff.t) :=
  query (fun db => find where_ (Db.sellerTimeOff db)).

(** [prisma.$transaction(async (tx) => body)]: when the body throws,
    every write it made is rolled back. *)
Definition transaction {A : Type} (body : M A) : M A :=
  fun db =>
    match body db with
    | (Ok a, db') => (Ok a, db')
    | (Throw e, _) => (Throw e, db)
    end.

(** [tx.appointment.create({ data })].  The table has a primary key on
    [id] and a unique index on [appointment_number]. *)
Definition appointment_create (env : Env.t) (n : nat) (row : Appointment.t)
  : M Appointment.t :=
  fun db =>
    if Env.writeFails env n then (Throw "The datastore rejected the write", db)
    else if existsb (fun a => String.eqb (Appointment.id a) (Appointment.id row))
                    (Db.appointment db)
    then (Throw "Unique constraint failed on the fields: (`id`)", db)
    else if existsb (fun a => String.eqb (Appointment.appointmentNumber a)
                                         (Appointment.appointmentNumber row))
                    (Db.appointment db)
    then (Throw "Unique constraint failed on the fields: (`appointment_number`)", db)
    else (Ok row, Db.setAppointment db (Db.appointment db ++ [row])%list).

(** [tx.appointment.update({ where: { id }, data: { status, updatedAt } })] *)
Definition appointment_update (env : Env.t) (n : nat) (id : string)
    (status : AppointmentStatus) (updatedAt : Z) : M unit :=
  fun db =>
    if Env.writeFails env n then (Throw "The datastore rejected the write", db)
    else if existsb (fun a => String.eqb (Appointment.id a) id) (Db.appointment db)
    then (Ok tt,
          Db.setAppointment db
            (map (fun a => if String.eqb (Appointment.id a) id
                           then Appointment.withStatus a status updatedAt
                           else a)
                 (Db.appointment db)))
    else (Throw "Record to update not found", db).

(** [tx.appointmentStatusHistory.create({ data })] *)
Definition appointmentStatusHistory_create (env : Env.t) (n : nat)
    (row : StatusHistory.t) : M unit :=
  fun db =>
    if Env.writeFails env n then (Throw "The datastore rejected the write", db)
    else (Ok tt,
          Db.setAppointmentStatusHistory db
            (Db.appointmentStatusHistory db ++ [row])%list).

(** [prisma.sellerTimeOff.create({ data })] *)
Definition sellerTimeOff_create (env : Env.t) (n : nat) (row : SellerTimeOff.t)
  : M SellerTimeOff.t :=
  fun db =>
    if Env.writeFails env n then (Throw "The datastore rejected the write", db)
    else if existsb (fun r => String.eqb (SellerTimeOff.id r) (SellerTimeOff.id row))
                    (Db.sellerTimeOff db)
    then (Throw "Unique constraint failed on the fields: (`id`)", db)
    else (Ok row, Db.setSellerTimeOff db (Db.sellerTimeOff db ++ [row])%list).


(** [orderBy: { column: 'asc' }] on a numeric or date column.  Rows with
    equal keys are kept in table order; the datastore leaves their order
    open. *)
Fixpoint insertBy {A : Type} (key : A -> Z) (r : A) (rows : list A) : list A :=
  match rows with
  | [] => [r]
  | r' :: rest =>
      if key r <=? key r' then r :: rows else r' :: insertBy key r rest
  end.

Definition orderBy {A : Type} (key : A -> Z) (rows : list A) : list A :=
  fold_right (insertBy key) [] rows.

(** [orderBy: { column: 'desc' }], with the same convention for equal
    keys. *)
Definition orderByDesc {A : Type} (key : A -> Z) (rows : list A) : list A :=
  orderBy (fun r => - key r) rows.

(** [include: { statusHistory: { orderBy: { changedAt: 'desc' } } }]: the
    rows of the audit log of one appointment, the latest first. *)
Definition appointmentStatusHistory_of (appointmentId : string) : M (list StatusHistory.t) :=
  query (fun db =>
    orderByDesc StatusHistory.changedAt
      (filter (fun h => String.eqb (StatusHistory.appointmentId h) appointmentId)
              (Db.appointmentStatusHistory db))).

(** [skip] and [take] of [findMany].  The client rejects a negative
    [skip] with a validation error, of which this is the first line; a
    negative [take] counts from the end of the ordered rows; without
    [take] every row after the skipped ones is returned. *)
Definition skipTake {A : Type} (skip : Z) (take : option Z) (rows : list A)
  : Result (list A) :=
  if skip <? 0
  then Throw "Invalid value for skip argument: Value can only be positive"
  else
    match take with
    | None => Ok (skipn (Z.to_nat skip) rows)
    | Some take =>
        if 0 <=? take
        then Ok (firstn (Z.to_nat take) (skipn (Z.to_nat skip) rows))
        else Ok (rev (firstn (Z.to_nat (- take)) (skipn (Z.to_nat skip) (rev rows))))
    end.

(** [prisma.appointment.findMany({ where, orderBy: { scheduledTimeStart: 'asc' }, skip, take })] *)
Definition appointment_findMany (where_ : Appointment.t -> bool) (skip : Z)
    (take : option Z) : M (list Appointment.t) :=
  fun db =>
    (skipTake skip take
       (orderBy Appointment.scheduledTimeStart (filter where_ (Db.appointment db))),
     db).

(** [prisma.sellerAvailability.upsert({ where: { sellerId_dayOfWeek }, update, create })].
    The table has a unique index on (seller_id, dayOfWeek). *)
Definition sellerAvailability_upsert (env : Env.t) (n : nat)
    (sellerId : string) (dayOfWeek : Z) (startTime endTime : string) (isAvailable : bool)
  : M SellerAvailability.t :=
  fun db =>
    let where_ r := String.eqb (SellerAvailability.sellerId r) sellerId
                    && (SellerAvailability.dayOfWeek r =? dayOfWeek) in
    let update r :=
      SellerAvailability.mk (SellerAvailability.sellerId r) (SellerAvailability.dayOfWeek r)
                            startTime endTime isAvailable in
    if Env.writeFails env n then (Throw "The datastore rejected the write", db)
    else
      match find where_ (Db.sellerAvailability db) with
      | Some existing =>
          (Ok (update existing),
           Db.setSellerAvailability db
             (map (fun r => if where_ r then update r else r) (Db.sellerAvailability db)))
      | None =>
          let row := SellerAvailability.mk sellerId dayOfWeek startTime endTime isAvailable in
          (Ok row, Db.setSellerAvailability db (Db.sellerAvailability db ++ [row])%list)
      end.

(** [prisma.sellerAvailability.findMany({ where, orderBy: { dayOfWeek: 'asc' } })] *)
Definition sellerAvailability_findManyByDay (where_ : SellerAvailability.t -> bool)
  : M (list SellerAvailability.t) :=
  query (fun db =>
    orderBy SellerAvailability.dayOfWeek (filter where_ (Db.sellerAvailability db))).

(** [prisma.sellerTimeOff.findMany({ where, orderBy: { startDate: 'asc' } })] *)
Definition sellerTimeOff_findManyByStartDate (where_ : SellerTimeOff.t -> bool)
  : M (list SellerTimeOff.t) :=
  query (fun db => orderBy SellerTimeOff.startDate (filter where_ (Db.sellerTimeOff db))).

(** [prisma.sellerTimeOff.findMany({ where })] *)
Definition sellerTimeOff_findMany (where_ : SellerTimeOff.t -> bool)
  : M (list SellerTimeOff.t) :=
  query (fun db => filter where_ (Db.sellerTimeOff db)).

(** [prisma.sellerTimeOff.update({ where: { id }, data: { isActive } })] *)
Definition sellerTimeOff_update (env : Env.t) (n : nat) (id : string) (isActive : bool)
  : M unit :=
  fun db =>
    if Env.writeFails env n then (Throw "The datastore rejected the write", db)
    else if existsb (fun r => String.eqb (SellerTimeOff.id r) id) (Db.sellerTimeOff db)
    then (Ok tt,
          Db.setSellerTimeOff db
            (map (fun r => if String.eqb (SellerTimeOff.id r) id
                           then SellerTimeOff.mk (SellerTimeOff.id r) (SellerTimeOff.sellerId r)
                                                 (SellerTimeOff.startDate r)
                                                 (SellerTimeOff.endDate r)
                                                 (SellerTimeOff.reason r) isActive
                           else r)
                 (Db.sellerTimeOff db)))
    else (Throw "Record to update not found", db).

(** [Promise.all(calls)] over calls that each send one request to the
    datastore: every request is sent and takes effect whether or not
    another one is rejected; the result is the list of the values, or a
    rejection when some call was rejected. *)
Fixpoint promiseAll {A : Type} (calls : list (M A)) : M (list A) :=
  fun db =>
    match calls with
    | [] => (Ok [], db)
    | call :: rest =>
        match call db with
        | (Ok a, db') =>
            match promiseAll rest db' with
            | (Ok values, db'') => (Ok (a :: values), db'')
            | (Throw e, db'') => (Throw e, db'')
            end
        | (Throw e, db') => (Throw e, snd (promiseAll rest db'))
        end
    end.
End Prisma.

(** ** Shared pieces of the two services *)

(** The [where] clause of the overlap count, written out twice in the
    source with the same text: in
    [AppointmentService.checkTimeSlotAvailability] and in
    [AvailabilityService.isSellerAvailable]. *)
Definition overlappingWhere (sellerId : string) (startTime endTime : Z)
    (a : Appointment.t) : bool :=
  String.eqb (Appointment.sellerId a) sellerId
  && includes [PENDING; CONFIRMED; IN_PROGRESS] (Appointment.status a)
  && (((Appointment.scheduledTimeStart a <=? startTime)
       && (Appointment.scheduledTimeEnd a >? startTime))
      || ((Appointment.scheduledTimeStart a <? endTime)
          && (Appointment.scheduledTimeEnd a >=? endTime))
      || ((Appointment.scheduledTimeStart a >=? startTime)
          && (Appointment.scheduledTimeEnd a <=? endTime))).

(** [const [hour, minute] = s.split(':').map(Number)]; [None] when either
    is [NaN] (a date set from it is then invalid). *)
Definition hourMinute (s : string) : option (Z * Z) :=
  match JsString.split ":" s with
  | h :: m :: _ =>
      match JsString.Number h, JsString.Number m with
      | Some hour, Some minute => Some (hour, minute)
      | _, _ => None
      end
  | _ => None
  end.

Module TimeSlot.
Record t : Type := mk { startTime : string; endTime : string; isAvailable : bool }.
End TimeSlot.

(** A JavaScript number that is an integer, infinite or [NaN]. *)
Inductive JsNumber : Type :=
| Num (z : Z)
| Infinity
| NaN.

(** [Math.ceil(total / limit)] for a count [total] and an integer [limit]. *)
Definition ceilDiv (total : nat) (limit : Z) : JsNumber :=
  if limit =? 0 then (if Nat.eqb total 0 then NaN else Infinity)
  else Num (- ((- Z.of_nat total) / limit)).

(** [if (s)] on an optional string: [undefined] and the empty string are
    falsy. *)
Definition given (s : option string) : option string :=
  match s with
  | Some s => if String.eqb s "" then None else Some s
  | None => None
  end.

Module AppointmentFilters.
Record t : Type := mk {
  status : option AppointmentStatus;
  sellerId : option string;
  buyerId : option string;
  serviceId : option string;
  startDate : option Z;
  endDate : option Z;
  page : option Z;
  limit : option Z
}.
End AppointmentFilters.

Module Pagination.
Record t : Type := mk { page : Z; limit : Z; total : nat; pages : JsNumber }.
End Pagination.

Module AppointmentPage.
Record t : Type := mk { appointments : list Appointment.t; pagination : Pagination.t }.
End AppointmentPage.

Module UserType.
Inductive t : Type := buyer | seller.
End UserType.

(** ** services/appointmentService.ts *)

Module AppointmentService.

(** [checkTimeSlotAvailability(sellerId, startTime, endTime)] *)
Definition checkTimeSlotAvailability (sellerId : string) (startTime endTime : Z)
  : M bool :=
  overlappingAppointments <-
    Prisma.appointment_count (overlappingWhere sellerId startTime endTime) ;;
  ret (Nat.eqb overlappingAppointments 0).

(** [getSellerAvailabilityForDay(sellerId, dayOfWeek)] *)
Definition getSellerAvailabilityForDay (sellerId : string) (dayOfWeek : Z)
  : M (list SellerAvailability.t) :=
  Prisma.sellerAvailability_findMany
    (fun r => String.eqb (SellerAvailability.sellerId r) sellerId
              && (SellerAvailability.dayOfWeek r =? dayOfWeek)
              && Bool.eqb (SellerAvailability.isAvailable r) true).

(** [isTimeWithinAvailability(timeString, availability)]; the string
    comparisons are JavaScript's, by code unit. *)
Definition isTimeWithinAvailability (timeString : string)
    (availability : list SellerAvailability.t) : bool :=
  if Nat.eqb (List.length availability) 0 then false
  else existsb (fun slot =>
                  String.leb (SellerAvailability.startTime slot) timeString
                  && String.ltb timeString (SellerAvailability.endTime slot))
               availability.

(** [getAppointmentById(appointmentId)] *)
Definition getAppointmentById (appointmentId : string) : M AppointmentDetails.t :=
  appointment <- Prisma.appointment_findUnique appointmentId ;;
  match appointment with
  | None => throw "Appointment not found"
  | Some a =>
      statusHistory <- Prisma.appointmentStatusHistory_of appointmentId ;;
      ret (AppointmentDetails.mk a statusHistory)
  end.

(** The [where] object [getAppointments] builds from its filters. *)
Definition appointmentsWhere (filters : AppointmentFilters.t) (a : Appointment.t) : bool :=
  match AppointmentFilters.status filters with
  | Some status => AppointmentStatus_eqb (Appointment.status a) status
  | None => true
  end
  && match given (AppointmentFilters.sellerId filters) with
     | Some sellerId => String.eqb (Appointment.sellerId a) sellerId
     | None => true
     end
  && match given (AppointmentFilters.buyerId filters) with
     | Some buyerId => String.eqb (Appointment.buyerId a) buyerId
     | None => true
     end
  && match given (AppointmentFilters.serviceId filters) with
     | Some serviceId => String.eqb (Appointment.serviceId a) serviceId
     | None => true
     end
  && match AppointmentFilters.startDate filters with
     | Some startDate => Appointment.scheduledDate a >=? startDate
     | None => true
     end
  && match AppointmentFilters.endDate filters with
     | Some endDate => Appointment.scheduledDate a <=? endDate
     | None => true
     end.

(** [getAppointments(filters = {})] *)
Definition getAppointments (filters : AppointmentFilters.t) : M AppointmentPage.t :=
  let page := match AppointmentFilters.page filters with Some page => page | None => 1 end in
  let limit := match AppointmentFilters.limit filters with Some limit => limit | None => 10 end in
  let where_ := appointmentsWhere filters in
  let skip := (page - 1) * limit in
  appointments <- Prisma.appointment_findMany where_ skip (Some limit) ;;
  total <- Prisma.appointment_count where_ ;;
  ret (AppointmentPage.mk appointments
         (Pagination.mk page limit total (ceilDiv total limit))).

(** [createAppointment(buyerId, appointmentData)] *)
Definition createAppointment (env : Env.t) (buyerId : string)
    (appointmentData : AppointmentCreateData.t) : M AppointmentDetails.t :=
  service <-
    Prisma.service_findFirst
      (fun s => String.eqb (Service.id s) (AppointmentCreateData.serviceId appointmentData)
                && Bool.eqb (Service.isActive s) true) ;;
  match service with
  | None => throw "Service not found or is inactive"
  | Some service =>
    if negb (Seller.isApproved (Service.seller service))
    then throw "This seller is not approved to take appointments"
    else
      let appointmentDuration := Service.durationMinutes service in
      let startTime := AppointmentCreateData.scheduledTimeStart appointmentData in
      let endTime := AppointmentCreateData.scheduledTimeEnd appointmentData in
      let expectedEndTime := startTime + appointmentDuration * 60000 in
      if negb (endTime =? expectedEndTime)
      then throw ("Appointment duration must be " ++ JsString.ofZ appointmentDuration
                  ++ " minutes for this service")
      else
        isAvailable <-
          checkTimeSlotAvailability (Seller.id (Service.seller service)) startTime endTime ;;
        if negb isAvailable
        then throw "The selected time slot is not available"
        else
          let dayOfWeek := JsDate.getDay startTime in
          let timeString := JsDate.toTimeStringHM startTime in
          sellerAvailability <-
            getSellerAvailabilityForDay (Seller.id (Service.seller service)) dayOfWeek ;;
          (* Outside the seller's hours the source only logs: its
             [throw] is commented out. *)
          _ <- (if (0 <? List.length sellerAvailability)%nat
                   && negb (isTimeWithinAvailability timeString sellerAvailability)
                then ret tt
                else ret tt) ;;
          let appointmentNumber :=
            "APT-" ++ JsString.ofZ (Env.now env) ++ "-" ++ Env.random env in
          appointment <-
            Prisma.transaction
              (newAppointment <-
                 Prisma.appointment_create env 0
                   (Appointment.mk
                      (Env.cuid env)
                      appointmentNumber
                      buyerId
                      (Seller.id (Service.seller service))
                      (AppointmentCreateData.serviceId appointmentData)
                      (AppointmentCreateData.scheduledDate appointmentData)
                      (AppointmentCreateData.scheduledTimeStart appointmentData)
                      (AppointmentCreateData.scheduledTimeEnd appointmentData)
                      (Service.price service)
                      (AppointmentCreateData.serviceLocation appointmentData)
                      (AppointmentCreateData.notes appointmentData)
                      PENDING
                      (Env.now env)
                      (Env.now env)) ;;
               _ <- Prisma.appointmentStatusHistory_create env 1
                      (StatusHistory.mk
                         (Appointment.id newAppointment)
                         PENDING
                         (Some "Appointment created")
                         buyerId
                         (Env.now env)) ;;
               ret newAppointment) ;;
          getAppointmentById (Appointment.id appointment)
  end.

(** The business rules for status transitions. *)
Definition validTransitions (s : AppointmentStatus) : list AppointmentStatus :=
  match s with
  | PENDING => [CONFIRMED; CANCELLED]
  | CONFIRMED => [IN_PROGRESS; CANCELLED]
  | IN_PROGRESS => [COMPLETED; CANCELLED]
  | COMPLETED => []
  | CANCELLED => []
  end.

(** [updateAppointmentStatus(appointmentId, newStatus, changedBy, notes)] *)
Definition updateAppointmentStatus (env : Env.t) (appointmentId : string)
    (newStatus : AppointmentStatus) (changedBy : string) (notes : option string)
  : M AppointmentDetails.t :=
  appointment <- Prisma.appointment_findUnique appointmentId ;;
  match appointment with
  | None => throw "Appointment not found"
  | Some appointment =>
    if negb (includes (validTransitions (Appointment.status appointment)) newStatus)
    then throw ("Cannot change status from " ++ statusName (Appointment.status appointment)
                ++ " to " ++ statusName newStatus)
    else
      _ <- Prisma.transaction
             (_ <- Prisma.appointment_update env 0 appointmentId newStatus (Env.now env) ;;
              Prisma.appointmentStatusHistory_create env 1
                (StatusHistory.mk appointmentId newStatus notes changedBy (Env.now env))) ;;
      getAppointmentById appointmentId
  end.

(** [cancelAppointment(appointmentId, cancelledBy, reason)] *)
Definition cancelAppointment (env : Env.t) (appointmentId cancelledBy : string)
    (reason : option string) : M AppointmentDetails.t :=
  updateAppointmentStatus env appointmentId CANCELLED cancelledBy
    (Some match given reason with
          | Some r => "Cancelled: " ++ r
          | None => "Appointment cancelled"
          end).

(** The [while (currentTime < endTime)] loop of [getAvailableTimeSlots]
    over one availability row.  [None] when the loop has not left after
    [fuel] rounds. *)
Fixpoint slotLoop (fuel : nat) (sellerId : string)
    (durationMinutes intervalMinutes endTime currentTime : Z)
    (slots : list TimeSlot.t) {struct fuel} : M (option (list TimeSlot.t)) :=
  if currentTime <? endTime then
    match fuel with
    | O => ret None
    | S fuel' =>
        let slotStart := currentTime in
        let slotEnd := currentTime + durationMinutes * 60000 in
        slots' <-
          (if slotEnd <=? endTime then
             isAvailable <- checkTimeSlotAvailability sellerId slotStart slotEnd ;;
             ret (slots ++ [TimeSlot.mk (JsDate.toTimeStringHM slotStart)
                                        (JsDate.toTimeStringHM slotEnd)
                                        isAvailable])%list
           else ret slots) ;;
        slotLoop fuel' sellerId durationMinutes intervalMinutes endTime
                 (currentTime + intervalMinutes * 60000) slots'
    end
  else ret (Some slots).

(** Rounds that let [slotLoop] leave: the stride divides the window.
    With a stride that is not positive the source loop never leaves a
    window it has entered, and no fuel is given. *)
Definition slotLoopFuel (intervalMinutes endTime currentTime : Z) : nat :=
  if 0 <? intervalMinutes
  then S (Z.to_nat ((endTime - currentTime) / (intervalMinutes * 60000)))
  else O.

(** The [for (const availabilitySlot of availability)] loop. *)
Fixpoint availabilityLoop (sellerId : string) (durationMinutes intervalMinutes date : Z)
    (availability : list SellerAvailability.t) (slots : list TimeSlot.t)
  : M (option (list TimeSlot.t)) :=
  match availability with
  | [] => ret (Some slots)
  | availabilitySlot :: rest =>
      slots' <-
        match hourMinute (SellerAvailability.startTime availabilitySlot),
              hourMinute (SellerAvailability.endTime availabilitySlot) with
        | Some (startHour, startMinute), Some (endHour, endMinute) =>
            let currentTime := JsDate.setHours date startHour startMinute 0 0 in
            let endTime := JsDate.setHours date endHour endMinute 0 0 in
            slotLoop (slotLoopFuel intervalMinutes endTime currentTime)
                     sellerId durationMinutes intervalMinutes endTime currentTime slots
        | _, _ => ret (Some slots)
        end ;;
      match slots' with
      | None => ret None
      | Some slots' =>
          availabilityLoop sellerId durationMinutes intervalMinutes date rest slots'
      end
  end.

(** [getAvailableTimeSlots(serviceId, date, intervalMinutes = 30)];
    [Ok None] stands for a call that does not return. *)
Definition getAvailableTimeSlots (serviceId : string) (date : Z) (intervalMinutes : Z)
  : M (option (list TimeSlot.t)) :=
  service <- Prisma.service_findUnique serviceId ;;
  match service with
  | None => throw "Service not found"
  | Some service =>
      let dayOfWeek := JsDate.getDay date in
      availability <-
        getSellerAvailabilityForDay (Seller.id (Service.seller service)) dayOfWeek ;;
      if Nat.eqb (List.length availability) 0 then ret (Some [])
      else
        availabilityLoop (Seller.id (Service.seller service))
                         (Service.durationMinutes service) intervalMinutes date
                         availability []
  end.

(** The [where] object of [getUpcomingAppointments]. *)
Definition upcomingWhere (env : Env.t) (userId : string) (userType : UserType.t)
    (a : Appointment.t) : bool :=
  match userType with
  | UserType.buyer => String.eqb (Appointment.buyerId a) userId
  | UserType.seller => String.eqb (Appointment.sellerId a) userId
  end
  && (Appointment.scheduledTimeStart a >=? Env.now env)
  && includes [PENDING; CONFIRMED; IN_PROGRESS] (Appointment.status a).

(** [getUpcomingAppointments(userId, userType, limit = 5)] *)
Definition getUpcomingAppointments (env : Env.t) (userId : string) (userType : UserType.t)
    (limit : Z) : M (list Appointment.t) :=
  Prisma.appointment_findMany (upcomingWhere env userId userType) 0 (Some limit).

End AppointmentService.

Module DaySchedule.
Record t : Type := mk {
  dayOfWeek : Z;
  startTime : string;
  endTime : string;
  isAvailable : bool
}.
End DaySchedule.

Module Calendar.
Record t : Type := mk {
  appointments : list Appointment.t;
  timeOff : list SellerTimeOff.t;
  availability : list SellerAvailability.t;
  dateRange : Z * Z
}.
End Calendar.

(** ** services/availabilityService.ts *)

Module Availability.
Record t : Type := mk { available : bool; reason : option string }.
End Availability.

Module Slot.
Record t : Type := mk { date : Z; startTime : Z; endTime : Z }.
End Slot.

(** How a modelled [while] loop ends. *)
Inductive Loop (A : Type) : Type :=
| OutOfFuel            (* still running after the rounds it was given *)
| Fallthrough          (* the loop condition became false *)
| Returned (a : A).    (* a [return] inside the body *)
Arguments OutOfFuel {A}.
Arguments Fallthrough {A}.
Arguments Returned {A} a.

Module AvailabilityService.

(** [setSellerAvailability(sellerId, dayOfWeek, startTime, endTime, isAvailable = true)] *)
Definition setSellerAvailability (env : Env.t) (sellerId : string) (dayOfWeek : Z)
    (startTime endTime : string) (isAvailable : bool) : M SellerAvailability.t :=
  Prisma.sellerAvailability_upsert env 0 sellerId dayOfWeek startTime endTime isAvailable.

(** [getSellerAvailability(sellerId)] *)
Definition getSellerAvailability (sellerId : string) : M (list SellerAvailability.t) :=
  Prisma.sellerAvailability_findManyByDay
    (fun r => String.eqb (SellerAvailability.sellerId r) sellerId).

(** [setWeeklyAvailability(sellerId, weeklySchedule)]: one
    [setSellerAvailability] call per entry, all started at once; the
    write of the k-th entry is the k-th write of the call. *)
Definition setWeeklyAvailability (env : Env.t) (sellerId : string)
    (weeklySchedule : list DaySchedule.t) : M (list SellerAvailability.t) :=
  Prisma.promiseAll
    (map (fun entry : nat * DaySchedule.t =>
            let (k, schedule) := entry in
            setSellerAvailability (Env.shift env k) sellerId
              (DaySchedule.dayOfWeek schedule)
              (DaySchedule.startTime schedule)
              (DaySchedule.endTime schedule)
              (DaySchedule.isAvailable schedule))
         (combine (seq 0 (List.length weeklySchedule)) weeklySchedule)).

(** The [where] clause of the overlap search of [addTimeOff]. *)
Definition timeOffOverlapWhere (sellerId : string) (startDate endDate : Z)
    (r : SellerTimeOff.t) : bool :=
  String.eqb (SellerTimeOff.sellerId r) sellerId
  && Bool.eqb (SellerTimeOff.isActive r) true
  && (((SellerTimeOff.startDate r <=? startDate) && (SellerTimeOff.endDate r >? startDate))
      || ((SellerTimeOff.startDate r <? endDate) && (SellerTimeOff.endDate r >=? endDate))
      || ((SellerTimeOff.startDate r >=? startDate) && (SellerTimeOff.endDate r <=? endDate))).

(** The [where] clause of the appointment count of [addTimeOff]. *)
Definition appointmentsDuringWhere (sellerId : string) (startDate endDate : Z)
    (a : Appointment.t) : bool :=
  String.eqb (Appointment.sellerId a) sellerId
  && includes [PENDING; CONFIRMED] (Appointment.status a)
  && ((Appointment.scheduledDate a >=? startDate)
      && (Appointment.scheduledDate a <=? endDate)).

(** [addTimeOff(sellerId, startDate, endDate, reason)] *)
Definition addTimeOff (env : Env.t) (sellerId : string) (startDate endDate : Z)
    (reason : option string) : M SellerTimeOff.t :=
  overlapping <-
    Prisma.sellerTimeOff_findFirst (timeOffOverlapWhere sellerId startDate endDate) ;;
  match overlapping with
  | Some _ => throw "Time off period overlaps with existing time off"
  | None =>
      appointmentsDuringTimeOff <-
        Prisma.appointment_count (appointmentsDuringWhere sellerId startDate endDate) ;;
      if (0 <? appointmentsDuringTimeOff)%nat
      then throw "Cannot add time off when there are pending or confirmed appointments during this period"
      else
        Prisma.sellerTimeOff_create env 0
          (SellerTimeOff.mk (Env.cuid env) sellerId startDate endDate reason true)
  end.

(** [getSellerTimeOff(sellerId, includeInactive = false)] *)
Definition getSellerTimeOff (sellerId : string) (includeInactive : bool)
  : M (list SellerTimeOff.t) :=
  Prisma.sellerTimeOff_findManyByStartDate
    (fun r => String.eqb (SellerTimeOff.sellerId r) sellerId
              && (if negb includeInactive
                  then Bool.eqb (SellerTimeOff.isActive r) true
                  else true)).

(** [removeTimeOff(timeOffId, sellerId)] *)
Definition removeTimeOff (env : Env.t) (timeOffId sellerId : string) : M unit :=
  timeOff <-
    Prisma.sellerTimeOff_findFirst
      (fun r => String.eqb (SellerTimeOff.id r) timeOffId
                && String.eqb (SellerTimeOff.sellerId r) sellerId) ;;
  match timeOff with
  | None => throw "Time off not found or you do not have permission to remove it"
  | Some _ => Prisma.sellerTimeOff_update env 0 timeOffId false
  end.

(** [isSellerAvailable(sellerId, date, startTime, endTime)] *)
Definition isSellerAvailable (sellerId : string) (date startTime endTime : Z)
  : M Availability.t :=
  let dayOfWeek := JsDate.getDay date in
  let timeString := JsDate.toTimeStringHM startTime in
  availability <- Prisma.sellerAvailability_findUnique sellerId dayOfWeek ;;
  match availability with
  | None => ret (Availability.mk false (Some "Seller not available on this day"))
  | Some availability =>
    if negb (SellerAvailability.isAvailable availability)
    then ret (Availability.mk false (Some "Seller not available on this day"))
    else if String.ltb timeString (SellerAvailability.startTime availability)
            || String.leb (SellerAvailability.endTime availability) timeString
    then ret (Availability.mk false (Some "Time is outside seller's available hours"))
    else
      timeOff <-
        Prisma.sellerTimeOff_findFirst
          (fun r => String.eqb (SellerTimeOff.sellerId r) sellerId
                    && Bool.eqb (SellerTimeOff.isActive r) true
                    && (SellerTimeOff.startDate r <=? date)
                    && (SellerTimeOff.endDate r >=? date)) ;;
      match timeOff with
      | Some _ =>
          ret (Availability.mk false (Some "Seller is on time off during this period"))
      | None =>
          overlappingAppointments <-
            Prisma.appointment_count (overlappingWhere sellerId startTime endTime) ;;
          if (0 <? overlappingAppointments)%nat
          then ret (Availability.mk false (Some "Time slot is already booked"))
          else ret (Availability.mk true None)
      end
  end.

(** [getSellerCalendar(sellerId, startDate, endDate)]: three reads. *)
Definition getSellerCalendar (sellerId : string) (startDate endDate : Z) : M Calendar.t :=
  appointments <-
    Prisma.appointment_findMany
      (fun a => String.eqb (Appointment.sellerId a) sellerId
                && ((Appointment.scheduledDate a >=? startDate)
                    && (Appointment.scheduledDate a <=? endDate)))
      0 None ;;
  timeOff <-
    Prisma.sellerTimeOff_findMany
      (fun r => String.eqb (SellerTimeOff.sellerId r) sellerId
                && Bool.eqb (SellerTimeOff.isActive r) true
                && ((SellerTimeOff.startDate r <=? endDate)
                    && (SellerTimeOff.endDate r >=? startDate))) ;;
  availability <-
    Prisma.sellerAvailability_findManyByDay
      (fun r => String.eqb (SellerAvailability.sellerId r) sellerId) ;;
  ret (Calendar.mk appointments timeOff availability (startDate, endDate)).

(** The inner loop of [getNextAvailableSlot],
    [while (slotStart < dayEnd)], probing one day. *)
Fixpoint probeLoop (fuel : nat) (sellerId : string)
    (durationMinutes currentDate dayEnd slotStart : Z) {struct fuel}
  : M (Loop Slot.t) :=
  if slotStart <? dayEnd then
    match fuel with
    | O => ret OutOfFuel
    | S fuel' =>
        let slotEnd := slotStart + durationMinutes * 60000 in
        found <-
          (if slotEnd <=? dayEnd then
             availability <- isSellerAvailable sellerId currentDate slotStart slotEnd ;;
             if Availability.available availability
             then ret (Some (Slot.mk currentDate slotStart slotEnd))
             else ret None
           else ret None) ;;
        match found with
        | Some slot => ret (Returned slot)
        | None =>
            probeLoop fuel' sellerId durationMinutes currentDate dayEnd
                      (slotStart + 30 * 60000)
        end
    end
  else ret Fallthrough.

(** Rounds after which [probeLoop] has left: it advances by half an
    hour each round. *)
Definition probeFuel (dayEnd slotStart : Z) : nat :=
  S (Z.to_nat ((dayEnd - slotStart) / (30 * 60000))).

(** The body of the outer loop for one [currentDate]. *)
Definition probeDay (env : Env.t) (sellerId : string) (durationMinutes currentDate : Z)
  : M (Loop Slot.t) :=
  let dayOfWeek := JsDate.getDay currentDate in
  availability <- Prisma.sellerAvailability_findUnique sellerId dayOfWeek ;;
  match availability with
  | None => ret Fallthrough
  | Some availability =>
    if negb (SellerAvailability.isAvailable availability) then ret Fallthrough
    else
      timeOff <-
        Prisma.sellerTimeOff_findFirst
          (fun r => String.eqb (SellerTimeOff.sellerId r) sellerId
                    && Bool.eqb (SellerTimeOff.isActive r) true
                    && (SellerTimeOff.startDate r <=? currentDate)
                    && (SellerTimeOff.endDate r >=? currentDate)) ;;
      match timeOff with
      | Some _ => ret Fallthrough
      | None =>
        match hourMinute (SellerAvailability.startTime availability),
              hourMinute (SellerAvailability.endTime availability) with
        | Some (startHour, startMinute), Some (endHour, endMinute) =>
            let slotStart := JsDate.setHours currentDate startHour startMinute 0 0 in
            let dayEnd := JsDate.setHours currentDate endHour endMinute 0 0 in
            let now := Env.now env in
            let slotStart :=
              if JsDate.sameDateString currentDate now && (slotStart <? now)
              then JsDate.setMinutes now (JsDate.ceil30 (JsDate.getMinutes now))
              else slotStart in
            probeLoop (probeFuel dayEnd slotStart)
                      sellerId durationMinutes currentDate dayEnd slotStart
        | _, _ => ret Fallthrough
        end
      end
  end.

(** The outer loop, [while (currentDate <= endDate)]. *)
Fixpoint dayLoop (fuel : nat) (env : Env.t) (sellerId : string)
    (durationMinutes endDate currentDate : Z) {struct fuel} : M (Loop Slot.t) :=
  if currentDate <=? endDate then
    match fuel with
    | O => ret OutOfFuel
    | S fuel' =>
        today <- probeDay env sellerId durationMinutes currentDate ;;
        match today with
        | Fallthrough =>
            dayLoop fuel' env sellerId durationMinutes endDate
                    (JsDate.nextDate currentDate)
        | other => ret other
        end
    end
  else ret Fallthrough.

Definition dayFuel (endDate currentDate : Z) : nat :=
  S (Z.to_nat ((endDate - currentDate) / JsDate.MS_PER_DAY)).

(** [getNextAvailableSlot(serviceId, fromDate = new Date(), daysAhead = 30)].
    [Returned slot] is the slot found and [Fallthrough] the final
    [return null]. *)
Definition getNextAvailableSlot (env : Env.t) (serviceId : string)
    (fromDate daysAhead : Z) : M (Loop Slot.t) :=
  service <- Prisma.service_findUnique serviceId ;;
  match service with
  | None => throw "Service not found"
  | Some service =>
      let endDate := fromDate + daysAhead * 24 * 60 * 60 * 1000 in
      let currentDate := JsDate.startOfDay fromDate in
      dayLoop (dayFuel endDate currentDate) env
              (Seller.id (Service.seller service))
              (Service.durationMinutes service) endDate currentDate
  end.

End AvailabilityService.

(** ** What the operations write *)

(** The appointment row [createAppointment] inserts for [service]. *)
Definition createdAppointment (env : Env.t) (buyerId : string)
    (appointmentData : AppointmentCreateData.t) (service : Service.t) : Appointment.t :=
  Appointment.mk
    (Env.cuid env)
    ("APT-" ++ JsString.ofZ (Env.now env) ++ "-" ++ Env.random env)
    buyerId
    (Seller.id (Service.seller service))
    (AppointmentCreateData.serviceId appointmentData)
    (AppointmentCreateData.scheduledDate appointmentData)
    (AppointmentCreateData.scheduledTimeStart appointmentData)
    (AppointmentCreateData.scheduledTimeEnd appointmentData)
    (Service.price service)
    (AppointmentCreateData.serviceLocation appointmentData)
    (AppointmentCreateData.notes appointmentData)
    PENDING (Env.now env) (Env.now env).

(** The audit row [createAppointment] inserts with it. *)
Definition createdHistory (env : Env.t) (buyerId : string) : StatusHistory.t :=
  StatusHistory.mk (Env.cuid env) PENDING (Some "Appointment created") buyerId (Env.now env).

(** The store after a committed [createAppointment]. *)
Definition afterCreate (env : Env.t) (buyerId : string)
    (appointmentData : AppointmentCreateData.t) (service : Service.t) (db : Db.t) : Db.t :=
  Db.mk (Db.service db)
        (Db.appointment db ++ [createdAppointment env buyerId appointmentData service])%list
        (Db.appointmentStatusHistory db ++ [createdHistory env buyerId])%list
        (Db.sellerAvailability db) (Db.sellerTimeOff db).

(** The row update of [updateAppointmentStatus]. *)
Definition setStatus (env : Env.t) (appointmentId : string) (newStatus : AppointmentStatus)
    (a : Appointment.t) : Appointment.t :=
  if String.eqb (Appointment.id a) appointmentId
  then Appointment.withStatus a newStatus (Env.now env)
  else a.

(** The store after a committed [updateAppointmentStatus]. *)
Definition afterUpdate (env : Env.t) (appointmentId : string) (newStatus : AppointmentStatus)
    (changedBy : string) (notes : option string) (db : Db.t) : Db.t :=
  Db.mk (Db.service db)
        (map (setStatus env appointmentId newStatus) (Db.appointment db))
        (Db.appointmentStatusHistory db
         ++ [StatusHistory.mk appointmentId newStatus notes changedBy (Env.now env)])%list
        (Db.sellerAvailability db) (Db.sellerTimeOff db).

(** The store after a committed [addTimeOff]. *)
Definition afterTimeOff (env : Env.t) (sellerId : string) (startDate endDate : Z)
    (reason : option string) (db : Db.t) : Db.t :=
  Db.mk (Db.service db) (Db.appointment db) (Db.appointmentStatusHistory db)
        (Db.sellerAvailability db)
        (Db.sellerTimeOff db
         ++ [SellerTimeOff.mk (Env.cuid env) sellerId startDate endDate reason true])%list.

(** ** The probes of [getNextAvailableSlot] *)

(** Whether [isSellerAvailable] answers "available" for the window of
    [durationMinutes] that starts at [slotStart]. *)
Definition availableAt (sellerId : string) (durationMinutes currentDate : Z) (db : Db.t)
    (slotStart : Z) : bool :=
  match fst (AvailabilityService.isSellerAvailable
               sellerId currentDate slotStart (slotStart + durationMinutes * 60000) db) with
  | Ok answer => Availability.available answer
  | Throw _ => false
  end.

(** The probe at [slotStart] is the one returned: its window ends by
    [dayEnd] and the seller is available for it. *)
Definition accepted (sellerId : string) (durationMinutes currentDate dayEnd : Z) (db : Db.t)
    (slotStart : Z) : bool :=
  (slotStart + durationMinutes * 60000 <=? dayEnd)
  && availableAt sellerId durationMinutes currentDate db slotStart.

(** The start of the k-th probe of a day whose first probe starts at
    [slotStart]: probes are half an hour apart. *)
Definition probe (slotStart : Z) (k : nat) : Z := slotStart + Z.of_nat k * (30 * 60000).

(** The slot the loop returns for a probe. *)
Definition slotAt (durationMinutes currentDate slotStart : Z) : Slot.t :=
  Slot.mk currentDate slotStart (slotStart + durationMinutes * 60000).

(** The d-th calendar day of a scan that starts on [currentDate]. *)
Definition dayAt (currentDate : Z) (d : nat) : Z :=
  currentDate + Z.of_nat d * JsDate.MS_PER_DAY.

(** Where probing starts on [currentDate] for a window that opens at
    [startHour]:[startMinute]: at the opening, or, on the day of the call
    when the window has already opened, at the clock time with its
    minutes taken up to the next multiple of 30. *)
Definition firstProbe (env : Env.t) (currentDate startHour startMinute : Z) : Z :=
  let slotStart := JsDate.setHours currentDate startHour startMinute 0 0 in
  if JsDate.sameDateString currentDate (Env.now env) && (slotStart <? Env.now env)
  then JsDate.setMinutes (Env.now env) (JsDate.ceil30 (JsDate.getMinutes (Env.now env)))
  else slotStart.

(** The first probe and the end of the window of [currentDate], when the
    day is probed at all: the seller has an available row for the weekday
    whose times parse, and no active time-off covers the day. *)
Definition windowOf (env : Env.t) (sellerId : string) (currentDate : Z) (db : Db.t)
  : option (Z * Z) :=
  match find (fun r => String.eqb (SellerAvailability.sellerId r) sellerId
                       && (SellerAvailability.dayOfWeek r =? JsDate.getDay currentDate))
             (Db.sellerAvailability db) with
  | None => None
  | Some availability =>
    if negb (SellerAvailability.isAvailable availability) then None
    else
      match find (fun r => String.eqb (SellerTimeOff.sellerId r) sellerId
                           && Bool.eqb (SellerTimeOff.isActive r) true
                           && (SellerTimeOff.startDate r <=? currentDate)
                           && (SellerTimeOff.endDate r >=? currentDate))
                 (Db.sellerTimeOff db) with
      | Some _ => None
      | None =>
        match hourMinute (SellerAvailability.startTime availability),
              hourMinute (SellerAvailability.endTime availability) with
        | Some (startHour, startMinute), Some (endHour, endMinute) =>
            Some (firstProbe env currentDate startHour startMinute,
                  JsDate.setHours currentDate endHour endMinute 0 0)
        | _, _ => None
        end
      end
  end.

(** The datastore takes both writes of a [createAppointment] call: it is
    up, and neither the generated key nor the appointment number is
    already in the table. *)
Definition datastoreAccepts (env : Env.t) (db : Db.t) : Prop :=
  Env.writeFails env 0 = false
  /\ Env.writeFails env 1 = false
  /\ existsb (fun a => String.eqb (Appointment.id a) (Env.cuid env)) (Db.appointment db)
     = false
  /\ existsb (fun a => String.eqb (Appointment.appointmentNumber a)
                         ("APT-" ++ JsString.ofZ (Env.now env) ++ "-" ++ Env.random env))
             (Db.appointment db) = false.

(** ** The states of the booking ledger *)

Definition nonTerminal (s : AppointmentStatus) : Prop :=
  s = PENDING \/ s = CONFIRMED \/ s = IN_PROGRESS.

(** The half-open windows [a, b) and [c, d) overlap. *)
Definition overlap (a b c d : Z) : Prop := a < d /\ c < b.

Definition windowsOverlap (a1 a2 : Appointment.t) : Prop :=
  overlap (Appointment.scheduledTimeStart a1) (Appointment.scheduledTimeEnd a1)
          (Appointment.scheduledTimeStart a2) (Appointment.scheduledTimeEnd a2).

(** A stored appointment of [sellerId], in a non-terminal status, whose
    window overlaps [startTime, endTime) by the half-open rule. *)
Definition conflicting (sellerId : string) (startTime endTime : Z) (db : Db.t) : Prop :=
  exists a, In a (Db.appointment db)
            /\ Appointment.sellerId a = sellerId
            /\ nonTerminal (Appointment.status a)
            /\ overlap startTime endTime
                       (Appointment.scheduledTimeStart a) (Appointment.scheduledTimeEnd a).

(** No seller has two distinct appointments with overlapping windows that
    are both in a non-terminal status. *)
Definition NoDoubleBooking (appointments : list Appointment.t) : Prop :=
  forall a1 a2,
    In a1 appointments -> In a2 appointments ->
    Appointment.id a1 <> Appointment.id a2 ->
    Appointment.sellerId a1 = Appointment.sellerId a2 ->
    nonTerminal (Appointment.status a1) -> nonTerminal (Appointment.status a2) ->
    ~ windowsOverlap a1 a2.

(** The primary key of the appointment table. *)
Definition UniqueIds (appointments : list Appointment.t) : Prop :=
  NoDup (map Appointment.id appointments).

(** The appointment table has its primary key and no double booking. *)
Definition SoundLedger (db : Db.t) : Prop :=
  UniqueIds (Db.appointment db) /\ NoDoubleBooking (Db.appointment db).

(** ** Calls that overlap in time *)

(** The methods of the two services are written above for a call that
    has the datastore to itself from its first request to its last.  The
    server does not wait for a call to finish before it takes the next
    one: whenever a call [await]s the datastore, requests of other calls
    can reach the datastore first.  A [Call] is a call between two of its
    requests: it has settled, with a value or with an error, or it awaits
    the answer to a request and continues from it. *)
Inductive Call (A : Type) : Type :=
| Settled (result : Result A)
| Await (R : Type) (request : M R) (continue : Result R -> Call A).
Arguments Settled {A} result.
Arguments Await {A R} request continue.

(** [await request] *)
Definition await {R : Type} (request : M R) : Call R :=
  Await request (fun answer => Settled answer).

(** The rest of an [async] method after an [await]; an error ends the
    call. *)
Fixpoint andThen {A B : Type} (c : Call A) (k : A -> Call B) : Call B :=
  match c with
  | Settled (Ok a) => k a
  | Settled (Throw e) => Settled (Throw e)
  | Await request continue => Await request (fun answer => andThen (continue answer) k)
  end.

Notation "x <~ c ;; k" := (andThen c (fun x => k))
  (at level 61, c at next level, right associativity).

(** A call that no other call interrupts. *)
Fixpoint run {A : Type} (c : Call A) (db : Db.t) : Result A * Db.t :=
  match c with
  | Settled result => (result, db)
  | Await request continue =>
      match request db with
      | (answer, db') => run (continue answer) db'
      end
  end.

Definition settled {A : Type} (c : Call A) : bool :=
  match c with
  | Settled _ => true
  | Await _ _ => false
  end.

(** The two methods that write appointments, request by request: each
    [await] of the source is one request, and a [$transaction] reaches
    the other calls as one request, when it commits.  Run without
    interruption they are the methods of [AppointmentService]
    ([run_createAppointment], [run_updateAppointmentStatus]). *)
Module Concurrent.

(** The [$transaction] of [createAppointment]. *)
Definition createAppointmentTransaction (env : Env.t) (buyerId : string)
    (appointmentData : AppointmentCreateData.t) (service : Service.t) : M Appointment.t :=
  Prisma.transaction
    (newAppointment <-
       Prisma.appointment_create env 0
         (Appointment.mk
            (Env.cuid env)
            ("APT-" ++ JsString.ofZ (Env.now env) ++ "-" ++ Env.random env)
            buyerId
            (Seller.id (Service.seller service))
            (AppointmentCreateData.serviceId appointmentData)
            (AppointmentCreateData.scheduledDate appointmentData)
            (AppointmentCreateData.scheduledTimeStart appointmentData)
            (AppointmentCreateData.scheduledTimeEnd appointmentData)
            (Service.price service)
            (AppointmentCreateData.serviceLocation appointmentData)
            (AppointmentCreateData.notes appointmentData)
            PENDING
            (Env.now env)
            (Env.now env)) ;;
     _ <- Prisma.appointmentStatusHistory_create env 1
            (StatusHistory.mk
               (Appointment.id newAppointment)
               PENDING
               (Some "Appointment created")
               buyerId
               (Env.now env)) ;;
     ret newAppointment).

(** [createAppointment(buyerId, appointmentData)]: five requests, the
    overlap count being the second and the transaction the fourth. *)
Definition createAppointment (env : Env.t) (buyerId : string)
    (appointmentData : AppointmentCreateData.t) : Call AppointmentDetails.t :=
  service <~
    await (Prisma.service_findFirst
             (fun s => String.eqb (Service.id s)
                                  (AppointmentCreateData.serviceId appointmentData)
                       && Bool.eqb (Service.isActive s) true)) ;;
  match service with
  | None => Settled (Throw "Service not found or is inactive")
  | Some service =>
    if negb (Seller.isApproved (Service.seller service))
    then Settled (Throw "This seller is not approved to take appointments")
    else
      let appointmentDuration := Service.durationMinutes service in
      let startTime := AppointmentCreateData.scheduledTimeStart appointmentData in
      let endTime := AppointmentCreateData.scheduledTimeEnd appointmentData in
      let expectedEndTime := startTime + appointmentDuration * 60000 in
      if negb (endTime =? expectedEndTime)
      then Settled (Throw ("Appointment duration must be "
                           ++ JsString.ofZ appointmentDuration
                           ++ " minutes for this service"))
      else
        isAvailable <~
          await (AppointmentService.checkTimeSlotAvailability
                   (Seller.id (Service.seller service)) startTime endTime) ;;
        if negb isAvailable
        then Settled (Throw "The selected time slot is not available")
        else
          let dayOfWeek := JsDate.getDay startTime in
          (* The rows read here are only logged. *)
          sellerAvailability <~
            await (AppointmentService.getSellerAvailabilityForDay
                     (Seller.id (Service.seller service)) dayOfWeek) ;;
          appointment <~
            await (createAppointmentTransaction env buyerId appointmentData service) ;;
          await (AppointmentService.getAppointmentById (Appointment.id appointment))
  end.

(** The [$transaction] of [updateAppointmentStatus]. *)
Definition updateAppointmentStatusTransaction (env : Env.t) (appointmentId : string)
    (newStatus : AppointmentStatus) (changedBy : string) (notes : option string) : M unit :=
  Prisma.transaction
    (_ <- Prisma.appointment_update env 0 appointmentId newStatus (Env.now env) ;;
     Prisma.appointmentStatusHistory_create env 1
       (StatusHistory.mk appointmentId newStatus notes changedBy (Env.now env))).

(** [updateAppointmentStatus(appointmentId, newStatus, changedBy, notes)]:
    three requests, the transition being checked on the row that the
    first one read. *)
Definition updateAppointmentStatus (env : Env.t) (appointmentId : string)
    (newStatus : AppointmentStatus) (changedBy : string) (notes : option string)
  : Call AppointmentDetails.t :=
  appointment <~ await (Prisma.appointment_findUnique appointmentId) ;;
  match appointment with
  | None => Settled (Throw "Appointment not found")
  | Some appointment =>
    if negb (includes (AppointmentService.validTransitions (Appointment.status appointment))
                      newStatus)
    then Settled (Throw ("Cannot change status from "
                         ++ statusName (Appointment.status appointment)
                         ++ " to " ++ statusName newStatus))
    else
      _ <~ await (updateAppointmentStatusTransaction
                    env appointmentId newStatus changedBy notes) ;;
      await (AppointmentService.getAppointmentById appointmentId)
  end.

End Concurrent.

(** The server: the store and the calls it has taken, in the order in
    which they arrived. *)
Module Server.

Record t : Type := mk {
  store : Db.t;
  calls : list (Call AppointmentDetails.t)
}.

(** A call arrives. *)
Definition start (c : Call AppointmentDetails.t) (s : t) : t :=
  mk (store s) (calls s ++ [c])%list.

(** The datastore answers the request that the i-th call awaits. *)
Definition advance (i : nat) (s : t) : t :=
  match nth_error (calls s) i with
  | Some (Await request continue) =>
      match request (store s) with
      | (answer, db') =>
          mk db' (firstn i (calls s) ++ continue answer :: skipn (S i) (calls s))%list
      end
  | _ => s
  end.

(** A call of [createAppointment] or of [updateAppointmentStatus]
    arrives, with any arguments and in any environment. *)
Inductive begins : t -> t -> Prop :=
| begin_createAppointment env buyerId appointmentData s :
    begins s (start (Concurrent.createAppointment env buyerId appointmentData) s)
| begin_updateAppointmentStatus env appointmentId newStatus changedBy notes s :
    begins s (start (Concurrent.updateAppointmentStatus
                       env appointmentId newStatus changedBy notes) s).

Inductive step : t -> t -> Prop :=
| step_begin s s' : begins s s' -> step s s'
| step_advance i s : step s (advance i s).

(** What the server can come to from the store [db0], the requests of
    its calls reaching the datastore in any order. *)
Inductive reachable (db0 : Db.t) : t -> Prop :=
| reach_init : reachable db0 (mk db0 [])
| reach_step s s' : reachable db0 s -> step s s' -> reachable db0 s'.

(** No call is waiting for the datastore. *)
Definition idle (s : t) : bool := forallb settled (calls s).

(** What the server can come to when a call arrives only after every
    earlier call has settled. *)
Inductive oneAtATime (db0 : Db.t) : t -> Prop :=
| serial_init : oneAtATime db0 (mk db0 [])
| serial_begin s s' : oneAtATime db0 s -> idle s = true -> begins s s' -> oneAtATime db0 s'
| serial_advance i s : oneAtATime db0 s -> oneAtATime db0 (advance i s).

End Server.

(** The store satisfies [Inv] after every request that is left of a
    call, when no other call interrupts it. *)
Fixpoint alone (Inv : Db.t -> Prop) {A : Type} (c : Call A) (db : Db.t) : Prop :=
  match c with
  | Settled _ => True
  | Await request continue =>
      Inv (snd (request db))
      /\ alone Inv (continue (fst (request db))) (snd (request db))
  end.

(** Every request that is left of a call takes a store that satisfies
    [Inv] to one that does, whatever was answered before. *)
Fixpoint keeps (Inv : Db.t -> Prop) {A : Type} (c : Call A) : Prop :=
  match c with
  | Settled _ => True
  | Await request continue =>
      (forall db, Inv db -> Inv (snd (request db)))
      /\ (forall answer, keeps Inv (continue answer))
  end.

(** Every appointment has audit rows, the last of which records its
    current status, and every audit row belongs to an appointment. *)
Definition Audited (db : Db.t) : Prop :=
  (forall a, In a (Db.appointment db) ->
     exists earlier h,
       filter (fun h' => String.eqb (StatusHistory.appointmentId h') (Appointment.id a))
              (Db.appointmentStatusHistory db) = (earlier ++ [h])%list
       /\ StatusHistory.status h = Appointment.status a)
  /\ (forall h, In h (Db.appointmentStatusHistory db) ->
        exists a, In a (Db.appointment db)
                  /\ Appointment.id a = StatusHistory.appointmentId h).

(** The transition table as the specification lists it. *)
Definition transitionTable : list (AppointmentStatus * AppointmentStatus) :=
  [ (PENDING, CONFIRMED); (PENDING, CANCELLED);
    (CONFIRMED, IN_PROGRESS); (CONFIRMED, CANCELLED);
    (IN_PROGRESS, COMPLETED); (IN_PROGRESS, CANCELLED) ].

(** ** The weekly availability table *)

(** The row of a seller for a weekday, as [findUnique] on the unique
    index reads it. *)
Definition availabilityOf (db : Db.t) (sellerId : string) (dayOfWeek : Z)
  : option SellerAvailability.t :=
  find (fun r => String.eqb (SellerAvailability.sellerId r) sellerId
                 && (SellerAvailability.dayOfWeek r =? dayOfWeek))
       (Db.sellerAvailability db).

(** The unique index on (seller_id, dayOfWeek). *)
Definition UniqueDays (rows : list SellerAvailability.t) : Prop :=
  NoDup (map (fun r => (SellerAvailability.sellerId r, SellerAvailability.dayOfWeek r)) rows).

(** The row [setSellerAvailability] stores for an entry of a weekly
    schedule. *)
Definition scheduledRow (sellerId : string) (schedule : DaySchedule.t)
  : SellerAvailability.t :=
  SellerAvailability.mk sellerId (DaySchedule.dayOfWeek schedule)
                        (DaySchedule.startTime schedule) (DaySchedule.endTime schedule)
                        (DaySchedule.isAvailable schedule).

(** ** Time off *)

(** The row update of [removeTimeOff]. *)
Definition deactivate (timeOffId : string) (r : SellerTimeOff.t) : SellerTimeOff.t :=
  if String.eqb (SellerTimeOff.id r) timeOffId
  then SellerTimeOff.mk (SellerTimeOff.id r) (SellerTimeOff.sellerId r)
                        (SellerTimeOff.startDate r) (SellerTimeOff.endDate r)
                        (SellerTimeOff.reason r) false
  else r.

(** The range [startDate, endDate] of a time off meets the window
    [start, end) of an appointment. *)
Definition meetsRange (startDate endDate : Z) (a : Appointment.t) : Prop :=
  Appointment.scheduledTimeStart a <= endDate
  /\ startDate < Appointment.scheduledTimeEnd a.

(** The time-off rows that are in force. *)
Definition activeTimeOff (db : Db.t) : list SellerTimeOff.t :=
  filter SellerTimeOff.isActive (Db.sellerTimeOff db).

(** Two stores that differ at most in time-off rows that are not in
    force. *)
Definition sameUpToInactiveTimeOff (db db' : Db.t) : Prop :=
  Db.service db' = Db.service db
  /\ Db.appointment db' = Db.appointment db
  /\ Db.appointmentStatusHistory db' = Db.appointmentStatusHistory db
  /\ Db.sellerAvailability db' = Db.sellerAvailability db
  /\ activeTimeOff db' = activeTimeOff db.

(** ** Times of day *)

(** "HH:MM", two digits each: the format of [toTimeString().slice(0, 5)]. *)
Definition hhmm (hour minute : Z) : string :=
  JsDate.pad2 hour ++ ":" ++ JsDate.pad2 minute.

(** The minute of the day of a time value. *)
Definition minuteOfDay (t : Z) : Z := JsDate.getHours t * 60 + JsDate.getMinutes t.

(** ** utils/validators.ts *)

Module Validators.

(** A character class [[lo-hi]]. *)
Definition between (lo hi c : ascii) : bool :=
  ((N_of_ascii lo <=? N_of_ascii c) && (N_of_ascii c <=? N_of_ascii hi))%N.

(** [/^([01]?[0-9]|2[0-3]):[0-5][0-9]$/.test(s)], the pattern of
    [startTime] and [endTime] in [sellerAvailabilityValidation]. *)
Definition timePattern (s : string) : bool :=
  match s with
  | String h (String colon (String m1 (String m2 EmptyString))) =>
      between "0" "9" h
      && Ascii.eqb colon ":" && between "0" "5" m1 && between "0" "9" m2
  | String h1 (String h2 (String colon (String m1 (String m2 EmptyString)))) =>
      ((between "0" "1" h1 && between "0" "9" h2)
       || (Ascii.eqb h1 "2" && between "0" "3" h2))
      && Ascii.eqb colon ":" && between "0" "5" m1 && between "0" "9" m2
  | _ => false
  end.

(** Whether [sellerAvailabilityValidation] accepts a body whose
    [dayOfWeek] is an integer and whose [isAvailable] is a boolean: the
    key rules and the [custom] rule, which reports
    'End time must be after start time' when
    [value.endTime <= value.startTime], a comparison of strings. *)
Definition sellerAvailabilityValidation (value : DaySchedule.t) : bool :=
  (0 <=? DaySchedule.dayOfWeek value) && (DaySchedule.dayOfWeek value <=? 6)
  && timePattern (DaySchedule.startTime value)
  && timePattern (DaySchedule.endTime value)
  && negb (String.leb (DaySchedule.endTime value) (DaySchedule.startTime value)).

End Validators.

(** The hours of a row are written as the request validation requires. *)
Definition WellFormedHours (row : SellerAvailability.t) : Prop :=
  Validators.timePattern (SellerAvailability.startTime row) = true
  /\ Validators.timePattern (SellerAvailability.endTime row) = true.

(** ** The slot grid of [getAvailableTimeSlots] *)

(** The start of the k-th candidate in a window that opens at [opening]:
    candidates are [intervalMinutes] apart. *)
Definition candidate (opening intervalMinutes : Z) (k : nat) : Z :=
  opening + Z.of_nat k * (intervalMinutes * 60000).

(** The entry listed for the candidate that starts at [slotStart]. *)
Definition listedSlot (sellerId : string) (durationMinutes : Z) (db : Db.t) (slotStart : Z)
  : TimeSlot.t :=
  TimeSlot.mk
    (JsDate.toTimeStringHM slotStart)
    (JsDate.toTimeStringHM (slotStart + durationMinutes * 60000))
    (Nat.eqb (List.length
                (filter (overlappingWhere sellerId slotStart
                           (slotStart + durationMinutes * 60000))
                        (Db.appointment db))) 0).

(** The candidate that starts at [slotStart] is listed for the window of
    [row] on [date]: it starts before the window closes and ends by
    then. *)
Definition fitsWindow (date durationMinutes intervalMinutes : Z) (row : SellerAvailability.t)
    (slotStart : Z) : Prop :=
  exists startHour startMinute endHour endMinute k,
    hourMinute (SellerAvailability.startTime row) = Some (startHour, startMinute)
    /\ hourMinute (SellerAvailability.endTime row) = Some (endHour, endMinute)
    /\ slotStart = candidate (JsDate.setHours date startHour startMinute 0 0)
                             intervalMinutes k
    /\ slotStart < JsDate.setHours date endHour endMinute 0 0
    /\ slotStart + durationMinutes * 60000 <= JsDate.setHours date endHour endMinute 0 0.

(** ** Listings *)

(** In ascending order of [key]. *)
Definition Ascending {A : Type} (key : A -> Z) (rows : list A) : Prop :=
  StronglySorted (fun a b => key a <= key b) rows.

(** The filters of a listing with another page number. *)
Definition withPage (filters : AppointmentFilters.t) (page : Z) : AppointmentFilters.t :=
  AppointmentFilters.mk
    (AppointmentFilters.status filters) (AppointmentFilters.sellerId filters)
    (AppointmentFilters.buyerId filters) (AppointmentFilters.serviceId filters)
    (AppointmentFilters.startDate filters) (AppointmentFilters.endDate filters)
    (Some page) (AppointmentFilters.limit filters).

(** The appointments on a page of a listing; none when the call throws. *)
Definition pageOf (filters : AppointmentFilters.t) (db : Db.t) (page : Z)
  : list Appointment.t :=
  match fst (AppointmentService.getAppointments (withPage filters page) db) with
  | Ok result => AppointmentPage.appointments result
  | Throw _ => []
  end.

(** Every appointment the filters select, in the order of the listing. *)
Definition selected (filters : AppointmentFilters.t) (db : Db.t) : list Appointment.t :=
  Prisma.orderBy Appointment.scheduledTimeStart
    (filter (AppointmentService.appointmentsWhere filters) (Db.appointment db)).

(** ** Requests and responses *)

Module UserRole.
Inductive t : Type := ADMIN | SELLER | BUYER.

Definition eqb (a b : t) : bool :=
  match a, b with
  | ADMIN, ADMIN | SELLER, SELLER | BUYER, BUYER => true
  | _, _ => false
  end.
End UserRole.

(** [req.user], as the [authenticate] middleware sets it. *)
Module User.
Record t : Type := mk { id : string; role : UserRole.t }.
End User.

(** A row of the sellers table, as the handlers read it: the seller
    profile of a user. *)
Module SellerProfile.
Record t : Type := mk { id : string; userId : string }.
End SellerProfile.

(** [prisma.seller.findUnique({ where: { userId } })]; the handlers only
    read the table. *)
Definition seller_findUnique (sellers : list SellerProfile.t) (userId : string)
  : option SellerProfile.t :=
  find (fun s => String.eqb (SellerProfile.userId s) userId) sellers.

(** [res.status(status).json({ success, data, error: { message } })] *)
Module Response.
Record t (A : Type) : Type := mk {
  status : Z;
  success : bool;
  data : option A;
  message : option string
}.
Arguments mk {A} status success data message.
Arguments status {A} t.
Arguments success {A} t.
Arguments data {A} t.
Arguments message {A} t.

Definition ok {A : Type} (status : Z) (data : A) : t A := mk status true (Some data) None.

(** The error body; [message || fallback] takes the fallback for an
    empty message. *)
Definition error {A : Type} (status : Z) (message fallback : string) : t A :=
  mk status false None (Some (if String.eqb message "" then fallback else message)).
End Response.

(** The body of a status update as
    [validateRequest(updateAppointmentStatusValidation, req.body)] leaves
    it. *)
Module StatusUpdate.
Record t : Type := mk { status : AppointmentStatus; notes : option string }.
End StatusUpdate.

(** ** controllers/appointmentController.ts *)

Module AppointmentController.

(** [getAppointmentById(req, res)] *)
Definition getAppointmentById (user : User.t) (appointmentId : string)
  : Db.t -> Response.t AppointmentDetails.t * Db.t :=
  fun db =>
    let userId := User.id user in
    let userRole := User.role user in
    match AppointmentService.getAppointmentById appointmentId db with
    | (Ok details, db') =>
        let appointment := AppointmentDetails.appointment details in
        let hasPermission :=
          String.eqb (Appointment.buyerId appointment) userId
          || String.eqb (Appointment.sellerId appointment) userId
          || UserRole.eqb userRole UserRole.ADMIN in
        if negb hasPermission
        then (Response.mk 403 false None
             (Some "You are not authorized to view this appointment"), db')
        else (Response.ok 200 details, db')
    | (Throw message, db') =>
        (Response.error (if String.eqb message "Appointment not found" then 404 else 500)
                        message "Failed to get appointment", db')
    end.

(** [getAppointments(req, res)], for a query whose [status], when given,
    names a status, and whose dates and numbers are well formed. *)
Definition getAppointments (sellers : list SellerProfile.t) (user : User.t)
    (query : AppointmentFilters.t) : Db.t -> Response.t AppointmentPage.t * Db.t :=
  fun db =>
    let userId := User.id user in
    let userRole := User.role user in
    let page := match AppointmentFilters.page query with Some page => page | None => 1 end in
    let limit :=
      match AppointmentFilters.limit query with Some limit => limit | None => 10 end in
    let filters (sellerId buyerId : option string) :=
      AppointmentFilters.mk
        (AppointmentFilters.status query) sellerId buyerId
        (given (AppointmentFilters.serviceId query))
        (AppointmentFilters.startDate query) (AppointmentFilters.endDate query)
        (Some page) (Some limit) in
    let respond (filters : AppointmentFilters.t) :=
      match AppointmentService.getAppointments filters db with
      | (Ok result, db') => (Response.ok 200 result, db')
      | (Throw message, db') =>
          (Response.error 500 message "Failed to get appointments", db')
      end in
    match userRole with
    | UserRole.ADMIN =>
        respond (filters (given (AppointmentFilters.sellerId query))
                         (given (AppointmentFilters.buyerId query)))
    | UserRole.SELLER =>
        match seller_findUnique sellers userId with
        | Some seller => respond (filters (Some (SellerProfile.id seller)) None)
        | None =>
            (Response.ok 200 (AppointmentPage.mk [] (Pagination.mk 1 10 0 (Num 0))), db)
        end
    | UserRole.BUYER => respond (filters None (Some userId))
    end.

(** [updateAppointmentStatus(req, res)]; [validatedData] is what
    [validateRequest] returns for the body, or the error it throws. *)
Definition updateAppointmentStatus (sellers : list SellerProfile.t) (env : Env.t)
    (user : User.t) (appointmentId : string) (validatedData : Result StatusUpdate.t)
  : Db.t -> Response.t AppointmentDetails.t * Db.t :=
  fun db =>
    let userId := User.id user in
    let userRole := User.role user in
    let fallback := "Failed to update appointment status" in
    match validatedData with
    | Throw message => (Response.error 400 message fallback, db)
    | Ok validatedData =>
      match AppointmentService.getAppointmentById appointmentId db with
      | (Throw message, db') => (Response.error 400 message fallback, db')
      | (Ok existingAppointment, db') =>
        let hasPermission := UserRole.eqb userRole UserRole.ADMIN in
        let hasPermission :=
          if UserRole.eqb userRole UserRole.SELLER
          then match seller_findUnique sellers userId with
               | Some seller =>
                   String.eqb
                     (Appointment.sellerId (AppointmentDetails.appointment existingAppointment))
                     (SellerProfile.id seller)
               | None => false
               end
          else hasPermission in
        if negb hasPermission
        then (Response.mk 403 false None
             (Some "You are not authorized to update this appointment"),
              db')
        else
          match AppointmentService.updateAppointmentStatus
                  env appointmentId (StatusUpdate.status validatedData) userId
                  (StatusUpdate.notes validatedData) db' with
          | (Ok appointment, db'') => (Response.ok 200 appointment, db'')
          | (Throw message, db'') => (Response.error 400 message fallback, db'')
          end
      end
    end.

(** [cancelAppointment(req, res)]; [reason] is [req.body.reason], a
    string when present. *)
Definition cancelAppointment (sellers : list SellerProfile.t) (env : Env.t)
    (user : User.t) (appointmentId : string) (reason : option string)
  : Db.t -> Response.t AppointmentDetails.t * Db.t :=
  fun db =>
    let userId := User.id user in
    let userRole := User.role user in
    let fallback := "Failed to cancel appointment" in
    match AppointmentService.getAppointmentById appointmentId db with
    | (Throw message, db') => (Response.error 400 message fallback, db')
    | (Ok existingAppointment, db') =>
      let hasPermission :=
        String.eqb (Appointment.buyerId (AppointmentDetails.appointment existingAppointment))
                   userId
        || UserRole.eqb userRole UserRole.ADMIN in
      let hasPermission :=
        if UserRole.eqb userRole UserRole.SELLER
        then hasPermission
             || match seller_findUnique sellers userId with
                | Some seller =>
                    String.eqb
                      (Appointment.sellerId
                         (AppointmentDetails.appointment existingAppointment))
                      (SellerProfile.id seller)
                | None => false
                end
        else hasPermission in
      if negb hasPermission
      then (Response.mk 403 false None
             (Some "You are not authorized to cancel this appointment"), db')
      else
        match AppointmentService.cancelAppointment env appointmentId userId reason db' with
        | (Ok appointment, db'') => (Response.ok 200 appointment, db'')
        | (Throw message, db'') => (Response.error 400 message fallback, db'')
        end
    end.

(** [getUpcomingAppointments(req, res)], for a [limit] in the query that
    is a number. *)
Definition getUpcomingAppointments (sellers : list SellerProfile.t) (env : Env.t)
    (user : User.t) (limit : option Z) : Db.t -> Response.t (list Appointment.t) * Db.t :=
  fun db =>
    let userId := User.id user in
    let userRole := User.role user in
    let limit := match limit with Some limit => limit | None => 5 end in
    let userType :=
      if UserRole.eqb userRole UserRole.SELLER then UserType.seller else UserType.buyer in
    let respond (targetUserId : string) :=
      match AppointmentService.getUpcomingAppointments env targetUserId userType limit db with
      | (Ok appointments, db') => (Response.ok 200 appointments, db')
      | (Throw message, db') =>
          (Response.error 500 message "Failed to get upcoming appointments", db')
      end in
    if UserRole.eqb userRole UserRole.SELLER
    then match seller_findUnique sellers userId with
         | None => (Response.ok 200 [], db)
         | Some seller => respond (SellerProfile.id seller)
         end
    else respond userId.

End AppointmentController.

(** ** controllers/availabilityController.ts *)

Module AvailabilityController.

(** [setDayAvailability(req, res)]; [validatedData] is what
    [validateRequest(sellerAvailabilityValidation, req.body)] returns, or
    the error it throws. *)
Definition setDayAvailability (sellers : list SellerProfile.t) (env : Env.t) (user : User.t)
    (validatedData : Result DaySchedule.t)
  : Db.t -> Response.t SellerAvailability.t * Db.t :=
  fun db =>
    let userId := User.id user in
    let fallback := "Failed to set availability" in
    match validatedData with
    | Throw message => (Response.error 400 message fallback, db)
    | Ok validatedData =>
      match seller_findUnique sellers userId with
      | None =>
          (Response.mk 404 false None
             (Some "Seller profile not found. Please register as a seller first."), db)
      | Some seller =>
          match AvailabilityService.setSellerAvailability env (SellerProfile.id seller)
                  (DaySchedule.dayOfWeek validatedData)
                  (DaySchedule.startTime validatedData)
                  (DaySchedule.endTime validatedData)
                  (DaySchedule.isAvailable validatedData) db with
          | (Ok availability, db') => (Response.ok 200 availability, db')
          | (Throw message, db') => (Response.error 400 message fallback, db')
          end
      end
    end.

(** [removeTimeOff(req, res)]; a success carries no data. *)
Definition removeTimeOff (sellers : list SellerProfile.t) (env : Env.t) (user : User.t)
    (timeOffId : string) : Db.t -> Response.t unit * Db.t :=
  fun db =>
    let userId := User.id user in
    match seller_findUnique sellers userId with
    | None =>
        (Response.mk 404 false None
             (Some "Seller profile not found. Please register as a seller first."), db)
    | Some seller =>
        match AvailabilityService.removeTimeOff env timeOffId (SellerProfile.id seller) db with
        | (Ok _, db') => (Response.mk 200 true None None, db')
        | (Throw message, db') =>
            (Response.error 400 message "Failed to remove time off", db')
        end
    end.

(** [getTimeOff(req, res)]; the route with a [sellerId] parameter is
    public, so [req.user] may be missing. *)
Definition getTimeOff (sellers : list SellerProfile.t) (user : option User.t)
    (sellerId : option string) : Db.t -> Response.t (list SellerTimeOff.t) * Db.t :=
  fun db =>
    let userId := given (option_map User.id user) in
    let userRole := option_map User.role user in
    let isRole (role : UserRole.t) :=
      match userRole with
      | Some userRole => UserRole.eqb userRole role
      | None => false
      end in
    let targetSellerId := given sellerId in
    let targetSellerId :=
      match targetSellerId, isRole UserRole.SELLER, userId with
      | None, true, Some userId =>
          match seller_findUnique sellers userId with
          | Some seller => given (Some (SellerProfile.id seller))
          | None => None
          end
      | _, _, _ => targetSellerId
      end in
    match targetSellerId with
    | None => (Response.mk 400 false None
             (Some "Seller ID is required"), db)
    | Some targetSellerId =>
        let includeInactive := isRole UserRole.ADMIN in
        let includeInactive :=
          match userId, includeInactive with
          | Some userId, false =>
              match seller_findUnique sellers userId with
              | Some currentUserSeller =>
                  String.eqb (SellerProfile.id currentUserSeller) targetSellerId
              | None => false
              end
          | _, _ => includeInactive
          end in
        match AvailabilityService.getSellerTimeOff targetSellerId includeInactive db with
        | (Ok timeOff, db') => (Response.ok 200 timeOff, db')
        | (Throw message, db') => (Response.error 500 message "Failed to get time off", db')
        end
    end.

End AvailabilityController.

(** ** Who may act on an appointment *)

(** The user has a seller profile, and the appointment is with that
    seller. *)
Definition isSellerOf (sellers : list SellerProfile.t) (user : User.t) (a : Appointment.t)
  : Prop :=
  exists seller,
    seller_findUnique sellers (User.id user) = Some seller
    /\ Appointment.sellerId a = SellerProfile.id seller.

(** An administrator, or a user with the seller role whose seller
    profile the appointment is with. *)
Definition mayUpdate (sellers : list SellerProfile.t) (user : User.t) (a : Appointment.t)
  : Prop :=
  User.role user = UserRole.ADMIN
  \/ (User.role user = UserRole.SELLER /\ isSellerOf sellers user a).

(** The buyer of the appointment, an administrator, or a user with the
    seller role whose seller profile the appointment is with. *)
Definition mayCancel (sellers : list SellerProfile.t) (user : User.t) (a : Appointment.t)
  : Prop :=
  Appointment.buyerId a = User.id user
  \/ User.role user = UserRole.ADMIN
  \/ (User.role user = UserRole.SELLER /\ isSellerOf sellers user a).

(** ** A concrete store *)

Module Scenario.

(** Monday 1 January 2024, 00:00. *)
Definition monday : Z := 1704067200000.

Definition hours (h : Z) : Z := h * 3600000.

Definition seller : Seller.t := Seller.mk "seller-1" true.

(** A 60-minute service of an approved seller. *)
Definition service : Service.t := Service.mk "service-1" seller 60 2500 true.

(** The seller works Mondays from 09:00 to 12:00 and has no row for
    any other day; nothing is booked and no time off is taken. *)
Definition db : Db.t :=
  Db.mk [service] [] []
        [SellerAvailability.mk "seller-1" 1 "09:00" "12:00" true] [].

(** A call made that Monday at 08:00 by a working datastore. *)
Definition env : Env.t := Env.mk (monday + hours 8) "K3Q9Z" "appt-1" (fun _ => false).

(** The Monday 09:00-10:00 booking. *)
Definition nineToTen : AppointmentCreateData.t :=
  AppointmentCreateData.mk "service-1" monday (monday + hours 9) (monday + hours 10)
                           None None.

(** A 30-minute window for the 60-minute service. *)
Definition halfHour : AppointmentCreateData.t :=
  AppointmentCreateData.mk "service-1" monday (monday + hours 9)
                           (monday + hours 9 + 1800000) None None.

(** The same service offered by a seller who is not approved. *)
Definition unapprovedDb : Db.t :=
  Db.mk [Service.mk "service-1" (Seller.mk "seller-1" false) 60 2500 true] [] [] [] [].

(** A later call of the same kind, with the next generated key. *)
Definition env2 : Env.t := Env.mk (monday + hours 8 + 1000) "P7M2A" "appt-2" (fun _ => false).

(** Tuesday 2 January 2024, 00:00: a day without availability row. *)
Definition tuesday : Z := monday + 86400000.

(** A Tuesday 14:00-15:00 booking. *)
Definition tuesdayAfternoon : AppointmentCreateData.t :=
  AppointmentCreateData.mk "service-1" tuesday (tuesday + hours 14) (tuesday + hours 15)
                           None None.

(** A Monday 09:00-10:00 appointment of the seller that was already
    moved to InProgress. *)
Definition underWay : Appointment.t :=
  Appointment.mk "appt-0" "APT-1704000000000-B2C4D" "buyer-1" "seller-1" "service-1"
                 (monday + hours 9) (monday + hours 9) (monday + hours 10)
                 2500 None None IN_PROGRESS 1704000000000 1704010000000.

Definition dbUnderWay : Db.t :=
  Db.mk [service] [underWay] [] [SellerAvailability.mk "seller-1" 1 "09:00" "12:00" true] [].

(** A call made the Sunday before, at noon, that generates the key of a
    time-off row. *)
Definition envTimeOff : Env.t := Env.mk (monday - hours 12) "" "off-1" (fun _ => false).

(** A call made that Monday at 10:15:20.500. *)
Definition envLate : Env.t :=
  Env.mk (monday + hours 10 + 15 * 60000 + 20500) "T8W1C" "appt-3" (fun _ => false).

(** The same seller with Monday hours written "8:00" to "9:30", which
    the request validation lets through. *)
Definition dbUnpadded : Db.t :=
  Db.mk [service] [] []
        [SellerAvailability.mk "seller-1" 1 "8:00" "9:30" true] [].

(** The store once the 09:00-10:00 slot is booked. *)
Definition dbBooked : Db.t :=
  snd (AppointmentService.createAppointment env "buyer-1" nineToTen db).

End Scenario.

(** ** A week at the workshop *)

Module Workshop.

(** Monday and Tuesday from 08:00 to 17:00, Saturday closed. *)
Definition weekdays : list DaySchedule.t :=
  [ DaySchedule.mk 1 "08:00" "17:00" true;
    DaySchedule.mk 2 "08:00" "17:00" true;
    DaySchedule.mk 6 "09:00" "13:00" false ].

(** A call whose second write the datastore rejects. *)
Definition envSecondRejected : Env.t :=
  Env.mk (Scenario.monday - Scenario.hours 12) "" "" (fun n => Nat.eqb n 1).

(** The seller of the scenario on leave from Monday 00:00 to Wednesday
    00:00, entered the Sunday before. *)
Definition dbOnLeave : Db.t :=
  snd (AvailabilityService.addTimeOff Scenario.envTimeOff "seller-1"
         Scenario.monday (Scenario.monday + Scenario.hours 48) (Some "Holiday")
         Scenario.db).

(** Three appointments of one buyer, on Monday at 09:00, 10:00 and
    11:00. *)
Definition threeBooked : Db.t :=
  Db.mk [Scenario.service]
        [ Appointment.mk "appt-2" "APT-1704000000001-AAAAA" "buyer-1" "seller-1" "service-1"
            Scenario.monday (Scenario.monday + Scenario.hours 10)
            (Scenario.monday + Scenario.hours 11) 2500 None None CONFIRMED
            1704000000001 1704000000001;
          Appointment.mk "appt-1" "APT-1704000000000-AAAAA" "buyer-1" "seller-1" "service-1"
            Scenario.monday (Scenario.monday + Scenario.hours 9)
            (Scenario.monday + Scenario.hours 10) 2500 None None PENDING
            1704000000000 1704000000000;
          Appointment.mk "appt-3" "APT-1704000000002-AAAAA" "buyer-1" "seller-1" "service-1"
            Scenario.monday (Scenario.monday + Scenario.hours 11)
            (Scenario.monday + Scenario.hours 12) 2500 None None PENDING
            1704000000002 1704000000002 ]
        []
        [SellerAvailability.mk "seller-1" 1 "09:00" "12:00" true] [].

(** Every appointment of the buyer, two to a page. *)
Definition ofBuyer : AppointmentFilters.t :=
  AppointmentFilters.mk None None (Some "buyer-1") None None None None (Some 2).

(** The sellers table: the seller of the scenario is the profile of
    user-7; user-8 has another shop. *)
Definition sellers : list SellerProfile.t :=
  [ SellerProfile.mk "seller-1" "user-7"; SellerProfile.mk "seller-2" "user-8" ].

Definition otherSeller : User.t := User.mk "user-8" UserRole.SELLER.

(** The leave of the seller of the scenario, as stored. *)
Definition leave : SellerTimeOff.t :=
  SellerTimeOff.mk "off-1" "seller-1" Scenario.monday
                   (Scenario.monday + Scenario.hours 48) (Some "Holiday") true.

End Workshop.

(** ** A busy Monday morning *)

Module Rush.

(** The server of the scenario before any call. *)
Definition opening : Server.t := Server.mk Scenario.db [].

(** Two buyers ask for the Monday 09:00-10:00 slot. *)
Definition first : Call AppointmentDetails.t :=
  Concurrent.createAppointment Scenario.env "buyer-1" Scenario.nineToTen.

Definition second : Call AppointmentDetails.t :=
  Concurrent.createAppointment Scenario.env2 "buyer-2" Scenario.nineToTen.

(** Both calls have arrived, and the datastore answers them in turn:
    each has its overlap count answered before the transaction of the
    other commits. *)
Definition inTurn : Server.t :=
  Nat.iter 5 (fun s => Server.advance 1 (Server.advance 0 s))
           (Server.start second (Server.start first opening)).

(** The rows the two calls store. *)
Definition firstRow : Appointment.t :=
  createdAppointment Scenario.env "buyer-1" Scenario.nineToTen Scenario.service.

Definition secondRow : Appointment.t :=
  createdAppointment Scenario.env2 "buyer-2" Scenario.nineToTen Scenario.service.

(** A call arrives and has its five requests answered before the next
    call arrives. *)
Definition serve (c : Call AppointmentDetails.t) (s : Server.t) : Server.t :=
  Nat.iter 5 (Server.advance (List.length (Server.calls s))) (Server.start c s).

(** Monday 09:30-10:30 and 10:00-11:00. *)
Definition halfPastNine : AppointmentCreateData.t :=
  AppointmentCreateData.mk "service-1" Scenario.monday
    (Scenario.monday + Scenario.hours 9 + 1800000)
    (Scenario.monday + Scenario.hours 10 + 1800000) None None.

Definition tenToEleven : AppointmentCreateData.t :=
  AppointmentCreateData.mk "service-1" Scenario.monday
    (Scenario.monday + Scenario.hours 10) (Scenario.monday + Scenario.hours 11) None None.

Definition env3 : Env.t :=
  Env.mk (Scenario.monday + Scenario.hours 8 + 2000) "R5D8X" "appt-3" (fun _ => false).

Definition env4 : Env.t :=
  Env.mk (Scenario.monday + Scenario.hours 8 + 3000) "" "" (fun _ => false).

(** The same morning with one call at a time: 09:00-10:00 is booked,
    09:30-10:30 is asked for and refused, 10:00-11:00 is booked, and the
    first booking is confirmed. *)
Definition booked : Server.t :=
  serve (Concurrent.createAppointment Scenario.env "buyer-1" Scenario.nineToTen) opening.

Definition refused : Server.t :=
  serve (Concurrent.createAppointment Scenario.env2 "buyer-2" halfPastNine) booked.

Definition bookedTwice : Server.t :=
  serve (Concurrent.createAppointment env3 "buyer-2" tenToEleven) refused.

Definition confirmed : Server.t :=
  serve (Concurrent.updateAppointmentStatus env4 "appt-1" CONFIRMED "user-7" None)
        bookedTwice.

(** The first booking is cancelled by the buyer and confirmed by the
    seller at the same moment: both calls read the Pending row before
    either writes.  The cancellation is stored, another buyer books the
    free slot, and then the confirmation is stored. *)
Definition env5 : Env.t :=
  Env.mk (Scenario.monday + Scenario.hours 8 + 3000) "" "" (fun _ => false).

Definition bothRead : Server.t :=
  Server.advance 2
    (Server.advance 1
       (Server.start
          (Concurrent.updateAppointmentStatus env5 "appt-1" CONFIRMED "user-7" None)
          (Server.start
             (Concurrent.updateAppointmentStatus env4 "appt-1" CANCELLED "buyer-1" None)
             booked))).

Definition cancelledAndRebooked : Server.t :=
  serve (Concurrent.createAppointment Scenario.env2 "buyer-2" Scenario.nineToTen)
        (Server.advance 1 (Server.advance 1 bothRead)).

Definition revived : Server.t :=
  Server.advance 2 (Server.advance 2 cancelledAndRebooked).

End Rush.

(** ** Lists and queries *)

Lemma find_app_fresh {A : Type} (p : A -> bool) (l : list A) (x : A) :
  existsb p l = false -> p x = true -> find p (l ++ [x])%list = Some x.
Proof.
  induction l as [|y l IH]; simpl; intros H Hx.
  - now rewrite Hx.
  - apply orb_false_iff in H as [Hy Hl]. rewrite Hy. auto.
Qed.

Lemma find_some_existsb {A : Type} (p : A -> bool) (l : list A) (x : A) :
  find p l = Some x -> existsb p l = true.
Proof.
  intros H. apply find_some in H as [Hin Hp].
  apply existsb_exists. eauto.
Qed.

Lemma find_exists {A : Type} (p : A -> bool) (l : list A) :
  (exists x, In x l /\ p x = true) -> exists y, find p l = Some y.
Proof.
  intros [x [Hin Hp]]. destruct (find p l) as [y|] eqn:Hf; [eauto|].
  rewrite (find_none _ _ Hf x Hin) in Hp. discriminate.
Qed.

Lemma find_none_of_all_false {A : Type} (p : A -> bool) (l : list A) :
  (forall x, In x l -> p x = false) -> find p l = None.
Proof.
  intros H. destruct (find p l) as [y|] eqn:Hf; [|reflexivity].
  apply find_some in Hf as [Hin Hp]. rewrite (H y Hin) in Hp. discriminate.
Qed.

Lemma filter_nil_forall {A : Type} (p : A -> bool) (l : list A) :
  List.length (filter p l) = 0%nat -> forall x, In x l -> p x = false.
Proof.
  intros Hlen x Hin. destruct (p x) eqn:Hp; [|reflexivity].
  assert (Hf : In x (filter p l)) by (apply filter_In; auto).
  destruct (filter p l); [contradiction | discriminate].
Qed.

Lemma setStatus_id env appointmentId newStatus a :
  Appointment.id (setStatus env appointmentId newStatus a) = Appointment.id a.
Proof. unfold setStatus. now destruct (String.eqb _ _). Qed.

Lemma find_setStatus env appointmentId newStatus l appt :
  find (fun a => String.eqb (Appointment.id a) appointmentId) l = Some appt ->
  find (fun a => String.eqb (Appointment.id a) appointmentId)
       (map (setStatus env appointmentId newStatus) l)
  = Some (Appointment.withStatus appt newStatus (Env.now env)).
Proof.
  induction l as [|a l IH]; simpl; [discriminate|].
  rewrite setStatus_id.
  destruct (String.eqb (Appointment.id a) appointmentId) eqn:Ha.
  - intros [= ->]. unfold setStatus. now rewrite Ha.
  - exact IH.
Qed.

Lemma setStatus_sellerId env appointmentId newStatus a :
  Appointment.sellerId (setStatus env appointmentId newStatus a) = Appointment.sellerId a.
Proof. unfold setStatus. now destruct (String.eqb _ _). Qed.

Lemma setStatus_window env appointmentId newStatus a :
  Appointment.scheduledTimeStart (setStatus env appointmentId newStatus a)
  = Appointment.scheduledTimeStart a
  /\ Appointment.scheduledTimeEnd (setStatus env appointmentId newStatus a)
     = Appointment.scheduledTimeEnd a.
Proof. unfold setStatus. now destruct (String.eqb _ _). Qed.

Lemma includes_In xs x : includes xs x = true <-> In x xs.
Proof.
  unfold includes. rewrite existsb_exists. split.
  - intros [y [Hin Heq]]. destruct x, y; simpl in Heq; try discriminate; exact Hin.
  - intros Hin. exists x. split; [exact Hin | now destruct x].
Qed.

Lemma nonTerminal_includes s :
  includes [PENDING; CONFIRMED; IN_PROGRESS] s = true <-> nonTerminal s.
Proof.
  rewrite includes_In. unfold nonTerminal. simpl. intuition congruence.
Qed.

(** ** The operations, case by case *)

Ltac split_ifs :=
  repeat (match goal with
          | |- context [if ?c then _ else _] => destruct c eqn:?
          end; try reflexivity).

Lemma createAppointment_unfold env buyerId data db :
  AppointmentService.createAppointment env buyerId data db =
  match find (fun s => String.eqb (Service.id s) (AppointmentCreateData.serviceId data)
                       && Bool.eqb (Service.isActive s) true) (Db.service db) with
  | None => (Throw "Service not found or is inactive", db)
  | Some service =>
    if negb (Seller.isApproved (Service.seller service))
    then (Throw "This seller is not approved to take appointments", db)
    else if negb (AppointmentCreateData.scheduledTimeEnd data =?
                  AppointmentCreateData.scheduledTimeStart data
                  + Service.durationMinutes service * 60000)
    then (Throw ("Appointment duration must be "
                 ++ JsString.ofZ (Service.durationMinutes service)
                 ++ " minutes for this service"), db)
    else if negb (Nat.eqb (List.length (filter
                   (overlappingWhere (Seller.id (Service.seller service))
                      (AppointmentCreateData.scheduledTimeStart data)
                      (AppointmentCreateData.scheduledTimeEnd data))
                   (Db.appointment db))) 0)
    then (Throw "The selected time slot is not available", db)
    else if Env.writeFails env 0
    then (Throw "The datastore rejected the write", db)
    else if existsb (fun a => String.eqb (Appointment.id a) (Env.cuid env)) (Db.appointment db)
    then (Throw "Unique constraint failed on the fields: (`id`)", db)
    else if existsb (fun a => String.eqb (Appointment.appointmentNumber a)
                       ("APT-" ++ JsString.ofZ (Env.now env) ++ "-" ++ Env.random env))
                    (Db.appointment db)
    then (Throw "Unique constraint failed on the fields: (`appointment_number`)", db)
    else if Env.writeFails env 1
    then (Throw "The datastore rejected the write", db)
    else
      (Ok (AppointmentDetails.mk
             (createdAppointment env buyerId data service)
             (Prisma.orderByDesc StatusHistory.changedAt
                (filter (fun h => String.eqb (StatusHistory.appointmentId h) (Env.cuid env))
                        (Db.appointmentStatusHistory db ++ [createdHistory env buyerId])%list))),
       afterCreate env buyerId data service db)
  end.
Proof.
  unfold AppointmentService.createAppointment, AppointmentService.checkTimeSlotAvailability,
    AppointmentService.getSellerAvailabilityForDay, AppointmentService.getAppointmentById,
    Prisma.service_findFirst, Prisma.appointment_count, Prisma.sellerAvailability_findMany,
    Prisma.transaction, Prisma.appointment_create, Prisma.appointmentStatusHistory_create,
    Prisma.appointment_findUnique, Prisma.appointmentStatusHistory_of,
    bind, query, ret, throw.
  destruct (find _ (Db.service db)) as [service|]; [|reflexivity].
  destruct (negb (Seller.isApproved _)); [reflexivity|].
  destruct (negb (_ =? _)); [reflexivity|].
  destruct (Nat.eqb _ 0); cbn [negb]; [|reflexivity].
  match goal with
  | |- context [if ?c then (fun db1 : Db.t => (Ok tt, db1)) else _] => destruct c
  end;
  cbn [Appointment.id Appointment.appointmentNumber];
  split_ifs;
  unfold afterCreate, Db.setAppointmentStatusHistory, Db.setAppointment;
  cbn [Db.appointment Db.appointmentStatusHistory Db.service Db.sellerAvailability
       Db.sellerTimeOff Appointment.id];
  (rewrite find_app_fresh; [reflexivity | assumption | apply String.eqb_refl]).
Qed.

Lemma updateAppointmentStatus_unfold env appointmentId newStatus changedBy notes db :
  AppointmentService.updateAppointmentStatus env appointmentId newStatus changedBy notes db =
  match find (fun a => String.eqb (Appointment.id a) appointmentId) (Db.appointment db) with
  | None => (Throw "Appointment not found", db)
  | Some appointment =>
    if negb (includes (AppointmentService.validTransitions (Appointment.status appointment))
                      newStatus)
    then (Throw ("Cannot change status from " ++ statusName (Appointment.status appointment)
                 ++ " to " ++ statusName newStatus), db)
    else if Env.writeFails env 0
    then (Throw "The datastore rejected the write", db)
    else if Env.writeFails env 1
    then (Throw "The datastore rejected the write", db)
    else
      (Ok (AppointmentDetails.mk
             (Appointment.withStatus appointment newStatus (Env.now env))
             (Prisma.orderByDesc StatusHistory.changedAt
                (filter (fun h => String.eqb (StatusHistory.appointmentId h) appointmentId)
                        (Db.appointmentStatusHistory db
                         ++ [StatusHistory.mk appointmentId newStatus notes changedBy
                               (Env.now env)])%list))),
       afterUpdate env appointmentId newStatus changedBy notes db)
  end.
Proof.
  unfold AppointmentService.updateAppointmentStatus, AppointmentService.getAppointmentById,
    Prisma.transaction, Prisma.appointment_update, Prisma.appointmentStatusHistory_create,
    Prisma.appointment_findUnique, Prisma.appointmentStatusHistory_of,
    bind, query, ret, throw.
  destruct (find _ (Db.appointment db)) as [appointment|] eqn:Hfind; [|reflexivity].
  destruct (negb (includes _ _)); [reflexivity|].
  destruct (Env.writeFails env 0); [reflexivity|].
  rewrite (find_some_existsb _ _ _ Hfind).
  destruct (Env.writeFails env 1); [reflexivity|].
  unfold afterUpdate, Db.setAppointmentStatusHistory, Db.setAppointment.
  cbn [Db.appointment Db.appointmentStatusHistory Db.service Db.sellerAvailability
       Db.sellerTimeOff].
  change (fun a : Appointment.t =>
            if String.eqb (Appointment.id a) appointmentId
            then Appointment.withStatus a newStatus (Env.now env) else a)
    with (setStatus env appointmentId newStatus).
  rewrite (find_setStatus env appointmentId newStatus _ _ Hfind).
  reflexivity.
Qed.

(** ** The status state machine *)

Lemma validTransitions_table s s' :
  includes (AppointmentService.validTransitions s) s' = true
  <-> In (s, s') transitionTable.
Proof.
  destruct s, s'; simpl; split; intros H; try discriminate; try reflexivity;
    intuition congruence.
Qed.

Lemma validTransitions_nonTerminal s s' :
  includes (AppointmentService.validTransitions s) s' = true -> nonTerminal s.
Proof.
  unfold nonTerminal. destruct s; simpl; intros H; try discriminate; auto.
Qed.

(** C2.  For an appointment in the store and any requested status, with a
    datastore that accepts the two writes, [updateAppointmentStatus]
    succeeds exactly when (current status, new status) is in the table
    Pending->{Confirmed,Cancelled}, Confirmed->{InProgress,Cancelled},
    InProgress->{Completed,Cancelled}.  It then returns the appointment
    with the new status.  For every other pair it throws an error that
    names the current and the requested status, and the store is
    unchanged. *)
Theorem updateAppointmentStatus_follows_table :
  forall env appointmentId newStatus changedBy notes db appointment,
    find (fun a => String.eqb (Appointment.id a) appointmentId) (Db.appointment db)
      = Some appointment ->
    Env.writeFails env 0 = false ->
    Env.writeFails env 1 = false ->
    let out := AppointmentService.updateAppointmentStatus
                 env appointmentId newStatus changedBy notes db in
    (isOk (fst out) = true
     <-> In (Appointment.status appointment, newStatus) transitionTable)
    /\ (In (Appointment.status appointment, newStatus) transitionTable ->
        exists details,
          fst out = Ok details
          /\ AppointmentDetails.appointment details
             = Appointment.withStatus appointment newStatus (Env.now env)
          /\ snd out = afterUpdate env appointmentId newStatus changedBy notes db)
    /\ (~ In (Appointment.status appointment, newStatus) transitionTable ->
        fst out = Throw ("Cannot change status from "
                         ++ statusName (Appointment.status appointment)
                         ++ " to " ++ statusName newStatus)
        /\ snd out = db).
Proof.
  intros env appointmentId newStatus changedBy notes db appointment Hfind Hw0 Hw1 out.
  subst out. rewrite updateAppointmentStatus_unfold, Hfind, Hw0, Hw1.
  pose proof (validTransitions_table (Appointment.status appointment) newStatus) as Htable.
  destruct (includes _ newStatus); cbn [negb fst snd isOk].
  - assert (Hin : In (Appointment.status appointment, newStatus) transitionTable)
      by now apply Htable.
    split; [tauto|]. split.
    + intros _. eexists. repeat split.
    + intros Hnot. contradiction.
  - assert (Hnot : ~ In (Appointment.status appointment, newStatus) transitionTable).
    { intros Hin. apply Htable in Hin. discriminate. }
    split; [split; [discriminate | contradiction]|].
    split; [contradiction | auto].
Qed.

(** A pending appointment is confirmed, and cannot be completed at once. *)
Lemma updateAppointmentStatus_follows_table_witness :
  let appointment :=
    Appointment.mk "a1" "APT-1-X" "buyer" "s1" "svc" 0 0 3600000 100 None None
                   PENDING 0 0 in
  let db := Db.mk [] [appointment] [] [] [] in
  let env := Env.mk 5 "X" "h1" (fun _ => false) in
  fst (AppointmentService.updateAppointmentStatus env "a1" COMPLETED "seller" None db)
  = Throw "Cannot change status from PENDING to COMPLETED"
  /\ snd (AppointmentService.updateAppointmentStatus env "a1" COMPLETED "seller" None db)
     = db.
Proof.
  intros appointment db env.
  apply (updateAppointmentStatus_follows_table
           env "a1" COMPLETED "seller" None db appointment);
    try reflexivity.
  simpl. intuition discriminate.
Defined.

(** ** Creating an appointment *)

(** C5 (as amended).  A [createAppointment] call on an active service of
    an approved seller whose window does not end exactly
    [durationMinutes] after it starts throws the duration-mismatch error
    and leaves the store unchanged.  Whatever the seller's approval, such
    a call on an active service throws and persists nothing. *)
Theorem createAppointment_duration_mismatch :
  forall env buyerId appointmentData db service,
    find (fun s => String.eqb (Service.id s)
                     (AppointmentCreateData.serviceId appointmentData)
                   && Bool.eqb (Service.isActive s) true) (Db.service db)
      = Some service ->
    AppointmentCreateData.scheduledTimeEnd appointmentData
      <> AppointmentCreateData.scheduledTimeStart appointmentData
         + Service.durationMinutes service * 60000 ->
    let out := AppointmentService.createAppointment env buyerId appointmentData db in
    (Seller.isApproved (Service.seller service) = true ->
     out = (Throw ("Appointment duration must be "
                   ++ JsString.ofZ (Service.durationMinutes service)
                   ++ " minutes for this service"), db))
    /\ isOk (fst out) = false
    /\ snd out = db.
Proof.
  intros env buyerId data db service Hfind Hneq out. subst out.
  rewrite createAppointment_unfold, Hfind.
  apply Z.eqb_neq in Hneq. rewrite Hneq.
  destruct (Seller.isApproved (Service.seller service)); cbn [negb fst snd isOk].
  - auto.
  - repeat split. discriminate.
Qed.

(** The claim as first stated fails: for a seller who is not approved, a
    window of the wrong length is refused with the approval error, not
    with the duration-mismatch error. *)
Lemma createAppointment_mismatch_unapproved :
  AppointmentCreateData.scheduledTimeEnd Scenario.halfHour
    <> AppointmentCreateData.scheduledTimeStart Scenario.halfHour + 60 * 60000
  /\ AppointmentService.createAppointment Scenario.env "buyer-1" Scenario.halfHour
       Scenario.unapprovedDb
     = (Throw "This seller is not approved to take appointments", Scenario.unapprovedDb)
  /\ fst (AppointmentService.createAppointment Scenario.env "buyer-1" Scenario.halfHour
            Scenario.unapprovedDb)
     <> Throw "Appointment duration must be 60 minutes for this service".
Proof.
  split; [vm_compute; discriminate|].
  split; [reflexivity|].
  vm_compute. discriminate.
Qed.

Lemma createAppointment_duration_mismatch_witness :
  AppointmentService.createAppointment Scenario.env "buyer-1" Scenario.halfHour Scenario.db
  = (Throw "Appointment duration must be 60 minutes for this service", Scenario.db).
Proof.
  apply (createAppointment_duration_mismatch
           Scenario.env "buyer-1" Scenario.halfHour Scenario.db Scenario.service).
  - reflexivity.
  - vm_compute. discriminate.
  - reflexivity.
Defined.

(** ** The overlap test *)

Ltac bool_to_prop :=
  rewrite ?Z.gtb_ltb, ?Z.geb_leb;
  rewrite ?andb_true_iff, ?orb_true_iff, ?Z.leb_le, ?Z.ltb_lt.

(** The three clauses of the [where] accept every pair of windows that
    overlap by the half-open rule. *)
Lemma threeClauses_complete a b c d :
  overlap a b c d ->
  ((c <=? a) && (d >? a) || (c <? b) && (d >=? b) || (c >=? a) && (d <=? b)) = true.
Proof. unfold overlap. bool_to_prop. lia. Qed.

(** On windows that are not empty they accept nothing else. *)
Lemma threeClauses_sound a b c d :
  a < b -> c < d ->
  ((c <=? a) && (d >? a) || (c <? b) && (d >=? b) || (c >=? a) && (d <=? b)) = true ->
  overlap a b c d.
Proof. unfold overlap. bool_to_prop. lia. Qed.

Lemma overlappingWhere_true sellerId startTime endTime a :
  overlappingWhere sellerId startTime endTime a = true <->
  Appointment.sellerId a = sellerId
  /\ nonTerminal (Appointment.status a)
  /\ ((Appointment.scheduledTimeStart a <=? startTime)
      && (Appointment.scheduledTimeEnd a >? startTime)
      || (Appointment.scheduledTimeStart a <? endTime)
         && (Appointment.scheduledTimeEnd a >=? endTime)
      || (Appointment.scheduledTimeStart a >=? startTime)
         && (Appointment.scheduledTimeEnd a <=? endTime)) = true.
Proof.
  unfold overlappingWhere.
  rewrite !andb_true_iff, String.eqb_eq, nonTerminal_includes. tauto.
Qed.

Lemma overlappingWhere_complete sellerId startTime endTime a :
  Appointment.sellerId a = sellerId ->
  nonTerminal (Appointment.status a) ->
  overlap startTime endTime
          (Appointment.scheduledTimeStart a) (Appointment.scheduledTimeEnd a) ->
  overlappingWhere sellerId startTime endTime a = true.
Proof.
  intros Hs Hn Ho. apply overlappingWhere_true.
  auto using threeClauses_complete.
Qed.

Lemma overlappingWhere_terminal sellerId startTime endTime a :
  Appointment.status a = COMPLETED \/ Appointment.status a = CANCELLED ->
  overlappingWhere sellerId startTime endTime a = false.
Proof.
  intros H. unfold overlappingWhere.
  destruct H as [-> | ->]; simpl; now rewrite andb_false_r.
Qed.

(** ** The no-double-booking invariant *)

Lemma existsb_id_fresh x l :
  existsb (fun a => String.eqb (Appointment.id a) x) l = false ->
  ~ In x (map Appointment.id l).
Proof.
  intros H Hin. apply in_map_iff in Hin as [a [Ha Hin]].
  assert (Ht : existsb (fun a => String.eqb (Appointment.id a) x) l = true).
  { apply existsb_exists. exists a. split; [exact Hin|]. rewrite Ha. apply String.eqb_refl. }
  congruence.
Qed.

Lemma find_by_unique_id l x appt a :
  UniqueIds l ->
  find (fun a => String.eqb (Appointment.id a) x) l = Some appt ->
  In a l -> Appointment.id a = x -> a = appt.
Proof.
  unfold UniqueIds. induction l as [|b l IH]; simpl; [discriminate|].
  intros Hnd Hfind Hin Hid. inversion Hnd as [|? ? Hnotin Hnd']; subst.
  destruct (String.eqb (Appointment.id b) (Appointment.id a)) eqn:Hb.
  - injection Hfind as <-. destruct Hin as [Heq | Hin]; [now symmetry|].
    apply String.eqb_eq in Hb. exfalso. apply Hnotin. rewrite Hb.
    now apply in_map.
  - destruct Hin as [Heq | Hin].
    + subst b. now rewrite String.eqb_refl in Hb.
    + now apply IH.
Qed.

Lemma windowsOverlap_sym a1 a2 : windowsOverlap a1 a2 -> windowsOverlap a2 a1.
Proof. unfold windowsOverlap, overlap. tauto. Qed.

Lemma afterCreate_invariant env buyerId data service db :
  Nat.eqb (List.length (filter
             (overlappingWhere (Seller.id (Service.seller service))
                (AppointmentCreateData.scheduledTimeStart data)
                (AppointmentCreateData.scheduledTimeEnd data))
             (Db.appointment db))) 0 = true ->
  existsb (fun a => String.eqb (Appointment.id a) (Env.cuid env)) (Db.appointment db) = false ->
  UniqueIds (Db.appointment db) -> NoDoubleBooking (Db.appointment db) ->
  UniqueIds (Db.appointment (afterCreate env buyerId data service db))
  /\ NoDoubleBooking (Db.appointment (afterCreate env buyerId data service db)).
Proof.
  intros Hcount Hfresh Huniq Hinv. cbn [afterCreate Db.appointment].
  apply Nat.eqb_eq in Hcount.
  pose proof (filter_nil_forall _ _ Hcount) as Hfree.
  pose proof (existsb_id_fresh _ _ Hfresh) as Hnotin.
  assert (Hnew : forall a, In a (Db.appointment db) ->
            Appointment.sellerId a = Seller.id (Service.seller service) ->
            nonTerminal (Appointment.status a) ->
            ~ windowsOverlap (createdAppointment env buyerId data service) a).
  { intros a Hin Hs Hn Ho. specialize (Hfree a Hin).
    rewrite overlappingWhere_complete in Hfree; [discriminate | exact Hs | exact Hn | exact Ho]. }
  split.
  - unfold UniqueIds. rewrite map_app. cbn [map createdAppointment Appointment.id].
    apply NoDup_app; [exact Huniq | repeat constructor; intros [] | ].
    intros x Hx [<- | []]. contradiction.
  - intros a1 a2 Hin1 Hin2 Hid Hs Hn1 Hn2.
    apply in_app_iff in Hin1 as [Hin1 | [<- | []]];
      apply in_app_iff in Hin2 as [Hin2 | [<- | []]].
    + now apply Hinv.
    + intros Ho. apply (Hnew a1 Hin1); auto using windowsOverlap_sym.
    + apply Hnew; auto.
    + congruence.
Qed.

Lemma afterUpdate_invariant env appointmentId newStatus changedBy notes db appointment :
  find (fun a => String.eqb (Appointment.id a) appointmentId) (Db.appointment db)
    = Some appointment ->
  includes (AppointmentService.validTransitions (Appointment.status appointment)) newStatus
    = true ->
  UniqueIds (Db.appointment db) -> NoDoubleBooking (Db.appointment db) ->
  UniqueIds (Db.appointment (afterUpdate env appointmentId newStatus changedBy notes db))
  /\ NoDoubleBooking
       (Db.appointment (afterUpdate env appointmentId newStatus changedBy notes db)).
Proof.
  intros Hfind Hvalid Huniq Hinv. cbn [afterUpdate Db.appointment].
  assert (Hstatus : forall a, In a (Db.appointment db) ->
            nonTerminal (Appointment.status (setStatus env appointmentId newStatus a)) ->
            nonTerminal (Appointment.status a)).
  { intros a Hin. unfold setStatus.
    destruct (String.eqb (Appointment.id a) appointmentId) eqn:Ha; [|auto].
    intros _. apply String.eqb_eq in Ha.
    rewrite (find_by_unique_id _ _ _ _ Huniq Hfind Hin Ha).
    eapply validTransitions_nonTerminal; eassumption. }
  split.
  - unfold UniqueIds. rewrite map_map.
    erewrite map_ext; [exact Huniq|]. intros a. apply setStatus_id.
  - intros a1' a2' Hin1 Hin2.
    apply in_map_iff in Hin1 as [a1 [<- Hin1]].
    apply in_map_iff in Hin2 as [a2 [<- Hin2]].
    rewrite !setStatus_id, !setStatus_sellerId.
    intros Hid Hs Hn1 Hn2 Ho.
    apply (Hinv a1 a2); auto.
    unfold windowsOverlap in *.
    destruct (setStatus_window env appointmentId newStatus a1) as [E1 E2].
    destruct (setStatus_window env appointmentId newStatus a2) as [E3 E4].
    now rewrite E1, E2, E3, E4 in Ho.
Qed.

(** ** Atomic writes and the audit log *)

Lemma filter_app_one {A : Type} (p : A -> bool) (l : list A) (x : A) :
  filter p (l ++ [x])%list = (filter p l ++ (if p x then [x] else []))%list.
Proof. rewrite filter_app. reflexivity. Qed.

Lemma afterCreate_audited env buyerId data service db :
  existsb (fun a => String.eqb (Appointment.id a) (Env.cuid env)) (Db.appointment db) = false ->
  Audited db -> Audited (afterCreate env buyerId data service db).
Proof.
  intros Hfresh [Hlast Hown]. pose proof (existsb_id_fresh _ _ Hfresh) as Hnotin.
  split; cbn [afterCreate Db.appointment Db.appointmentStatusHistory].
  - intros a Hin. rewrite filter_app_one.
    cbn [createdHistory StatusHistory.appointmentId].
    apply in_app_iff in Hin as [Hin | [<- | []]].
    + destruct (String.eqb (Env.cuid env) (Appointment.id a)) eqn:Heq.
      * apply String.eqb_eq in Heq. exfalso. apply Hnotin. rewrite Heq. now apply in_map.
      * rewrite app_nil_r. now apply Hlast.
    + cbn [createdAppointment Appointment.id Appointment.status].
      rewrite String.eqb_refl. eexists _, _. split; reflexivity.
  - intros h Hin. apply in_app_iff in Hin as [Hin | [<- | []]].
    + destruct (Hown h Hin) as [a [Ha Hid]]. exists a. split; [|exact Hid].
      apply in_app_iff. now left.
    + exists (createdAppointment env buyerId data service). split; [|reflexivity].
      apply in_app_iff. right. now left.
Qed.

Lemma afterUpdate_audited env appointmentId newStatus changedBy notes db appointment :
  find (fun a => String.eqb (Appointment.id a) appointmentId) (Db.appointment db)
    = Some appointment ->
  Audited db -> Audited (afterUpdate env appointmentId newStatus changedBy notes db).
Proof.
  intros Hfind [Hlast Hown].
  split; cbn [afterUpdate Db.appointment Db.appointmentStatusHistory].
  - intros a' Hin. apply in_map_iff in Hin as [a [<- Hin]].
    rewrite filter_app_one, setStatus_id. cbn [StatusHistory.appointmentId].
    unfold setStatus. rewrite (String.eqb_sym appointmentId).
    destruct (String.eqb (Appointment.id a) appointmentId).
    + eexists _, _. split; reflexivity.
    + rewrite app_nil_r. now apply Hlast.
  - intros h Hin. apply in_app_iff in Hin as [Hin | [<- | []]].
    + destruct (Hown h Hin) as [a [Ha Hid]].
      exists (setStatus env appointmentId newStatus a). split.
      * now apply in_map.
      * now rewrite setStatus_id.
    + apply find_some in Hfind as [Hin Hid]. apply String.eqb_eq in Hid.
      exists (setStatus env appointmentId newStatus appointment). split.
      * now apply in_map.
      * now rewrite setStatus_id.
Qed.

(** ** The conflict check *)

Lemma checkTimeSlotAvailability_unfold sellerId startTime endTime db :
  AppointmentService.checkTimeSlotAvailability sellerId startTime endTime db
  = (Ok (Nat.eqb (List.length (filter (overlappingWhere sellerId startTime endTime)
                                      (Db.appointment db))) 0), db).
Proof. reflexivity. Qed.

Lemma isSellerAvailable_unfold sellerId date startTime endTime db :
  AvailabilityService.isSellerAvailable sellerId date startTime endTime db =
  (Ok match find (fun r => String.eqb (SellerAvailability.sellerId r) sellerId
                           && (SellerAvailability.dayOfWeek r =? JsDate.getDay date))
                 (Db.sellerAvailability db) with
      | None => Availability.mk false (Some "Seller not available on this day")
      | Some availability =>
        if negb (SellerAvailability.isAvailable availability)
        then Availability.mk false (Some "Seller not available on this day")
        else if String.ltb (JsDate.toTimeStringHM startTime)
                           (SellerAvailability.startTime availability)
                || String.leb (SellerAvailability.endTime availability)
                              (JsDate.toTimeStringHM startTime)
        then Availability.mk false (Some "Time is outside seller's available hours")
        else
          match find (fun r => String.eqb (SellerTimeOff.sellerId r) sellerId
                               && Bool.eqb (SellerTimeOff.isActive r) true
                               && (SellerTimeOff.startDate r <=? date)
                               && (SellerTimeOff.endDate r >=? date))
                     (Db.sellerTimeOff db) with
          | Some _ => Availability.mk false (Some "Seller is on time off during this period")
          | None =>
            if (0 <? List.length (filter (overlappingWhere sellerId startTime endTime)
                                         (Db.appointment db)))%nat
            then Availability.mk false (Some "Time slot is already booked")
            else Availability.mk true None
          end
      end, db).
Proof.
  unfold AvailabilityService.isSellerAvailable, Prisma.sellerAvailability_findUnique,
    Prisma.sellerTimeOff_findFirst, Prisma.appointment_count, bind, query, ret.
  destruct (find _ (Db.sellerAvailability db)) as [availability|]; [|reflexivity].
  destruct (negb (SellerAvailability.isAvailable availability)); [reflexivity|].
  destruct (String.ltb _ _ || String.leb _ _); [reflexivity|].
  destruct (find _ (Db.sellerTimeOff db)); [reflexivity|].
  destruct (0 <? _)%nat; reflexivity.
Qed.

Lemma filter_length_pos {A : Type} (p : A -> bool) (l : list A) :
  (0 <? List.length (filter p l))%nat = true <-> exists x, In x l /\ p x = true.
Proof.
  rewrite Nat.ltb_lt. split.
  - intros Hlen. destruct (filter p l) as [|x rest] eqn:Hf; [simpl in Hlen; lia|].
    exists x. apply filter_In. rewrite Hf. now left.
  - intros [x Hx]. apply filter_In in Hx.
    destruct (filter p l); [contradiction | simpl; lia].
Qed.

Lemma filter_length_zero {A : Type} (p : A -> bool) (l : list A) :
  Nat.eqb (List.length (filter p l)) 0 = false <-> exists x, In x l /\ p x = true.
Proof.
  rewrite <- filter_length_pos, Nat.eqb_neq, Nat.ltb_lt. lia.
Qed.


Lemma overlappingWhere_exact sellerId startTime endTime a :
  startTime < endTime ->
  Appointment.scheduledTimeStart a < Appointment.scheduledTimeEnd a ->
  (overlappingWhere sellerId startTime endTime a = true
   <-> Appointment.sellerId a = sellerId
       /\ nonTerminal (Appointment.status a)
       /\ overlap startTime endTime
                  (Appointment.scheduledTimeStart a) (Appointment.scheduledTimeEnd a)).
Proof.
  intros Hcand Hrow. rewrite overlappingWhere_true. split.
  - intros (Hs & Hn & Hc). auto using threeClauses_sound.
  - intros (Hs & Hn & Ho). auto using threeClauses_complete.
Qed.

Lemma count_conflicting sellerId startTime endTime db :
  startTime < endTime ->
  (forall a, In a (Db.appointment db) ->
             Appointment.scheduledTimeStart a < Appointment.scheduledTimeEnd a) ->
  ((exists a, In a (Db.appointment db)
              /\ overlappingWhere sellerId startTime endTime a = true)
   <-> conflicting sellerId startTime endTime db).
Proof.
  intros Hcand Hrows. unfold conflicting. split.
  - intros [a [Hin Hw]]. exists a. split; [exact Hin|].
    apply overlappingWhere_exact; auto.
  - intros [a [Hin H]]. exists a. split; [exact Hin|].
    apply overlappingWhere_exact; auto.
Qed.

(** C3.  On windows that are not empty, the [where] clause shared by
    [checkTimeSlotAvailability] and [isSellerAvailable] selects exactly the
    seller's appointments that are Pending, Confirmed or InProgress and
    whose window [c, d) meets the candidate [a, b) by the half-open rule
    a < d and c < b; a Completed or Cancelled appointment is never
    selected.  So [checkTimeSlotAvailability] answers [false] exactly when
    such an appointment is stored, and [isSellerAvailable], for a seller
    who has an available row for the weekday, hours that hold the start
    time and no active time off over the date, answers "Time slot is
    already booked" when one is stored and "available" when none is. *)
Theorem conflict_check_is_half_open_overlap :
  (forall sellerId startTime endTime a,
     startTime < endTime ->
     Appointment.scheduledTimeStart a < Appointment.scheduledTimeEnd a ->
     (overlappingWhere sellerId startTime endTime a = true
      <-> Appointment.sellerId a = sellerId
          /\ nonTerminal (Appointment.status a)
          /\ startTime < Appointment.scheduledTimeEnd a
          /\ Appointment.scheduledTimeStart a < endTime))
  /\ (forall sellerId startTime endTime a,
        Appointment.status a = COMPLETED \/ Appointment.status a = CANCELLED ->
        overlappingWhere sellerId startTime endTime a = false)
  /\ (forall sellerId startTime endTime db,
        startTime < endTime ->
        (forall a, In a (Db.appointment db) ->
                   Appointment.scheduledTimeStart a < Appointment.scheduledTimeEnd a) ->
        (fst (AppointmentService.checkTimeSlotAvailability sellerId startTime endTime db)
           = Ok false
         <-> conflicting sellerId startTime endTime db)
        /\ (fst (AppointmentService.checkTimeSlotAvailability sellerId startTime endTime db)
              = Ok true
            <-> ~ conflicting sellerId startTime endTime db))
  /\ (forall sellerId date startTime endTime db row,
        startTime < endTime ->
        (forall a, In a (Db.appointment db) ->
                   Appointment.scheduledTimeStart a < Appointment.scheduledTimeEnd a) ->
        availabilityOf db sellerId (JsDate.getDay date) = Some row ->
        SellerAvailability.isAvailable row = true ->
        String.ltb (JsDate.toTimeStringHM startTime) (SellerAvailability.startTime row)
          = false ->
        String.leb (SellerAvailability.endTime row) (JsDate.toTimeStringHM startTime)
          = false ->
        (forall r, In r (Db.sellerTimeOff db) ->
                   SellerTimeOff.sellerId r = sellerId ->
                   SellerTimeOff.isActive r = true ->
                   ~ (SellerTimeOff.startDate r <= date <= SellerTimeOff.endDate r)) ->
        (conflicting sellerId startTime endTime db ->
         AvailabilityService.isSellerAvailable sellerId date startTime endTime db
         = (Ok (Availability.mk false (Some "Time slot is already booked")), db))
        /\ (~ conflicting sellerId startTime endTime db ->
            AvailabilityService.isSellerAvailable sellerId date startTime endTime db
            = (Ok (Availability.mk true None), db))).
Proof.
  split; [|split; [|split]].
  - intros. now apply overlappingWhere_exact.
  - intros. now apply overlappingWhere_terminal.
  - intros sellerId startTime endTime db Hcand Hrows.
    rewrite checkTimeSlotAvailability_unfold. cbn [fst].
    rewrite <- (count_conflicting _ _ _ _ Hcand Hrows), <- filter_length_zero.
    destruct (Nat.eqb _ 0); split; split; congruence.
  - intros sellerId date startTime endTime db row Hcand Hrows Hrow Havailable
           Hopen Hclose Hoff.
    rewrite isSellerAvailable_unfold. unfold availabilityOf in Hrow.
    rewrite Hrow, Havailable, Hopen, Hclose. cbn [negb orb].
    rewrite find_none_of_all_false.
    + rewrite <- (count_conflicting _ _ _ _ Hcand Hrows), <- filter_length_pos.
      destruct (0 <? _)%nat; split; intros H; try reflexivity;
        [exfalso; now apply H | discriminate H].
    + intros r Hin.
      destruct (String.eqb_spec (SellerTimeOff.sellerId r) sellerId) as [Hs|];
        [|reflexivity].
      destruct (SellerTimeOff.isActive r) eqn:Hactive; [|reflexivity].
      cbn [Bool.eqb andb].
      destruct (SellerTimeOff.startDate r <=? date) eqn:H1; [|reflexivity].
      destruct (SellerTimeOff.endDate r >=? date) eqn:H2; [|reflexivity].
      exfalso. apply (Hoff r Hin Hs Hactive).
      rewrite Z.geb_leb in H2. apply Z.leb_le in H1, H2. lia.
Qed.

(** With 09:00-10:00 booked on the Monday of the scenario, within the
    opening hours and without time off: 09:30-10:30 is refused because of
    that booking, and 10:00-11:00, which only touches it, is free. *)
Lemma conflict_check_is_half_open_overlap_witness :
  AvailabilityService.isSellerAvailable
    "seller-1" Scenario.monday (Scenario.monday + 34200000) (Scenario.monday + 37800000)
    Scenario.dbBooked
  = (Ok (Availability.mk false (Some "Time slot is already booked")), Scenario.dbBooked)
  /\ AvailabilityService.isSellerAvailable
       "seller-1" Scenario.monday (Scenario.monday + 36000000) (Scenario.monday + 39600000)
       Scenario.dbBooked
     = (Ok (Availability.mk true None), Scenario.dbBooked).
Proof.
  pose (row := SellerAvailability.mk "seller-1" 1 "09:00" "12:00" true).
  assert (Hrows : forall a, In a (Db.appointment Scenario.dbBooked) ->
            Appointment.scheduledTimeStart a < Appointment.scheduledTimeEnd a).
  { intros a [<- | []]. reflexivity. }
  split.
  - apply (proj1 (proj2 (proj2 (proj2 conflict_check_is_half_open_overlap))
                   "seller-1" Scenario.monday (Scenario.monday + 34200000)
                   (Scenario.monday + 37800000) Scenario.dbBooked row
                   eq_refl Hrows eq_refl eq_refl eq_refl eq_refl
                   (fun r (H : In r []) => match H with end))).
    eexists. split; [left; reflexivity|].
    split; [reflexivity|]. split; [left; reflexivity|]. split; reflexivity.
  - apply (proj2 (proj2 (proj2 (proj2 conflict_check_is_half_open_overlap))
                   "seller-1" Scenario.monday (Scenario.monday + 36000000)
                   (Scenario.monday + 39600000) Scenario.dbBooked row
                   eq_refl Hrows eq_refl eq_refl eq_refl eq_refl
                   (fun r (H : In r []) => match H with end))).
    intros (a & [<- | []] & _ & _ & Hlt & _). discriminate Hlt.
Defined.

(** The windows must not be empty for the equivalence: an empty
    candidate placed at the start of a Pending appointment matches the
    first clause of the [where], yet overlaps nothing. *)
Lemma empty_candidate_matches :
  let a := Appointment.mk "a" "n" "b" "s" "v" 0 5 10 0 None None PENDING 0 0 in
  overlappingWhere "s" 5 5 a = true
  /\ ~ overlap 5 5 (Appointment.scheduledTimeStart a) (Appointment.scheduledTimeEnd a).
Proof. split; [reflexivity | intros [_ H]; discriminate H]. Qed.

(** ** Read-only operations *)

Lemma isSellerAvailable_pure sellerId date startTime endTime db :
  exists answer,
    AvailabilityService.isSellerAvailable sellerId date startTime endTime db
    = (Ok answer, db).
Proof. rewrite isSellerAvailable_unfold. eauto. Qed.

Lemma probeLoop_pure fuel sellerId durationMinutes currentDate dayEnd slotStart db :
  exists r,
    AvailabilityService.probeLoop fuel sellerId durationMinutes currentDate dayEnd
                                  slotStart db
    = (Ok r, db).
Proof.
  revert slotStart. induction fuel as [|fuel IH]; intros slotStart; simpl.
  - destruct (slotStart <? dayEnd); unfold ret; eauto.
  - destruct (slotStart <? dayEnd); [|unfold ret; eauto].
    unfold bind at 1.
    destruct (slotStart + durationMinutes * 60000 <=? dayEnd).
    + unfold bind at 1.
      destruct (isSellerAvailable_pure sellerId currentDate slotStart
                  (slotStart + durationMinutes * 60000) db) as [answer ->].
      destruct (Availability.available answer); unfold ret; eauto.
    + unfold ret at 1. apply IH.
Qed.

Lemma probeDay_pure env sellerId durationMinutes currentDate db :
  exists r,
    AvailabilityService.probeDay env sellerId durationMinutes currentDate db = (Ok r, db).
Proof.
  unfold AvailabilityService.probeDay, Prisma.sellerAvailability_findUnique,
    Prisma.sellerTimeOff_findFirst, query.
  unfold bind at 1.
  destruct (find _ (Db.sellerAvailability db)) as [availability|]; [|unfold ret; eauto].
  destruct (negb (SellerAvailability.isAvailable availability)); [unfold ret; eauto|].
  unfold bind at 1.
  destruct (find _ (Db.sellerTimeOff db)); [unfold ret; eauto|].
  destruct (hourMinute (SellerAvailability.startTime availability)) as [[startHour startMinute]|];
    [|unfold ret; eauto].
  destruct (hourMinute (SellerAvailability.endTime availability)) as [[endHour endMinute]|];
    [|unfold ret; eauto].
  apply probeLoop_pure.
Qed.

Lemma dayLoop_pure fuel env sellerId durationMinutes endDate currentDate db :
  exists r,
    AvailabilityService.dayLoop fuel env sellerId durationMinutes endDate currentDate db
    = (Ok r, db).
Proof.
  revert currentDate. induction fuel as [|fuel IH]; intros currentDate; simpl.
  - destruct (currentDate <=? endDate); unfold ret; eauto.
  - destruct (currentDate <=? endDate); [|unfold ret; eauto].
    unfold bind at 1.
    destruct (probeDay_pure env sellerId durationMinutes currentDate db) as [today ->].
    destruct today; unfold ret; eauto.
Qed.

Lemma slotLoop_pure fuel sellerId durationMinutes intervalMinutes endTime currentTime slots db :
  exists r,
    AppointmentService.slotLoop fuel sellerId durationMinutes intervalMinutes endTime
                                currentTime slots db
    = (Ok r, db).
Proof.
  revert currentTime slots. induction fuel as [|fuel IH]; intros currentTime slots; simpl.
  - destruct (currentTime <? endTime); unfold ret; eauto.
  - destruct (currentTime <? endTime); [|unfold ret; eauto].
    unfold bind at 1.
    destruct (currentTime + durationMinutes * 60000 <=? endTime).
    + unfold bind at 1. rewrite checkTimeSlotAvailability_unfold.
      unfold ret at 1. apply IH.
    + unfold ret at 1. apply IH.
Qed.

Lemma availabilityLoop_pure sellerId durationMinutes intervalMinutes date availability slots db :
  exists r,
    AppointmentService.availabilityLoop sellerId durationMinutes intervalMinutes date
                                        availability slots db
    = (Ok r, db).
Proof.
  revert slots. induction availability as [|row rest IH]; intros slots; simpl.
  - unfold ret; eauto.
  - unfold bind at 1.
    destruct (hourMinute (SellerAvailability.startTime row)) as [[startHour startMinute]|].
    + destruct (hourMinute (SellerAvailability.endTime row)) as [[endHour endMinute]|].
      * match goal with |- context [AppointmentService.slotLoop ?f ?s ?d ?i ?e ?c ?sl db] =>
          destruct (slotLoop_pure f s d i e c sl db) as [r ->] end.
        destruct r; [apply IH | unfold ret; eauto].
      * unfold ret at 1. apply IH.
    + unfold ret at 1. apply IH.
Qed.

Lemma getAvailableTimeSlots_unfold serviceId date intervalMinutes db :
  AppointmentService.getAvailableTimeSlots serviceId date intervalMinutes db =
  match find (fun s => String.eqb (Service.id s) serviceId) (Db.service db) with
  | None => (Throw "Service not found", db)
  | Some service =>
      let availability :=
        fold_right Prisma.insertByStartTime []
          (filter (fun r => String.eqb (SellerAvailability.sellerId r)
                                       (Seller.id (Service.seller service))
                            && (SellerAvailability.dayOfWeek r =? JsDate.getDay date)
                            && Bool.eqb (SellerAvailability.isAvailable r) true)
                  (Db.sellerAvailability db)) in
      if Nat.eqb (List.length availability) 0 then (Ok (Some []), db)
      else AppointmentService.availabilityLoop
             (Seller.id (Service.seller service)) (Service.durationMinutes service)
             intervalMinutes date availability [] db
  end.
Proof.
  unfold AppointmentService.getAvailableTimeSlots, Prisma.service_findUnique,
    AppointmentService.getSellerAvailabilityForDay, Prisma.sellerAvailability_findMany, query.
  unfold bind at 1.
  destruct (find _ (Db.service db)) as [service|]; [|reflexivity].
  unfold bind at 1. cbv zeta.
  destruct (Nat.eqb _ 0); reflexivity.
Qed.

Lemma getNextAvailableSlot_unfold env serviceId fromDate daysAhead db :
  AvailabilityService.getNextAvailableSlot env serviceId fromDate daysAhead db =
  match find (fun s => String.eqb (Service.id s) serviceId) (Db.service db) with
  | None => (Throw "Service not found", db)
  | Some service =>
      AvailabilityService.dayLoop
        (AvailabilityService.dayFuel (fromDate + daysAhead * 24 * 60 * 60 * 1000)
                                     (JsDate.startOfDay fromDate))
        env (Seller.id (Service.seller service)) (Service.durationMinutes service)
        (fromDate + daysAhead * 24 * 60 * 60 * 1000) (JsDate.startOfDay fromDate) db
  end.
Proof.
  unfold AvailabilityService.getNextAvailableSlot, Prisma.service_findUnique, query.
  unfold bind at 1.
  destruct (find _ (Db.service db)); reflexivity.
Qed.

(** C10.  For a [serviceId] that names no service, [getNextAvailableSlot]
    and [getAvailableTimeSlots] both throw "Service not found" and leave
    the store alone.  For a service that exists neither throws; so the
    null slot and the empty slot list are only ever answers about an
    existing service. *)
Theorem unknown_service_throws :
  forall env serviceId fromDate daysAhead date intervalMinutes db,
    (find (fun s => String.eqb (Service.id s) serviceId) (Db.service db) = None ->
     AvailabilityService.getNextAvailableSlot env serviceId fromDate daysAhead db
       = (Throw "Service not found", db)
     /\ AppointmentService.getAvailableTimeSlots serviceId date intervalMinutes db
        = (Throw "Service not found", db))
    /\ (find (fun s => String.eqb (Service.id s) serviceId) (Db.service db) <> None ->
        isOk (fst (AvailabilityService.getNextAvailableSlot
                     env serviceId fromDate daysAhead db)) = true
        /\ isOk (fst (AppointmentService.getAvailableTimeSlots
                        serviceId date intervalMinutes db)) = true)
    /\ (fst (AvailabilityService.getNextAvailableSlot env serviceId fromDate daysAhead db)
          = Ok Fallthrough ->
        exists service,
          find (fun s => String.eqb (Service.id s) serviceId) (Db.service db)
            = Some service)
    /\ (fst (AppointmentService.getAvailableTimeSlots serviceId date intervalMinutes db)
          = Ok (Some []) ->
        exists service,
          find (fun s => String.eqb (Service.id s) serviceId) (Db.service db)
            = Some service).
Proof.
  intros env serviceId fromDate daysAhead date intervalMinutes db.
  rewrite getNextAvailableSlot_unfold, getAvailableTimeSlots_unfold.
  destruct (find _ (Db.service db)) as [service|].
  - split; [discriminate|]. split; [|eauto].
    intros _. split.
    + match goal with |- context [AvailabilityService.dayLoop ?f ?e ?s ?d ?en ?c db] =>
        destruct (dayLoop_pure f e s d en c db) as [r ->] end.
      reflexivity.
    + cbv zeta. destruct (Nat.eqb _ 0); [reflexivity|].
      match goal with |- context [AppointmentService.availabilityLoop ?s ?d ?i ?dt ?a ?sl db] =>
        destruct (availabilityLoop_pure s d i dt a sl db) as [r ->] end.
      reflexivity.
  - split; [auto|]. split; [congruence|]. split; discriminate.
Qed.

(** No service is stored under "service-9". *)
Lemma unknown_service_throws_witness :
  AvailabilityService.getNextAvailableSlot Scenario.env "service-9" Scenario.monday 30
                                           Scenario.db
    = (Throw "Service not found", Scenario.db)
  /\ AppointmentService.getAvailableTimeSlots "service-9" Scenario.monday 30 Scenario.db
     = (Throw "Service not found", Scenario.db).
Proof.
  apply (proj1 (unknown_service_throws Scenario.env "service-9" Scenario.monday 30
                  Scenario.monday 30 Scenario.db)).
  reflexivity.
Defined.

(** ** Days without an availability row *)

Lemma filter_none {A : Type} (p : A -> bool) (l : list A) :
  (forall x, In x l -> p x = false) -> filter p l = [].
Proof.
  induction l as [|x l IH]; simpl; intros H; [reflexivity|].
  rewrite (H x) by now left. apply IH. intros y Hy. apply H. now right.
Qed.

Lemma find_active serviceId l service :
  find (fun s => String.eqb (Service.id s) serviceId) l = Some service ->
  Service.isActive service = true ->
  find (fun s => String.eqb (Service.id s) serviceId
                 && Bool.eqb (Service.isActive s) true) l = Some service.
Proof.
  induction l as [|s l IH]; simpl; [discriminate|].
  destruct (String.eqb (Service.id s) serviceId); simpl.
  - intros [= ->] ->. reflexivity.
  - exact IH.
Qed.

(** C6.  Let a seller have no availability row for some weekday.  For a
    date on that weekday [getAvailableTimeSlots] returns the empty list;
    yet [createAppointment] for a window starting on that weekday succeeds
    and stores the Pending appointment, provided the service is active,
    its seller approved, the window as long as the service lasts, the
    conflict check passed, and the datastore takes the writes. *)
Theorem no_availability_row_asymmetry :
  forall env buyerId appointmentData date intervalMinutes db service,
    find (fun s => String.eqb (Service.id s)
                     (AppointmentCreateData.serviceId appointmentData))
         (Db.service db) = Some service ->
    Service.isActive service = true ->
    Seller.isApproved (Service.seller service) = true ->
    (forall r, In r (Db.sellerAvailability db) ->
               SellerAvailability.sellerId r = Seller.id (Service.seller service) ->
               SellerAvailability.dayOfWeek r <> JsDate.getDay date) ->
    JsDate.getDay (AppointmentCreateData.scheduledTimeStart appointmentData)
      = JsDate.getDay date ->
    AppointmentCreateData.scheduledTimeEnd appointmentData
      = AppointmentCreateData.scheduledTimeStart appointmentData
        + Service.durationMinutes service * 60000 ->
    fst (AppointmentService.checkTimeSlotAvailability
           (Seller.id (Service.seller service))
           (AppointmentCreateData.scheduledTimeStart appointmentData)
           (AppointmentCreateData.scheduledTimeEnd appointmentData) db) = Ok true ->
    datastoreAccepts env db ->
    AppointmentService.getAvailableTimeSlots
      (AppointmentCreateData.serviceId appointmentData) date intervalMinutes db
      = (Ok (Some []), db)
    /\ exists details,
         AppointmentService.createAppointment env buyerId appointmentData db
           = (Ok details, afterCreate env buyerId appointmentData service db)
         /\ AppointmentDetails.appointment details
            = createdAppointment env buyerId appointmentData service
         /\ Appointment.status (AppointmentDetails.appointment details) = PENDING.
Proof.
  intros env buyerId data date intervalMinutes db service
         Hfind Hactive Happroved Hnorow Hday Hlen Hfree (Hw0 & Hw1 & Hid & Hnum).
  split.
  - rewrite getAvailableTimeSlots_unfold, Hfind. cbv zeta.
    rewrite filter_none; [reflexivity|].
    intros r Hin.
    destruct (String.eqb (SellerAvailability.sellerId r)
                         (Seller.id (Service.seller service))) eqn:Hs; [|reflexivity].
    apply String.eqb_eq in Hs.
    destruct (Z.eqb_spec (SellerAvailability.dayOfWeek r) (JsDate.getDay date)) as [E|E];
      [|reflexivity].
    exfalso. exact (Hnorow r Hin Hs E).
  - rewrite createAppointment_unfold, (find_active _ _ _ Hfind Hactive), Happroved.
    rewrite checkTimeSlotAvailability_unfold in Hfree. cbn [fst] in Hfree.
    injection Hfree as Hfree.
    rewrite Hlen, Z.eqb_refl. rewrite Hlen in Hfree. rewrite Hfree.
    cbn [negb]. rewrite Hw0, Hid, Hnum, Hw1.
    eexists. split; [reflexivity|]. split; reflexivity.
Qed.

(** The seller of the example has a Monday row only: Tuesday shows no
    slot, and Tuesday 14:00-15:00 can be booked. *)
Lemma no_availability_row_asymmetry_witness :
  AppointmentService.getAvailableTimeSlots "service-1" Scenario.tuesday 30 Scenario.db
    = (Ok (Some []), Scenario.db)
  /\ exists details,
       AppointmentService.createAppointment
         Scenario.env "buyer-1" Scenario.tuesdayAfternoon Scenario.db
         = (Ok details,
            afterCreate Scenario.env "buyer-1" Scenario.tuesdayAfternoon
                        Scenario.service Scenario.db)
       /\ AppointmentDetails.appointment details
          = createdAppointment Scenario.env "buyer-1" Scenario.tuesdayAfternoon
                               Scenario.service
       /\ Appointment.status (AppointmentDetails.appointment details) = PENDING.
Proof.
  apply (no_availability_row_asymmetry
           Scenario.env "buyer-1" Scenario.tuesdayAfternoon Scenario.tuesday 30
           Scenario.db Scenario.service).
  - reflexivity.
  - reflexivity.
  - reflexivity.
  - intros r [<- | []] _. vm_compute. discriminate.
  - reflexivity.
  - reflexivity.
  - reflexivity.
  - repeat split; reflexivity.
Defined.

(** ** Time off *)

Lemma addTimeOff_unfold env sellerId startDate endDate reason db :
  AvailabilityService.addTimeOff env sellerId startDate endDate reason db =
  match find (AvailabilityService.timeOffOverlapWhere sellerId startDate endDate)
             (Db.sellerTimeOff db) with
  | Some _ => (Throw "Time off period overlaps with existing time off", db)
  | None =>
    if (0 <? List.length
               (filter (AvailabilityService.appointmentsDuringWhere sellerId startDate endDate)
                       (Db.appointment db)))%nat
    then (Throw "Cannot add time off when there are pending or confirmed appointments during this period", db)
    else if Env.writeFails env 0
    then (Throw "The datastore rejected the write", db)
    else if existsb (fun r => String.eqb (SellerTimeOff.id r) (Env.cuid env))
                    (Db.sellerTimeOff db)
    then (Throw "Unique constraint failed on the fields: (`id`)", db)
    else (Ok (SellerTimeOff.mk (Env.cuid env) sellerId startDate endDate reason true),
          afterTimeOff env sellerId startDate endDate reason db)
  end.
Proof.
  unfold AvailabilityService.addTimeOff, Prisma.sellerTimeOff_findFirst,
    Prisma.appointment_count, Prisma.sellerTimeOff_create, query.
  unfold bind at 1.
  destruct (find _ (Db.sellerTimeOff db)); [reflexivity|].
  unfold bind at 1.
  destruct (0 <? _)%nat; [reflexivity|].
  destruct (Env.writeFails env 0); [reflexivity|].
  cbn [SellerTimeOff.id].
  destruct (existsb _ (Db.sellerTimeOff db)); reflexivity.
Qed.

Lemma timeOffOverlapWhere_true sellerId startDate endDate r :
  AvailabilityService.timeOffOverlapWhere sellerId startDate endDate r = true <->
  SellerTimeOff.sellerId r = sellerId
  /\ SellerTimeOff.isActive r = true
  /\ ((SellerTimeOff.startDate r <=? startDate) && (SellerTimeOff.endDate r >? startDate)
      || (SellerTimeOff.startDate r <? endDate) && (SellerTimeOff.endDate r >=? endDate)
      || (SellerTimeOff.startDate r >=? startDate) && (SellerTimeOff.endDate r <=? endDate))
     = true.
Proof.
  unfold AvailabilityService.timeOffOverlapWhere.
  rewrite !andb_true_iff, String.eqb_eq, Bool.eqb_true_iff. tauto.
Qed.

Lemma appointmentsDuringWhere_true sellerId startDate endDate a :
  AvailabilityService.appointmentsDuringWhere sellerId startDate endDate a = true <->
  Appointment.sellerId a = sellerId
  /\ (Appointment.status a = PENDING \/ Appointment.status a = CONFIRMED)
  /\ startDate <= Appointment.scheduledDate a <= endDate.
Proof.
  unfold AvailabilityService.appointmentsDuringWhere.
  rewrite Z.geb_leb, !andb_true_iff, String.eqb_eq, includes_In, !Z.leb_le.
  simpl. intuition congruence.
Qed.

(** C7 (as amended).  [addTimeOff] throws and stores nothing when the
    requested range overlaps, by the half-open rule, an active time-off of
    the same seller, and when it meets a Pending or Confirmed appointment
    of the seller whose scheduled date lies within the range, both ends
    included.  When the range is not empty, no stored time-off is empty,
    the range overlaps no active time-off of the seller, no Pending or
    Confirmed appointment of the seller meets the range or has its
    scheduled date within it, and the datastore takes the write, the new
    row is stored with [isActive] set; appointments in any other status
    do not prevent it. *)
Theorem addTimeOff_guards :
  forall env sellerId startDate endDate reason db,
    let out := AvailabilityService.addTimeOff env sellerId startDate endDate reason db in
    let overlapsTimeOff :=
      exists r, In r (Db.sellerTimeOff db)
                /\ SellerTimeOff.sellerId r = sellerId
                /\ SellerTimeOff.isActive r = true
                /\ overlap startDate endDate
                           (SellerTimeOff.startDate r) (SellerTimeOff.endDate r) in
    let awaited (a : Appointment.t) :=
      Appointment.sellerId a = sellerId
      /\ (Appointment.status a = PENDING \/ Appointment.status a = CONFIRMED) in
    let dated (a : Appointment.t) :=
      startDate <= Appointment.scheduledDate a <= endDate in
    (overlapsTimeOff ->
     out = (Throw "Time off period overlaps with existing time off", db))
    /\ ((exists a, In a (Db.appointment db) /\ awaited a
                   /\ dated a /\ meetsRange startDate endDate a) ->
        (fst out = Throw "Time off period overlaps with existing time off"
         \/ fst out = Throw "Cannot add time off when there are pending or confirmed appointments during this period")
        /\ snd out = db)
    /\ (startDate < endDate ->
        (forall r, In r (Db.sellerTimeOff db) ->
                   SellerTimeOff.startDate r < SellerTimeOff.endDate r) ->
        ~ overlapsTimeOff ->
        (forall a, In a (Db.appointment db) -> awaited a ->
                   ~ dated a /\ ~ meetsRange startDate endDate a) ->
        Env.writeFails env 0 = false ->
        existsb (fun r => String.eqb (SellerTimeOff.id r) (Env.cuid env))
                (Db.sellerTimeOff db) = false ->
        fst out = Ok (SellerTimeOff.mk (Env.cuid env) sellerId startDate endDate reason true)
        /\ Db.sellerTimeOff (snd out)
           = (Db.sellerTimeOff db
              ++ [SellerTimeOff.mk (Env.cuid env) sellerId startDate endDate reason true])%list
        /\ snd out = afterTimeOff env sellerId startDate endDate reason db).
Proof.
  intros env sellerId startDate endDate reason db out overlapsTimeOff awaited dated.
  subst out overlapsTimeOff awaited dated. rewrite addTimeOff_unfold.
  split; [|split].
  - intros [r (Hin & Hs & Ha & Ho)].
    destruct (find_exists (AvailabilityService.timeOffOverlapWhere sellerId startDate endDate)
                          (Db.sellerTimeOff db)) as [y ->]; [|reflexivity].
    exists r. split; [exact Hin|]. apply timeOffOverlapWhere_true.
    auto using threeClauses_complete.
  - intros [a (Hin & [Hs Hst] & Hd & _)].
    destruct (find _ (Db.sellerTimeOff db)); [now split; [left|]|].
    assert (Hpos : (0 <? List.length
                      (filter (AvailabilityService.appointmentsDuringWhere
                                 sellerId startDate endDate) (Db.appointment db)))%nat = true).
    { apply filter_length_pos. exists a. split; [exact Hin|].
      now apply appointmentsDuringWhere_true. }
    rewrite Hpos. now split; [right|].
  - intros Hrange Hrows Hno Hnone Hw Hfresh.
    rewrite find_none_of_all_false.
    + destruct (0 <? _)%nat eqn:Hpos.
      * exfalso. apply filter_length_pos in Hpos as [a [Hin Ha]].
        apply appointmentsDuringWhere_true in Ha as (Hs & Hst & Hd).
        destruct (Hnone a Hin (conj Hs Hst)) as [Hnot _]. exact (Hnot Hd).
      * rewrite Hw, Hfresh. repeat split.
    + intros r Hin.
      destruct (AvailabilityService.timeOffOverlapWhere sellerId startDate endDate r) eqn:Hr;
        [|reflexivity].
      exfalso. apply Hno. exists r. apply timeOffOverlapWhere_true in Hr as (Hs & Ha & Hc).
      repeat split; auto; apply (threeClauses_sound startDate endDate) in Hc; auto;
        apply Hc.
Qed.

(** The claim as first stated fails: an appointment that is InProgress,
    scheduled inside the requested range, does not stop [addTimeOff]. *)
Lemma addTimeOff_ignores_in_progress :
  In Scenario.underWay (Db.appointment Scenario.dbUnderWay)
  /\ Appointment.sellerId Scenario.underWay = "seller-1"
  /\ nonTerminal (Appointment.status Scenario.underWay)
  /\ overlap Scenario.monday (Scenario.monday + 86400000)
             (Appointment.scheduledTimeStart Scenario.underWay)
             (Appointment.scheduledTimeEnd Scenario.underWay)
  /\ Scenario.monday <= Appointment.scheduledDate Scenario.underWay
     <= Scenario.monday + 86400000
  /\ AvailabilityService.addTimeOff Scenario.envTimeOff "seller-1" Scenario.monday
       (Scenario.monday + 86400000) None Scenario.dbUnderWay
     = (Ok (SellerTimeOff.mk "off-1" "seller-1" Scenario.monday
              (Scenario.monday + 86400000) None true),
        afterTimeOff Scenario.envTimeOff "seller-1" Scenario.monday
                     (Scenario.monday + 86400000) None Scenario.dbUnderWay).
Proof.
  split; [now left|]. split; [reflexivity|].
  split; [right; right; reflexivity|].
  split; [split; reflexivity|].
  split; [split; discriminate|].
  reflexivity.
Qed.

(** With 09:00-10:00 booked and Pending, Monday cannot be taken off;
    with nothing booked it can. *)
Lemma addTimeOff_guards_witness :
  AvailabilityService.addTimeOff Scenario.envTimeOff "seller-1" Scenario.monday
    (Scenario.monday + 86400000) None Scenario.dbBooked
  = (Throw "Cannot add time off when there are pending or confirmed appointments during this period",
     Scenario.dbBooked)
  /\ AvailabilityService.addTimeOff Scenario.envTimeOff "seller-1" Scenario.monday
       (Scenario.monday + 86400000) None Scenario.db
     = (Ok (SellerTimeOff.mk "off-1" "seller-1" Scenario.monday
              (Scenario.monday + 86400000) None true),
        afterTimeOff Scenario.envTimeOff "seller-1" Scenario.monday
                     (Scenario.monday + 86400000) None Scenario.db).
Proof.
  split.
  - destruct (proj1 (proj2 (addTimeOff_guards Scenario.envTimeOff "seller-1" Scenario.monday
                              (Scenario.monday + 86400000) None Scenario.dbBooked)))
      as [[Hmessage | Hmessage] Hstore].
    + eexists. split; [left; reflexivity|].
      split; [split; [reflexivity | left; reflexivity]|].
      split; [split; discriminate | split; [discriminate | reflexivity]].
    + discriminate Hmessage.
    + reflexivity.
  - destruct (proj2 (proj2 (addTimeOff_guards Scenario.envTimeOff "seller-1" Scenario.monday
                              (Scenario.monday + 86400000) None Scenario.db)))
      as (Hvalue & _ & Hstore).
    + reflexivity.
    + intros r [].
    + intros [r [[] _]].
    + intros a [].
    + reflexivity.
    + reflexivity.
    + reflexivity.
Defined.

(** ** The probe loop of [getNextAvailableSlot] *)

Lemma probeLoop_zero sellerId durationMinutes currentDate dayEnd slotStart db :
  AvailabilityService.probeLoop 0 sellerId durationMinutes currentDate dayEnd slotStart db
  = (Ok (if slotStart <? dayEnd then OutOfFuel else Fallthrough), db).
Proof. simpl. now destruct (slotStart <? dayEnd). Qed.

Lemma probeLoop_step fuel sellerId durationMinutes currentDate dayEnd slotStart db :
  AvailabilityService.probeLoop (S fuel) sellerId durationMinutes currentDate dayEnd
                                slotStart db
  = if slotStart <? dayEnd
    then if accepted sellerId durationMinutes currentDate dayEnd db slotStart
         then (Ok (Returned (slotAt durationMinutes currentDate slotStart)), db)
         else AvailabilityService.probeLoop fuel sellerId durationMinutes currentDate
                                            dayEnd (slotStart + 30 * 60000) db
    else (Ok Fallthrough, db).
Proof.
  simpl. destruct (slotStart <? dayEnd); [|reflexivity].
  unfold accepted, availableAt, bind at 1.
  destruct (slotStart + durationMinutes * 60000 <=? dayEnd); [|reflexivity].
  unfold bind at 1.
  destruct (isSellerAvailable_pure sellerId currentDate slotStart
              (slotStart + durationMinutes * 60000) db) as [answer ->].
  cbn [fst andb]. now destruct (Availability.available answer).
Qed.

Lemma probe_zero slotStart : probe slotStart 0 = slotStart.
Proof. unfold probe. simpl. lia. Qed.

Lemma probe_succ slotStart k :
  probe slotStart (S k) = probe (slotStart + 30 * 60000) k.
Proof. unfold probe. lia. Qed.

Lemma probe_mono slotStart j k : (j <= k)%nat -> probe slotStart j <= probe slotStart k.
Proof. unfold probe. lia. Qed.

(** A slot that the loop returns is the first accepted probe of the day. *)
Lemma probeLoop_returned fuel sellerId durationMinutes currentDate dayEnd db :
  forall slotStart slot,
    AvailabilityService.probeLoop fuel sellerId durationMinutes currentDate dayEnd
                                  slotStart db = (Ok (Returned slot), db) ->
    exists k,
      slot = slotAt durationMinutes currentDate (probe slotStart k)
      /\ probe slotStart k < dayEnd
      /\ accepted sellerId durationMinutes currentDate dayEnd db (probe slotStart k) = true
      /\ forall j, (j < k)%nat ->
           accepted sellerId durationMinutes currentDate dayEnd db (probe slotStart j) = false.
Proof.
  induction fuel as [|fuel IH]; intros slotStart slot.
  - rewrite probeLoop_zero. destruct (slotStart <? dayEnd); discriminate.
  - rewrite probeLoop_step.
    destruct (slotStart <? dayEnd) eqn:Hlt; [|discriminate].
    destruct (accepted sellerId durationMinutes currentDate dayEnd db slotStart) eqn:Hacc.
    + intros [= <-]. exists 0%nat. rewrite probe_zero.
      repeat split; [now apply Z.ltb_lt | exact Hacc | intros j Hj; lia].
    + intros Hrec. destruct (IH _ _ Hrec) as (k & Hslot & Hk & Hacck & Hbefore).
      exists (S k). rewrite probe_succ. repeat split; auto.
      intros [|j] Hj.
      * now rewrite probe_zero.
      * rewrite probe_succ. apply Hbefore. lia.
Qed.

(** Conversely, the first accepted probe that starts before [dayEnd] is
    returned, given the rounds to reach it. *)
Lemma probeLoop_first sellerId durationMinutes currentDate dayEnd db :
  forall k fuel slotStart,
    (k < fuel)%nat ->
    probe slotStart k < dayEnd ->
    accepted sellerId durationMinutes currentDate dayEnd db (probe slotStart k) = true ->
    (forall j, (j < k)%nat ->
       accepted sellerId durationMinutes currentDate dayEnd db (probe slotStart j) = false) ->
    AvailabilityService.probeLoop fuel sellerId durationMinutes currentDate dayEnd
                                  slotStart db
    = (Ok (Returned (slotAt durationMinutes currentDate (probe slotStart k))), db).
Proof.
  induction k as [|k IH]; intros fuel slotStart Hfuel Hlt Hacc Hbefore;
    (destruct fuel as [|fuel]; [lia|]); rewrite probeLoop_step.
  - rewrite probe_zero in *. apply Z.ltb_lt in Hlt. now rewrite Hlt, Hacc.
  - assert (Hlt0 : (slotStart <? dayEnd) = true).
    { apply Z.ltb_lt. pose proof (probe_mono slotStart 0 (S k)). rewrite probe_zero in *. lia. }
    rewrite Hlt0. rewrite <- (probe_zero slotStart) at 1.
    rewrite (Hbefore 0%nat) by lia.
    rewrite probe_succ. apply IH; try lia.
    + now rewrite <- probe_succ.
    + now rewrite <- probe_succ.
    + intros j Hj. rewrite <- probe_succ. apply Hbefore. lia.
Qed.

(** When the loop falls through, every probe before [dayEnd] was refused. *)
Lemma probeLoop_fallthrough fuel sellerId durationMinutes currentDate dayEnd db :
  forall slotStart,
    AvailabilityService.probeLoop fuel sellerId durationMinutes currentDate dayEnd
                                  slotStart db = (Ok Fallthrough, db) ->
    forall k, probe slotStart k < dayEnd ->
      accepted sellerId durationMinutes currentDate dayEnd db (probe slotStart k) = false.
Proof.
  induction fuel as [|fuel IH]; intros slotStart.
  - rewrite probeLoop_zero. destruct (slotStart <? dayEnd) eqn:Hlt; [discriminate|].
    intros _ k Hk. apply Z.ltb_ge in Hlt.
    pose proof (probe_mono slotStart 0 k). rewrite probe_zero in *. lia.
  - rewrite probeLoop_step. destruct (slotStart <? dayEnd) eqn:Hlt.
    + destruct (accepted sellerId durationMinutes currentDate dayEnd db slotStart) eqn:Hacc;
        [discriminate|].
      intros Hrec [|k] Hk.
      * now rewrite probe_zero.
      * rewrite probe_succ in *. now apply (IH _ Hrec).
    + intros _ k Hk. apply Z.ltb_ge in Hlt.
      pose proof (probe_mono slotStart 0 k). rewrite probe_zero in *. lia.
Qed.

(** The loop needs no more rounds than [probeFuel] gives it. *)
Lemma probeLoop_terminates sellerId durationMinutes currentDate dayEnd db :
  forall fuel slotStart,
    (dayEnd - slotStart) / (30 * 60000) < Z.of_nat fuel ->
    AvailabilityService.probeLoop fuel sellerId durationMinutes currentDate dayEnd
                                  slotStart db <> (Ok OutOfFuel, db).
Proof.
  induction fuel as [|fuel IH]; intros slotStart Hfuel.
  - rewrite probeLoop_zero. destruct (slotStart <? dayEnd) eqn:Hlt; [|discriminate].
    apply Z.ltb_lt in Hlt. exfalso.
    assert (0 <= (dayEnd - slotStart) / (30 * 60000)) by (apply Z.div_pos; lia).
    change (Z.of_nat 0) with 0 in Hfuel. lia.
  - rewrite probeLoop_step. destruct (slotStart <? dayEnd) eqn:Hlt; [|discriminate].
    destruct (accepted _ _ _ _ _ _); [discriminate|].
    apply IH.
    replace (dayEnd - (slotStart + 30 * 60000))
      with (dayEnd - slotStart + (-1) * (30 * 60000)) by lia.
    rewrite Z.div_add by lia. lia.
Qed.

(** ** One day of the scan *)

Lemma probeDay_unfold env sellerId durationMinutes currentDate db :
  AvailabilityService.probeDay env sellerId durationMinutes currentDate db =
  match windowOf env sellerId currentDate db with
  | None => (Ok Fallthrough, db)
  | Some (slotStart, dayEnd) =>
      AvailabilityService.probeLoop (AvailabilityService.probeFuel dayEnd slotStart)
        sellerId durationMinutes currentDate dayEnd slotStart db
  end.
Proof.
  unfold AvailabilityService.probeDay, windowOf, firstProbe,
    Prisma.sellerAvailability_findUnique, Prisma.sellerTimeOff_findFirst, query.
  unfold bind at 1.
  destruct (find _ (Db.sellerAvailability db)) as [availability|]; [|reflexivity].
  destruct (negb (SellerAvailability.isAvailable availability)); [reflexivity|].
  unfold bind at 1.
  destruct (find _ (Db.sellerTimeOff db)); [reflexivity|].
  destruct (hourMinute (SellerAvailability.startTime availability))
    as [[startHour startMinute]|]; [|reflexivity].
  destruct (hourMinute (SellerAvailability.endTime availability))
    as [[endHour endMinute]|]; reflexivity.
Qed.

Lemma probeFuel_enough dayEnd slotStart :
  (dayEnd - slotStart) / (30 * 60000)
  < Z.of_nat (AvailabilityService.probeFuel dayEnd slotStart).
Proof. unfold AvailabilityService.probeFuel. lia. Qed.

Lemma probeDay_terminates env sellerId durationMinutes currentDate db :
  AvailabilityService.probeDay env sellerId durationMinutes currentDate db
  <> (Ok OutOfFuel, db).
Proof.
  rewrite probeDay_unfold.
  destruct (windowOf env sellerId currentDate db) as [[slotStart dayEnd]|]; [|discriminate].
  apply probeLoop_terminates, probeFuel_enough.
Qed.

(** ** The scan over the days *)

Lemma dayAt_zero currentDate : dayAt currentDate 0 = currentDate.
Proof. unfold dayAt. simpl. lia. Qed.

Lemma dayAt_succ currentDate d :
  dayAt currentDate (S d) = dayAt (JsDate.nextDate currentDate) d.
Proof. unfold dayAt, JsDate.nextDate. lia. Qed.

Lemma dayAt_mono currentDate d d' : (d <= d')%nat -> dayAt currentDate d <= dayAt currentDate d'.
Proof. unfold dayAt, JsDate.MS_PER_DAY. lia. Qed.

Lemma dayLoop_zero env sellerId durationMinutes endDate currentDate db :
  AvailabilityService.dayLoop 0 env sellerId durationMinutes endDate currentDate db
  = (Ok (if currentDate <=? endDate then OutOfFuel else Fallthrough), db).
Proof. simpl. now destruct (currentDate <=? endDate). Qed.

Lemma dayLoop_step fuel env sellerId durationMinutes endDate currentDate db today :
  AvailabilityService.probeDay env sellerId durationMinutes currentDate db = (Ok today, db) ->
  AvailabilityService.dayLoop (S fuel) env sellerId durationMinutes endDate currentDate db
  = if currentDate <=? endDate
    then match today with
         | Fallthrough =>
             AvailabilityService.dayLoop fuel env sellerId durationMinutes endDate
                                         (JsDate.nextDate currentDate) db
         | other => (Ok other, db)
         end
    else (Ok Fallthrough, db).
Proof.
  intros Htoday. simpl. destruct (currentDate <=? endDate); [|reflexivity].
  unfold bind at 1. rewrite Htoday. now destruct today.
Qed.

(** A slot that the scan returns comes from the first day, in calendar
    order from the start, whose probing returns one. *)
Lemma dayLoop_returned fuel env sellerId durationMinutes endDate db :
  forall currentDate slot,
    AvailabilityService.dayLoop fuel env sellerId durationMinutes endDate currentDate db
      = (Ok (Returned slot), db) ->
    exists d,
      dayAt currentDate d <= endDate
      /\ AvailabilityService.probeDay env sellerId durationMinutes (dayAt currentDate d) db
         = (Ok (Returned slot), db)
      /\ forall d', (d' < d)%nat ->
           AvailabilityService.probeDay env sellerId durationMinutes
                                        (dayAt currentDate d') db
           = (Ok Fallthrough, db).
Proof.
  induction fuel as [|fuel IH]; intros currentDate slot.
  - rewrite dayLoop_zero. destruct (currentDate <=? endDate); discriminate.
  - destruct (probeDay_pure env sellerId durationMinutes currentDate db) as [today Htoday].
    rewrite (dayLoop_step _ _ _ _ _ _ _ _ Htoday).
    destruct (currentDate <=? endDate) eqn:Hle; [|discriminate].
    apply Z.leb_le in Hle.
    destruct today as [| |slot'].
    + intros [=].
    + intros Hrec. destruct (IH _ _ Hrec) as (d & Hd & Hday & Hbefore).
      exists (S d). rewrite dayAt_succ. repeat split; auto.
      intros [|d'] Hd'.
      * now rewrite dayAt_zero.
      * rewrite dayAt_succ. apply Hbefore. lia.
    + intros [= <-]. exists 0%nat. rewrite dayAt_zero.
      repeat split; auto. intros d' Hd'. lia.
Qed.

Lemma dayLoop_first env sellerId durationMinutes endDate db slot :
  forall d fuel currentDate,
    (d < fuel)%nat ->
    dayAt currentDate d <= endDate ->
    AvailabilityService.probeDay env sellerId durationMinutes (dayAt currentDate d) db
      = (Ok (Returned slot), db) ->
    (forall d', (d' < d)%nat ->
       AvailabilityService.probeDay env sellerId durationMinutes (dayAt currentDate d') db
       = (Ok Fallthrough, db)) ->
    AvailabilityService.dayLoop fuel env sellerId durationMinutes endDate currentDate db
    = (Ok (Returned slot), db).
Proof.
  induction d as [|d IH]; intros fuel currentDate Hfuel Hle Hday Hbefore;
    (destruct fuel as [|fuel]; [lia|]).
  - rewrite dayAt_zero in *. rewrite (dayLoop_step _ _ _ _ _ _ _ _ Hday).
    apply Z.leb_le in Hle. now rewrite Hle.
  - assert (Hfirst := Hbefore 0%nat ltac:(lia)). rewrite dayAt_zero in Hfirst.
    rewrite (dayLoop_step _ _ _ _ _ _ _ _ Hfirst).
    assert (Hle0 : (currentDate <=? endDate) = true).
    { apply Z.leb_le. pose proof (dayAt_mono currentDate 0 (S d)).
      rewrite dayAt_zero in *. lia. }
    rewrite Hle0. apply IH; try lia.
    + now rewrite <- dayAt_succ.
    + now rewrite <- dayAt_succ.
    + intros d' Hd'. rewrite <- dayAt_succ. apply Hbefore. lia.
Qed.

Lemma dayLoop_fallthrough fuel env sellerId durationMinutes endDate db :
  forall currentDate,
    AvailabilityService.dayLoop fuel env sellerId durationMinutes endDate currentDate db
      = (Ok Fallthrough, db) ->
    forall d, dayAt currentDate d <= endDate ->
      AvailabilityService.probeDay env sellerId durationMinutes (dayAt currentDate d) db
      = (Ok Fallthrough, db).
Proof.
  induction fuel as [|fuel IH]; intros currentDate.
  - rewrite dayLoop_zero. destruct (currentDate <=? endDate) eqn:Hle; [discriminate|].
    intros _ d Hd. apply Z.leb_gt in Hle.
    pose proof (dayAt_mono currentDate 0 d). rewrite dayAt_zero in *. lia.
  - destruct (probeDay_pure env sellerId durationMinutes currentDate db) as [today Htoday].
    rewrite (dayLoop_step _ _ _ _ _ _ _ _ Htoday).
    destruct (currentDate <=? endDate) eqn:Hle.
    + destruct today; try discriminate.
      intros Hrec [|d] Hd.
      * now rewrite dayAt_zero.
      * rewrite dayAt_succ in *. now apply (IH _ Hrec).
    + intros _ d Hd. apply Z.leb_gt in Hle.
      pose proof (dayAt_mono currentDate 0 d). rewrite dayAt_zero in *. lia.
Qed.

Lemma dayLoop_terminates env sellerId durationMinutes endDate db :
  forall fuel currentDate,
    (endDate - currentDate) / JsDate.MS_PER_DAY < Z.of_nat fuel ->
    AvailabilityService.dayLoop fuel env sellerId durationMinutes endDate currentDate db
    <> (Ok OutOfFuel, db).
Proof.
  induction fuel as [|fuel IH]; intros currentDate Hfuel.
  - rewrite dayLoop_zero. destruct (currentDate <=? endDate) eqn:Hle; [|discriminate].
    apply Z.leb_le in Hle. exfalso.
    assert (0 <= (endDate - currentDate) / JsDate.MS_PER_DAY)
      by (apply Z.div_pos; unfold JsDate.MS_PER_DAY; lia).
    change (Z.of_nat 0) with 0 in Hfuel. lia.
  - destruct (probeDay_pure env sellerId durationMinutes currentDate db) as [today Htoday].
    rewrite (dayLoop_step _ _ _ _ _ _ _ _ Htoday).
    destruct (currentDate <=? endDate) eqn:Hle; [|discriminate].
    destruct today as [| |slot]; [ | | discriminate].
    + exfalso. exact (probeDay_terminates _ _ _ _ _ Htoday).
    + apply IH. unfold JsDate.nextDate.
      replace (endDate - (currentDate + JsDate.MS_PER_DAY))
        with (endDate - currentDate + (-1) * JsDate.MS_PER_DAY) by lia.
      rewrite Z.div_add by (unfold JsDate.MS_PER_DAY; lia). lia.
Qed.

Lemma dayFuel_enough endDate currentDate :
  (endDate - currentDate) / JsDate.MS_PER_DAY
  < Z.of_nat (AvailabilityService.dayFuel endDate currentDate).
Proof. unfold AvailabilityService.dayFuel. lia. Qed.

(** [getNextAvailableSlot] always returns, and leaves the store as it
    was: it throws for an unknown service, and otherwise its loops leave
    within the rounds the model gives them, with a slot or with null. *)
Lemma getNextAvailableSlot_returns env serviceId fromDate daysAhead db :
  exists r,
    AvailabilityService.getNextAvailableSlot env serviceId fromDate daysAhead db = (r, db)
    /\ (r = Throw "Service not found"
        \/ r = Ok Fallthrough
        \/ exists slot, r = Ok (Returned slot)).
Proof.
  rewrite getNextAvailableSlot_unfold.
  destruct (find _ (Db.service db)) as [service|]; [|eauto].
  match goal with |- context [AvailabilityService.dayLoop ?f ?e ?s ?d ?en ?c db] =>
    destruct (dayLoop_pure f e s d en c db) as [r Hr];
    pose proof (dayLoop_terminates e s d en db f c (dayFuel_enough _ _)) as Hne
  end.
  rewrite Hr in *. eexists. split; [reflexivity|].
  destruct r as [| |slot]; [congruence | auto | eauto].
Qed.

(** ** What a returned slot satisfies *)

Lemma windowOf_some env sellerId currentDate db slotStart dayEnd :
  windowOf env sellerId currentDate db = Some (slotStart, dayEnd) ->
  exists availability startHour startMinute endHour endMinute,
    find (fun r => String.eqb (SellerAvailability.sellerId r) sellerId
                   && (SellerAvailability.dayOfWeek r =? JsDate.getDay currentDate))
         (Db.sellerAvailability db) = Some availability
    /\ SellerAvailability.isAvailable availability = true
    /\ hourMinute (SellerAvailability.startTime availability) = Some (startHour, startMinute)
    /\ hourMinute (SellerAvailability.endTime availability) = Some (endHour, endMinute)
    /\ slotStart = firstProbe env currentDate startHour startMinute
    /\ dayEnd = JsDate.setHours currentDate endHour endMinute 0 0.
Proof.
  unfold windowOf.
  destruct (find _ (Db.sellerAvailability db)) as [availability|]; [|discriminate].
  destruct (SellerAvailability.isAvailable availability) eqn:Ha; [|discriminate].
  cbn [negb].
  destruct (find _ (Db.sellerTimeOff db)); [discriminate|].
  destruct (hourMinute (SellerAvailability.startTime availability))
    as [[startHour startMinute]|] eqn:Hs; [|discriminate].
  destruct (hourMinute (SellerAvailability.endTime availability))
    as [[endHour endMinute]|] eqn:He; [|discriminate].
  intros [= <- <-]. exists availability, startHour, startMinute, endHour, endMinute.
  repeat split; auto.
Qed.

Lemma ceil30_ge m : m <= JsDate.ceil30 m.
Proof. unfold JsDate.ceil30. Z.div_mod_to_equations. lia. Qed.

(** On the day of the call, probing never starts before the clock. *)
Lemma firstProbe_not_before_now env currentDate startHour startMinute :
  JsDate.sameDateString currentDate (Env.now env) = true ->
  Env.now env <= firstProbe env currentDate startHour startMinute.
Proof.
  intros Hsame. unfold firstProbe. rewrite Hsame. cbn [andb].
  destruct (_ <? Env.now env) eqn:Hlt.
  - unfold JsDate.setMinutes, JsDate.MS_PER_MINUTE.
    pose proof (ceil30_ge (JsDate.getMinutes (Env.now env))). lia.
  - apply Z.ltb_ge in Hlt. exact Hlt.
Qed.

Lemma accepted_within sellerId durationMinutes currentDate dayEnd db slotStart :
  accepted sellerId durationMinutes currentDate dayEnd db slotStart = true ->
  slotStart + durationMinutes * 60000 <= dayEnd.
Proof. unfold accepted. rewrite andb_true_iff, Z.leb_le. tauto. Qed.

(** An accepted probe meets no appointment of the seller that is in a
    non-terminal status. *)
Lemma accepted_no_conflict sellerId durationMinutes currentDate dayEnd db slotStart :
  accepted sellerId durationMinutes currentDate dayEnd db slotStart = true ->
  ~ conflicting sellerId slotStart (slotStart + durationMinutes * 60000) db.
Proof.
  unfold accepted, availableAt. rewrite andb_true_iff, isSellerAvailable_unfold.
  cbn [fst]. intros [_ Havailable] (a & Hin & Hseller & Hstatus & Hoverlap).
  destruct (find _ (Db.sellerAvailability db)) as [availability|]; [|discriminate].
  destruct (negb (SellerAvailability.isAvailable availability)); [discriminate|].
  destruct (String.ltb _ _ || String.leb _ _); [discriminate|].
  destruct (find _ (Db.sellerTimeOff db)); [discriminate|].
  destruct (0 <? _)%nat eqn:Hcount; [discriminate|].
  assert (Hpos : (0 <? List.length
                     (filter (overlappingWhere sellerId slotStart
                                (slotStart + durationMinutes * 60000))
                             (Db.appointment db)))%nat = true).
  { apply filter_length_pos. exists a. split; [exact Hin|].
    now apply overlappingWhere_complete. }
  congruence.
Qed.

(** The slot [getNextAvailableSlot] returns is the first accepted probe,
    half hours apart from the day's first probe, of the first day from
    [fromDate] on which a probe is accepted. *)
Lemma getNextAvailableSlot_returned env serviceId fromDate daysAhead db slot :
  fst (AvailabilityService.getNextAvailableSlot env serviceId fromDate daysAhead db)
    = Ok (Returned slot) ->
  exists service d slotStart dayEnd k,
    find (fun s => String.eqb (Service.id s) serviceId) (Db.service db) = Some service
    /\ Slot.date slot = dayAt (JsDate.startOfDay fromDate) d
    /\ Slot.date slot <= fromDate + daysAhead * 24 * 60 * 60 * 1000
    /\ windowOf env (Seller.id (Service.seller service)) (Slot.date slot) db
       = Some (slotStart, dayEnd)
    /\ Slot.startTime slot = probe slotStart k
    /\ Slot.endTime slot = Slot.startTime slot + Service.durationMinutes service * 60000
    /\ accepted (Seller.id (Service.seller service)) (Service.durationMinutes service)
                (Slot.date slot) dayEnd db (Slot.startTime slot) = true
    /\ ~ conflicting (Seller.id (Service.seller service))
                     (Slot.startTime slot) (Slot.endTime slot) db
    /\ (forall j, (j < k)%nat ->
          accepted (Seller.id (Service.seller service)) (Service.durationMinutes service)
                   (Slot.date slot) dayEnd db (probe slotStart j) = false)
    /\ (forall d', (d' < d)%nat ->
          AvailabilityService.probeDay env (Seller.id (Service.seller service))
            (Service.durationMinutes service) (dayAt (JsDate.startOfDay fromDate) d') db
          = (Ok Fallthrough, db)).
Proof.
  rewrite getNextAvailableSlot_unfold.
  destruct (find _ (Db.service db)) as [service|]; [|discriminate].
  match goal with |- context [AvailabilityService.dayLoop ?f ?e ?s ?d ?en ?c db] =>
    destruct (dayLoop_pure f e s d en c db) as [r Hr] end.
  rewrite Hr. cbn [fst]. intros [= ->].
  apply dayLoop_returned in Hr as (d & Hd & Hday & Hbefore).
  rewrite probeDay_unfold in Hday.
  destruct (windowOf env _ (dayAt (JsDate.startOfDay fromDate) d) db)
    as [[slotStart dayEnd]|] eqn:Hwin; [|discriminate].
  apply probeLoop_returned in Hday as (k & -> & Hk & Hacc & Hfirst).
  exists service, d, slotStart, dayEnd, k. cbn [slotAt Slot.date Slot.startTime Slot.endTime].
  pose proof (accepted_no_conflict _ _ _ _ _ _ Hacc) as Hfree.
  repeat split; auto.
Qed.

(** A slot returned for the day of the call does not start before the
    clock time of the call. *)
Lemma getNextAvailableSlot_not_before_now env serviceId fromDate daysAhead db slot :
  fst (AvailabilityService.getNextAvailableSlot env serviceId fromDate daysAhead db)
    = Ok (Returned slot) ->
  JsDate.sameDateString (Slot.date slot) (Env.now env) = true ->
  Env.now env <= Slot.startTime slot.
Proof.
  intros H Hsame. apply getNextAvailableSlot_returned in H
    as (service & d & slotStart & dayEnd & k & _ & _ & _ & Hwin & Hstart & _).
  apply windowOf_some in Hwin as (_ & sh & sm & _ & _ & _ & _ & _ & _ & -> & _).
  rewrite Hstart.
  pose proof (firstProbe_not_before_now env (Slot.date slot) sh sm Hsame).
  pose proof (probe_mono (firstProbe env (Slot.date slot) sh sm) 0 k).
  rewrite probe_zero in *. lia.
Qed.

(** The slot found at 10:15:20.500 starts at 10:30:20.500, after the call. *)
Lemma getNextAvailableSlot_not_before_now_witness :
  Env.now Scenario.envLate <= Scenario.monday + 37820500.
Proof.
  apply (getNextAvailableSlot_not_before_now
           Scenario.envLate "service-1" (Env.now Scenario.envLate) 30 Scenario.db
           (Slot.mk Scenario.monday (Scenario.monday + 37820500)
                    (Scenario.monday + 41420500))).
  - reflexivity.
  - reflexivity.
Defined.

(** C9.  A call at 10:15:20.500 on a Monday whose window is 09:00-12:00
    returns the slot that starts at 10:30:20.500: only the minutes of the
    clock time were rounded, its seconds and milliseconds were kept, and
    the probe start is not on a 30-minute boundary. *)
Theorem getNextAvailableSlot_keeps_seconds :
  fst (AvailabilityService.getNextAvailableSlot
         Scenario.envLate "service-1" (Env.now Scenario.envLate) 30 Scenario.db)
  = Ok (Returned (Slot.mk Scenario.monday
                          (Scenario.monday + 37820500)
                          (Scenario.monday + 41420500)))
  /\ firstProbe Scenario.envLate Scenario.monday 9 0 = Scenario.monday + 37820500
  /\ (Scenario.monday + 37820500) mod (30 * 60000) = 20500.
Proof. repeat split; vm_compute; reflexivity. Qed.

(** ** Calendar arithmetic *)

Lemma startOfDay_aligned t : JsDate.startOfDay t mod JsDate.MS_PER_DAY = 0.
Proof.
  unfold JsDate.startOfDay, JsDate.MS_PER_DAY. Z.div_mod_to_equations. lia.
Qed.

Lemma startOfDay_le t : JsDate.startOfDay t <= t.
Proof.
  unfold JsDate.startOfDay, JsDate.MS_PER_DAY. Z.div_mod_to_equations. lia.
Qed.

Lemma startOfDay_fixed D : D mod JsDate.MS_PER_DAY = 0 -> JsDate.startOfDay D = D.
Proof. unfold JsDate.startOfDay. lia. Qed.

Lemma getDay_startOfDay t : JsDate.getDay (JsDate.startOfDay t) = JsDate.getDay t.
Proof.
  unfold JsDate.getDay, JsDate.startOfDay, JsDate.MS_PER_DAY.
  f_equal. f_equal. Z.div_mod_to_equations. lia.
Qed.

Lemma setHours_aligned D h m :
  D mod JsDate.MS_PER_DAY = 0 ->
  JsDate.setHours D h m 0 0 = D + h * 3600000 + m * 60000.
Proof.
  intros HD. unfold JsDate.setHours. rewrite (startOfDay_fixed D HD).
  unfold JsDate.MS_PER_HOUR, JsDate.MS_PER_MINUTE. lia.
Qed.

Lemma toTimeStringHM_aligned D c :
  D mod JsDate.MS_PER_DAY = 0 ->
  JsDate.toTimeStringHM (D + c) = JsDate.toTimeStringHM c.
Proof.
  intros HD. unfold JsDate.toTimeStringHM, JsDate.getHours, JsDate.getMinutes.
  assert (H1 : (D + c) mod JsDate.MS_PER_DAY = c mod JsDate.MS_PER_DAY).
  { unfold JsDate.MS_PER_DAY in *. Z.div_mod_to_equations. lia. }
  assert (H2 : (D + c) mod JsDate.MS_PER_HOUR = c mod JsDate.MS_PER_HOUR).
  { unfold JsDate.MS_PER_DAY, JsDate.MS_PER_HOUR in *. Z.div_mod_to_equations. lia. }
  now rewrite H1, H2.
Qed.

(** ** A seller open on Mondays from 09:00 to 12:00 *)

Ltac decide_cmp :=
  rewrite ?Z.gtb_ltb, ?Z.geb_leb;
  repeat match goal with
         | |- context [?x <=? ?y] =>
             first [ rewrite (proj2 (Z.leb_le x y)) by lia
                   | rewrite (proj2 (Z.leb_gt x y)) by lia ]
         | |- context [?x <? ?y] =>
             first [ rewrite (proj2 (Z.ltb_lt x y)) by lia
                   | rewrite (proj2 (Z.ltb_ge x y)) by lia ]
         end.

Section MondayMorning.

Variable db : Db.t.
Variable sellerId : string.
Variable D : Z.

Hypothesis D_aligned : D mod JsDate.MS_PER_DAY = 0.
Hypothesis D_monday : JsDate.getDay D = 1.
Hypothesis monday_row :
  exists row,
    find (fun r => String.eqb (SellerAvailability.sellerId r) sellerId
                   && (SellerAvailability.dayOfWeek r =? 1))
         (Db.sellerAvailability db) = Some row
    /\ SellerAvailability.startTime row = "09:00"
    /\ SellerAvailability.endTime row = "12:00"
    /\ SellerAvailability.isAvailable row = true.
Hypothesis no_time_off :
  forall r, In r (Db.sellerTimeOff db) -> SellerTimeOff.sellerId r <> sellerId.

Lemma monday_no_time_off date :
  find (fun r => String.eqb (SellerTimeOff.sellerId r) sellerId
                 && Bool.eqb (SellerTimeOff.isActive r) true
                 && (SellerTimeOff.startDate r <=? date)
                 && (SellerTimeOff.endDate r >=? date))
       (Db.sellerTimeOff db) = None.
Proof.
  apply find_none_of_all_false. intros r Hin.
  destruct (String.eqb_spec (SellerTimeOff.sellerId r) sellerId) as [E|E]; [|reflexivity].
  exfalso. exact (no_time_off r Hin E).
Qed.

(** Called no later than 09:00 that Monday, the scan probes the Monday
    from 09:00 and up to 12:00. *)
Lemma monday_window env :
  Env.now env <= D + 32400000 ->
  windowOf env sellerId D db = Some (D + 32400000, D + 43200000).
Proof.
  intros Hnow. unfold windowOf. rewrite D_monday.
  destruct monday_row as (row & -> & Hstart & Hend & ->). cbn [negb].
  rewrite monday_no_time_off, Hstart, Hend.
  change (hourMinute "09:00") with (Some (9, 0)).
  change (hourMinute "12:00") with (Some (12, 0)).
  unfold firstProbe. rewrite !setHours_aligned by exact D_aligned.
  replace (D + 9 * 3600000 + 0 * 60000 <? Env.now env) with false
    by (symmetry; apply Z.ltb_ge; lia).
  rewrite andb_false_r. f_equal. f_equal; lia.
Qed.

(** A one-hour probe at offset [c] into that Monday, within opening
    hours, is accepted exactly when no appointment matches the overlap
    count. *)
Lemma monday_accepted c :
  c + 3600000 <= 43200000 ->
  String.ltb (JsDate.toTimeStringHM c) "09:00" = false ->
  String.leb "12:00" (JsDate.toTimeStringHM c) = false ->
  accepted sellerId 60 D (D + 43200000) db (D + c)
  = Nat.eqb (List.length (filter (overlappingWhere sellerId (D + c) (D + c + 3600000))
                                 (Db.appointment db))) 0.
Proof.
  intros Hfit Hafter Hbefore. unfold accepted, availableAt.
  rewrite isSellerAvailable_unfold. cbn [fst]. rewrite D_monday.
  destruct monday_row as (row & -> & -> & -> & ->). cbn [negb].
  rewrite (toTimeStringHM_aligned D c D_aligned), Hafter, Hbefore. cbn [orb].
  rewrite monday_no_time_off.
  change (60 * 60000) with 3600000.
  replace (D + c + 3600000 <=? D + 43200000) with true
    by (symmetry; apply Z.leb_le; lia).
  cbn [andb].
  destruct (List.length _); reflexivity.
Qed.

End MondayMorning.

Lemma createAppointment_commits env buyerId data db :
  isOk (fst (AppointmentService.createAppointment env buyerId data db)) = true ->
  exists service,
    find (fun s => String.eqb (Service.id s) (AppointmentCreateData.serviceId data)
                   && Bool.eqb (Service.isActive s) true) (Db.service db) = Some service
    /\ snd (AppointmentService.createAppointment env buyerId data db)
       = afterCreate env buyerId data service db.
Proof.
  rewrite createAppointment_unfold.
  destruct (find _ (Db.service db)) as [service|]; [|discriminate].
  destruct (negb (Seller.isApproved _)); [discriminate|].
  destruct (negb (_ =? _)); [discriminate|].
  destruct (negb (Nat.eqb _ 0)); [discriminate|].
  destruct (Env.writeFails env 0); [discriminate|].
  destruct (existsb (fun a => String.eqb (Appointment.id a) _) _); [discriminate|].
  destruct (existsb (fun a => String.eqb (Appointment.appointmentNumber a) _) _);
    [discriminate|].
  destruct (Env.writeFails env 1); [discriminate|].
  intros _. exists service. split; reflexivity.
Qed.

Lemma no_appointments_of sellerId startTime endTime appointments :
  (forall a, In a appointments -> Appointment.sellerId a <> sellerId) ->
  filter (overlappingWhere sellerId startTime endTime) appointments = [].
Proof.
  intros H. apply filter_none. intros a Hin. unfold overlappingWhere.
  destruct (String.eqb_spec (Appointment.sellerId a) sellerId) as [E|E]; [|reflexivity].
  exfalso. exact (H a Hin E).
Qed.

Lemma threeClauses_overlapb a b c d :
  a < b -> c < d ->
  ((c <=? a) && (d >? a) || (c <? b) && (d >=? b) || (c >=? a) && (d <=? b))
  = ((a <? d) && (c <? b)).
Proof.
  intros Hab Hcd. apply eq_true_iff_eq.
  rewrite (andb_true_iff (a <? d)), !Z.ltb_lt. split.
  - now apply threeClauses_sound.
  - now apply threeClauses_complete.
Qed.

(** Called no later than 09:00 on a Monday, for a one-hour service of a
    seller open that day from 09:00 to 12:00 and not on time off, the
    scan returns the first accepted half-hour probe of that Monday. *)
Lemma monday_search env serviceId fromDate daysAhead db service k :
  find (fun s => String.eqb (Service.id s) serviceId) (Db.service db) = Some service ->
  Service.durationMinutes service = 60 ->
  JsDate.getDay fromDate = 1 ->
  0 <= daysAhead ->
  Env.now env <= JsDate.startOfDay fromDate + 32400000 ->
  (exists row,
     find (fun r => String.eqb (SellerAvailability.sellerId r)
                                (Seller.id (Service.seller service))
                    && (SellerAvailability.dayOfWeek r =? 1))
          (Db.sellerAvailability db) = Some row
     /\ SellerAvailability.startTime row = "09:00"
     /\ SellerAvailability.endTime row = "12:00"
     /\ SellerAvailability.isAvailable row = true) ->
  (forall r, In r (Db.sellerTimeOff db) ->
             SellerTimeOff.sellerId r <> Seller.id (Service.seller service)) ->
  (k < 6)%nat ->
  accepted (Seller.id (Service.seller service)) 60 (JsDate.startOfDay fromDate)
           (JsDate.startOfDay fromDate + 43200000) db
           (probe (JsDate.startOfDay fromDate + 32400000) k) = true ->
  (forall j, (j < k)%nat ->
     accepted (Seller.id (Service.seller service)) 60 (JsDate.startOfDay fromDate)
              (JsDate.startOfDay fromDate + 43200000) db
              (probe (JsDate.startOfDay fromDate + 32400000) j) = false) ->
  AvailabilityService.getNextAvailableSlot env serviceId fromDate daysAhead db
  = (Ok (Returned (slotAt 60 (JsDate.startOfDay fromDate)
                          (probe (JsDate.startOfDay fromDate + 32400000) k))), db).
Proof.
  intros Hservice Hduration Hmonday Hahead Hnow Hrow Hoff Hk Hacc Hbefore.
  rewrite getNextAvailableSlot_unfold, Hservice, Hduration.
  set (D := JsDate.startOfDay fromDate) in *.
  assert (HD : D mod JsDate.MS_PER_DAY = 0) by apply startOfDay_aligned.
  assert (HDmon : JsDate.getDay D = 1) by (subst D; now rewrite getDay_startOfDay).
  apply dayLoop_first with (d := 0%nat).
  - unfold AvailabilityService.dayFuel. lia.
  - rewrite dayAt_zero. pose proof (startOfDay_le fromDate). subst D. lia.
  - rewrite dayAt_zero, probeDay_unfold.
    rewrite (monday_window db _ D HD HDmon Hrow Hoff env Hnow).
    apply probeLoop_first; auto.
    + unfold AvailabilityService.probeFuel.
      replace (D + 43200000 - (D + 32400000)) with 10800000 by lia.
      change (Z.to_nat (10800000 / (30 * 60000))) with 6%nat. lia.
    + unfold probe. lia.
  - intros d' Hd'. lia.
Qed.

(** ** The slot grid of a day *)

Lemma slotLoop_terminates sellerId durationMinutes intervalMinutes endTime db :
  0 < intervalMinutes ->
  forall fuel currentTime slots,
    (endTime - currentTime) / (intervalMinutes * 60000) < Z.of_nat fuel ->
    AppointmentService.slotLoop fuel sellerId durationMinutes intervalMinutes endTime
                                currentTime slots db <> (Ok None, db).
Proof.
  intros Hpos. induction fuel as [|fuel IH]; intros currentTime slots Hfuel; simpl.
  - destruct (currentTime <? endTime) eqn:Hlt; [|discriminate].
    apply Z.ltb_lt in Hlt. exfalso.
    assert (0 <= (endTime - currentTime) / (intervalMinutes * 60000))
      by (apply Z.div_pos; lia).
    change (Z.of_nat 0) with 0 in Hfuel. lia.
  - destruct (currentTime <? endTime); [|discriminate].
    assert (Hnext : (endTime - (currentTime + intervalMinutes * 60000))
                    / (intervalMinutes * 60000) < Z.of_nat fuel).
    { replace (endTime - (currentTime + intervalMinutes * 60000))
        with (endTime - currentTime + (-1) * (intervalMinutes * 60000)) by lia.
      rewrite Z.div_add by lia. lia. }
    unfold bind at 1.
    destruct (currentTime + durationMinutes * 60000 <=? endTime).
    + unfold bind at 1. rewrite checkTimeSlotAvailability_unfold.
      unfold ret at 1. now apply IH.
    + unfold ret at 1. now apply IH.
Qed.

Lemma availabilityLoop_terminates sellerId durationMinutes intervalMinutes date db :
  0 < intervalMinutes ->
  forall availability slots,
    AppointmentService.availabilityLoop sellerId durationMinutes intervalMinutes date
                                        availability slots db <> (Ok None, db).
Proof.
  intros Hpos. induction availability as [|row rest IH]; intros slots; simpl.
  - discriminate.
  - unfold bind at 1.
    destruct (hourMinute (SellerAvailability.startTime row)) as [[startHour startMinute]|];
      [|unfold ret at 1; apply IH].
    destruct (hourMinute (SellerAvailability.endTime row)) as [[endHour endMinute]|];
      [|unfold ret at 1; apply IH].
    match goal with |- context [AppointmentService.slotLoop ?f ?s ?d ?i ?e ?c ?sl db] =>
      destruct (slotLoop_pure f s d i e c sl db) as [r Hr];
      pose proof (slotLoop_terminates s d i e db Hpos f c sl) as Hne
    end.
    rewrite Hr in *. destruct r as [slots'|]; [apply IH|].
    exfalso. apply Hne; [|reflexivity].
    unfold AppointmentService.slotLoopFuel.
    replace (0 <? intervalMinutes) with true by (symmetry; apply Z.ltb_lt; lia). lia.
Qed.



(** ** Hours written without a leading zero *)

(** [isSellerAvailable] compares "HH:MM" strings.  Against a window that
    opens at "8:00" every probe, "08:00" included, sorts before the
    opening and is refused, so nothing is found that week although the
    08:00-09:00 probe fits the window and nothing is booked. *)
Lemma unpadded_opening_refuses_every_probe :
  fst (AvailabilityService.isSellerAvailable
         "seller-1" Scenario.monday (Scenario.monday + Scenario.hours 8)
         (Scenario.monday + Scenario.hours 9) Scenario.dbUnpadded)
  = Ok (Availability.mk false (Some "Time is outside seller's available hours"))
  /\ windowOf Scenario.env "seller-1" Scenario.monday Scenario.dbUnpadded
     = Some (Scenario.monday + Scenario.hours 8, Scenario.monday + 34200000)
  /\ fst (AvailabilityService.getNextAvailableSlot
            Scenario.env "service-1" Scenario.monday 6 Scenario.dbUnpadded)
     = Ok Fallthrough.
Proof. repeat split; vm_compute; reflexivity. Qed.

(** ** The weekly availability table *)

Lemma upsert_unfold env n sellerId dayOfWeek startTime endTime isAvailable db :
  Env.writeFails env n = false ->
  Prisma.sellerAvailability_upsert env n sellerId dayOfWeek startTime endTime isAvailable db
  = (Ok (SellerAvailability.mk sellerId dayOfWeek startTime endTime isAvailable),
     Db.setSellerAvailability db
       (match availabilityOf db sellerId dayOfWeek with
        | Some _ =>
            map (fun r => if String.eqb (SellerAvailability.sellerId r) sellerId
                             && (SellerAvailability.dayOfWeek r =? dayOfWeek)
                          then SellerAvailability.mk sellerId dayOfWeek
                                                     startTime endTime isAvailable
                          else r)
                (Db.sellerAvailability db)
        | None =>
            (Db.sellerAvailability db
             ++ [SellerAvailability.mk sellerId dayOfWeek startTime endTime isAvailable])%list
        end)).
Proof.
  intros Hw. unfold Prisma.sellerAvailability_upsert, availabilityOf. rewrite Hw.
  destruct (find _ (Db.sellerAvailability db)) as [existing|] eqn:Hfind; [|reflexivity].
  apply find_some in Hfind as [_ Hkey].
  apply andb_true_iff in Hkey as [Hs Hd].
  apply String.eqb_eq in Hs. apply Z.eqb_eq in Hd. rewrite Hs, Hd.
  f_equal. f_equal. apply map_ext. intros r.
  destruct (String.eqb_spec (SellerAvailability.sellerId r) sellerId) as [->|]; [|reflexivity].
  destruct (Z.eqb_spec (SellerAvailability.dayOfWeek r) dayOfWeek) as [->|]; reflexivity.
Qed.

Lemma find_map_same {A : Type} (p : A -> bool) (f : A -> A) (l : list A) :
  (forall x, p (f x) = p x) -> find p (map f l) = option_map f (find p l).
Proof.
  intros Hp. induction l as [|x l IH]; simpl; [reflexivity|].
  rewrite Hp. destruct (p x); [reflexivity | exact IH].
Qed.

Lemma find_app_last {A : Type} (p : A -> bool) (l : list A) (x : A) :
  find p (l ++ [x])%list
  = match find p l with
    | Some y => Some y
    | None => if p x then Some x else None
    end.
Proof.
  induction l as [|y l IH]; simpl; [reflexivity|].
  destruct (p y); [reflexivity | exact IH].
Qed.

Lemma dayKey_sym s d sellerId dayOfWeek :
  (String.eqb sellerId s && (dayOfWeek =? d)) = (String.eqb s sellerId && (d =? dayOfWeek)).
Proof. now rewrite String.eqb_sym, Z.eqb_sym. Qed.

(** What a lookup on the unique index finds after an upsert that the
    datastore took. *)
Lemma availabilityOf_upsert env n sellerId dayOfWeek startTime endTime isAvailable db s d :
  Env.writeFails env n = false ->
  availabilityOf
    (snd (Prisma.sellerAvailability_upsert env n sellerId dayOfWeek
            startTime endTime isAvailable db)) s d
  = if String.eqb s sellerId && (d =? dayOfWeek)
    then Some (SellerAvailability.mk sellerId dayOfWeek startTime endTime isAvailable)
    else availabilityOf db s d.
Proof.
  intros Hw. rewrite (upsert_unfold _ _ _ _ _ _ _ _ Hw). cbn [snd].
  unfold availabilityOf at 1. cbn [Db.setSellerAvailability Db.sellerAvailability].
  destruct (availabilityOf db sellerId dayOfWeek) as [existing|] eqn:Hold.
  - rewrite find_map_same.
    + fold (availabilityOf db s d).
      destruct (String.eqb_spec s sellerId) as [->|Hs].
      * destruct (Z.eqb_spec d dayOfWeek) as [->|Hd]; cbn [andb].
        -- rewrite Hold. cbn [option_map].
           unfold availabilityOf in Hold. apply find_some in Hold as [_ ->]. reflexivity.
        -- destruct (availabilityOf db sellerId d) as [r|] eqn:Hr; [|reflexivity].
           cbn [option_map]. unfold availabilityOf in Hr. apply find_some in Hr as [_ Hr].
           apply andb_true_iff in Hr as [_ Hr]. apply Z.eqb_eq in Hr.
           replace (SellerAvailability.dayOfWeek r =? dayOfWeek) with false
             by (symmetry; apply Z.eqb_neq; congruence).
           now rewrite andb_false_r.
      * cbn [andb].
        destruct (availabilityOf db s d) as [r|] eqn:Hr; [|reflexivity].
        cbn [option_map]. unfold availabilityOf in Hr. apply find_some in Hr as [_ Hr].
        apply andb_true_iff in Hr as [Hr _]. apply String.eqb_eq in Hr.
        replace (String.eqb (SellerAvailability.sellerId r) sellerId) with false
          by (symmetry; apply String.eqb_neq; congruence).
        reflexivity.
    + intros r. cbv beta.
      destruct (String.eqb (SellerAvailability.sellerId r) sellerId) eqn:Hs; [|reflexivity].
      destruct (SellerAvailability.dayOfWeek r =? dayOfWeek) eqn:Hd; [|reflexivity].
      cbn [andb SellerAvailability.sellerId SellerAvailability.dayOfWeek].
      apply String.eqb_eq in Hs. apply Z.eqb_eq in Hd. now rewrite Hs, Hd.
  - rewrite find_app_last. fold (availabilityOf db s d).
    cbn [SellerAvailability.sellerId SellerAvailability.dayOfWeek].
    rewrite dayKey_sym.
    destruct (String.eqb_spec s sellerId) as [->|Hs]; cbn [andb].
    + destruct (Z.eqb_spec d dayOfWeek) as [->|Hd].
      * now rewrite Hold.
      * now destruct (availabilityOf db sellerId d).
    + now destruct (availabilityOf db s d).
Qed.

Lemma upsert_rejected env n sellerId dayOfWeek startTime endTime isAvailable db :
  Env.writeFails env n = true ->
  Prisma.sellerAvailability_upsert env n sellerId dayOfWeek startTime endTime isAvailable db
  = (Throw "The datastore rejected the write", db).
Proof. intros Hw. unfold Prisma.sellerAvailability_upsert. now rewrite Hw. Qed.

Lemma upsert_frame env n sellerId dayOfWeek startTime endTime isAvailable db :
  let db' := snd (Prisma.sellerAvailability_upsert env n sellerId dayOfWeek
                    startTime endTime isAvailable db) in
  Db.service db' = Db.service db
  /\ Db.appointment db' = Db.appointment db
  /\ Db.appointmentStatusHistory db' = Db.appointmentStatusHistory db
  /\ Db.sellerTimeOff db' = Db.sellerTimeOff db.
Proof.
  unfold Prisma.sellerAvailability_upsert.
  destruct (Env.writeFails env n); [cbn; auto|].
  destruct (find _ (Db.sellerAvailability db)); cbn; auto.
Qed.

(** X5.  [setSellerAvailability] followed by a lookup: when the datastore
    takes the write, the call returns the row with the values given, the
    lookup of that seller and weekday (the one [isSellerAvailable] and
    [getNextAvailableSlot] make) finds exactly that row, whether a row for
    the day existed or not, every other seller and weekday reads as
    before, and no other table changes. *)
Theorem setSellerAvailability_then_lookup
    env sellerId dayOfWeek startTime endTime isAvailable db :
  Env.writeFails env 0 = false ->
  let row := SellerAvailability.mk sellerId dayOfWeek startTime endTime isAvailable in
  let db' := snd (AvailabilityService.setSellerAvailability
                    env sellerId dayOfWeek startTime endTime isAvailable db) in
  fst (AvailabilityService.setSellerAvailability
         env sellerId dayOfWeek startTime endTime isAvailable db) = Ok row
  /\ Prisma.sellerAvailability_findUnique sellerId dayOfWeek db' = (Ok (Some row), db')
  /\ (forall s d, s <> sellerId \/ d <> dayOfWeek ->
        fst (Prisma.sellerAvailability_findUnique s d db')
        = fst (Prisma.sellerAvailability_findUnique s d db))
  /\ Db.service db' = Db.service db
  /\ Db.appointment db' = Db.appointment db
  /\ Db.appointmentStatusHistory db' = Db.appointmentStatusHistory db
  /\ Db.sellerTimeOff db' = Db.sellerTimeOff db.
Proof.
  intros Hw row db'. unfold AvailabilityService.setSellerAvailability in *.
  split; [now rewrite (upsert_unfold _ _ _ _ _ _ _ _ Hw)|].
  split.
  { unfold Prisma.sellerAvailability_findUnique, query. f_equal. f_equal.
    fold (availabilityOf db' sellerId dayOfWeek). subst db'.
    rewrite (availabilityOf_upsert _ _ _ _ _ _ _ _ _ _ Hw).
    now rewrite String.eqb_refl, Z.eqb_refl. }
  split.
  { intros s d Hne. unfold Prisma.sellerAvailability_findUnique, query. cbn [fst].
    f_equal. fold (availabilityOf db' s d). fold (availabilityOf db s d). subst db'.
    rewrite (availabilityOf_upsert _ _ _ _ _ _ _ _ _ _ Hw).
    destruct (String.eqb_spec s sellerId) as [->|]; [|reflexivity].
    destruct (Z.eqb_spec d dayOfWeek) as [->|]; [|reflexivity].
    destruct Hne; congruence. }
  apply upsert_frame.
Qed.

(** *** The unique index *)

Lemma upsert_keeps_unique env n sellerId dayOfWeek startTime endTime isAvailable db :
  UniqueDays (Db.sellerAvailability db) ->
  UniqueDays (Db.sellerAvailability
                (snd (Prisma.sellerAvailability_upsert env n sellerId dayOfWeek
                        startTime endTime isAvailable db))).
Proof.
  intros Huniq. destruct (Env.writeFails env n) eqn:Hw.
  - now rewrite (upsert_rejected _ _ _ _ _ _ _ _ Hw).
  - rewrite (upsert_unfold _ _ _ _ _ _ _ _ Hw). cbn [snd Db.setSellerAvailability
      Db.sellerAvailability].
    destruct (availabilityOf db sellerId dayOfWeek) eqn:Hold; unfold UniqueDays in *.
    + rewrite map_map.
      erewrite map_ext; [exact Huniq|]. intros r. cbv beta.
      destruct (String.eqb (SellerAvailability.sellerId r) sellerId) eqn:Hs; [|reflexivity].
      destruct (SellerAvailability.dayOfWeek r =? dayOfWeek) eqn:Hd; [|reflexivity].
      cbn [andb SellerAvailability.sellerId SellerAvailability.dayOfWeek].
      apply String.eqb_eq in Hs. apply Z.eqb_eq in Hd. now rewrite Hs, Hd.
    + rewrite map_app. cbn [map SellerAvailability.sellerId SellerAvailability.dayOfWeek].
      apply NoDup_app_remove_l with (l := []). cbn [app].
      apply NoDup_rev in Huniq. rewrite <- (rev_involutive (_ ++ _)).
      apply NoDup_rev. rewrite rev_app_distr. cbn [rev app].
      constructor; [|exact Huniq].
      rewrite <- in_rev, in_map_iff. intros (r & Hkey & Hin).
      unfold availabilityOf in Hold.
      pose proof (find_none _ _ Hold r Hin) as Hr. cbv beta in Hr.
      injection Hkey as Hs Hd. rewrite Hs, Hd, String.eqb_refl, Z.eqb_refl in Hr.
      discriminate Hr.
Qed.

Lemma promiseAll_invariant {A : Type} (P : Db.t -> Prop) (calls : list (M A)) :
  (forall call db, In call calls -> P db -> P (snd (call db))) ->
  forall db, P db -> P (snd (Prisma.promiseAll calls db)).
Proof.
  induction calls as [|call rest IH]; intros Hcalls db Hdb; [exact Hdb|].
  cbn [Prisma.promiseAll].
  assert (Hfirst : P (snd (call db))) by (apply Hcalls; [now left | exact Hdb]).
  assert (Hrest : forall db', P db' -> P (snd (Prisma.promiseAll rest db'))).
  { apply IH. intros c db' Hin. apply Hcalls. now right. }
  destruct (call db) as [[a|e] db'] eqn:Hcall; cbn [snd] in Hfirst.
  - specialize (Hrest db' Hfirst).
    destruct (Prisma.promiseAll rest db') as [[values|e] db'']; exact Hrest.
  - cbn [snd]. now apply Hrest.
Qed.

(** X6.  The unique index on (seller, weekday) is kept by both writers of
    the availability table, whatever the datastore does with each write:
    after [setSellerAvailability] and after [setWeeklyAvailability], of any
    schedule, no seller has two rows for one weekday. *)
Theorem availability_writers_keep_one_row_per_day env sellerId db :
  UniqueDays (Db.sellerAvailability db) ->
  (forall dayOfWeek startTime endTime isAvailable,
     UniqueDays (Db.sellerAvailability
                   (snd (AvailabilityService.setSellerAvailability
                           env sellerId dayOfWeek startTime endTime isAvailable db))))
  /\ (forall weeklySchedule,
        UniqueDays (Db.sellerAvailability
                      (snd (AvailabilityService.setWeeklyAvailability
                              env sellerId weeklySchedule db)))).
Proof.
  intros Huniq. split.
  - intros. now apply upsert_keeps_unique.
  - intros weeklySchedule. unfold AvailabilityService.setWeeklyAvailability.
    apply (promiseAll_invariant (fun db => UniqueDays (Db.sellerAvailability db)));
      [|exact Huniq].
    intros call db0 Hin Hdb0. apply in_map_iff in Hin as ([k schedule] & <- & _).
    now apply upsert_keeps_unique.
Qed.

Lemma filter_unique_key (rows : list SellerAvailability.t) sellerId dayOfWeek :
  UniqueDays rows ->
  filter (fun r => String.eqb (SellerAvailability.sellerId r) sellerId
                   && (SellerAvailability.dayOfWeek r =? dayOfWeek)) rows
  = match find (fun r => String.eqb (SellerAvailability.sellerId r) sellerId
                         && (SellerAvailability.dayOfWeek r =? dayOfWeek)) rows with
    | Some row => [row]
    | None => []
    end.
Proof.
  unfold UniqueDays. induction rows as [|r rows IH]; cbn [filter find map];
    [reflexivity|].
  intros Huniq. inversion Huniq as [|k ks Hnotin Hrest]; subst.
  destruct (String.eqb (SellerAvailability.sellerId r) sellerId
            && (SellerAvailability.dayOfWeek r =? dayOfWeek)) eqn:Hkey.
  - f_equal. apply filter_none. intros r' Hin.
    destruct (String.eqb (SellerAvailability.sellerId r') sellerId
              && (SellerAvailability.dayOfWeek r' =? dayOfWeek)) eqn:Hkey';
      [|reflexivity].
    exfalso. apply Hnotin. apply in_map_iff. exists r'. split; [|exact Hin].
    apply andb_true_iff in Hkey as [Hs Hd]. apply andb_true_iff in Hkey' as [Hs' Hd'].
    apply String.eqb_eq in Hs, Hs'. apply Z.eqb_eq in Hd, Hd'. congruence.
  - now apply IH.
Qed.

(** X7.  Under the unique index the two services read the availability of
    a seller's weekday alike: [getSellerAvailabilityForDay], which
    [getAvailableTimeSlots] and [createAppointment] use, returns the one
    row that the lookup of [isSellerAvailable] and [getNextAvailableSlot]
    finds when that row is marked available, and no row otherwise; so it
    never returns two rows. *)
Theorem availability_readers_agree db sellerId dayOfWeek :
  UniqueDays (Db.sellerAvailability db) ->
  AppointmentService.getSellerAvailabilityForDay sellerId dayOfWeek db
  = (Ok match fst (Prisma.sellerAvailability_findUnique sellerId dayOfWeek db) with
        | Ok (Some row) => if SellerAvailability.isAvailable row then [row] else []
        | _ => []
        end, db).
Proof.
  intros Huniq.
  unfold AppointmentService.getSellerAvailabilityForDay, Prisma.sellerAvailability_findMany,
    Prisma.sellerAvailability_findUnique, query. cbn [fst]. f_equal. f_equal.
  assert (Hsplit : forall rows,
    filter (fun r => String.eqb (SellerAvailability.sellerId r) sellerId
                     && (SellerAvailability.dayOfWeek r =? dayOfWeek)
                     && Bool.eqb (SellerAvailability.isAvailable r) true) rows
    = filter (fun r => SellerAvailability.isAvailable r)
        (filter (fun r => String.eqb (SellerAvailability.sellerId r) sellerId
                          && (SellerAvailability.dayOfWeek r =? dayOfWeek)) rows)).
  { induction rows as [|r rows IH]; cbn [filter]; [reflexivity|].
    destruct (String.eqb (SellerAvailability.sellerId r) sellerId
              && (SellerAvailability.dayOfWeek r =? dayOfWeek)); cbn [andb filter];
      [|exact IH].
    destruct (SellerAvailability.isAvailable r); cbn [Bool.eqb]; now rewrite IH. }
  rewrite Hsplit, (filter_unique_key _ sellerId dayOfWeek Huniq).
  destruct (find _ (Db.sellerAvailability db)) as [row|]; [|reflexivity].
  cbn [filter]. destruct (SellerAvailability.isAvailable row); reflexivity.
Qed.

(** *** A weekly schedule, entry by entry *)

Lemma promiseAll_cons {A : Type} (call : M A) (rest : list (M A)) db :
  snd (Prisma.promiseAll (call :: rest) db)
  = snd (Prisma.promiseAll rest (snd (call db)))
  /\ fst (Prisma.promiseAll (call :: rest) db)
     = match fst (call db), fst (Prisma.promiseAll rest (snd (call db))) with
       | Ok a, Ok values => Ok (a :: values)
       | Ok _, Throw e => Throw e
       | Throw e, _ => Throw e
       end.
Proof.
  cbn [Prisma.promiseAll].
  destruct (call db) as [[a|e] db']; cbn [fst snd].
  - destruct (Prisma.promiseAll rest db') as [[values|e] db'']; split; reflexivity.
  - split; reflexivity.
Qed.

Lemma availabilityOf_set env sellerId dayOfWeek startTime endTime isAvailable db s d :
  availabilityOf
    (snd (AvailabilityService.setSellerAvailability
            env sellerId dayOfWeek startTime endTime isAvailable db)) s d
  = if negb (Env.writeFails env 0) && (String.eqb s sellerId && (d =? dayOfWeek))
    then Some (SellerAvailability.mk sellerId dayOfWeek startTime endTime isAvailable)
    else availabilityOf db s d.
Proof.
  unfold AvailabilityService.setSellerAvailability.
  destruct (Env.writeFails env 0) eqn:Hw; cbn [negb andb].
  - now rewrite (upsert_rejected _ _ _ _ _ _ _ _ Hw).
  - now apply availabilityOf_upsert.
Qed.

Lemma setSellerAvailability_result env sellerId dayOfWeek startTime endTime isAvailable db :
  fst (AvailabilityService.setSellerAvailability
         env sellerId dayOfWeek startTime endTime isAvailable db)
  = if Env.writeFails env 0 then Throw "The datastore rejected the write"
    else Ok (SellerAvailability.mk sellerId dayOfWeek startTime endTime isAvailable).
Proof.
  unfold AvailabilityService.setSellerAvailability.
  destruct (Env.writeFails env 0) eqn:Hw.
  - now rewrite (upsert_rejected _ _ _ _ _ _ _ _ Hw).
  - now rewrite (upsert_unfold _ _ _ _ _ _ _ _ Hw).
Qed.

Lemma weekly_effect env sellerId (weeklySchedule : list DaySchedule.t) :
  NoDup (map DaySchedule.dayOfWeek weeklySchedule) ->
  forall k0 db,
    let calls :=
      map (fun entry : nat * DaySchedule.t =>
             let (k, schedule) := entry in
             AvailabilityService.setSellerAvailability (Env.shift env k) sellerId
               (DaySchedule.dayOfWeek schedule) (DaySchedule.startTime schedule)
               (DaySchedule.endTime schedule) (DaySchedule.isAvailable schedule))
          (combine (seq k0 (List.length weeklySchedule)) weeklySchedule) in
    let db' := snd (Prisma.promiseAll calls db) in
    (forall i schedule,
       nth_error weeklySchedule i = Some schedule ->
       availabilityOf db' sellerId (DaySchedule.dayOfWeek schedule)
       = if Env.writeFails env (k0 + i)
         then availabilityOf db sellerId (DaySchedule.dayOfWeek schedule)
         else Some (scheduledRow sellerId schedule))
    /\ (forall s d,
          s <> sellerId \/ ~ In d (map DaySchedule.dayOfWeek weeklySchedule) ->
          availabilityOf db' s d = availabilityOf db s d)
    /\ ((forall i, (i < List.length weeklySchedule)%nat ->
           Env.writeFails env (k0 + i) = false) ->
        fst (Prisma.promiseAll calls db) = Ok (map (scheduledRow sellerId) weeklySchedule))
    /\ (forall i, (i < List.length weeklySchedule)%nat ->
          Env.writeFails env (k0 + i) = true ->
          fst (Prisma.promiseAll calls db) = Throw "The datastore rejected the write").
Proof.
  induction weeklySchedule as [|schedule rest IH]; intros Hdays k0 db; cbv zeta.
  - cbn. repeat split; intros; try reflexivity; try lia.
    destruct i; discriminate.
  - inversion Hdays as [|d ds Hfresh Hrest]; subst.
    cbn [List.length seq combine map].
    set (call := AvailabilityService.setSellerAvailability (Env.shift env k0) sellerId
                   (DaySchedule.dayOfWeek schedule) (DaySchedule.startTime schedule)
                   (DaySchedule.endTime schedule) (DaySchedule.isAvailable schedule)).
    match goal with |- context [Prisma.promiseAll (call :: ?r) db] => set (others := r) end.
    destruct (promiseAll_cons call others db) as [Hsnd Hfst]. rewrite Hsnd, Hfst.
    specialize (IH Hrest (S k0) (snd (call db))). cbv zeta in IH. fold others in IH.
    destruct IH as (IHeach & IHframe & IHok & IHthrow).
    assert (Hfirst : forall s d,
      availabilityOf (snd (call db)) s d
      = if negb (Env.writeFails env k0)
           && (String.eqb s sellerId && (d =? DaySchedule.dayOfWeek schedule))
        then Some (scheduledRow sellerId schedule)
        else availabilityOf db s d).
    { intros s d. subst call. rewrite availabilityOf_set.
      cbn [Env.shift Env.writeFails]. now rewrite Nat.add_0_r. }
    assert (Hres : fst (call db)
                   = if Env.writeFails env k0 then Throw "The datastore rejected the write"
                     else Ok (scheduledRow sellerId schedule)).
    { subst call. rewrite setSellerAvailability_result.
      cbn [Env.shift Env.writeFails]. now rewrite Nat.add_0_r. }
    repeat split.
    + intros [|i] sch Hnth; cbn [nth_error] in Hnth.
      * injection Hnth as <-. rewrite Nat.add_0_r, IHframe by (right; exact Hfresh).
        rewrite Hfirst, String.eqb_refl, Z.eqb_refl.
        now destruct (Env.writeFails env k0).
      * rewrite (IHeach i sch Hnth), Nat.add_succ_r. cbn [Nat.add].
        destruct (Env.writeFails env (S (k0 + i))); [|reflexivity].
        rewrite Hfirst.
        assert (Hne : DaySchedule.dayOfWeek sch <> DaySchedule.dayOfWeek schedule).
        { intros Heq. apply Hfresh. rewrite <- Heq.
          apply in_map. eapply nth_error_In; eauto. }
        replace (DaySchedule.dayOfWeek sch =? DaySchedule.dayOfWeek schedule) with false
          by (symmetry; apply Z.eqb_neq; exact Hne).
        now rewrite !andb_false_r.
    + intros s d Hother. rewrite IHframe.
      * rewrite Hfirst.
        destruct (String.eqb_spec s sellerId) as [->|]; [|now rewrite andb_false_r].
        destruct (Z.eqb_spec d (DaySchedule.dayOfWeek schedule)) as [->|];
          [|now rewrite andb_false_r].
        exfalso. destruct Hother as [Hs|Hd]; [now apply Hs|]. apply Hd. now left.
      * destruct Hother as [Hs|Hd]; [now left|]. right. intros Hin. apply Hd. now right.
    + intros Hall. rewrite Hres.
      replace (Env.writeFails env k0) with false
        by (symmetry; specialize (Hall 0%nat); rewrite Nat.add_0_r in Hall;
            apply Hall; cbn; lia).
      rewrite IHok; [reflexivity|].
      intros i Hi. specialize (Hall (S i)). rewrite Nat.add_succ_r in Hall.
      apply Hall. cbn. lia.
    + intros [|i] Hi Hrejected.
      * rewrite Nat.add_0_r in Hrejected. now rewrite Hres, Hrejected.
      * rewrite Nat.add_succ_r in Hrejected. cbn [List.length] in Hi.
        rewrite (IHthrow i) by (cbn [Nat.add]; first [lia | exact Hrejected]).
        rewrite Hres. now destruct (Env.writeFails env k0).
Qed.

(** X8.  [setWeeklyAvailability] is applied entry by entry, without a
    transaction around the writes.  For a schedule that names each
    weekday at most once: the entry whose write the datastore takes is
    stored and found by the lookup of its weekday, also when the write of
    another entry is rejected; the weekday of a rejected write reads as
    before; other sellers and the weekdays the schedule does not name read
    as before; the call returns the rows of the schedule, in its order,
    when every write is taken, and throws when one is rejected. *)
Theorem setWeeklyAvailability_is_applied_entry_by_entry env sellerId weeklySchedule db :
  NoDup (map DaySchedule.dayOfWeek weeklySchedule) ->
  let result := fst (AvailabilityService.setWeeklyAvailability env sellerId weeklySchedule db) in
  let db' := snd (AvailabilityService.setWeeklyAvailability env sellerId weeklySchedule db) in
  (forall k schedule,
     nth_error weeklySchedule k = Some schedule ->
     availabilityOf db' sellerId (DaySchedule.dayOfWeek schedule)
     = if Env.writeFails env k
       then availabilityOf db sellerId (DaySchedule.dayOfWeek schedule)
       else Some (scheduledRow sellerId schedule))
  /\ (forall s d,
        s <> sellerId \/ ~ In d (map DaySchedule.dayOfWeek weeklySchedule) ->
        availabilityOf db' s d = availabilityOf db s d)
  /\ ((forall k, (k < List.length weeklySchedule)%nat -> Env.writeFails env k = false) ->
      result = Ok (map (scheduledRow sellerId) weeklySchedule))
  /\ (forall k, (k < List.length weeklySchedule)%nat -> Env.writeFails env k = true ->
      result = Throw "The datastore rejected the write").
Proof.
  intros Hdays result db'. subst result db'.
  unfold AvailabilityService.setWeeklyAvailability.
  exact (weekly_effect env sellerId weeklySchedule Hdays 0%nat db).
Qed.

(** ** Time off *)

Lemma removeTimeOff_unfold env timeOffId sellerId db :
  AvailabilityService.removeTimeOff env timeOffId sellerId db =
  match find (fun r => String.eqb (SellerTimeOff.id r) timeOffId
                       && String.eqb (SellerTimeOff.sellerId r) sellerId)
             (Db.sellerTimeOff db) with
  | None => (Throw "Time off not found or you do not have permission to remove it", db)
  | Some _ =>
      if Env.writeFails env 0 then (Throw "The datastore rejected the write", db)
      else (Ok tt, Db.setSellerTimeOff db (map (deactivate timeOffId) (Db.sellerTimeOff db)))
  end.
Proof.
  unfold AvailabilityService.removeTimeOff, Prisma.sellerTimeOff_findFirst,
    Prisma.sellerTimeOff_update, query, throw. unfold bind at 1.
  destruct (find _ (Db.sellerTimeOff db)) as [r|] eqn:Hfind; [|reflexivity].
  destruct (Env.writeFails env 0); [reflexivity|].
  apply find_some in Hfind as [Hin Hr]. apply andb_true_iff in Hr as [Hid _].
  replace (existsb (fun r0 => String.eqb (SellerTimeOff.id r0) timeOffId)
                   (Db.sellerTimeOff db)) with true
    by (symmetry; apply existsb_exists; eauto).
  reflexivity.
Qed.

Lemma find_by_key_unique {A : Type} (key : A -> string) (l : list A) (x : A) :
  NoDup (map key l) -> In x l ->
  find (fun y => String.eqb (key y) (key x)) l = Some x.
Proof.
  induction l as [|y l IH]; [contradiction|].
  cbn [map find]. intros Huniq Hin. inversion Huniq as [|k ks Hnotin Hrest]; subst.
  destruct Hin as [->|Hin]; [now rewrite String.eqb_refl|].
  destruct (String.eqb_spec (key y) (key x)) as [Heq|_]; [|now apply IH].
  exfalso. apply Hnotin. rewrite Heq. now apply in_map.
Qed.

(** X9.  [removeTimeOff] on a table with its primary key: for an id that
    names no row, and for the id of a row of another seller, the call
    throws the not-found-or-no-permission error and leaves the store as it
    was; for a row of the seller, when the datastore takes the write, it
    returns and the only change to the store is that this row is no longer
    active (the row stays in the table, with its dates and reason). *)
Theorem removeTimeOff_guards env timeOffId sellerId db :
  NoDup (map SellerTimeOff.id (Db.sellerTimeOff db)) ->
  match find (fun r => String.eqb (SellerTimeOff.id r) timeOffId) (Db.sellerTimeOff db) with
  | None =>
      AvailabilityService.removeTimeOff env timeOffId sellerId db
      = (Throw "Time off not found or you do not have permission to remove it", db)
  | Some row =>
      if negb (String.eqb (SellerTimeOff.sellerId row) sellerId)
      then AvailabilityService.removeTimeOff env timeOffId sellerId db
           = (Throw "Time off not found or you do not have permission to remove it", db)
      else if Env.writeFails env 0
      then AvailabilityService.removeTimeOff env timeOffId sellerId db
           = (Throw "The datastore rejected the write", db)
      else exists before after,
             Db.sellerTimeOff db = (before ++ row :: after)%list
             /\ AvailabilityService.removeTimeOff env timeOffId sellerId db
                = (Ok tt,
                   Db.setSellerTimeOff db
                     (before
                      ++ SellerTimeOff.mk (SellerTimeOff.id row) (SellerTimeOff.sellerId row)
                           (SellerTimeOff.startDate row) (SellerTimeOff.endDate row)
                           (SellerTimeOff.reason row) false
                      :: after)%list)
  end.
Proof.
  intros Huniq. rewrite removeTimeOff_unfold.
  destruct (find (fun r => String.eqb (SellerTimeOff.id r) timeOffId) _) as [row|] eqn:Hrow.
  - pose proof (find_some _ _ Hrow) as [Hin Hid]. apply String.eqb_eq in Hid.
    destruct (String.eqb (SellerTimeOff.sellerId row) sellerId) eqn:Hseller; cbn [negb].
    + assert (Hfound : find (fun r => String.eqb (SellerTimeOff.id r) timeOffId
                                      && String.eqb (SellerTimeOff.sellerId r) sellerId)
                            (Db.sellerTimeOff db) <> None).
      { intros Hnone. pose proof (find_none _ _ Hnone row Hin) as Hr. cbv beta in Hr.
        rewrite Hid, String.eqb_refl, Hseller in Hr. discriminate Hr. }
      destruct (find (fun r => _ && _) _); [|congruence].
      destruct (Env.writeFails env 0); [reflexivity|].
      apply in_split in Hin as (before & after & Hsplit).
      exists before, after. split; [exact Hsplit|]. f_equal. f_equal.
      rewrite Hsplit in Huniq |- *. rewrite map_app in *. cbn [map] in *.
      assert (Hother : forall r, In r (before ++ after)%list -> SellerTimeOff.id r <> timeOffId).
      { intros r Hr Heq. apply NoDup_remove_2 in Huniq. apply Huniq.
        rewrite <- map_app, Hid, <- Heq. now apply in_map. }
      assert (Hsame : forall l, (forall r, In r l -> SellerTimeOff.id r <> timeOffId) ->
                                map (deactivate timeOffId) l = l).
      { induction l as [|r l IH]; intros Hl; [reflexivity|]. cbn [map].
        rewrite IH by (intros; apply Hl; now right). f_equal. unfold deactivate.
        replace (String.eqb (SellerTimeOff.id r) timeOffId) with false; [reflexivity|].
        symmetry. apply String.eqb_neq. apply Hl. now left. }
      rewrite !Hsame by (intros r Hr; apply Hother, in_or_app; tauto).
      f_equal. f_equal. unfold deactivate. now rewrite Hid, String.eqb_refl.
    + destruct (find (fun r => _ && _) _) as [r|] eqn:Hr; [|reflexivity].
      exfalso. apply find_some in Hr as [Hrin Hr]. apply andb_true_iff in Hr as [Hrid Hrs].
      apply String.eqb_eq in Hrid.
      assert (r = row).
      { pose proof (find_by_key_unique SellerTimeOff.id _ r Huniq Hrin) as H1.
        rewrite Hrid, Hrow in H1. congruence. }
      subst r. congruence.
  - destruct (find (fun r => _ && _) _) as [r|] eqn:Hr; [|reflexivity].
    exfalso. apply find_some in Hr as [Hrin Hr]. apply andb_true_iff in Hr as [Hrid _].
    pose proof (find_none _ _ Hrow r Hrin) as Hnone. cbv beta in Hnone. congruence.
Qed.

(** *** Rows that are not in force are never read *)

Lemma find_filter {A : Type} (p q : A -> bool) (l : list A) :
  (forall x, p x = true -> q x = true) -> find p (filter q l) = find p l.
Proof.
  intros Hpq. induction l as [|x l IH]; cbn [filter find]; [reflexivity|].
  destruct (q x) eqn:Hq; cbn [find].
  - destruct (p x); [reflexivity | exact IH].
  - destruct (p x) eqn:Hp; [|exact IH]. apply Hpq in Hp. congruence.
Qed.

Lemma find_covering_active sellerId date db :
  find (fun r => String.eqb (SellerTimeOff.sellerId r) sellerId
                 && Bool.eqb (SellerTimeOff.isActive r) true
                 && (SellerTimeOff.startDate r <=? date)
                 && (SellerTimeOff.endDate r >=? date))
       (Db.sellerTimeOff db)
  = find (fun r => String.eqb (SellerTimeOff.sellerId r) sellerId
                   && Bool.eqb (SellerTimeOff.isActive r) true
                   && (SellerTimeOff.startDate r <=? date)
                   && (SellerTimeOff.endDate r >=? date))
         (activeTimeOff db).
Proof.
  unfold activeTimeOff. symmetry. apply find_filter. intros r Hr.
  destruct (SellerTimeOff.isActive r); [reflexivity|].
  now rewrite andb_false_r in Hr.
Qed.

Section InactiveTimeOff.

Variables db db' : Db.t.
Hypothesis same : sameUpToInactiveTimeOff db db'.

Lemma isSellerAvailable_same sellerId date startTime endTime :
  fst (AvailabilityService.isSellerAvailable sellerId date startTime endTime db')
  = fst (AvailabilityService.isSellerAvailable sellerId date startTime endTime db).
Proof.
  destruct same as (_ & Happ & _ & Hav & Hoff).
  rewrite !isSellerAvailable_unfold. cbn [fst].
  now rewrite !find_covering_active, Hav, Happ, Hoff.
Qed.

Lemma accepted_same sellerId durationMinutes currentDate dayEnd slotStart :
  accepted sellerId durationMinutes currentDate dayEnd db' slotStart
  = accepted sellerId durationMinutes currentDate dayEnd db slotStart.
Proof. unfold accepted, availableAt. now rewrite isSellerAvailable_same. Qed.

Lemma windowOf_same env sellerId currentDate :
  windowOf env sellerId currentDate db' = windowOf env sellerId currentDate db.
Proof.
  destruct same as (_ & _ & _ & Hav & Hoff).
  unfold windowOf. now rewrite !find_covering_active, Hav, Hoff.
Qed.

Lemma probeLoop_same fuel sellerId durationMinutes currentDate dayEnd slotStart :
  fst (AvailabilityService.probeLoop fuel sellerId durationMinutes currentDate dayEnd
                                     slotStart db')
  = fst (AvailabilityService.probeLoop fuel sellerId durationMinutes currentDate dayEnd
                                       slotStart db).
Proof.
  revert slotStart. induction fuel as [|fuel IH]; intros slotStart.
  - now rewrite !probeLoop_zero.
  - rewrite !probeLoop_step, accepted_same.
    destruct (slotStart <? dayEnd); [|reflexivity].
    destruct (accepted _ _ _ _ db slotStart); [reflexivity | apply IH].
Qed.

Lemma probeDay_same env sellerId durationMinutes currentDate :
  fst (AvailabilityService.probeDay env sellerId durationMinutes currentDate db')
  = fst (AvailabilityService.probeDay env sellerId durationMinutes currentDate db).
Proof.
  rewrite !probeDay_unfold, windowOf_same.
  destruct (windowOf env sellerId currentDate db) as [[slotStart dayEnd]|];
    [apply probeLoop_same | reflexivity].
Qed.

Lemma dayLoop_same fuel env sellerId durationMinutes endDate currentDate :
  fst (AvailabilityService.dayLoop fuel env sellerId durationMinutes endDate currentDate db')
  = fst (AvailabilityService.dayLoop fuel env sellerId durationMinutes endDate currentDate db).
Proof.
  revert currentDate. induction fuel as [|fuel IH]; intros currentDate.
  - now rewrite !dayLoop_zero.
  - destruct (probeDay_pure env sellerId durationMinutes currentDate db) as [today Htoday].
    destruct (probeDay_pure env sellerId durationMinutes currentDate db') as [today' Htoday'].
    pose proof (probeDay_same env sellerId durationMinutes currentDate) as Hsame.
    rewrite Htoday, Htoday' in Hsame. cbn [fst] in Hsame. injection Hsame as ->.
    rewrite (dayLoop_step _ _ _ _ _ _ _ _ Htoday), (dayLoop_step _ _ _ _ _ _ _ _ Htoday').
    destruct (currentDate <=? endDate); [|reflexivity].
    destruct today; [reflexivity | apply IH | reflexivity].
Qed.

Lemma getNextAvailableSlot_same env serviceId fromDate daysAhead :
  fst (AvailabilityService.getNextAvailableSlot env serviceId fromDate daysAhead db')
  = fst (AvailabilityService.getNextAvailableSlot env serviceId fromDate daysAhead db).
Proof.
  rewrite !getNextAvailableSlot_unfold.
  destruct same as (Hsvc & _). rewrite Hsvc.
  destruct (find _ (Db.service db)); [apply dayLoop_same | reflexivity].
Qed.

Lemma getSellerTimeOff_same sellerId :
  fst (AvailabilityService.getSellerTimeOff sellerId false db')
  = fst (AvailabilityService.getSellerTimeOff sellerId false db).
Proof.
  destruct same as (_ & _ & _ & _ & Hoff).
  unfold AvailabilityService.getSellerTimeOff, Prisma.sellerTimeOff_findManyByStartDate, query.
  cbn [fst negb]. f_equal. f_equal.
  assert (Hsplit : forall rows,
    filter (fun r => String.eqb (SellerTimeOff.sellerId r) sellerId
                     && Bool.eqb (SellerTimeOff.isActive r) true) rows
    = filter (fun r => String.eqb (SellerTimeOff.sellerId r) sellerId)
             (filter SellerTimeOff.isActive rows)).
  { induction rows as [|r rows IH]; cbn [filter]; [reflexivity|].
    destruct (SellerTimeOff.isActive r); cbn [Bool.eqb filter].
    - rewrite andb_true_r. now rewrite IH.
    - rewrite andb_false_r. exact IH. }
  rewrite !Hsplit. fold (activeTimeOff db) (activeTimeOff db'). now rewrite Hoff.
Qed.

End InactiveTimeOff.

Lemma addTimeOff_ok env sellerId startDate endDate reason db row db1 :
  AvailabilityService.addTimeOff env sellerId startDate endDate reason db = (Ok row, db1) ->
  row = SellerTimeOff.mk (Env.cuid env) sellerId startDate endDate reason true
  /\ db1 = afterTimeOff env sellerId startDate endDate reason db
  /\ existsb (fun r => String.eqb (SellerTimeOff.id r) (Env.cuid env)) (Db.sellerTimeOff db)
     = false.
Proof.
  rewrite addTimeOff_unfold.
  destruct (find _ (Db.sellerTimeOff db)); [discriminate|].
  destruct (0 <? _)%nat; [discriminate|].
  destruct (Env.writeFails env 0); [discriminate|].
  destruct (existsb _ (Db.sellerTimeOff db)); [discriminate|].
  intros [= <- <-]. auto.
Qed.

Lemma deactivate_others timeOffId rows :
  existsb (fun r => String.eqb (SellerTimeOff.id r) timeOffId) rows = false ->
  map (deactivate timeOffId) rows = rows.
Proof.
  induction rows as [|r rows IH]; cbn [existsb map]; [reflexivity|].
  intros H. apply orb_false_iff in H as [Hr Hrows].
  rewrite (IH Hrows). unfold deactivate. now rewrite Hr.
Qed.

(** X10.  A time off that was added and then removed is forgotten by the
    availability checks.  When [addTimeOff] has stored a row and the
    seller then calls [removeTimeOff] with the id that was returned, at a
    moment the datastore takes the write, the call succeeds, and in the
    store it leaves [isSellerAvailable] gives, for every seller, date and
    window, the answer it gave before the time off was added, as do
    [getNextAvailableSlot] for every service and range and
    [getSellerTimeOff] without the inactive rows. *)
Theorem removed_time_off_is_forgotten
    env env' sellerId startDate endDate reason db row db1 :
  AvailabilityService.addTimeOff env sellerId startDate endDate reason db = (Ok row, db1) ->
  Env.writeFails env' 0 = false ->
  exists db2,
    AvailabilityService.removeTimeOff env' (SellerTimeOff.id row) sellerId db1 = (Ok tt, db2)
    /\ (forall s date startTime endTime,
          fst (AvailabilityService.isSellerAvailable s date startTime endTime db2)
          = fst (AvailabilityService.isSellerAvailable s date startTime endTime db))
    /\ (forall e serviceId fromDate daysAhead,
          fst (AvailabilityService.getNextAvailableSlot e serviceId fromDate daysAhead db2)
          = fst (AvailabilityService.getNextAvailableSlot e serviceId fromDate daysAhead db))
    /\ (forall s,
          fst (AvailabilityService.getSellerTimeOff s false db2)
          = fst (AvailabilityService.getSellerTimeOff s false db)).
Proof.
  intros Hadd Hw. apply addTimeOff_ok in Hadd as (-> & -> & Hfresh).
  cbn [SellerTimeOff.id]. rewrite removeTimeOff_unfold.
  unfold afterTimeOff at 1. cbn [Db.sellerTimeOff].
  rewrite find_app_last.
  replace (find _ (Db.sellerTimeOff db)) with (@None SellerTimeOff.t).
  2:{ symmetry. apply find_none_of_all_false. intros r Hin.
      assert (Hr : String.eqb (SellerTimeOff.id r) (Env.cuid env) = false).
      { destruct (String.eqb (SellerTimeOff.id r) (Env.cuid env)) eqn:E; [|reflexivity].
        assert (existsb (fun r => String.eqb (SellerTimeOff.id r) (Env.cuid env))
                        (Db.sellerTimeOff db) = true)
          by (apply existsb_exists; eauto).
        congruence. }
      now rewrite Hr. }
  cbn [SellerTimeOff.id SellerTimeOff.sellerId]. rewrite !String.eqb_refl, Hw. cbn [andb].
  eexists. split; [reflexivity|].
  assert (Hsame : sameUpToInactiveTimeOff db
            (Db.setSellerTimeOff (afterTimeOff env sellerId startDate endDate reason db)
               (map (deactivate (Env.cuid env))
                    (Db.sellerTimeOff
                       (afterTimeOff env sellerId startDate endDate reason db))))).
  { unfold sameUpToInactiveTimeOff, activeTimeOff, afterTimeOff, Db.setSellerTimeOff.
    cbn [Db.service Db.appointment Db.appointmentStatusHistory Db.sellerAvailability
         Db.sellerTimeOff].
    repeat split.
    rewrite map_app, (deactivate_others _ _ Hfresh), filter_app. cbn [map].
    unfold deactivate. cbn [SellerTimeOff.id]. rewrite String.eqb_refl.
    cbn [filter SellerTimeOff.isActive]. apply app_nil_r. }
  repeat split; intros.
  - apply (isSellerAvailable_same _ _ Hsame).
  - apply (getNextAvailableSlot_same _ _ Hsame).
  - apply (getSellerTimeOff_same _ _ Hsame).
Qed.

(** X11.  An active time off blocks the days it covers.  For a date that
    an active time-off row of a seller covers (start and end included),
    [isSellerAvailable] never answers "available" for that seller and
    date, whatever the window, and [getNextAvailableSlot] never returns a
    slot of that date for a service of that seller. *)
Theorem active_time_off_blocks_the_day db r date :
  In r (Db.sellerTimeOff db) ->
  SellerTimeOff.isActive r = true ->
  SellerTimeOff.startDate r <= date <= SellerTimeOff.endDate r ->
  (forall startTime endTime,
     exists answer,
       AvailabilityService.isSellerAvailable (SellerTimeOff.sellerId r) date
                                             startTime endTime db
       = (Ok answer, db)
       /\ Availability.available answer = false)
  /\ (forall env serviceId service fromDate daysAhead slot,
        find (fun s => String.eqb (Service.id s) serviceId) (Db.service db) = Some service ->
        Seller.id (Service.seller service) = SellerTimeOff.sellerId r ->
        fst (AvailabilityService.getNextAvailableSlot env serviceId fromDate daysAhead db)
        = Ok (Returned slot) ->
        Slot.date slot <> date).
Proof.
  intros Hin Hactive Hrange.
  assert (Hcovered : forall currentDate, currentDate = date ->
    find (fun r0 => String.eqb (SellerTimeOff.sellerId r0) (SellerTimeOff.sellerId r)
                    && Bool.eqb (SellerTimeOff.isActive r0) true
                    && (SellerTimeOff.startDate r0 <=? currentDate)
                    && (SellerTimeOff.endDate r0 >=? currentDate))
         (Db.sellerTimeOff db) <> None).
  { intros currentDate -> Hnone.
    pose proof (find_none _ _ Hnone r Hin) as Hr. cbv beta in Hr.
    rewrite String.eqb_refl, Hactive, Z.geb_leb in Hr. cbn [Bool.eqb andb] in Hr.
    rewrite (proj2 (Z.leb_le _ _) (proj1 Hrange)),
            (proj2 (Z.leb_le _ _) (proj2 Hrange)) in Hr.
    discriminate Hr. }
  split.
  - intros startTime endTime. rewrite isSellerAvailable_unfold.
    eexists. split; [reflexivity|].
    destruct (find _ (Db.sellerAvailability db)) as [availability|]; [|reflexivity].
    destruct (negb (SellerAvailability.isAvailable availability)); [reflexivity|].
    destruct (String.ltb _ _ || String.leb _ _); [reflexivity|].
    specialize (Hcovered date eq_refl).
    destruct (find _ (Db.sellerTimeOff db)); [reflexivity | congruence].
  - intros env serviceId service fromDate daysAhead slot Hservice Hseller Hslot Hdate.
    apply getNextAvailableSlot_returned in Hslot
      as (service' & d & slotStart & dayEnd & k & Hs & _ & _ & Hwin & _).
    rewrite Hservice in Hs. injection Hs as <-.
    rewrite Hseller in Hwin. unfold windowOf in Hwin.
    destruct (find _ (Db.sellerAvailability db)) as [availability|]; [|discriminate].
    destruct (negb (SellerAvailability.isAvailable availability)); [discriminate|].
    specialize (Hcovered (Slot.date slot) Hdate).
    destruct (find _ (Db.sellerTimeOff db)); [discriminate | congruence].
Qed.

(** ** Cancelling *)

Lemma count_zero_iff {A : Type} (p : A -> bool) (l : list A) :
  Nat.eqb (List.length (filter p l)) 0 = true <-> forall x, In x l -> p x = false.
Proof.
  split.
  - intros H. apply filter_nil_forall. now apply Nat.eqb_eq.
  - intros H. now rewrite (filter_none p l H).
Qed.

Lemma overlappingWhere_setStatus_cancelled env appointmentId sellerId startTime endTime a :
  overlappingWhere sellerId startTime endTime (setStatus env appointmentId CANCELLED a)
  = negb (String.eqb (Appointment.id a) appointmentId)
    && overlappingWhere sellerId startTime endTime a.
Proof.
  unfold setStatus. destruct (String.eqb (Appointment.id a) appointmentId); cbn [negb andb].
  - apply overlappingWhere_terminal. now right.
  - reflexivity.
Qed.

(** X12.  Cancelling frees the slot.  For a stored appointment that is
    Pending, Confirmed or InProgress and a datastore that takes the two
    writes, [cancelAppointment] returns the appointment as Cancelled; in
    the store it leaves, [checkTimeSlotAvailability] answers, for every
    seller and window, [true] exactly when no appointment other than the
    cancelled one matches the overlap count; and a second
    [cancelAppointment] of the same appointment, by anyone, throws
    "Cannot change status from CANCELLED to CANCELLED" and changes
    nothing. *)
Theorem cancelAppointment_frees_the_slot
    env appointmentId cancelledBy reason db appointment :
  find (fun a => String.eqb (Appointment.id a) appointmentId) (Db.appointment db)
    = Some appointment ->
  nonTerminal (Appointment.status appointment) ->
  Env.writeFails env 0 = false ->
  Env.writeFails env 1 = false ->
  let out := AppointmentService.cancelAppointment env appointmentId cancelledBy reason db in
  (exists details,
     fst out = Ok details
     /\ AppointmentDetails.appointment details
        = Appointment.withStatus appointment CANCELLED (Env.now env))
  /\ (forall sellerId startTime endTime,
        AppointmentService.checkTimeSlotAvailability sellerId startTime endTime (snd out)
          = (Ok true, snd out)
        <-> forall a, In a (Db.appointment db) ->
                      Appointment.id a <> appointmentId ->
                      overlappingWhere sellerId startTime endTime a = false)
  /\ (forall env' cancelledBy' reason',
        AppointmentService.cancelAppointment env' appointmentId cancelledBy' reason' (snd out)
        = (Throw "Cannot change status from CANCELLED to CANCELLED", snd out)).
Proof.
  intros Hfind Hstatus Hw0 Hw1 out. subst out.
  unfold AppointmentService.cancelAppointment.
  rewrite updateAppointmentStatus_unfold, Hfind, Hw0, Hw1.
  assert (Hvalid : includes (AppointmentService.validTransitions
                               (Appointment.status appointment)) CANCELLED = true)
    by (destruct Hstatus as [-> | [-> | ->]]; reflexivity).
  rewrite Hvalid. cbn [negb fst snd]. repeat split.
  - eexists. split; reflexivity.
  - rewrite checkTimeSlotAvailability_unfold. intros [= Hcount] a Hin Hid.
    rewrite count_zero_iff in Hcount.
    specialize (Hcount (setStatus env appointmentId CANCELLED a)).
    rewrite overlappingWhere_setStatus_cancelled in Hcount.
    replace (String.eqb (Appointment.id a) appointmentId) with false in Hcount
      by (symmetry; now apply String.eqb_neq).
    apply Hcount. unfold afterUpdate. cbn [Db.appointment]. now apply in_map.
  - intros Hothers. rewrite checkTimeSlotAvailability_unfold. f_equal. f_equal.
    apply count_zero_iff. unfold afterUpdate. cbn [Db.appointment].
    intros a' Hin. apply in_map_iff in Hin as (a & <- & Hin).
    rewrite overlappingWhere_setStatus_cancelled.
    destruct (String.eqb_spec (Appointment.id a) appointmentId) as [|Hne];
      [reflexivity|]. cbn [negb andb]. now apply Hothers.
  - intros env' cancelledBy' reason'. rewrite updateAppointmentStatus_unfold.
    unfold afterUpdate at 1. cbn [Db.appointment].
    rewrite (find_setStatus env appointmentId CANCELLED _ _ Hfind). reflexivity.
Qed.

(** ** What a booking depends on *)

(** X13.  [createAppointment] never takes the seller's weekly
    availability or time off into account: its check of the opening hours
    only logs.  With the availability and time-off tables replaced by any
    others, the call gives the same result (the same appointment or the
    same error), writes the same appointment and audit rows, and leaves
    the two tables as they are.  So a booking is accepted on a day that an
    active time off covers whenever it is accepted without the time
    off. *)
Theorem createAppointment_ignores_availability_and_time_off
    env buyerId appointmentData db sellerAvailability sellerTimeOff :
  let db' := Db.mk (Db.service db) (Db.appointment db) (Db.appointmentStatusHistory db)
                   sellerAvailability sellerTimeOff in
  let out := AppointmentService.createAppointment env buyerId appointmentData db in
  let out' := AppointmentService.createAppointment env buyerId appointmentData db' in
  fst out' = fst out
  /\ Db.service (snd out') = Db.service (snd out)
  /\ Db.appointment (snd out') = Db.appointment (snd out)
  /\ Db.appointmentStatusHistory (snd out') = Db.appointmentStatusHistory (snd out)
  /\ Db.sellerAvailability (snd out') = sellerAvailability
  /\ Db.sellerTimeOff (snd out') = sellerTimeOff
  /\ Db.sellerAvailability (snd out) = Db.sellerAvailability db
  /\ Db.sellerTimeOff (snd out) = Db.sellerTimeOff db.
Proof.
  intros db' out out'. subst out out'. rewrite !createAppointment_unfold.
  subst db'. cbn [Db.service Db.appointment Db.appointmentStatusHistory].
  destruct (find _ (Db.service db)) as [service|]; [|cbn; auto 10].
  destruct (negb (Seller.isApproved _)); [cbn; auto 10|].
  destruct (negb (_ =? _)); [cbn; auto 10|].
  destruct (negb (Nat.eqb _ 0)); [cbn; auto 10|].
  destruct (Env.writeFails env 0); [cbn; auto 10|].
  destruct (existsb (fun a => String.eqb (Appointment.id a) _) _); [cbn; auto 10|].
  destruct (existsb (fun a => String.eqb (Appointment.appointmentNumber a) _) _);
    [cbn; auto 10|].
  destruct (Env.writeFails env 1); [cbn; auto 10|].
  unfold afterCreate. cbn. auto 10.
Qed.

(** ** Opening hours as strings *)

Lemma digit_compare a b :
  0 <= a < 10 -> 0 <= b < 10 ->
  Ascii.compare (JsDate.digit a) (JsDate.digit b) = (a ?= b).
Proof.
  intros Ha Hb.
  assert (Ea : a = 0 \/ a = 1 \/ a = 2 \/ a = 3 \/ a = 4 \/ a = 5 \/ a = 6 \/ a = 7
               \/ a = 8 \/ a = 9) by lia.
  assert (Eb : b = 0 \/ b = 1 \/ b = 2 \/ b = 3 \/ b = 4 \/ b = 5 \/ b = 6 \/ b = 7
               \/ b = 8 \/ b = 9) by lia.
  repeat (destruct Ea as [-> | Ea]); try subst a;
    repeat (destruct Eb as [-> | Eb]); try subst b; reflexivity.
Qed.

Lemma hhmm_compare h1 m1 h2 m2 :
  0 <= h1 < 24 -> 0 <= m1 < 60 -> 0 <= h2 < 24 -> 0 <= m2 < 60 ->
  String.compare (hhmm h1 m1) (hhmm h2 m2) = (h1 * 60 + m1 ?= h2 * 60 + m2).
Proof.
  intros Hh1 Hm1 Hh2 Hm2. unfold hhmm, JsDate.pad2.
  cbn [append String.compare].
  rewrite !digit_compare by (Z.div_mod_to_equations; lia).
  change (Ascii.compare ":" ":") with Eq.
  destruct (Z.compare_spec (h1 / 10) (h2 / 10));
    [|symmetry; apply Z.compare_lt_iff; Z.div_mod_to_equations; lia
     |symmetry; apply Z.compare_gt_iff; Z.div_mod_to_equations; lia].
  destruct (Z.compare_spec (h1 mod 10) (h2 mod 10));
    [|symmetry; apply Z.compare_lt_iff; Z.div_mod_to_equations; lia
     |symmetry; apply Z.compare_gt_iff; Z.div_mod_to_equations; lia].
  destruct (Z.compare_spec (m1 / 10) (m2 / 10));
    [|symmetry; apply Z.compare_lt_iff; Z.div_mod_to_equations; lia
     |symmetry; apply Z.compare_gt_iff; Z.div_mod_to_equations; lia].
  destruct (Z.compare_spec (m1 mod 10) (m2 mod 10));
    [symmetry; apply Z.compare_eq_iff; Z.div_mod_to_equations; lia
    |symmetry; apply Z.compare_lt_iff; Z.div_mod_to_equations; lia
    |symmetry; apply Z.compare_gt_iff; Z.div_mod_to_equations; lia].
Qed.

Lemma hhmm_ltb h1 m1 h2 m2 :
  0 <= h1 < 24 -> 0 <= m1 < 60 -> 0 <= h2 < 24 -> 0 <= m2 < 60 ->
  String.ltb (hhmm h1 m1) (hhmm h2 m2) = (h1 * 60 + m1 <? h2 * 60 + m2).
Proof.
  intros. unfold String.ltb, Z.ltb. now rewrite hhmm_compare.
Qed.

Lemma hhmm_leb h1 m1 h2 m2 :
  0 <= h1 < 24 -> 0 <= m1 < 60 -> 0 <= h2 < 24 -> 0 <= m2 < 60 ->
  String.leb (hhmm h1 m1) (hhmm h2 m2) = (h1 * 60 + m1 <=? h2 * 60 + m2).
Proof.
  intros. unfold String.leb, Z.leb. now rewrite hhmm_compare.
Qed.

Lemma getHours_range t : 0 <= JsDate.getHours t < 24.
Proof.
  unfold JsDate.getHours, JsDate.MS_PER_DAY, JsDate.MS_PER_HOUR.
  Z.div_mod_to_equations. lia.
Qed.

Lemma getMinutes_range t : 0 <= JsDate.getMinutes t < 60.
Proof.
  unfold JsDate.getMinutes, JsDate.MS_PER_HOUR, JsDate.MS_PER_MINUTE.
  Z.div_mod_to_equations. lia.
Qed.

(** X14.  On rows written "HH:MM" with two digits each, the string
    comparisons of the opening hours are comparisons of times of day.  For
    a seller whose row for the weekday of [date] is available and holds an
    opening and a closing time in that format, [isSellerAvailable] answers
    "Time is outside seller's available hours" exactly when the minute of
    the day of [startTime] lies outside the half-open range from the
    opening to the closing minute; and [isTimeWithinAvailability] accepts
    the "HH:MM" of [startTime] against that row exactly when it lies
    inside. *)
Theorem opening_hours_compare_as_times_of_day
    db sellerId date startTime endTime row openHour openMinute closeHour closeMinute :
  availabilityOf db sellerId (JsDate.getDay date) = Some row ->
  SellerAvailability.isAvailable row = true ->
  SellerAvailability.startTime row = hhmm openHour openMinute ->
  SellerAvailability.endTime row = hhmm closeHour closeMinute ->
  0 <= openHour < 24 -> 0 <= openMinute < 60 ->
  0 <= closeHour < 24 -> 0 <= closeMinute < 60 ->
  (fst (AvailabilityService.isSellerAvailable sellerId date startTime endTime db)
   = Ok (Availability.mk false (Some "Time is outside seller's available hours"))
   <-> ~ (openHour * 60 + openMinute <= minuteOfDay startTime
          < closeHour * 60 + closeMinute))
  /\ (AppointmentService.isTimeWithinAvailability (JsDate.toTimeStringHM startTime) [row]
      = true
      <-> openHour * 60 + openMinute <= minuteOfDay startTime
          < closeHour * 60 + closeMinute).
Proof.
  intros Hrow Havailable Hopen Hclose Hoh Hom Hch Hcm.
  pose proof (getHours_range startTime) as Hh.
  pose proof (getMinutes_range startTime) as Hm.
  change (JsDate.toTimeStringHM startTime)
    with (hhmm (JsDate.getHours startTime) (JsDate.getMinutes startTime)).
  split.
  - rewrite isSellerAvailable_unfold. cbn [fst]. unfold availabilityOf in Hrow.
    rewrite Hrow, Havailable, Hopen, Hclose. cbn [negb].
    change (JsDate.toTimeStringHM startTime)
      with (hhmm (JsDate.getHours startTime) (JsDate.getMinutes startTime)).
    rewrite hhmm_ltb, hhmm_leb by assumption. unfold minuteOfDay.
    destruct (Z.ltb_spec (JsDate.getHours startTime * 60 + JsDate.getMinutes startTime)
                         (openHour * 60 + openMinute));
      destruct (Z.leb_spec (closeHour * 60 + closeMinute)
                           (JsDate.getHours startTime * 60 + JsDate.getMinutes startTime));
      cbn [orb]; try (split; [intros _; lia | reflexivity]).
    split; [|intros Hout; exfalso; apply Hout; lia].
    destruct (find _ (Db.sellerTimeOff db)); [discriminate|].
    destruct (0 <? _)%nat; discriminate.
  - unfold AppointmentService.isTimeWithinAvailability. cbn [List.length Nat.eqb existsb].
    rewrite Hopen, Hclose, hhmm_ltb, hhmm_leb, orb_false_r, andb_true_iff,
      Z.leb_le, Z.ltb_lt by assumption.
    unfold minuteOfDay. tauto.
Qed.

(** ** Validated opening hours *)

Lemma between_digit hi c :
  (N_of_ascii hi <= 57)%N ->
  Validators.between "0" hi c = true ->
  exists d, c = JsDate.digit d /\ 0 <= d <= Z.of_N (N_of_ascii hi) - 48.
Proof.
  unfold Validators.between. intros Hhi H.
  apply andb_true_iff in H as [Hlo Hup].
  apply N.leb_le in Hlo, Hup. change (N_of_ascii "0") with 48%N in Hlo.
  exists (Z.of_N (N_of_ascii c) - 48). split; [|lia].
  unfold JsDate.digit.
  replace (48 + Z.to_nat (Z.of_N (N_of_ascii c) - 48))%nat with (nat_of_ascii c)
    by (unfold nat_of_ascii; lia).
  symmetry. apply ascii_nat_embedding.
Qed.

Lemma digit_cases d (P : Z -> Prop) :
  0 <= d <= 9 ->
  P 0 -> P 1 -> P 2 -> P 3 -> P 4 -> P 5 -> P 6 -> P 7 -> P 8 -> P 9 -> P d.
Proof.
  intros Hd. intros.
  assert (E : d = 0 \/ d = 1 \/ d = 2 \/ d = 3 \/ d = 4 \/ d = 5 \/ d = 6 \/ d = 7
              \/ d = 8 \/ d = 9) by lia.
  repeat (destruct E as [-> | E]); try subst d; assumption.
Qed.

Lemma digitValue_digit d : 0 <= d <= 9 -> JsString.digitValue (JsDate.digit d) = Some d.
Proof.
  intros Hd. pattern d. apply (digit_cases d); [exact Hd | reflexivity ..].
Qed.

Lemma digit_not_colon d : 0 <= d <= 9 -> Ascii.eqb (JsDate.digit d) ":" = false.
Proof.
  intros Hd. pattern d. apply (digit_cases d); [exact Hd | reflexivity ..].
Qed.

Lemma split_other sep c rest :
  Ascii.eqb c sep = false ->
  JsString.split sep (String c rest)
  = match JsString.split sep rest with
    | [] => [String c EmptyString]
    | h :: t => String c h :: t
    end.
Proof. intros H. cbn [JsString.split]. now rewrite H. Qed.

Lemma split_sep sep rest :
  JsString.split sep (String sep rest) = EmptyString :: JsString.split sep rest.
Proof. cbn [JsString.split]. now rewrite Ascii.eqb_refl. Qed.

Lemma split_empty sep : JsString.split sep EmptyString = [EmptyString].
Proof. reflexivity. Qed.

Lemma hourMinute_one_digit h m1 m2 :
  0 <= h <= 9 -> 0 <= m1 <= 9 -> 0 <= m2 <= 9 ->
  hourMinute (String (JsDate.digit h)
                (String ":" (String (JsDate.digit m1) (String (JsDate.digit m2) ""))))
  = Some (h, m1 * 10 + m2).
Proof.
  intros Hh H1 H2. unfold hourMinute.
  rewrite split_other by now apply digit_not_colon.
  rewrite split_sep.
  rewrite (split_other ":" (JsDate.digit m1)) by now apply digit_not_colon.
  rewrite (split_other ":" (JsDate.digit m2)) by now apply digit_not_colon.
  rewrite split_empty. unfold JsString.Number. cbn [JsString.digits].
  rewrite !digitValue_digit by assumption. reflexivity.
Qed.

Lemma hourMinute_two_digits h1 h2 m1 m2 :
  0 <= h1 <= 9 -> 0 <= h2 <= 9 -> 0 <= m1 <= 9 -> 0 <= m2 <= 9 ->
  hourMinute (String (JsDate.digit h1) (String (JsDate.digit h2)
                (String ":" (String (JsDate.digit m1) (String (JsDate.digit m2) "")))))
  = Some (h1 * 10 + h2, m1 * 10 + m2).
Proof.
  intros Hh1 Hh2 H1 H2. unfold hourMinute.
  rewrite (split_other ":" (JsDate.digit h1)) by now apply digit_not_colon.
  rewrite (split_other ":" (JsDate.digit h2)) by now apply digit_not_colon.
  rewrite split_sep.
  rewrite (split_other ":" (JsDate.digit m1)) by now apply digit_not_colon.
  rewrite (split_other ":" (JsDate.digit m2)) by now apply digit_not_colon.
  rewrite split_empty. unfold JsString.Number. cbn [JsString.digits].
  rewrite !digitValue_digit by assumption. reflexivity.
Qed.

(** A string that matches the pattern parses to an hour and a minute of
    the clock; written with a two-digit hour it is the "HH:MM" of that
    time. *)
Lemma timePattern_parses s :
  Validators.timePattern s = true ->
  exists hour minute,
    hourMinute s = Some (hour, minute)
    /\ 0 <= hour <= 23 /\ 0 <= minute <= 59
    /\ (String.length s = 5%nat -> s = hhmm hour minute).
Proof.
  unfold Validators.timePattern.
  destruct s as [|c1 [|c2 [|c3 [|c4 [|c5 [|c6 s]]]]]]; try discriminate.
  - (* H:MM *)
    rewrite !andb_true_iff. intros [[[Hh Hcolon] Hm1] Hm2].
    apply Ascii.eqb_eq in Hcolon. subst c2.
    apply between_digit in Hh as (h & -> & Hh); [|cbn; lia].
    apply between_digit in Hm1 as (m1 & -> & Hm1); [|cbn; lia].
    apply between_digit in Hm2 as (m2 & -> & Hm2); [|cbn; lia].
    cbn in Hh, Hm1, Hm2.
    exists h, (m1 * 10 + m2). rewrite hourMinute_one_digit by lia.
    repeat split; try lia. discriminate.
  - (* HH:MM *)
    rewrite !andb_true_iff, orb_true_iff, !andb_true_iff.
    intros [[[Hh Hcolon] Hm1] Hm2].
    apply Ascii.eqb_eq in Hcolon. subst c3.
    apply between_digit in Hm1 as (m1 & -> & Hm1); [|cbn; lia].
    apply between_digit in Hm2 as (m2 & -> & Hm2); [|cbn; lia].
    cbn in Hm1, Hm2.
    assert (Hhour : exists h1 h2, c1 = JsDate.digit h1 /\ c2 = JsDate.digit h2
                                  /\ 0 <= h1 <= 2 /\ 0 <= h2 <= 9
                                  /\ h1 * 10 + h2 <= 23).
    { destruct Hh as [[H1 H2] | [H1 H2]].
      - apply between_digit in H1 as (h1 & -> & H1); [|cbn; lia].
        apply between_digit in H2 as (h2 & -> & H2); [|cbn; lia].
        cbn in H1, H2. exists h1, h2. repeat split; lia.
      - apply Ascii.eqb_eq in H1. subst c1.
        apply between_digit in H2 as (h2 & -> & H2); [|cbn; lia].
        cbn in H2. exists 2, h2. repeat split; lia. }
    destruct Hhour as (h1 & h2 & -> & -> & Hh1 & Hh2 & Hhour).
    exists (h1 * 10 + h2), (m1 * 10 + m2). rewrite hourMinute_two_digits by lia.
    repeat split; try lia. intros _. unfold hhmm, JsDate.pad2. cbn [append].
    replace ((h1 * 10 + h2) / 10) with h1 by (Z.div_mod_to_equations; lia).
    replace ((h1 * 10 + h2) mod 10) with h2 by (Z.div_mod_to_equations; lia).
    replace ((m1 * 10 + m2) / 10) with m1 by (Z.div_mod_to_equations; lia).
    replace ((m1 * 10 + m2) mod 10) with m2 by (Z.div_mod_to_equations; lia).
    reflexivity.
Qed.

(** X15.  Opening hours that pass [sellerAvailabilityValidation] can be
    read back by the slot searches: the opening and the closing time each
    parse, with [split(':').map(Number)], to an hour from 0 to 23 and a
    minute from 0 to 59, and the weekday is one of 0 to 6.  When both
    times are written with a two-digit hour, the rule that compares them
    as strings has made sure that the closing time is later than the
    opening time. *)
Theorem validated_opening_hours_parse value :
  Validators.sellerAvailabilityValidation value = true ->
  exists openHour openMinute closeHour closeMinute,
    hourMinute (DaySchedule.startTime value) = Some (openHour, openMinute)
    /\ hourMinute (DaySchedule.endTime value) = Some (closeHour, closeMinute)
    /\ 0 <= openHour <= 23 /\ 0 <= openMinute <= 59
    /\ 0 <= closeHour <= 23 /\ 0 <= closeMinute <= 59
    /\ 0 <= DaySchedule.dayOfWeek value <= 6
    /\ (String.length (DaySchedule.startTime value) = 5%nat ->
        String.length (DaySchedule.endTime value) = 5%nat ->
        openHour * 60 + openMinute < closeHour * 60 + closeMinute).
Proof.
  unfold Validators.sellerAvailabilityValidation.
  rewrite !andb_true_iff, !Z.leb_le, negb_true_iff.
  intros [[[[Hlo Hhi] Hstart] Hend] Hrule].
  apply timePattern_parses in Hstart as (oh & om & Hs & Hoh & Hom & Hspad).
  apply timePattern_parses in Hend as (ch & cm & He & Hch & Hcm & Hepad).
  exists oh, om, ch, cm. repeat split; try assumption; try lia.
  intros Hls Hle. rewrite (Hspad Hls), (Hepad Hle) in Hrule.
  rewrite hhmm_leb in Hrule by lia. apply Z.leb_gt in Hrule. lia.
Qed.

(** ** The slot grid of a day, entry by entry *)

Lemma candidate_zero opening intervalMinutes : candidate opening intervalMinutes 0 = opening.
Proof. unfold candidate. cbn. lia. Qed.

Lemma candidate_succ opening intervalMinutes k :
  candidate opening intervalMinutes (S k)
  = candidate (opening + intervalMinutes * 60000) intervalMinutes k.
Proof. unfold candidate. lia. Qed.

Lemma slotLoop_step fuel sellerId durationMinutes intervalMinutes endTime currentTime slots db :
  AppointmentService.slotLoop (S fuel) sellerId durationMinutes intervalMinutes endTime
                              currentTime slots db
  = if currentTime <? endTime
    then AppointmentService.slotLoop fuel sellerId durationMinutes intervalMinutes endTime
           (currentTime + intervalMinutes * 60000)
           (if currentTime + durationMinutes * 60000 <=? endTime
            then (slots ++ [listedSlot sellerId durationMinutes db currentTime])%list
            else slots) db
    else (Ok (Some slots), db).
Proof.
  cbn [AppointmentService.slotLoop]. destruct (currentTime <? endTime); [|reflexivity].
  unfold bind at 1.
  destruct (currentTime + durationMinutes * 60000 <=? endTime); [|reflexivity].
  unfold bind at 1. rewrite checkTimeSlotAvailability_unfold. reflexivity.
Qed.

(** What one window adds to the list: the candidates that start before
    it closes and end by then, and nothing else. *)
Lemma slotLoop_listed sellerId durationMinutes intervalMinutes endTime db :
  forall fuel currentTime slots out,
    AppointmentService.slotLoop fuel sellerId durationMinutes intervalMinutes endTime
                                currentTime slots db = (Ok (Some out), db) ->
    forall slot,
      In slot out <->
      In slot slots
      \/ exists k,
           candidate currentTime intervalMinutes k < endTime
           /\ candidate currentTime intervalMinutes k + durationMinutes * 60000 <= endTime
           /\ (forall j, (j <= k)%nat -> candidate currentTime intervalMinutes j < endTime)
           /\ slot = listedSlot sellerId durationMinutes db
                                (candidate currentTime intervalMinutes k).
Proof.
  induction fuel as [|fuel IH]; intros currentTime slots out.
  - cbn [AppointmentService.slotLoop].
    destruct (currentTime <? endTime) eqn:Hlt; [discriminate|].
    intros [= <-] slot. split; [tauto|]. intros [Hin|(k & _ & _ & Hbefore & _)]; [exact Hin|].
    apply Z.ltb_ge in Hlt. specialize (Hbefore 0%nat (Nat.le_0_l k)).
    rewrite candidate_zero in Hbefore. lia.
  - rewrite slotLoop_step.
    destruct (currentTime <? endTime) eqn:Hlt.
    + apply Z.ltb_lt in Hlt. intros Hloop slot.
      rewrite (IH _ _ _ Hloop slot). split.
      * intros [Hin|(k & Hk1 & Hk2 & Hbefore & ->)].
        -- destruct (currentTime + durationMinutes * 60000 <=? endTime) eqn:Hfit;
             [|now left].
           apply in_app_or in Hin as [Hin|[<-|[]]]; [now left|].
           apply Z.leb_le in Hfit. right. exists 0%nat. rewrite candidate_zero.
           repeat split; try assumption.
           intros j Hj. replace j with 0%nat by lia. now rewrite candidate_zero.
        -- right. exists (S k). rewrite candidate_succ. repeat split; try assumption.
           intros [|j] Hj; [now rewrite candidate_zero|].
           rewrite candidate_succ. apply Hbefore. lia.
      * intros [Hin|([|k] & Hk1 & Hk2 & Hbefore & ->)].
        -- left. destruct (_ <=? endTime); [apply in_or_app|]; tauto.
        -- rewrite candidate_zero in *. left.
           rewrite (proj2 (Z.leb_le _ _) Hk2). apply in_or_app. right. now left.
        -- right. exists k. rewrite candidate_succ in *. repeat split; try assumption.
           intros j Hj. specialize (Hbefore (S j)). rewrite candidate_succ in Hbefore.
           apply Hbefore. lia.
    + intros [= <-] slot. split; [tauto|].
      intros [Hin|(k & _ & _ & Hbefore & _)]; [exact Hin|].
      apply Z.ltb_ge in Hlt. specialize (Hbefore 0%nat (Nat.le_0_l k)).
      rewrite candidate_zero in Hbefore. lia.
Qed.

Lemma candidate_mono opening intervalMinutes j k :
  0 < intervalMinutes -> (j <= k)%nat ->
  candidate opening intervalMinutes j <= candidate opening intervalMinutes k.
Proof. unfold candidate. intros. nia. Qed.

Lemma availabilityLoop_step sellerId durationMinutes intervalMinutes date row rest slots db :
  AppointmentService.availabilityLoop sellerId durationMinutes intervalMinutes date
                                      (row :: rest) slots db
  = match
      match hourMinute (SellerAvailability.startTime row),
            hourMinute (SellerAvailability.endTime row) with
      | Some (startHour, startMinute), Some (endHour, endMinute) =>
          fst (AppointmentService.slotLoop
                 (AppointmentService.slotLoopFuel intervalMinutes
                    (JsDate.setHours date endHour endMinute 0 0)
                    (JsDate.setHours date startHour startMinute 0 0))
                 sellerId durationMinutes intervalMinutes
                 (JsDate.setHours date endHour endMinute 0 0)
                 (JsDate.setHours date startHour startMinute 0 0) slots db)
      | _, _ => Ok (Some slots)
      end
    with
    | Ok (Some slots') =>
        AppointmentService.availabilityLoop sellerId durationMinutes intervalMinutes date
                                            rest slots' db
    | Ok None => (Ok None, db)
    | Throw e => (Throw e, db)
    end.
Proof.
  cbn [AppointmentService.availabilityLoop]. unfold bind at 1.
  destruct (hourMinute (SellerAvailability.startTime row)) as [[startHour startMinute]|];
    [|reflexivity].
  destruct (hourMinute (SellerAvailability.endTime row)) as [[endHour endMinute]|];
    [|reflexivity].
  match goal with |- context [AppointmentService.slotLoop ?f ?s ?d ?i ?e ?c ?sl db] =>
    destruct (slotLoop_pure f s d i e c sl db) as [r ->] end.
  cbn [fst]. now destruct r.
Qed.

Lemma availabilityLoop_listed sellerId durationMinutes intervalMinutes date db :
  forall availability slots out,
    AppointmentService.availabilityLoop sellerId durationMinutes intervalMinutes date
                                        availability slots db = (Ok (Some out), db) ->
    forall slot,
      In slot out <->
      In slot slots
      \/ (0 < intervalMinutes
          /\ exists row slotStart,
               In row availability
               /\ fitsWindow date durationMinutes intervalMinutes row slotStart
               /\ slot = listedSlot sellerId durationMinutes db slotStart).
Proof.
  induction availability as [|row rest IH]; intros slots out.
  - cbn [AppointmentService.availabilityLoop]. unfold ret. intros [= <-] slot.
    split; [tauto|]. intros [Hin|(_ & row & t & [] & _)]. exact Hin.
  - rewrite availabilityLoop_step.
    destruct (hourMinute (SellerAvailability.startTime row))
      as [[startHour startMinute]|] eqn:Hs.
    2:{ intros Hrest slot. rewrite (IH _ _ Hrest slot). split.
        - intros [Hin|(Hpos & r & t & Hin & Hfit & ->)]; [now left|].
          right. split; [exact Hpos|]. exists r, t. repeat split; auto. now right.
        - intros [Hin|(Hpos & r & t & [<-|Hin] & Hfit & ->)]; [now left| |].
          + destruct Hfit as (sh & sm & eh & em & k & Hparse & _). congruence.
          + right. split; [exact Hpos|]. exists r, t. repeat split; auto. }
    destruct (hourMinute (SellerAvailability.endTime row))
      as [[endHour endMinute]|] eqn:He.
    2:{ intros Hrest slot. rewrite (IH _ _ Hrest slot). split.
        - intros [Hin|(Hpos & r & t & Hin & Hfit & ->)]; [now left|].
          right. split; [exact Hpos|]. exists r, t. repeat split; auto. now right.
        - intros [Hin|(Hpos & r & t & [<-|Hin] & Hfit & ->)]; [now left| |].
          + destruct Hfit as (sh & sm & eh & em & k & _ & Hparse & _). congruence.
          + right. split; [exact Hpos|]. exists r, t. repeat split; auto. }
    set (opening := JsDate.setHours date startHour startMinute 0 0).
    set (closing := JsDate.setHours date endHour endMinute 0 0).
    destruct (slotLoop_pure (AppointmentService.slotLoopFuel intervalMinutes closing opening)
                sellerId durationMinutes intervalMinutes closing opening slots db)
      as [r Hr].
    rewrite Hr. cbn [fst]. destruct r as [slots'|]; [|discriminate].
    intros Hrest slot. rewrite (IH _ _ Hrest slot).
    pose proof (slotLoop_listed _ _ _ _ _ _ _ _ _ Hr slot) as Hwindow.
    assert (Hfuel : intervalMinutes <= 0 -> forall x, In x slots' <-> In x slots).
    { intros Hnonpos x. revert Hr. unfold AppointmentService.slotLoopFuel.
      replace (0 <? intervalMinutes) with false by (symmetry; apply Z.ltb_ge; lia).
      cbn [AppointmentService.slotLoop]. destruct (opening <? closing); [discriminate|].
      intros [= <-]. tauto. }
    split.
    + intros [Hin|(Hpos & r & t & Hin & Hfit & ->)].
      * apply Hwindow in Hin as [Hin|(k & Hk1 & Hk2 & Hbefore & ->)]; [now left|].
        right. split.
        -- destruct (Z.lt_ge_cases 0 intervalMinutes) as [|Hnonpos]; [assumption|].
           exfalso.
           assert (Hloop := Hr). revert Hloop. unfold AppointmentService.slotLoopFuel.
           replace (0 <? intervalMinutes) with false by (symmetry; apply Z.ltb_ge; lia).
           cbn [AppointmentService.slotLoop].
           destruct (opening <? closing) eqn:Hlt; [discriminate|].
           apply Z.ltb_ge in Hlt. specialize (Hbefore 0%nat (Nat.le_0_l k)).
           rewrite candidate_zero in Hbefore. lia.
        -- exists row, (candidate opening intervalMinutes k).
           split; [now left|]. split; [|reflexivity].
           exists startHour, startMinute, endHour, endMinute, k. auto.
      * right. split; [exact Hpos|]. exists r, t. repeat split; auto. now right.
    + intros [Hin|(Hpos & r & t & [<-|Hin] & Hfit & ->)].
      * left. apply Hwindow. now left.
      * left. apply Hwindow. right.
        destruct Hfit as (sh & sm & eh & em & k & Hps & Hpe & -> & Hk1 & Hk2).
        rewrite Hs in Hps. rewrite He in Hpe.
        injection Hps as <- <-. injection Hpe as <- <-.
        fold opening closing in Hk1, Hk2 |- *.
        exists k. repeat split; try assumption.
        intros j Hj. pose proof (candidate_mono opening intervalMinutes j k Hpos Hj). lia.
      * right. split; [exact Hpos|]. exists r, t. repeat split; auto.
Qed.

Lemma In_insertByStartTime r x rows :
  In x (Prisma.insertByStartTime r rows) <-> x = r \/ In x rows.
Proof.
  induction rows as [|r' rows IH]; cbn [Prisma.insertByStartTime In].
  - intuition congruence.
  - destruct (String.leb _ _); cbn [In]; [intuition congruence|].
    rewrite IH. intuition congruence.
Qed.

Lemma In_sortedByStartTime x rows :
  In x (fold_right Prisma.insertByStartTime [] rows) <-> In x rows.
Proof.
  induction rows as [|r rows IH]; cbn [fold_right In]; [tauto|].
  rewrite In_insertByStartTime, IH. intuition congruence.
Qed.

(** The list of [getAvailableTimeSlots], entry by entry. *)
Lemma getAvailableTimeSlots_listed serviceId date intervalMinutes db service slots :
  find (fun s => String.eqb (Service.id s) serviceId) (Db.service db) = Some service ->
  fst (AppointmentService.getAvailableTimeSlots serviceId date intervalMinutes db)
    = Ok (Some slots) ->
  forall slot,
    In slot slots <->
    0 < intervalMinutes
    /\ exists row slotStart,
         In row (Db.sellerAvailability db)
         /\ SellerAvailability.sellerId row = Seller.id (Service.seller service)
         /\ SellerAvailability.dayOfWeek row = JsDate.getDay date
         /\ SellerAvailability.isAvailable row = true
         /\ fitsWindow date (Service.durationMinutes service) intervalMinutes row slotStart
         /\ slot = listedSlot (Seller.id (Service.seller service))
                              (Service.durationMinutes service) db slotStart.
Proof.
  intros Hservice. rewrite getAvailableTimeSlots_unfold, Hservice. cbv zeta.
  set (availability := fold_right Prisma.insertByStartTime [] _).
  assert (Hrows : forall row,
    In row availability <->
    In row (Db.sellerAvailability db)
    /\ SellerAvailability.sellerId row = Seller.id (Service.seller service)
    /\ SellerAvailability.dayOfWeek row = JsDate.getDay date
    /\ SellerAvailability.isAvailable row = true).
  { intros row. subst availability.
    rewrite In_sortedByStartTime, filter_In, !andb_true_iff, String.eqb_eq, Z.eqb_eq,
      Bool.eqb_true_iff. tauto. }
  destruct (Nat.eqb (List.length availability) 0) eqn:Hempty.
  - cbn [fst]. intros [= <-] slot. split; [intros []|].
    intros (_ & row & t & Hin & Hs & Hd & Ha & _).
    assert (Hrow : In row availability) by (apply Hrows; auto).
    apply Nat.eqb_eq in Hempty. destruct availability; [contradiction | discriminate].
  - destruct (availabilityLoop_pure (Seller.id (Service.seller service))
                (Service.durationMinutes service) intervalMinutes date availability [] db)
      as [r Hr].
    rewrite Hr. cbn [fst]. intros [= ->] slot.
    rewrite (availabilityLoop_listed _ _ _ _ _ _ _ _ Hr slot). split.
    + intros [[]|(Hpos & row & t & Hin & Hfit & ->)]. split; [exact Hpos|].
      apply Hrows in Hin as (Hin & Hs & Hd & Ha). exists row, t. auto 10.
    + intros (Hpos & row & t & Hin & Hs & Hd & Ha & Hfit & ->). right.
      split; [exact Hpos|]. exists row, t. repeat split; auto. apply Hrows. auto.
Qed.



(** ** Ordered listings *)

Lemma insertBy_perm {A : Type} (key : A -> Z) (r : A) (rows : list A) :
  Permutation (Prisma.insertBy key r rows) (r :: rows).
Proof.
  induction rows as [|r' rows IH]; cbn [Prisma.insertBy]; [reflexivity|].
  destruct (key r <=? key r'); [reflexivity|].
  rewrite IH. apply perm_swap.
Qed.

Lemma orderBy_perm {A : Type} (key : A -> Z) (rows : list A) :
  Permutation (Prisma.orderBy key rows) rows.
Proof.
  unfold Prisma.orderBy. induction rows as [|r rows IH]; cbn [fold_right]; [reflexivity|].
  rewrite insertBy_perm. now constructor.
Qed.

Lemma orderBy_In {A : Type} (key : A -> Z) (rows : list A) (x : A) :
  In x (Prisma.orderBy key rows) <-> In x rows.
Proof.
  split; apply Permutation_in; [|symmetry]; apply orderBy_perm.
Qed.

Lemma orderBy_length {A : Type} (key : A -> Z) (rows : list A) :
  List.length (Prisma.orderBy key rows) = List.length rows.
Proof. apply Permutation_length, orderBy_perm. Qed.

Lemma insertBy_ascending {A : Type} (key : A -> Z) (r : A) (rows : list A) :
  Ascending key rows -> Ascending key (Prisma.insertBy key r rows).
Proof.
  unfold Ascending. induction rows as [|r' rows IH]; cbn [Prisma.insertBy]; intros Hs.
  - constructor; [constructor | constructor].
  - inversion Hs as [|? ? Hrest Hall]; subst.
    destruct (Z.leb_spec (key r) (key r')) as [Hle|Hgt].
    + constructor; [exact Hs|]. constructor; [exact Hle|].
      eapply Forall_impl; [|exact Hall]. cbv beta. intros; lia.
    + constructor; [now apply IH|].
      apply Forall_forall. intros x Hx.
      apply (Permutation_in _ (insertBy_perm key r rows)) in Hx.
      destruct Hx as [<-|Hx]; [lia|].
      rewrite Forall_forall in Hall. now apply Hall.
Qed.

Lemma orderBy_ascending {A : Type} (key : A -> Z) (rows : list A) :
  Ascending key (Prisma.orderBy key rows).
Proof.
  unfold Prisma.orderBy. induction rows as [|r rows IH]; cbn [fold_right].
  - constructor.
  - now apply insertBy_ascending.
Qed.

Lemma ascending_app {A : Type} (key : A -> Z) (l1 l2 : list A) :
  Ascending key (l1 ++ l2) ->
  Ascending key l1 /\ Ascending key l2
  /\ forall x y, In x l1 -> In y l2 -> key x <= key y.
Proof.
  unfold Ascending. induction l1 as [|a l1 IH]; cbn [app]; intros Hs.
  - repeat split; [constructor | exact Hs | intros x y []].
  - inversion Hs as [|? ? Hrest Hall]; subst.
    destruct (IH Hrest) as (H1 & H2 & Hcross).
    rewrite Forall_forall in Hall. repeat split.
    + constructor; [exact H1|]. apply Forall_forall. intros x Hx.
      apply Hall, in_or_app. now left.
    + exact H2.
    + intros x y [<-|Hx] Hy; [apply Hall, in_or_app; now right | now apply Hcross].
Qed.

Lemma firstn_ascending {A : Type} (key : A -> Z) (n : nat) (l : list A) :
  Ascending key l -> Ascending key (firstn n l).
Proof.
  intros Hs. rewrite <- (firstn_skipn n l) in Hs. now apply ascending_app in Hs.
Qed.

Lemma skipn_ascending {A : Type} (key : A -> Z) (n : nat) (l : list A) :
  Ascending key l -> Ascending key (skipn n l).
Proof.
  intros Hs. rewrite <- (firstn_skipn n l) in Hs. now apply ascending_app in Hs.
Qed.

Lemma In_firstn {A : Type} (n : nat) (l : list A) (x : A) : In x (firstn n l) -> In x l.
Proof. intros H. rewrite <- (firstn_skipn n l). apply in_or_app. now left. Qed.

Lemma In_skipn {A : Type} (n : nat) (l : list A) (x : A) : In x (skipn n l) -> In x l.
Proof. intros H. rewrite <- (firstn_skipn n l). apply in_or_app. now right. Qed.

Lemma upcomingWhere_true env userId userType a :
  AppointmentService.upcomingWhere env userId userType a = true <->
  match userType with
  | UserType.buyer => Appointment.buyerId a = userId
  | UserType.seller => Appointment.sellerId a = userId
  end
  /\ Env.now env <= Appointment.scheduledTimeStart a
  /\ nonTerminal (Appointment.status a).
Proof.
  unfold AppointmentService.upcomingWhere.
  rewrite !andb_true_iff, Z.geb_leb, Z.leb_le, nonTerminal_includes.
  destruct userType; rewrite String.eqb_eq; tauto.
Qed.

(** X18.  [getUpcomingAppointments] with a limit that is not negative
    returns, without changing the store, the earliest upcoming
    appointments of the user: at most [limit] of them, in ascending order
    of their start; each is an appointment of the store that the user has
    as buyer, or as seller for the user type 'seller', that starts no
    earlier than the clock and is Pending, Confirmed or InProgress; and
    such an appointment is left out only when the list is full and every
    listed appointment starts no later than it. *)
Theorem getUpcomingAppointments_lists_the_earliest env userId userType limit db :
  0 <= limit ->
  exists appointments,
    AppointmentService.getUpcomingAppointments env userId userType limit db
      = (Ok appointments, db)
    /\ Z.of_nat (List.length appointments) <= limit
    /\ Ascending Appointment.scheduledTimeStart appointments
    /\ (forall a, In a appointments ->
          In a (Db.appointment db)
          /\ match userType with
             | UserType.buyer => Appointment.buyerId a = userId
             | UserType.seller => Appointment.sellerId a = userId
             end
          /\ Env.now env <= Appointment.scheduledTimeStart a
          /\ nonTerminal (Appointment.status a))
    /\ (forall a,
          In a (Db.appointment db) ->
          match userType with
          | UserType.buyer => Appointment.buyerId a = userId
          | UserType.seller => Appointment.sellerId a = userId
          end ->
          Env.now env <= Appointment.scheduledTimeStart a ->
          nonTerminal (Appointment.status a) ->
          ~ In a appointments ->
          Z.of_nat (List.length appointments) = limit
          /\ forall b, In b appointments ->
                       Appointment.scheduledTimeStart b <= Appointment.scheduledTimeStart a).
Proof.
  intros Hlimit.
  unfold AppointmentService.getUpcomingAppointments, Prisma.appointment_findMany,
    Prisma.skipTake.
  change (0 <? 0) with false. rewrite (proj2 (Z.leb_le 0 limit) Hlimit).
  change (Z.to_nat 0) with 0%nat. cbn [skipn].
  set (sorted := Prisma.orderBy Appointment.scheduledTimeStart
                   (filter (AppointmentService.upcomingWhere env userId userType)
                           (Db.appointment db))).
  pose proof (orderBy_ascending Appointment.scheduledTimeStart
                (filter (AppointmentService.upcomingWhere env userId userType)
                        (Db.appointment db))) as Hsorted.
  fold sorted in Hsorted.
  assert (Hmem : forall a, In a sorted <->
                   In a (Db.appointment db)
                   /\ AppointmentService.upcomingWhere env userId userType a = true).
  { intros a. unfold sorted. now rewrite orderBy_In, filter_In. }
  eexists. split; [reflexivity|].
  split; [rewrite length_firstn; lia|].
  split; [now apply firstn_ascending|].
  split.
  - intros a Hin. apply In_firstn, Hmem in Hin as [Hin Hw].
    apply upcomingWhere_true in Hw. tauto.
  - intros a Hin Huser Hnow Hstatus Hout.
    assert (Ha : In a sorted).
    { apply Hmem. split; [exact Hin|]. apply upcomingWhere_true. tauto. }
    rewrite <- (firstn_skipn (Z.to_nat limit) sorted) in Ha, Hsorted.
    apply in_app_or in Ha as [Ha|Ha]; [contradiction|].
    apply ascending_app in Hsorted as (_ & _ & Hcross). split.
    + rewrite length_firstn.
      assert (Hlen : (List.length (skipn (Z.to_nat limit) sorted) > 0)%nat)
        by (destruct (skipn _ sorted); [contradiction | cbn; lia]).
      rewrite length_skipn in Hlen. lia.
    + intros b Hb. now apply Hcross.
Qed.

(** ** Pages of a listing *)

Lemma appointmentsWhere_withPage filters page :
  AppointmentService.appointmentsWhere (withPage filters page)
  = AppointmentService.appointmentsWhere filters.
Proof. reflexivity. Qed.

Lemma getAppointments_unfold filters db :
  AppointmentService.getAppointments filters db =
  let page := match AppointmentFilters.page filters with Some page => page | None => 1 end in
  let limit := match AppointmentFilters.limit filters with Some limit => limit | None => 10 end in
  match Prisma.skipTake ((page - 1) * limit) (Some limit) (selected filters db) with
  | Ok appointments =>
      (Ok (AppointmentPage.mk appointments
             (Pagination.mk page limit (List.length (selected filters db))
                (ceilDiv (List.length (selected filters db)) limit))), db)
  | Throw e => (Throw e, db)
  end.
Proof.
  unfold AppointmentService.getAppointments, Prisma.appointment_findMany,
    Prisma.appointment_count, query. cbv zeta. unfold bind at 1.
  fold (selected filters db).
  destruct (Prisma.skipTake _ _ (selected filters db)) as [appointments|e]; [|reflexivity].
  unfold bind, ret, selected. now rewrite !orderBy_length.
Qed.

Lemma chunks {A : Type} (L : nat) (l : list A) :
  forall n, (List.length l <= n * L)%nat ->
  flat_map (fun p => firstn L (skipn (p * L) l)) (seq 0 n) = l.
Proof.
  intros n. revert l. induction n as [|n IH]; intros l Hlen.
  - destruct l; [reflexivity | cbn in Hlen; lia].
  - cbn [seq flat_map]. rewrite <- seq_shift, flat_map_concat_map, map_map,
      <- flat_map_concat_map.
    cbn [Nat.mul skipn].
    rewrite (flat_map_ext _ (fun p => firstn L (skipn (p * L) (skipn L l)))).
    + rewrite IH by (rewrite length_skipn; lia). apply firstn_skipn.
    + intros p. rewrite skipn_skipn. do 2 f_equal. lia.
Qed.

Lemma skipTake_page {A : Type} (page limit : Z) (rows : list A) :
  1 <= page -> 1 <= limit ->
  Prisma.skipTake ((page - 1) * limit) (Some limit) rows
  = Ok (firstn (Z.to_nat limit) (skipn (Z.to_nat (page - 1) * Z.to_nat limit) rows)).
Proof.
  intros Hpage Hlimit. unfold Prisma.skipTake.
  replace ((page - 1) * limit <? 0) with false by (symmetry; apply Z.ltb_ge; nia).
  replace (0 <=? limit) with true by (symmetry; apply Z.leb_le; lia).
  now rewrite Z2Nat.inj_mul by lia.
Qed.

(** X19.  The pages of [getAppointments].  For a limit of at least one
    and filters that select no two appointments with the same start (the
    datastore leaves the order of equal starts open): every page from 1 on
    is returned, without changing the store, with at most [limit]
    appointments, each selected by the filters, and with the count of
    selected appointments as [total] and that count divided by the limit,
    rounded up, as [pages]; the pages 1 to [pages], one after the other,
    are exactly the selected appointments in ascending order of their
    start, each once; and every later page is empty. *)
Theorem getAppointments_pages_partition filters db limit :
  limit = match AppointmentFilters.limit filters with Some limit => limit | None => 10 end ->
  1 <= limit ->
  NoDup (map Appointment.scheduledTimeStart (selected filters db)) ->
  let total := List.length (selected filters db) in
  let pages := - ((- Z.of_nat total) / limit) in
  (forall page, 1 <= page ->
     exists appointments,
       AppointmentService.getAppointments (withPage filters page) db
       = (Ok (AppointmentPage.mk appointments (Pagination.mk page limit total (Num pages))),
          db)
       /\ appointments = pageOf filters db page
       /\ Z.of_nat (List.length appointments) <= limit
       /\ forall a, In a appointments ->
                    In a (Db.appointment db)
                    /\ AppointmentService.appointmentsWhere filters a = true)
  /\ flat_map (pageOf filters db) (map Z.of_nat (seq 1 (Z.to_nat pages)))
     = selected filters db
  /\ Permutation (selected filters db)
                 (filter (AppointmentService.appointmentsWhere filters) (Db.appointment db))
  /\ Ascending Appointment.scheduledTimeStart (selected filters db)
  /\ (forall page, pages < page -> pageOf filters db page = []).
Proof.
  intros Hlimit Hpos _ total pages.
  assert (Hsel : forall page, selected (withPage filters page) db = selected filters db)
    by reflexivity.
  assert (Hpage : forall page, 1 <= page ->
    AppointmentService.getAppointments (withPage filters page) db
    = (Ok (AppointmentPage.mk
             (firstn (Z.to_nat limit)
                     (skipn (Z.to_nat (page - 1) * Z.to_nat limit) (selected filters db)))
             (Pagination.mk page limit total (Num pages))), db)).
  { intros page Hp. rewrite getAppointments_unfold. cbv zeta.
    cbn [withPage AppointmentFilters.page AppointmentFilters.limit].
    rewrite <- Hlimit, Hsel, skipTake_page by assumption.
    unfold ceilDiv. replace (limit =? 0) with false by (symmetry; apply Z.eqb_neq; lia).
    reflexivity. }
  assert (Hrows : forall page, 1 <= page ->
    pageOf filters db page
    = firstn (Z.to_nat limit)
             (skipn (Z.to_nat (page - 1) * Z.to_nat limit) (selected filters db))).
  { intros page Hp. unfold pageOf. now rewrite (Hpage page Hp). }
  assert (Hceil : (total <= Z.to_nat pages * Z.to_nat limit)%nat).
  { subst pages. apply Nat2Z.inj_le. rewrite Nat2Z.inj_mul, !Z2Nat.id.
    - Z.div_mod_to_equations. nia.
    - lia.
    - Z.div_mod_to_equations. nia. }
  split; [|split; [|split; [|split]]].
  - intros page Hp. eexists. split; [exact (Hpage page Hp)|].
    split; [now rewrite (Hrows page Hp)|].
    split; [rewrite length_firstn; lia|].
    intros a Hin. apply In_firstn, In_skipn in Hin. unfold selected in Hin.
    now rewrite orderBy_In, filter_In in Hin.
  - rewrite <- seq_shift, map_map, flat_map_concat_map, map_map, <- flat_map_concat_map.
    rewrite (flat_map_ext _ (fun p => firstn (Z.to_nat limit)
                                        (skipn (p * Z.to_nat limit) (selected filters db)))).
    + now apply chunks.
    + intros p. rewrite Hrows by lia. do 3 f_equal. lia.
  - apply orderBy_perm.
  - apply orderBy_ascending.
  - intros page Hlate.
    assert (Hp : 1 <= page).
    { subst pages. assert (0 <= - (- Z.of_nat total / limit))
        by (Z.div_mod_to_equations; nia). lia. }
    rewrite (Hrows page Hp), skipn_all2; [now destruct (Z.to_nat limit)|].
    fold total. assert (Z.to_nat pages <= Z.to_nat (page - 1))%nat by lia. nia.
Qed.

(** ** The week of a seller *)

Lemma availabilityOf_In db sellerId r :
  UniqueDays (Db.sellerAvailability db) ->
  (availabilityOf db sellerId (SellerAvailability.dayOfWeek r) = Some r
   <-> In r (Db.sellerAvailability db) /\ SellerAvailability.sellerId r = sellerId).
Proof.
  unfold availabilityOf, UniqueDays. intros Huniq. split.
  - intros Hfind. apply find_some in Hfind as [Hin Hkey].
    apply andb_true_iff in Hkey as [Hs _]. apply String.eqb_eq in Hs. auto.
  - intros [Hin <-]. induction (Db.sellerAvailability db) as [|r' rows IH];
      [contradiction|].
    cbn [map find] in *. inversion Huniq as [|k ks Hnotin Hrest]; subst.
    destruct Hin as [->|Hin]; [now rewrite String.eqb_refl, Z.eqb_refl|].
    destruct (String.eqb_spec (SellerAvailability.sellerId r')
                              (SellerAvailability.sellerId r)) as [Hs|]; [|now apply IH].
    destruct (Z.eqb_spec (SellerAvailability.dayOfWeek r')
                         (SellerAvailability.dayOfWeek r)) as [Hd|]; [|now apply IH].
    exfalso. apply Hnotin. rewrite Hs, Hd.
    apply (in_map (fun r => (SellerAvailability.sellerId r, SellerAvailability.dayOfWeek r))).
    exact Hin.
Qed.

Lemma ascending_strict {A : Type} (key : A -> Z) (l : list A) :
  (forall a b, In a l -> In b l -> key a = key b -> a = b) ->
  NoDup l -> Ascending key l ->
  StronglySorted (fun a b => key a < key b) l.
Proof.
  unfold Ascending. induction l as [|a l IH]; intros Hkey Hnd Hs; [constructor|].
  inversion Hnd as [|? ? Hnotin Hnd']; subst.
  inversion Hs as [|? ? Hrest Hall]; subst.
  constructor.
  - apply IH; [|assumption..]. intros x y Hx Hy. apply Hkey; now right.
  - rewrite Forall_forall in *. intros b Hb.
    destruct (Z.eq_dec (key a) (key b)) as [Heq|Hne].
    + exfalso. apply Hnotin. rewrite (Hkey a b); [exact Hb | now left | now right | exact Heq].
    + specialize (Hall b Hb). lia.
Qed.

Lemma getSellerAvailability_week db sellerId :
  UniqueDays (Db.sellerAvailability db) ->
  exists rows,
    AvailabilityService.getSellerAvailability sellerId db = (Ok rows, db)
    /\ StronglySorted (fun a b => SellerAvailability.dayOfWeek a
                                  < SellerAvailability.dayOfWeek b) rows
    /\ forall r, In r rows
                 <-> availabilityOf db sellerId (SellerAvailability.dayOfWeek r) = Some r.
Proof.
  intros Huniq.
  unfold AvailabilityService.getSellerAvailability, Prisma.sellerAvailability_findManyByDay,
    query.
  eexists. split; [reflexivity|].
  assert (Hmem : forall r,
    In r (Prisma.orderBy SellerAvailability.dayOfWeek
            (filter (fun r => String.eqb (SellerAvailability.sellerId r) sellerId)
                    (Db.sellerAvailability db)))
    <-> In r (Db.sellerAvailability db) /\ SellerAvailability.sellerId r = sellerId).
  { intros r. now rewrite orderBy_In, filter_In, String.eqb_eq. }
  split.
  - apply ascending_strict.
    + intros a b Ha Hb Hday. apply Hmem in Ha, Hb.
      apply (availabilityOf_In db sellerId a Huniq) in Ha.
      apply (availabilityOf_In db sellerId b Huniq) in Hb.
      rewrite Hday in Ha. congruence.
    + apply (Permutation_NoDup (l := filter (fun r => String.eqb
                                   (SellerAvailability.sellerId r) sellerId)
                                   (Db.sellerAvailability db)));
        [symmetry; apply orderBy_perm|].
      apply NoDup_filter. unfold UniqueDays in Huniq. now apply NoDup_map_inv in Huniq.
    + apply orderBy_ascending.
  - intros r. rewrite Hmem. symmetry. now apply availabilityOf_In.
Qed.

(** X20.  A weekly schedule that was set is the week that is read back.
    On a table with its unique index, for a schedule that names each
    weekday at most once and whose writes the datastore all takes,
    [getSellerAvailability] in the store that [setWeeklyAvailability]
    leaves lists the seller's rows in strictly ascending weekday order,
    one per weekday; the row of each weekday of the schedule is the one
    made from its entry, and the rows of the other weekdays are those the
    seller had before. *)
Theorem weekly_schedule_round_trip env sellerId weeklySchedule db :
  UniqueDays (Db.sellerAvailability db) ->
  NoDup (map DaySchedule.dayOfWeek weeklySchedule) ->
  (forall k, (k < List.length weeklySchedule)%nat -> Env.writeFails env k = false) ->
  let db' := snd (AvailabilityService.setWeeklyAvailability env sellerId weeklySchedule db) in
  exists rows,
    AvailabilityService.getSellerAvailability sellerId db' = (Ok rows, db')
    /\ StronglySorted (fun a b => SellerAvailability.dayOfWeek a
                                  < SellerAvailability.dayOfWeek b) rows
    /\ (forall schedule, In schedule weeklySchedule ->
          In (scheduledRow sellerId schedule) rows)
    /\ (forall r, In r rows ->
          (exists schedule, In schedule weeklySchedule /\ r = scheduledRow sellerId schedule)
          \/ (~ In (SellerAvailability.dayOfWeek r)
                   (map DaySchedule.dayOfWeek weeklySchedule)
              /\ In r (Db.sellerAvailability db)
              /\ SellerAvailability.sellerId r = sellerId)).
Proof.
  intros Huniq Hdays Hwrites db'.
  assert (Huniq' : UniqueDays (Db.sellerAvailability db')).
  { subst db'. unfold AvailabilityService.setWeeklyAvailability.
    apply (promiseAll_invariant (fun db => UniqueDays (Db.sellerAvailability db)));
      [|exact Huniq].
    intros call db0 Hin Hdb0. apply in_map_iff in Hin as ([k schedule] & <- & _).
    now apply upsert_keeps_unique. }
  destruct (getSellerAvailability_week db' sellerId Huniq') as (rows & Hget & Hsorted & Hmem).
  destruct (weekly_effect env sellerId weeklySchedule Hdays 0%nat db)
    as (Heach & Hframe & _). cbv zeta in Heach, Hframe.
  fold (AvailabilityService.setWeeklyAvailability env sellerId weeklySchedule) in Heach, Hframe.
  fold db' in Heach, Hframe.
  exists rows. split; [exact Hget|]. split; [exact Hsorted|]. split.
  - intros schedule Hin. apply Hmem. apply In_nth_error in Hin as [k Hk].
    cbn [scheduledRow SellerAvailability.dayOfWeek].
    rewrite (Heach k schedule Hk). cbn [Nat.add].
    rewrite Hwrites; [reflexivity|]. apply nth_error_Some. congruence.
  - intros r Hr. apply Hmem in Hr.
    destruct (in_dec Z.eq_dec (SellerAvailability.dayOfWeek r)
                (map DaySchedule.dayOfWeek weeklySchedule)) as [Hin|Hout].
    + left. apply in_map_iff in Hin as (schedule & Hday & Hin).
      exists schedule. split; [exact Hin|].
      apply In_nth_error in Hin as [k Hk].
      rewrite <- Hday, (Heach k schedule Hk) in Hr. cbn [Nat.add] in Hr.
      rewrite Hwrites in Hr by (apply nth_error_Some; congruence). congruence.
    + right. split; [exact Hout|]. rewrite Hframe in Hr by now right.
      now apply availabilityOf_In in Hr.
Qed.

(** ** The week at the workshop *)

Lemma scenario_unique_days : UniqueDays (Db.sellerAvailability Scenario.db).
Proof. repeat constructor. intros []. Defined.

(** Tuesday hours are set for the seller of the scenario and read back;
    the Monday row is as before. *)
Lemma setSellerAvailability_then_lookup_witness :
  let db' := snd (AvailabilityService.setSellerAvailability
                    Scenario.env "seller-1" 2 "10:00" "16:00" true Scenario.db) in
  Prisma.sellerAvailability_findUnique "seller-1" 2 db'
    = (Ok (Some (SellerAvailability.mk "seller-1" 2 "10:00" "16:00" true)), db')
  /\ fst (Prisma.sellerAvailability_findUnique "seller-1" 1 db')
     = fst (Prisma.sellerAvailability_findUnique "seller-1" 1 Scenario.db).
Proof.
  destruct (setSellerAvailability_then_lookup
              Scenario.env "seller-1" 2 "10:00" "16:00" true Scenario.db eq_refl)
    as (_ & Hfound & Hothers & _).
  split; [exact Hfound|]. apply Hothers. right. discriminate.
Defined.

Lemma availability_writers_keep_one_row_per_day_witness :
  UniqueDays (Db.sellerAvailability
                (snd (AvailabilityService.setWeeklyAvailability
                        Workshop.envSecondRejected "seller-1" Workshop.weekdays
                        Scenario.db))).
Proof.
  exact (proj2 (availability_writers_keep_one_row_per_day
                  Workshop.envSecondRejected "seller-1" Scenario.db scenario_unique_days)
               Workshop.weekdays).
Defined.

Lemma availability_readers_agree_witness :
  AppointmentService.getSellerAvailabilityForDay "seller-1" 1 Scenario.db
  = (Ok [SellerAvailability.mk "seller-1" 1 "09:00" "12:00" true], Scenario.db).
Proof.
  exact (availability_readers_agree Scenario.db "seller-1" 1 scenario_unique_days).
Defined.

Lemma workshop_distinct_days : NoDup (map DaySchedule.dayOfWeek Workshop.weekdays).
Proof.
  repeat constructor; cbn; intuition discriminate.
Defined.

(** With the second write rejected the call throws, yet Monday and
    Saturday are written and Tuesday is not. *)
Lemma setWeeklyAvailability_is_applied_entry_by_entry_witness :
  let out := AvailabilityService.setWeeklyAvailability
               Workshop.envSecondRejected "seller-1" Workshop.weekdays Scenario.db in
  fst out = Throw "The datastore rejected the write"
  /\ availabilityOf (snd out) "seller-1" 1
     = Some (SellerAvailability.mk "seller-1" 1 "08:00" "17:00" true)
  /\ availabilityOf (snd out) "seller-1" 2 = None
  /\ availabilityOf (snd out) "seller-1" 6
     = Some (SellerAvailability.mk "seller-1" 6 "09:00" "13:00" false).
Proof.
  destruct (setWeeklyAvailability_is_applied_entry_by_entry
              Workshop.envSecondRejected "seller-1" Workshop.weekdays Scenario.db
              workshop_distinct_days)
    as (Heach & _ & _ & Hthrow).
  split; [apply (Hthrow 1%nat); [cbn; lia | reflexivity]|].
  split; [exact (Heach 0%nat _ eq_refl)|].
  split; [exact (Heach 1%nat _ eq_refl) | exact (Heach 2%nat _ eq_refl)].
Defined.

Lemma weekly_schedule_round_trip_witness :
  let db' := snd (AvailabilityService.setWeeklyAvailability
                    Scenario.env "seller-1" Workshop.weekdays Scenario.db) in
  exists rows,
    AvailabilityService.getSellerAvailability "seller-1" db' = (Ok rows, db')
    /\ In (SellerAvailability.mk "seller-1" 6 "09:00" "13:00" false) rows.
Proof.
  destruct (weekly_schedule_round_trip
              Scenario.env "seller-1" Workshop.weekdays Scenario.db
              scenario_unique_days workshop_distinct_days (fun _ _ => eq_refl))
    as (rows & Hget & _ & Hin & _).
  exists rows. split; [exact Hget|].
  apply (Hin (DaySchedule.mk 6 "09:00" "13:00" false)). cbn. auto.
Defined.

Lemma on_leave_ids : NoDup (map SellerTimeOff.id (Db.sellerTimeOff Workshop.dbOnLeave)).
Proof. repeat constructor. intros []. Defined.

(** Another seller cannot end the leave of the seller of the scenario. *)
Lemma removeTimeOff_guards_witness :
  AvailabilityService.removeTimeOff Scenario.env "off-1" "seller-2" Workshop.dbOnLeave
  = (Throw "Time off not found or you do not have permission to remove it",
     Workshop.dbOnLeave).
Proof.
  exact (removeTimeOff_guards Scenario.env "off-1" "seller-2" Workshop.dbOnLeave
           on_leave_ids).
Defined.

(** Once the leave is removed the Monday search finds what it found
    before the leave was entered. *)
Lemma removed_time_off_is_forgotten_witness :
  exists db2,
    AvailabilityService.removeTimeOff Scenario.env "off-1" "seller-1" Workshop.dbOnLeave
      = (Ok tt, db2)
    /\ fst (AvailabilityService.getNextAvailableSlot
              Scenario.env "service-1" Scenario.monday 7 db2)
       = fst (AvailabilityService.getNextAvailableSlot
                Scenario.env "service-1" Scenario.monday 7 Scenario.db).
Proof.
  destruct (removed_time_off_is_forgotten
              Scenario.envTimeOff Scenario.env "seller-1"
              Scenario.monday (Scenario.monday + Scenario.hours 48) (Some "Holiday")
              Scenario.db
              (SellerTimeOff.mk "off-1" "seller-1" Scenario.monday
                 (Scenario.monday + Scenario.hours 48) (Some "Holiday") true)
              Workshop.dbOnLeave eq_refl eq_refl)
    as (db2 & Hremove & _ & Hsearch & _).
  exists db2. split; [exact Hremove | apply Hsearch].
Defined.

(** During the leave the Monday 09:00 window is refused. *)
Lemma active_time_off_blocks_the_day_witness :
  exists answer,
    AvailabilityService.isSellerAvailable "seller-1" Scenario.monday
      (Scenario.monday + Scenario.hours 9) (Scenario.monday + Scenario.hours 10)
      Workshop.dbOnLeave
    = (Ok answer, Workshop.dbOnLeave)
    /\ Availability.available answer = false.
Proof.
  refine (proj1 (active_time_off_blocks_the_day Workshop.dbOnLeave
                   (SellerTimeOff.mk "off-1" "seller-1" Scenario.monday
                      (Scenario.monday + Scenario.hours 48) (Some "Holiday") true)
                   Scenario.monday _ eq_refl _) _ _).
  - now left.
  - cbn [SellerTimeOff.startDate SellerTimeOff.endDate]. unfold Scenario.hours. lia.
Defined.

(** The Monday 09:00 booking of the scenario is cancelled; its window is
    free again. *)
Lemma cancelAppointment_frees_the_slot_witness :
  let out := AppointmentService.cancelAppointment
               Scenario.env2 "appt-1" "buyer-1" (Some "Car sold") Scenario.dbBooked in
  AppointmentService.checkTimeSlotAvailability "seller-1"
    (Scenario.monday + Scenario.hours 9) (Scenario.monday + Scenario.hours 10) (snd out)
  = (Ok true, snd out).
Proof.
  destruct (cancelAppointment_frees_the_slot
              Scenario.env2 "appt-1" "buyer-1" (Some "Car sold") Scenario.dbBooked
              (createdAppointment Scenario.env "buyer-1" Scenario.nineToTen Scenario.service)
              eq_refl (or_introl eq_refl) eq_refl eq_refl)
    as (_ & Hfree & _).
  apply Hfree. intros a [<-|[]] Hid. exfalso. now apply Hid.
Defined.

Lemma getUpcomingAppointments_lists_the_earliest_witness :
  exists appointments,
    AppointmentService.getUpcomingAppointments
      Scenario.env "buyer-1" UserType.buyer 2 Workshop.threeBooked
      = (Ok appointments, Workshop.threeBooked)
    /\ Z.of_nat (List.length appointments) <= 2
    /\ Ascending Appointment.scheduledTimeStart appointments.
Proof.
  destruct (getUpcomingAppointments_lists_the_earliest
              Scenario.env "buyer-1" UserType.buyer 2 Workshop.threeBooked)
    as (appointments & Hget & Hlen & Hsorted & _).
  - lia.
  - exists appointments. auto.
Defined.

Lemma three_distinct_starts :
  NoDup (map Appointment.scheduledTimeStart
             (selected Workshop.ofBuyer Workshop.threeBooked)).
Proof.
  repeat constructor; cbn; intuition discriminate.
Defined.

(** Three appointments, two to a page: page 1 and page 2 together are
    the three, earliest first. *)
Lemma getAppointments_pages_partition_witness :
  (pageOf Workshop.ofBuyer Workshop.threeBooked 1
   ++ pageOf Workshop.ofBuyer Workshop.threeBooked 2)%list
  = selected Workshop.ofBuyer Workshop.threeBooked
  /\ pageOf Workshop.ofBuyer Workshop.threeBooked 3 = [].
Proof.
  destruct (getAppointments_pages_partition
              Workshop.ofBuyer Workshop.threeBooked 2 eq_refl)
    as (_ & Hall & _ & _ & Hlate).
  - lia.
  - exact three_distinct_starts.
  - split; [|apply Hlate; reflexivity].
    etransitivity; [|exact Hall]. reflexivity.
Defined.

Lemma scenario_hours :
  forall row, In row (Db.sellerAvailability Scenario.db) ->
              SellerAvailability.sellerId row = "seller-1" -> WellFormedHours row.
Proof. intros row [<- | []] _. split; reflexivity. Defined.

Lemma scenario_monday_range :
  JsDate.inRange Scenario.monday /\ JsDate.inRange (Scenario.monday + 86400000).
Proof. repeat split; discriminate. Defined.


Lemma scenario_accepts : datastoreAccepts Scenario.env Scenario.db.
Proof. repeat split. Defined.


(** Half past nine lies within 09:00-12:00. *)
Lemma opening_hours_compare_as_times_of_day_witness :
  AppointmentService.isTimeWithinAvailability
    (JsDate.toTimeStringHM (Scenario.monday + 34200000))
    [SellerAvailability.mk "seller-1" 1 "09:00" "12:00" true] = true
  <-> 9 * 60 + 0 <= minuteOfDay (Scenario.monday + 34200000) < 12 * 60 + 0.
Proof.
  refine (proj2 (opening_hours_compare_as_times_of_day
                   Scenario.db "seller-1" Scenario.monday (Scenario.monday + 34200000)
                   (Scenario.monday + 37800000)
                   (SellerAvailability.mk "seller-1" 1 "09:00" "12:00" true) 9 0 12 0
                   eq_refl eq_refl eq_refl eq_refl _ _ _ _)); lia.
Defined.

Lemma validated_opening_hours_parse_witness :
  exists openHour openMinute closeHour closeMinute,
    hourMinute "08:00" = Some (openHour, openMinute)
    /\ hourMinute "17:00" = Some (closeHour, closeMinute)
    /\ 0 <= openHour <= 23 /\ 0 <= openMinute <= 59
    /\ 0 <= closeHour <= 23 /\ 0 <= closeMinute <= 59
    /\ 0 <= 1 <= 6
    /\ (String.length "08:00" = 5%nat -> String.length "17:00" = 5%nat ->
        openHour * 60 + openMinute < closeHour * 60 + closeMinute).
Proof.
  exact (validated_opening_hours_parse (DaySchedule.mk 1 "08:00" "17:00" true) eq_refl).
Defined.

(** ** The handlers of the appointment routes *)

Lemma getAppointmentById_unfold appointmentId db :
  AppointmentService.getAppointmentById appointmentId db =
  match find (fun a => String.eqb (Appointment.id a) appointmentId) (Db.appointment db) with
  | None => (Throw "Appointment not found", db)
  | Some a =>
      (Ok (AppointmentDetails.mk a
             (Prisma.orderByDesc StatusHistory.changedAt
                (filter (fun h => String.eqb (StatusHistory.appointmentId h) appointmentId)
                        (Db.appointmentStatusHistory db)))), db)
  end.
Proof.
  unfold AppointmentService.getAppointmentById, Prisma.appointment_findUnique,
    Prisma.appointmentStatusHistory_of, query, throw. unfold bind at 1.
  now destruct (find _ (Db.appointment db)).
Qed.

Lemma sellerPermission sellers user a :
  match seller_findUnique sellers (User.id user) with
  | Some seller => String.eqb (Appointment.sellerId a) (SellerProfile.id seller)
  | None => false
  end = true
  <-> isSellerOf sellers user a.
Proof.
  unfold isSellerOf. destruct (seller_findUnique sellers (User.id user)) as [seller|].
  - rewrite String.eqb_eq. split.
    + intros H. now exists seller.
    + intros (s & [= <-] & H). exact H.
  - split; [discriminate|]. intros (s & H & _). discriminate H.
Qed.

Lemma updatePermission sellers user a :
  (if UserRole.eqb (User.role user) UserRole.SELLER
   then match seller_findUnique sellers (User.id user) with
        | Some seller => String.eqb (Appointment.sellerId a) (SellerProfile.id seller)
        | None => false
        end
   else UserRole.eqb (User.role user) UserRole.ADMIN) = true
  <-> mayUpdate sellers user a.
Proof.
  unfold mayUpdate. destruct (User.role user); cbn [UserRole.eqb].
  - split; [now left | reflexivity].
  - rewrite sellerPermission. split; [now right|].
    intros [H|[_ H]]; [discriminate | exact H].
  - split; [discriminate|]. intros [H|[H _]]; discriminate.
Qed.

Lemma cancelPermission sellers user a :
  (if UserRole.eqb (User.role user) UserRole.SELLER
   then String.eqb (Appointment.buyerId a) (User.id user)
        || UserRole.eqb (User.role user) UserRole.ADMIN
        || match seller_findUnique sellers (User.id user) with
           | Some seller => String.eqb (Appointment.sellerId a) (SellerProfile.id seller)
           | None => false
           end
   else String.eqb (Appointment.buyerId a) (User.id user)
        || UserRole.eqb (User.role user) UserRole.ADMIN) = true
  <-> mayCancel sellers user a.
Proof.
  unfold mayCancel. destruct (User.role user); cbn [UserRole.eqb].
  - rewrite orb_true_r. split; [intros _; right; now left | reflexivity].
  - rewrite orb_false_r, orb_true_iff, String.eqb_eq, sellerPermission. split.
    + intros [H|H]; [now left | right; right; auto].
    + intros [H|[H|[_ H]]]; [now left | discriminate | now right].
  - rewrite orb_false_r, String.eqb_eq. split; [now left|].
    intros [H|[H|[H _]]]; [exact H | discriminate | discriminate].
Qed.

Lemma updateAppointmentStatus_store env appointmentId newStatus changedBy notes db :
  let out := AppointmentService.updateAppointmentStatus
               env appointmentId newStatus changedBy notes db in
  (isOk (fst out) = false -> snd out = db)
  /\ (isOk (fst out) = true ->
      snd out = afterUpdate env appointmentId newStatus changedBy notes db).
Proof.
  cbv zeta. rewrite updateAppointmentStatus_unfold.
  destruct (find _ (Db.appointment db)); [|cbn; split; [reflexivity | discriminate]].
  destruct (negb (includes _ _)); [cbn; split; [reflexivity | discriminate]|].
  destruct (Env.writeFails env 0); [cbn; split; [reflexivity | discriminate]|].
  destruct (Env.writeFails env 1); [cbn; split; [reflexivity | discriminate]|].
  cbn [fst snd isOk]. split; [discriminate | reflexivity].
Qed.

Lemma response_error_status {A : Type} status message fallback :
  Response.status (@Response.error A status message fallback) = status
  /\ Response.success (@Response.error A status message fallback) = false
  /\ Response.data (@Response.error A status message fallback) = None.
Proof. repeat split. Qed.

(** X21.  Who may change a status through the handler.  The handler
    answers 200, and the store changes, only for an appointment that
    exists and a user who is an administrator or has the seller role and a
    seller profile that the appointment is with; a user with the buyer
    role is always refused and changes nothing, also for the user's own
    appointment.  For an appointment that exists, a body that passed
    validation and a user who is not allowed, the answer is 403.  For a
    user who is allowed, the service is called with the user as the one
    who made the change: its result is answered with 200, its error with
    400 and its message, and the store is the one the service leaves. *)
Theorem updateAppointmentStatus_handler_authorization
    sellers env user appointmentId validatedData db :
  let out := AppointmentController.updateAppointmentStatus
               sellers env user appointmentId validatedData db in
  let allowed :=
    exists a,
      find (fun a => String.eqb (Appointment.id a) appointmentId) (Db.appointment db)
        = Some a
      /\ mayUpdate sellers user a in
  (Response.status (fst out) = 200 -> allowed)
  /\ (~ allowed -> snd out = db)
  /\ (User.role user = UserRole.BUYER ->
      Response.success (fst out) = false /\ snd out = db)
  /\ (forall a update,
        find (fun a => String.eqb (Appointment.id a) appointmentId) (Db.appointment db)
          = Some a ->
        validatedData = Ok update ->
        ~ mayUpdate sellers user a ->
        fst out = Response.mk 403 false None
                    (Some "You are not authorized to update this appointment"))
  /\ (forall a update,
        find (fun a => String.eqb (Appointment.id a) appointmentId) (Db.appointment db)
          = Some a ->
        validatedData = Ok update ->
        mayUpdate sellers user a ->
        let call := AppointmentService.updateAppointmentStatus
                      env appointmentId (StatusUpdate.status update) (User.id user)
                      (StatusUpdate.notes update) db in
        snd out = snd call
        /\ fst out = match fst call with
                     | Ok appointment => Response.ok 200 appointment
                     | Throw message =>
                         Response.error 400 message "Failed to update appointment status"
                     end).
Proof.
  cbv zeta. unfold AppointmentController.updateAppointmentStatus.
  destruct validatedData as [update|message].
  2:{ cbn [fst snd]. refine (conj _ (conj _ (conj _ (conj _ _)))).
      - discriminate.
      - reflexivity.
      - split; reflexivity.
      - intros a update _ H. discriminate H.
      - intros a update _ H. discriminate H. }
  rewrite getAppointmentById_unfold.
  destruct (find _ (Db.appointment db)) as [a|] eqn:Hfind.
  2:{ cbn [fst snd]. refine (conj _ (conj _ (conj _ (conj _ _)))).
      - discriminate.
      - reflexivity.
      - split; reflexivity.
      - intros a update' H. discriminate H.
      - intros a update' H. discriminate H. }
  cbn [AppointmentDetails.appointment].
  pose proof (updatePermission sellers user a) as Hperm.
  destruct (if UserRole.eqb (User.role user) UserRole.SELLER then _ else _) eqn:Hp;
    cbn [negb].
  - assert (Hallowed : mayUpdate sellers user a) by now apply Hperm.
    pose proof (updateAppointmentStatus_store env appointmentId
                  (StatusUpdate.status update) (User.id user)
                  (StatusUpdate.notes update) db) as [Hkeep _].
    destruct (AppointmentService.updateAppointmentStatus env appointmentId
                (StatusUpdate.status update) (User.id user) (StatusUpdate.notes update) db)
      as [[appointment|message] db''] eqn:Hcall; cbn [fst snd] in *;
      refine (conj _ (conj _ (conj _ (conj _ _)))).
    + intros _. exists a. auto.
    + intros Hnot. exfalso. apply Hnot. exists a. auto.
    + intros Hbuyer. destruct Hallowed as [H|[H _]]; congruence.
    + intros a' update' [= <-] [= <-] Hnot. contradiction.
    + intros a' update' [= <-] [= <-] _. now rewrite Hcall.
    + discriminate.
    + intros Hnot. exfalso. apply Hnot. exists a. auto.
    + intros _. split; [reflexivity | now apply Hkeep].
    + intros a' update' [= <-] [= <-] Hnot. contradiction.
    + intros a' update' [= <-] [= <-] _. now rewrite Hcall.
  - assert (Hrefused : ~ mayUpdate sellers user a)
      by (intros H; apply Hperm in H; discriminate).
    cbn [fst snd]. refine (conj _ (conj _ (conj _ (conj _ _)))).
    + discriminate.
    + reflexivity.
    + split; reflexivity.
    + reflexivity.
    + intros a' update' [= <-] [= <-] Hyes. contradiction.
Qed.

(** X22.  Who may cancel through the handler.  The handler answers 200,
    and the store changes, only for an appointment that exists and a user
    who is its buyer, an administrator, or has the seller role and a
    seller profile that the appointment is with.  For an appointment that
    exists and any other user the answer is 403 and nothing changes.  For
    a user who is allowed, [cancelAppointment] is called with the user as
    the one who cancelled: its result is answered with 200, its error
    (such as a status that can no longer be cancelled) with 400 and its
    message. *)
Theorem cancelAppointment_handler_authorization
    sellers env user appointmentId reason db :
  let out := AppointmentController.cancelAppointment
               sellers env user appointmentId reason db in
  let allowed :=
    exists a,
      find (fun a => String.eqb (Appointment.id a) appointmentId) (Db.appointment db)
        = Some a
      /\ mayCancel sellers user a in
  (Response.status (fst out) = 200 -> allowed)
  /\ (~ allowed -> snd out = db)
  /\ (forall a,
        find (fun a => String.eqb (Appointment.id a) appointmentId) (Db.appointment db)
          = Some a ->
        ~ mayCancel sellers user a ->
        fst out = Response.mk 403 false None
                    (Some "You are not authorized to cancel this appointment"))
  /\ (forall a,
        find (fun a => String.eqb (Appointment.id a) appointmentId) (Db.appointment db)
          = Some a ->
        mayCancel sellers user a ->
        let call := AppointmentService.cancelAppointment
                      env appointmentId (User.id user) reason db in
        snd out = snd call
        /\ fst out = match fst call with
                     | Ok appointment => Response.ok 200 appointment
                     | Throw message =>
                         Response.error 400 message "Failed to cancel appointment"
                     end).
Proof.
  cbv zeta. unfold AppointmentController.cancelAppointment.
  rewrite getAppointmentById_unfold.
  destruct (find _ (Db.appointment db)) as [a|] eqn:Hfind.
  2:{ cbn [fst snd]. refine (conj _ (conj _ (conj _ _))).
      - discriminate.
      - reflexivity.
      - intros a H. discriminate H.
      - intros a H. discriminate H. }
  cbn [AppointmentDetails.appointment].
  pose proof (cancelPermission sellers user a) as Hperm.
  destruct (if UserRole.eqb (User.role user) UserRole.SELLER then _ else _) eqn:Hp;
    cbn [negb].
  - assert (Hallowed : mayCancel sellers user a) by now apply Hperm.
    destruct (AppointmentService.cancelAppointment env appointmentId (User.id user) reason db)
      as [[appointment|message] db''] eqn:Hcall; cbn [fst snd] in *;
      refine (conj _ (conj _ (conj _ _))).
    + intros _. exists a. auto.
    + intros Hnot. exfalso. apply Hnot. exists a. auto.
    + intros a' [= <-] Hnot. contradiction.
    + intros a' [= <-] _. rewrite ?Hcall. split; reflexivity.
    + discriminate.
    + intros Hnot. exfalso. apply Hnot. exists a. auto.
    + intros a' [= <-] Hnot. contradiction.
    + intros a' [= <-] _. rewrite ?Hcall. split; reflexivity.
  - assert (Hrefused : ~ mayCancel sellers user a)
      by (intros H; apply Hperm in H; discriminate).
    cbn [fst snd]. refine (conj _ (conj _ (conj _ _))).
    + discriminate.
    + reflexivity.
    + reflexivity.
    + intros a' [= <-] Hyes. contradiction.
Qed.

(** X23.  What the handler of GET /:appointmentId discloses.  It never
    changes the store.  It hands out an appointment, with 200, only when
    the appointment is the one stored under the id and the user is its
    buyer, an administrator, or a user whose own id is the value of the
    appointment's seller column; the handler does not look up the seller
    profile of the user.  For an id that names no appointment the answer
    is 404 "Appointment not found"; every other user gets 403. *)
Theorem getAppointmentById_handler_discloses user appointmentId db :
  let out := AppointmentController.getAppointmentById user appointmentId db in
  snd out = db
  /\ (forall details,
        Response.data (fst out) = Some details ->
        Response.status (fst out) = 200
        /\ find (fun a => String.eqb (Appointment.id a) appointmentId) (Db.appointment db)
           = Some (AppointmentDetails.appointment details)
        /\ (Appointment.buyerId (AppointmentDetails.appointment details) = User.id user
            \/ Appointment.sellerId (AppointmentDetails.appointment details) = User.id user
            \/ User.role user = UserRole.ADMIN))
  /\ (find (fun a => String.eqb (Appointment.id a) appointmentId) (Db.appointment db) = None ->
      fst out = Response.mk 404 false None (Some "Appointment not found"))
  /\ (forall a,
        find (fun a => String.eqb (Appointment.id a) appointmentId) (Db.appointment db)
          = Some a ->
        Appointment.buyerId a <> User.id user ->
        Appointment.sellerId a <> User.id user ->
        User.role user <> UserRole.ADMIN ->
        fst out = Response.mk 403 false None
                    (Some "You are not authorized to view this appointment")).
Proof.
  cbv zeta. unfold AppointmentController.getAppointmentById.
  rewrite getAppointmentById_unfold.
  destruct (find _ (Db.appointment db)) as [a|] eqn:Hfind.
  - cbn [AppointmentDetails.appointment].
    set (hasPermission := String.eqb (Appointment.buyerId a) (User.id user)
                          || String.eqb (Appointment.sellerId a) (User.id user)
                          || UserRole.eqb (User.role user) UserRole.ADMIN).
    assert (Hp : hasPermission = true
                 <-> Appointment.buyerId a = User.id user
                     \/ Appointment.sellerId a = User.id user
                     \/ User.role user = UserRole.ADMIN).
    { subst hasPermission. rewrite !orb_true_iff, !String.eqb_eq.
      destruct (User.role user); cbn [UserRole.eqb]; intuition congruence. }
    destruct hasPermission; cbn [negb fst snd].
    + split; [reflexivity|]. split; [|split].
      * intros details [= <-]. cbn [AppointmentDetails.appointment Response.status
          Response.ok]. split; [reflexivity|]. split; [reflexivity|]. now apply Hp.
      * discriminate.
      * intros a' [= <-] H1 H2 H3. exfalso.
        destruct (proj1 Hp eq_refl) as [H|[H|H]]; contradiction.
    + split; [reflexivity|]. split; [|split].
      * intros details H. discriminate H.
      * discriminate.
      * intros a' _ _ _ _. reflexivity.
  - cbn [fst snd]. split; [reflexivity|]. split; [|split].
    + intros details H. discriminate H.
    + reflexivity.
    + intros a H. discriminate H.
Qed.

(** ** Whose appointments a listing shows *)

Lemma skipTake_In {A : Type} (skip : Z) (take : option Z) (rows out : list A) (x : A) :
  Prisma.skipTake skip take rows = Ok out -> In x out -> In x rows.
Proof.
  unfold Prisma.skipTake. destruct (skip <? 0); [discriminate|].
  destruct take as [take|].
  - destruct (0 <=? take); intros [= <-] Hin.
    + now apply In_firstn, In_skipn in Hin.
    + apply in_rev in Hin. apply In_firstn, In_skipn in Hin. now apply in_rev.
  - intros [= <-] Hin. now apply In_skipn in Hin.
Qed.

Lemma getAppointments_selects filters db :
  snd (AppointmentService.getAppointments filters db) = db
  /\ forall result a,
       fst (AppointmentService.getAppointments filters db) = Ok result ->
       In a (AppointmentPage.appointments result) ->
       In a (Db.appointment db)
       /\ AppointmentService.appointmentsWhere filters a = true.
Proof.
  rewrite getAppointments_unfold. cbv zeta.
  destruct (Prisma.skipTake _ _ (selected filters db)) as [appointments|e] eqn:Hpage;
    cbn [fst snd]; (split; [reflexivity|]); [|discriminate].
  intros result a [= <-] Hin. cbn [AppointmentPage.appointments] in Hin.
  apply (skipTake_In _ _ _ _ _ Hpage) in Hin. unfold selected in Hin.
  now rewrite orderBy_In, filter_In in Hin.
Qed.

Lemma given_some s : s <> "" -> given (Some s) = Some s.
Proof.
  intros Hs. unfold given. destruct (String.eqb_spec s ""); [contradiction | reflexivity].
Qed.

(** X24.  Whose appointments the listing handler shows.  The handler
    never changes the store, and lists stored appointments only.  To a
    user with the buyer role it lists only appointments that the user has
    booked, whatever seller or buyer the query names; to a user with the
    seller role only appointments with the user's own seller profile, and
    an empty first page (total 0, pages 0) when the user has no profile;
    to an administrator the appointments of the seller and of the buyer
    that the query names.  (The ids are taken not to be the empty string,
    which the service reads as "no filter".) *)
Theorem getAppointments_handler_scopes_by_role sellers user query db :
  let out := AppointmentController.getAppointments sellers user query db in
  snd out = db
  /\ (forall result a,
        Response.data (fst out) = Some result ->
        In a (AppointmentPage.appointments result) ->
        In a (Db.appointment db)
        /\ match User.role user with
           | UserRole.BUYER =>
               User.id user <> "" -> Appointment.buyerId a = User.id user
           | UserRole.SELLER =>
               exists seller,
                 seller_findUnique sellers (User.id user) = Some seller
                 /\ (SellerProfile.id seller <> "" ->
                     Appointment.sellerId a = SellerProfile.id seller)
           | UserRole.ADMIN =>
               (forall sellerId, given (AppointmentFilters.sellerId query) = Some sellerId ->
                                 Appointment.sellerId a = sellerId)
               /\ (forall buyerId, given (AppointmentFilters.buyerId query) = Some buyerId ->
                                   Appointment.buyerId a = buyerId)
           end)
  /\ (User.role user = UserRole.SELLER ->
      seller_findUnique sellers (User.id user) = None ->
      fst out = Response.ok 200 (AppointmentPage.mk [] (Pagination.mk 1 10 0 (Num 0)))).
Proof.
  cbv zeta. unfold AppointmentController.getAppointments.
  assert (Hrespond : forall filters,
    let out := match AppointmentService.getAppointments filters db with
               | (Ok result, db') => (Response.ok 200 result, db')
               | (Throw message, db') =>
                   (@Response.error AppointmentPage.t 500 message
                      "Failed to get appointments", db')
               end in
    snd out = db
    /\ forall result a,
         Response.data (fst out) = Some result ->
         In a (AppointmentPage.appointments result) ->
         In a (Db.appointment db)
         /\ AppointmentService.appointmentsWhere filters a = true).
  { intros filters. cbv zeta.
    destruct (getAppointments_selects filters db) as [Hsnd Hsel].
    destruct (AppointmentService.getAppointments filters db) as [[result|message] db'];
      cbn [fst snd] in *; (split; [exact Hsnd|]).
    - intros result' a [= <-]. now apply Hsel.
    - intros result' a H. discriminate H. }
  destruct (User.role user) eqn:Hrole.
  - (* ADMIN *)
    match goal with |- context [AppointmentService.getAppointments ?f db] =>
      destruct (Hrespond f) as [Hsnd Hsel] end.
    split; [exact Hsnd|]. split; [|discriminate].
    intros result a Hdata Hin. destruct (Hsel result a Hdata Hin) as [Hstored Hwhere].
    split; [exact Hstored|].
    unfold AppointmentService.appointmentsWhere in Hwhere.
    cbn [AppointmentFilters.sellerId AppointmentFilters.buyerId] in Hwhere.
    rewrite !andb_true_iff in Hwhere.
    destruct Hwhere as [[[[[_ Hseller] Hbuyer] _] _] _].
    split.
    + intros sellerId Hgiven. rewrite Hgiven in Hseller.
      assert (Hne : sellerId <> "").
      { intros ->. unfold given in Hgiven.
        destruct (AppointmentFilters.sellerId query) as [s|]; [|discriminate].
        destruct (String.eqb_spec s ""); congruence. }
      rewrite (given_some _ Hne) in Hseller. now apply String.eqb_eq.
    + intros buyerId Hgiven. rewrite Hgiven in Hbuyer.
      assert (Hne : buyerId <> "").
      { intros ->. unfold given in Hgiven.
        destruct (AppointmentFilters.buyerId query) as [s|]; [|discriminate].
        destruct (String.eqb_spec s ""); congruence. }
      rewrite (given_some _ Hne) in Hbuyer. now apply String.eqb_eq.
  - (* SELLER *)
    destruct (seller_findUnique sellers (User.id user)) as [seller|] eqn:Hseller.
    + match goal with |- context [AppointmentService.getAppointments ?f db] =>
        destruct (Hrespond f) as [Hsnd Hsel] end.
      split; [exact Hsnd|]. split; [|discriminate].
      intros result a Hdata Hin. destruct (Hsel result a Hdata Hin) as [Hstored Hwhere].
      split; [exact Hstored|]. exists seller. split; [reflexivity|]. intros Hne.
      unfold AppointmentService.appointmentsWhere in Hwhere.
      cbn [AppointmentFilters.sellerId] in Hwhere.
      rewrite (given_some _ Hne), !andb_true_iff in Hwhere.
      destruct Hwhere as [[[[[_ Hs] _] _] _] _]. now apply String.eqb_eq.
    + cbn [fst snd]. split; [reflexivity|]. split; [|reflexivity].
      intros result a [= <-] [].
  - (* BUYER *)
    match goal with |- context [AppointmentService.getAppointments ?f db] =>
      destruct (Hrespond f) as [Hsnd Hsel] end.
    split; [exact Hsnd|]. split; [|discriminate].
    intros result a Hdata Hin. destruct (Hsel result a Hdata Hin) as [Hstored Hwhere].
    split; [exact Hstored|]. intros Hne.
    unfold AppointmentService.appointmentsWhere in Hwhere.
    cbn [AppointmentFilters.buyerId] in Hwhere.
    rewrite (given_some _ Hne), !andb_true_iff in Hwhere.
    destruct Hwhere as [[[[[_ _] Hb] _] _] _]. now apply String.eqb_eq.
Qed.

(** ** Who sees time off that was removed *)

Lemma getSellerTimeOff_lists sellerId includeInactive db :
  exists rows,
    AvailabilityService.getSellerTimeOff sellerId includeInactive db = (Ok rows, db)
    /\ forall r, In r rows <->
                 In r (Db.sellerTimeOff db)
                 /\ SellerTimeOff.sellerId r = sellerId
                 /\ (includeInactive = false -> SellerTimeOff.isActive r = true).
Proof.
  unfold AvailabilityService.getSellerTimeOff, Prisma.sellerTimeOff_findManyByStartDate, query.
  eexists. split; [reflexivity|]. intros r.
  rewrite orderBy_In, filter_In, andb_true_iff, String.eqb_eq.
  destruct includeInactive; cbn [negb].
  - intuition discriminate.
  - rewrite Bool.eqb_true_iff. intuition.
Qed.

(** X25.  Who sees time off that was removed.  The handler of the
    time-off listing never changes the store and lists time-off rows of
    one seller only.  A row that is no longer active is listed only to a
    signed-in user who is an administrator or whose own seller profile is
    that seller; a visitor who is not signed in, and every other user,
    sees the active rows only. *)
Theorem getTimeOff_handler_hides_removed sellers user sellerId db :
  let out := AvailabilityController.getTimeOff sellers user sellerId db in
  snd out = db
  /\ forall rows r,
       Response.data (fst out) = Some rows ->
       In r rows ->
       In r (Db.sellerTimeOff db)
       /\ (forall r', In r' rows -> SellerTimeOff.sellerId r' = SellerTimeOff.sellerId r)
       /\ (SellerTimeOff.isActive r = false ->
           exists u,
             user = Some u
             /\ (User.role u = UserRole.ADMIN
                 \/ exists seller,
                      seller_findUnique sellers (User.id u) = Some seller
                      /\ SellerProfile.id seller = SellerTimeOff.sellerId r)).
Proof.
  cbv zeta. unfold AvailabilityController.getTimeOff.
  match goal with
  | |- context [match ?t with Some _ => _ | None => (Response.mk 400 _ _ _, db) end] =>
      destruct t as [target|]
  end.
  2:{ cbn [fst snd]. split; [reflexivity|]. intros rows r H. discriminate H. }
  match goal with
  | |- context [AvailabilityService.getSellerTimeOff target ?inc db] =>
      set (includeInactive := inc);
      destruct (getSellerTimeOff_lists target includeInactive db) as (rows & -> & Hrows)
  end.
  cbn [fst snd Response.ok Response.data]. split; [reflexivity|].
  intros rows' r [= <-] Hin. apply Hrows in Hin as (Hstored & Hseller & Hactive).
  split; [exact Hstored|]. split.
  - intros r' Hr'. apply Hrows in Hr' as (_ & -> & _). now symmetry.
  - intros Hinactive.
    destruct includeInactive eqn:Hinc;
      [|specialize (Hactive eq_refl); congruence].
    subst includeInactive. destruct user as [u|]; [|discriminate Hinc].
    exists u. split; [reflexivity|]. cbn [option_map] in Hinc.
    destruct (UserRole.eqb (User.role u) UserRole.ADMIN) eqn:Hadmin.
    + left. destruct (User.role u); [reflexivity | discriminate | discriminate].
    + right. destruct (given (Some (User.id u))) as [userId|] eqn:Hid;
        [|discriminate Hinc].
      assert (userId = User.id u).
      { unfold given in Hid. destruct (String.eqb (User.id u) ""); congruence. }
      subst userId.
      destruct (seller_findUnique sellers (User.id u)) as [seller|];
        [|discriminate Hinc].
      exists seller. split; [reflexivity|]. apply String.eqb_eq in Hinc. congruence.
Qed.

(** ** The calendar of a seller *)

(** X26.  The calendar shows the time off that blocks a day.  When
    [isSellerAvailable] refuses a date with "Seller is on time off during
    this period", the calendar of that seller for any range of dates that
    includes the date lists an active time off of the seller that covers
    the date; the call for the calendar returns and leaves the store as
    it is. *)
Theorem calendar_shows_the_time_off_that_blocks
    sellerId startDate endDate date startTime endTime db :
  startDate <= date <= endDate ->
  fst (AvailabilityService.isSellerAvailable sellerId date startTime endTime db)
    = Ok (Availability.mk false (Some "Seller is on time off during this period")) ->
  exists calendar r,
    AvailabilityService.getSellerCalendar sellerId startDate endDate db = (Ok calendar, db)
    /\ In r (Calendar.timeOff calendar)
    /\ SellerTimeOff.sellerId r = sellerId
    /\ SellerTimeOff.isActive r = true
    /\ SellerTimeOff.startDate r <= date <= SellerTimeOff.endDate r.
Proof.
  intros Hrange. rewrite isSellerAvailable_unfold. cbn [fst].
  destruct (find _ (Db.sellerAvailability db)) as [availability|]; [|discriminate].
  destruct (negb (SellerAvailability.isAvailable availability)); [discriminate|].
  destruct (String.ltb _ _ || String.leb _ _); [discriminate|].
  destruct (find _ (Db.sellerTimeOff db)) as [r|] eqn:Hfind;
    [|destruct (0 <? _)%nat; discriminate].
  intros _. apply find_some in Hfind as [Hin Hr].
  rewrite !andb_true_iff, String.eqb_eq, Bool.eqb_true_iff, Z.geb_leb, !Z.leb_le in Hr.
  destruct Hr as [[[Hseller Hactive] Hfrom] Hto].
  unfold AvailabilityService.getSellerCalendar, Prisma.appointment_findMany,
    Prisma.sellerTimeOff_findMany, Prisma.sellerAvailability_findManyByDay,
    Prisma.skipTake, query, bind, ret.
  change (0 <? 0) with false. cbv iota.
  eexists. exists r. split; [reflexivity|]. cbn [Calendar.timeOff].
  split.
  - apply filter_In. split; [exact Hin|].
    rewrite !andb_true_iff, String.eqb_eq, Bool.eqb_true_iff, Z.geb_leb, !Z.leb_le.
    repeat split; try assumption; lia.
  - auto.
Qed.

(** ** The handler of the upcoming appointments *)

(** X27.  Whose upcoming appointments the handler shows.  The handler
    never changes the store.  Every appointment it lists is stored, is
    Pending, Confirmed or InProgress and starts no earlier than the
    clock.  To a user with the seller role it lists appointments with the
    user's own seller profile, and none when the user has no profile; to
    every other user, administrators included, the appointments that the
    user has booked. *)
Theorem getUpcomingAppointments_handler_scopes_by_role sellers env user limit db :
  let out := AppointmentController.getUpcomingAppointments sellers env user limit db in
  snd out = db
  /\ forall appointments a,
       Response.data (fst out) = Some appointments ->
       In a appointments ->
       In a (Db.appointment db)
       /\ nonTerminal (Appointment.status a)
       /\ Env.now env <= Appointment.scheduledTimeStart a
       /\ match User.role user with
          | UserRole.SELLER =>
              exists seller,
                seller_findUnique sellers (User.id user) = Some seller
                /\ Appointment.sellerId a = SellerProfile.id seller
          | _ => Appointment.buyerId a = User.id user
          end.
Proof.
  cbv zeta. unfold AppointmentController.getUpcomingAppointments.
  assert (Hrespond : forall targetUserId userType l,
    let out := match AppointmentService.getUpcomingAppointments
                       env targetUserId userType l db with
               | (Ok appointments, db') => (Response.ok 200 appointments, db')
               | (Throw message, db') =>
                   (@Response.error (list Appointment.t) 500 message
                      "Failed to get upcoming appointments", db')
               end in
    snd out = db
    /\ forall appointments a,
         Response.data (fst out) = Some appointments ->
         In a appointments ->
         In a (Db.appointment db)
         /\ AppointmentService.upcomingWhere env targetUserId userType a = true).
  { intros targetUserId userType l. cbv zeta.
    unfold AppointmentService.getUpcomingAppointments, Prisma.appointment_findMany.
    destruct (Prisma.skipTake 0 (Some l) _) as [appointments|message] eqn:Hpage;
      cbn [fst snd]; (split; [reflexivity|]).
    - intros appointments' a [= <-] Hin.
      apply (skipTake_In _ _ _ _ _ Hpage) in Hin.
      now rewrite orderBy_In, filter_In in Hin.
    - intros appointments' a H. discriminate H. }
  destruct (User.role user) eqn:Hrole; cbn [UserRole.eqb].
  - destruct (Hrespond (User.id user) UserType.buyer
                (match limit with Some l => l | None => 5 end)) as [Hsnd Hsel].
    split; [exact Hsnd|]. intros appointments a Hdata Hin.
    destruct (Hsel appointments a Hdata Hin) as [Hstored Hwhere].
    apply upcomingWhere_true in Hwhere. tauto.
  - destruct (seller_findUnique sellers (User.id user)) as [seller|] eqn:Hseller.
    + destruct (Hrespond (SellerProfile.id seller) UserType.seller
                  (match limit with Some l => l | None => 5 end)) as [Hsnd Hsel].
      split; [exact Hsnd|]. intros appointments a Hdata Hin.
      destruct (Hsel appointments a Hdata Hin) as [Hstored Hwhere].
      apply upcomingWhere_true in Hwhere. destruct Hwhere as (Hs & Hnow & Hstatus).
      repeat split; try assumption. exists seller. auto.
    + cbn [fst snd]. split; [reflexivity|]. intros appointments a [= <-] [].
  - destruct (Hrespond (User.id user) UserType.buyer
                (match limit with Some l => l | None => 5 end)) as [Hsnd Hsel].
    split; [exact Hsnd|]. intros appointments a Hdata Hin.
    destruct (Hsel appointments a Hdata Hin) as [Hstored Hwhere].
    apply upcomingWhere_true in Hwhere. tauto.
Qed.

(** ** The handlers of a seller's own hours and time off *)

(** X28.  A seller sets only the seller's own hours.  Whatever the body
    and the datastore, the handler leaves the availability rows of every
    seller other than the user's own seller profile as they read before,
    and no other table changes.  An answer of 200 means that the body
    passed validation, the user has a seller profile, and the row of the
    validated weekday of that profile now holds the validated times and
    flag.  For a validated body and a user without seller profile the
    answer is 404 and nothing changes. *)
Theorem setDayAvailability_handler_writes_own_row sellers env user validatedData db :
  let out := AvailabilityController.setDayAvailability sellers env user validatedData db in
  (forall s d,
     (forall seller, seller_findUnique sellers (User.id user) = Some seller ->
                     SellerProfile.id seller <> s) ->
     availabilityOf (snd out) s d = availabilityOf db s d)
  /\ (Db.service (snd out) = Db.service db
      /\ Db.appointment (snd out) = Db.appointment db
      /\ Db.appointmentStatusHistory (snd out) = Db.appointmentStatusHistory db
      /\ Db.sellerTimeOff (snd out) = Db.sellerTimeOff db)
  /\ (Response.status (fst out) = 200 ->
      exists seller value,
        validatedData = Ok value
        /\ seller_findUnique sellers (User.id user) = Some seller
        /\ Response.data (fst out) = Some (scheduledRow (SellerProfile.id seller) value)
        /\ availabilityOf (snd out) (SellerProfile.id seller) (DaySchedule.dayOfWeek value)
           = Some (scheduledRow (SellerProfile.id seller) value))
  /\ (forall value,
        validatedData = Ok value ->
        seller_findUnique sellers (User.id user) = None ->
        fst out = Response.mk 404 false None
                    (Some "Seller profile not found. Please register as a seller first.")
        /\ snd out = db).
Proof.
  cbv zeta. unfold AvailabilityController.setDayAvailability.
  destruct validatedData as [value|message].
  2:{ cbn [fst snd]. refine (conj _ (conj _ (conj _ _))).
      - reflexivity.
      - repeat split.
      - discriminate.
      - intros value H. discriminate H. }
  destruct (seller_findUnique sellers (User.id user)) as [seller|] eqn:Hseller.
  2:{ cbn [fst snd]. refine (conj _ (conj _ (conj _ _))).
      - reflexivity.
      - repeat split.
      - discriminate.
      - intros value' _ _. split; reflexivity. }
  pose proof (availabilityOf_set env (SellerProfile.id seller)
                (DaySchedule.dayOfWeek value) (DaySchedule.startTime value)
                (DaySchedule.endTime value) (DaySchedule.isAvailable value) db) as Hlookup.
  pose proof (setSellerAvailability_result env (SellerProfile.id seller)
                (DaySchedule.dayOfWeek value) (DaySchedule.startTime value)
                (DaySchedule.endTime value) (DaySchedule.isAvailable value) db) as Hresult.
  pose proof (upsert_frame env 0 (SellerProfile.id seller)
                (DaySchedule.dayOfWeek value) (DaySchedule.startTime value)
                (DaySchedule.endTime value) (DaySchedule.isAvailable value) db) as Hframe.
  cbv zeta in Hframe.
  fold (AvailabilityService.setSellerAvailability env (SellerProfile.id seller)
          (DaySchedule.dayOfWeek value) (DaySchedule.startTime value)
          (DaySchedule.endTime value) (DaySchedule.isAvailable value)) in Hframe.
  destruct (AvailabilityService.setSellerAvailability env (SellerProfile.id seller)
              (DaySchedule.dayOfWeek value) (DaySchedule.startTime value)
              (DaySchedule.endTime value) (DaySchedule.isAvailable value) db)
    as [[availability|message] db'] eqn:Hcall; cbn [fst snd] in *.
  - assert (Hw : Env.writeFails env 0 = false)
      by (destruct (Env.writeFails env 0); [discriminate Hresult | reflexivity]).
    rewrite Hw in Hresult, Hlookup. cbn [negb andb] in Hlookup.
    injection Hresult as ->.
    split; [|split; [exact Hframe|split]].
    + intros s d Hother. rewrite Hlookup.
      destruct (String.eqb_spec s (SellerProfile.id seller)) as [->|]; [|reflexivity].
      exfalso. now apply (Hother seller).
    + intros _. exists seller, value. repeat split.
      rewrite Hlookup, String.eqb_refl, Z.eqb_refl. reflexivity.
    + intros value' _ H. discriminate H.
  - assert (Hw : Env.writeFails env 0 = true)
      by (destruct (Env.writeFails env 0); [reflexivity | discriminate Hresult]).
    rewrite Hw in Hlookup. cbn [negb andb] in Hlookup.
    split; [|split; [exact Hframe|split]].
    + intros s d _. apply Hlookup.
    + discriminate.
    + intros value' _ H. discriminate H.
Qed.

(** X29.  A seller ends only the seller's own time off.  On a time-off
    table with distinct ids, whatever the id in the request and whatever
    the datastore does, the handler leaves every time-off row of a seller
    other than the user's own seller profile in the table as it is, and
    changes no other table.  An answer of 200 means that the user has a
    seller profile and that the row with the id belongs to it and is now
    inactive.  For a user without seller profile the answer is 404 and
    nothing changes. *)
Theorem removeTimeOff_handler_ends_own_time_off sellers env user timeOffId db :
  NoDup (map SellerTimeOff.id (Db.sellerTimeOff db)) ->
  let out := AvailabilityController.removeTimeOff sellers env user timeOffId db in
  (forall r,
     In r (Db.sellerTimeOff db) ->
     (forall seller, seller_findUnique sellers (User.id user) = Some seller ->
                     SellerProfile.id seller <> SellerTimeOff.sellerId r) ->
     In r (Db.sellerTimeOff (snd out)))
  /\ (Db.service (snd out) = Db.service db
      /\ Db.appointment (snd out) = Db.appointment db
      /\ Db.appointmentStatusHistory (snd out) = Db.appointmentStatusHistory db
      /\ Db.sellerAvailability (snd out) = Db.sellerAvailability db)
  /\ (Response.status (fst out) = 200 ->
      exists seller row,
        seller_findUnique sellers (User.id user) = Some seller
        /\ In row (Db.sellerTimeOff db)
        /\ SellerTimeOff.id row = timeOffId
        /\ SellerTimeOff.sellerId row = SellerProfile.id seller
        /\ In (deactivate timeOffId row) (Db.sellerTimeOff (snd out))
        /\ SellerTimeOff.isActive (deactivate timeOffId row) = false)
  /\ (seller_findUnique sellers (User.id user) = None ->
      fst out = Response.mk 404 false None
                  (Some "Seller profile not found. Please register as a seller first.")
      /\ snd out = db).
Proof.
  intros Huniq. cbv zeta. unfold AvailabilityController.removeTimeOff.
  destruct (seller_findUnique sellers (User.id user)) as [seller|] eqn:Hseller.
  2:{ cbn [fst snd]. refine (conj _ (conj _ (conj _ _))).
      - intros r Hin _. exact Hin.
      - repeat split.
      - discriminate.
      - intros _. split; reflexivity. }
  rewrite removeTimeOff_unfold.
  destruct (find _ (Db.sellerTimeOff db)) as [row|] eqn:Hrow.
  2:{ cbn [fst snd]. refine (conj _ (conj _ (conj _ _))).
      - intros r Hin _. exact Hin.
      - repeat split.
      - discriminate.
      - discriminate. }
  destruct (Env.writeFails env 0).
  { cbn [fst snd]. refine (conj _ (conj _ (conj _ _))).
    - intros r Hin _. exact Hin.
    - repeat split.
    - discriminate.
    - discriminate. }
  apply find_some in Hrow as [Hin Hkey]. apply andb_true_iff in Hkey as [Hid Hown].
  apply String.eqb_eq in Hid, Hown.
  cbn [fst snd Db.setSellerTimeOff Db.sellerTimeOff Db.service Db.appointment
       Db.appointmentStatusHistory Db.sellerAvailability Response.status].
  refine (conj _ (conj _ (conj _ _))).
  - intros r Hr Hother. apply in_map_iff. exists r. split; [|exact Hr].
    unfold deactivate.
    destruct (String.eqb_spec (SellerTimeOff.id r) timeOffId) as [Heq|]; [|reflexivity].
    exfalso. apply (Hother seller eq_refl).
    pose proof (find_by_key_unique SellerTimeOff.id _ r Huniq Hr) as H1.
    pose proof (find_by_key_unique SellerTimeOff.id _ row Huniq Hin) as H2.
    rewrite Heq in H1. rewrite Hid in H2. rewrite H1 in H2. injection H2 as ->.
    now symmetry.
  - repeat split.
  - intros _. exists seller, row. repeat split; try assumption.
    + now apply in_map.
    + unfold deactivate. now rewrite Hid, String.eqb_refl.
  - discriminate.
Qed.

(** ** The week at the workshop, seen through the handlers *)

(** The calendar of the week shows the leave that blocks the Monday. *)
Lemma calendar_shows_the_time_off_that_blocks_witness :
  exists calendar r,
    AvailabilityService.getSellerCalendar "seller-1"
      (Scenario.monday - Scenario.hours 24) (Scenario.monday + Scenario.hours 144)
      Workshop.dbOnLeave
    = (Ok calendar, Workshop.dbOnLeave)
    /\ In r (Calendar.timeOff calendar)
    /\ SellerTimeOff.sellerId r = "seller-1"
    /\ SellerTimeOff.isActive r = true
    /\ SellerTimeOff.startDate r <= Scenario.monday <= SellerTimeOff.endDate r.
Proof.
  apply (calendar_shows_the_time_off_that_blocks
           "seller-1" (Scenario.monday - Scenario.hours 24)
           (Scenario.monday + Scenario.hours 144) Scenario.monday
           (Scenario.monday + Scenario.hours 9) (Scenario.monday + Scenario.hours 10)
           Workshop.dbOnLeave).
  - unfold Scenario.hours. lia.
  - reflexivity.
Defined.

(** The owner of another shop asks to end the leave: it stays. *)
Lemma removeTimeOff_handler_ends_own_time_off_witness :
  In Workshop.leave
     (Db.sellerTimeOff
        (snd (AvailabilityController.removeTimeOff
                Workshop.sellers Scenario.env Workshop.otherSeller "off-1"
                Workshop.dbOnLeave))).
Proof.
  refine (proj1 (removeTimeOff_handler_ends_own_time_off
                   Workshop.sellers Scenario.env Workshop.otherSeller "off-1"
                   Workshop.dbOnLeave on_leave_ids) Workshop.leave _ _).
  - now left.
  - intros seller [= <-]. discriminate.
Defined.
(** ** Calls that overlap in time *)

Lemma createAppointmentTransaction_unfold env buyerId data service db :
  Concurrent.createAppointmentTransaction env buyerId data service db =
  if Env.writeFails env 0
  then (Throw "The datastore rejected the write", db)
  else if existsb (fun a => String.eqb (Appointment.id a) (Env.cuid env)) (Db.appointment db)
  then (Throw "Unique constraint failed on the fields: (`id`)", db)
  else if existsb (fun a => String.eqb (Appointment.appointmentNumber a)
                     ("APT-" ++ JsString.ofZ (Env.now env) ++ "-" ++ Env.random env))
                  (Db.appointment db)
  then (Throw "Unique constraint failed on the fields: (`appointment_number`)", db)
  else if Env.writeFails env 1
  then (Throw "The datastore rejected the write", db)
  else (Ok (createdAppointment env buyerId data service),
        afterCreate env buyerId data service db).
Proof.
  unfold Concurrent.createAppointmentTransaction, Prisma.transaction,
    Prisma.appointment_create, Prisma.appointmentStatusHistory_create, bind, ret.
  cbn [Appointment.id Appointment.appointmentNumber].
  destruct (Env.writeFails env 0); [reflexivity|].
  destruct (existsb (fun a => String.eqb (Appointment.id a) _) _); [reflexivity|].
  destruct (existsb (fun a => String.eqb (Appointment.appointmentNumber a) _) _);
    [reflexivity|].
  destruct (Env.writeFails env 1); reflexivity.
Qed.

Lemma updateAppointmentStatusTransaction_unfold env appointmentId newStatus changedBy notes db :
  Concurrent.updateAppointmentStatusTransaction env appointmentId newStatus changedBy notes db =
  if Env.writeFails env 0
  then (Throw "The datastore rejected the write", db)
  else if existsb (fun a => String.eqb (Appointment.id a) appointmentId) (Db.appointment db)
  then if Env.writeFails env 1
       then (Throw "The datastore rejected the write", db)
       else (Ok tt, afterUpdate env appointmentId newStatus changedBy notes db)
  else (Throw "Record to update not found", db).
Proof.
  unfold Concurrent.updateAppointmentStatusTransaction, Prisma.transaction,
    Prisma.appointment_update, Prisma.appointmentStatusHistory_create, bind.
  destruct (Env.writeFails env 0); [reflexivity|].
  destruct (existsb _ (Db.appointment db)); [|reflexivity].
  destruct (Env.writeFails env 1); reflexivity.
Qed.

(** Run without interruption, the calls are the methods of
    [AppointmentService]. *)
Lemma run_createAppointment env buyerId appointmentData db :
  run (Concurrent.createAppointment env buyerId appointmentData) db
  = AppointmentService.createAppointment env buyerId appointmentData db.
Proof.
  rewrite createAppointment_unfold.
  unfold Concurrent.createAppointment, await. cbn [andThen run].
  unfold Prisma.service_findFirst, query.
  destruct (find _ (Db.service db)) as [service|]; [|reflexivity].
  cbn [andThen run].
  destruct (negb (Seller.isApproved _)); [reflexivity|].
  cbv zeta.
  destruct (negb (_ =? _)); [reflexivity|].
  cbn [andThen run]. rewrite checkTimeSlotAvailability_unfold. cbn [andThen run].
  destruct (Nat.eqb _ 0); cbn [negb run]; [|reflexivity].
  cbn [andThen run].
  unfold AppointmentService.getSellerAvailabilityForDay, Prisma.sellerAvailability_findMany,
    query.
  cbn [andThen run]. rewrite createAppointmentTransaction_unfold.
  destruct (Env.writeFails env 0); [reflexivity|].
  destruct (existsb (fun a => String.eqb (Appointment.id a) _) _) eqn:Hfresh; [reflexivity|].
  destruct (existsb (fun a => String.eqb (Appointment.appointmentNumber a) _) _);
    [reflexivity|].
  destruct (Env.writeFails env 1); [reflexivity|].
  cbn [andThen run].
  unfold AppointmentService.getAppointmentById, Prisma.appointment_findUnique,
    Prisma.appointmentStatusHistory_of, bind, query, ret.
  cbn [afterCreate Db.appointment Db.appointmentStatusHistory createdAppointment
       Appointment.id].
  rewrite find_app_fresh; [reflexivity | exact Hfresh | apply String.eqb_refl].
Qed.

Lemma run_updateAppointmentStatus env appointmentId newStatus changedBy notes db :
  run (Concurrent.updateAppointmentStatus env appointmentId newStatus changedBy notes) db
  = AppointmentService.updateAppointmentStatus env appointmentId newStatus changedBy notes db.
Proof.
  rewrite updateAppointmentStatus_unfold.
  unfold Concurrent.updateAppointmentStatus, await. cbn [andThen run].
  unfold Prisma.appointment_findUnique, query.
  destruct (find _ (Db.appointment db)) as [appointment|] eqn:Hfind; [|reflexivity].
  cbn [andThen run].
  destruct (negb (includes _ _)); [reflexivity|].
  cbn [andThen run]. rewrite updateAppointmentStatusTransaction_unfold.
  destruct (Env.writeFails env 0); [reflexivity|].
  rewrite (find_some_existsb _ _ _ Hfind).
  destruct (Env.writeFails env 1); [reflexivity|].
  cbn [andThen run].
  unfold AppointmentService.getAppointmentById, Prisma.appointment_findUnique,
    Prisma.appointmentStatusHistory_of, bind, query, ret.
  cbn [afterUpdate Db.appointment Db.appointmentStatusHistory].
  rewrite (find_setStatus env appointmentId newStatus _ _ Hfind).
  reflexivity.
Qed.

Lemma nth_error_parts {A : Type} (l : list A) :
  forall i c, nth_error l i = Some c -> l = (firstn i l ++ c :: skipn (S i) l)%list.
Proof.
  induction l as [|x l IH]; intros [|i] c H; try discriminate.
  - injection H as ->. reflexivity.
  - cbn [firstn skipn app]. f_equal. now apply IH.
Qed.

Lemma advance_await i s R (request : M R) continue :
  nth_error (Server.calls s) i = Some (Await request continue) ->
  Server.advance i s
  = Server.mk (snd (request (Server.store s)))
              (firstn i (Server.calls s)
               ++ continue (fst (request (Server.store s)))
               :: skipn (S i) (Server.calls s))%list.
Proof.
  intros H. unfold Server.advance. rewrite H.
  now destruct (request (Server.store s)).
Qed.

Lemma advance_other i s :
  (forall R (request : M R) continue,
     nth_error (Server.calls s) i <> Some (Await request continue)) ->
  Server.advance i s = s.
Proof.
  intros H. unfold Server.advance.
  destruct (nth_error (Server.calls s) i) as [[r|R request continue]|] eqn:Hn;
    try reflexivity.
  exfalso. exact (H R request continue eq_refl).
Qed.

(** *** Any order of the requests *)

Section AnyOrder.

Variable Inv : Db.t -> Prop.

Hypothesis createAppointment_keeps :
  forall env buyerId appointmentData,
    keeps Inv (Concurrent.createAppointment env buyerId appointmentData).
Hypothesis updateAppointmentStatus_keeps :
  forall env appointmentId newStatus changedBy notes,
    keeps Inv (Concurrent.updateAppointmentStatus env appointmentId newStatus changedBy notes).

Lemma reachable_keeps db0 s :
  Inv db0 -> Server.reachable db0 s ->
  Inv (Server.store s) /\ Forall (keeps Inv) (Server.calls s).
Proof.
  intros H0 Hreach. induction Hreach as [|s s' _ [IHinv IHcalls] Hstep].
  - split; [exact H0 | constructor].
  - destruct Hstep as [s s' Hbegin | i s].
    + destruct Hbegin; cbn [Server.start Server.store Server.calls];
        (split; [exact IHinv|]); apply Forall_app; (split; [exact IHcalls|]);
        (constructor; [|constructor]).
      * apply createAppointment_keeps.
      * apply updateAppointmentStatus_keeps.
    + destruct (nth_error (Server.calls s) i) as [[r|R request continue]|] eqn:Hn.
      * rewrite advance_other; [now split|]. intros; congruence.
      * rewrite (advance_await _ _ _ _ _ Hn). cbn [Server.store Server.calls].
        pose proof (nth_error_parts _ _ _ Hn) as Hparts.
        rewrite Hparts in IHcalls. apply Forall_app in IHcalls as [Hpre Hrest].
        apply Forall_cons_iff in Hrest as [[Hreq Hcont] Hpost].
        split; [now apply Hreq|].
        apply Forall_app. split; [exact Hpre|]. constructor; [apply Hcont | exact Hpost].
      * rewrite advance_other; [now split|]. intros; congruence.
Qed.

End AnyOrder.

(** *** One call at a time *)

Section OneAtATime.

Variable Inv : Db.t -> Prop.

Hypothesis createAppointment_alone :
  forall env buyerId appointmentData db,
    Inv db -> alone Inv (Concurrent.createAppointment env buyerId appointmentData) db.
Hypothesis updateAppointmentStatus_alone :
  forall env appointmentId newStatus changedBy notes db,
    Inv db ->
    alone Inv (Concurrent.updateAppointmentStatus env appointmentId newStatus changedBy notes)
          db.

Lemma forallb_settled_nth (calls : list (Call AppointmentDetails.t)) i R
      (request : M R) continue :
  forallb settled calls = true ->
  nth_error calls i <> Some (Await request continue).
Proof.
  intros Hall Hn. apply nth_error_In in Hn.
  rewrite forallb_forall in Hall. specialize (Hall _ Hn). discriminate.
Qed.

Lemma oneAtATime_keeps db0 s :
  Inv db0 -> Server.oneAtATime db0 s ->
  Inv (Server.store s)
  /\ (Server.idle s = true
      \/ exists before c after,
           Server.calls s = (before ++ c :: after)%list
           /\ forallb settled before = true
           /\ forallb settled after = true
           /\ alone Inv c (Server.store s)).
Proof.
  intros H0 Hserial. induction Hserial as [|s s' _ [IHinv _] Hidle Hbegin|i s _ [IHinv IH]].
  - split; [exact H0 | left; reflexivity].
  - split; [destruct Hbegin; exact IHinv|]. right.
    destruct Hbegin; cbn [Server.start Server.store Server.calls];
      eexists (Server.calls s), _, []; (split; [reflexivity|]);
      (split; [exact Hidle|]); (split; [reflexivity|]); auto.
  - destruct IH as [Hidle | (before & c & after & Hcalls & Hbefore & Hafter & Halone)].
    + rewrite advance_other; [split; [exact IHinv | now left]|].
      intros R request continue. now apply forallb_settled_nth.
    + destruct (nth_error (Server.calls s) i) as [[r|R request continue]|] eqn:Hn;
        [rewrite advance_other; [split; [exact IHinv | right; eauto 10] | intros; congruence]
        | | rewrite advance_other; [split; [exact IHinv | right; eauto 10] | intros; congruence]].
      (* the call that is waiting is [c] *)
      assert (Hi : i = List.length before).
      { destruct (Nat.lt_trichotomy i (List.length before)) as [Hlt | [Heq | Hgt]];
          [| exact Heq |].
        - exfalso. rewrite Hcalls, nth_error_app1 in Hn by exact Hlt.
          now apply (forallb_settled_nth before i R request continue).
        - exfalso. rewrite Hcalls, nth_error_app2 in Hn by lia.
          destruct (i - List.length before)%nat as [|j] eqn:Hj; [lia|].
          cbn [nth_error] in Hn.
          now apply (forallb_settled_nth after j R request continue). }
      subst i.
      assert (Hc : c = Await request continue).
      { rewrite Hcalls, nth_error_app2, Nat.sub_diag in Hn by lia.
        cbn [nth_error] in Hn. congruence. }
      subst c. rewrite (advance_await _ _ _ _ _ Hn). cbn [Server.store Server.calls].
      cbn [alone] in Halone. destruct Halone as [Hinv' Hrest].
      split; [exact Hinv'|]. right.
      exists before, (continue (fst (request (Server.store s)))), after.
      rewrite Hcalls.
      rewrite firstn_app, Nat.sub_diag, firstn_all, app_nil_r.
      replace (S (List.length before)) with (List.length before + 1)%nat by lia.
      rewrite skipn_app, skipn_all2 by lia.
      replace (List.length before + 1 - List.length before)%nat with 1%nat by lia.
      cbn [skipn firstn app]. auto.
Qed.

End OneAtATime.

(** *** The two calls, request by request *)

Lemma getAppointmentById_pure appointmentId db :
  snd (AppointmentService.getAppointmentById appointmentId db) = db.
Proof.
  rewrite getAppointmentById_unfold. now destruct (find _ (Db.appointment db)).
Qed.

Lemma existsb_find {A : Type} (p : A -> bool) (l : list A) :
  existsb p l = true -> exists x, find p l = Some x.
Proof.
  intros H. apply find_exists. apply existsb_exists in H as [x [Hin Hp]]. eauto.
Qed.

Lemma createAppointment_alone env buyerId appointmentData db :
  SoundLedger db ->
  alone SoundLedger (Concurrent.createAppointment env buyerId appointmentData) db.
Proof.
  intros Hinv. unfold Concurrent.createAppointment, await. cbn [andThen alone].
  unfold Prisma.service_findFirst, query. cbn [fst snd]. split; [exact Hinv|].
  destruct (find _ (Db.service db)) as [service|]; [|exact I].
  cbn [andThen alone].
  destruct (negb (Seller.isApproved _)); [exact I|].
  cbv zeta. destruct (negb (_ =? _)); [exact I|].
  cbn [andThen alone]. rewrite checkTimeSlotAvailability_unfold. cbn [fst snd].
  split; [exact Hinv|].
  destruct (Nat.eqb _ 0) eqn:Hcount; cbn [negb andThen alone]; [|exact I].
  unfold AppointmentService.getSellerAvailabilityForDay, Prisma.sellerAvailability_findMany,
    query.
  cbn [fst snd andThen alone]. split; [exact Hinv|].
  rewrite createAppointmentTransaction_unfold.
  destruct (Env.writeFails env 0); [cbn [fst snd andThen alone]; now split|].
  destruct (existsb (fun a => String.eqb (Appointment.id a) _) _) eqn:Hfresh;
    [cbn [fst snd andThen alone]; now split|].
  destruct (existsb (fun a => String.eqb (Appointment.appointmentNumber a) _) _);
    [cbn [fst snd andThen alone]; now split|].
  destruct (Env.writeFails env 1); [cbn [fst snd andThen alone]; now split|].
  cbn [fst snd andThen alone].
  destruct Hinv as [Huniq Hnone].
  pose proof (afterCreate_invariant env buyerId appointmentData service db
                Hcount Hfresh Huniq Hnone) as Hafter.
  split; [exact Hafter|].
  rewrite getAppointmentById_pure. now split.
Qed.

Lemma updateAppointmentStatus_alone env appointmentId newStatus changedBy notes db :
  SoundLedger db ->
  alone SoundLedger
        (Concurrent.updateAppointmentStatus env appointmentId newStatus changedBy notes) db.
Proof.
  intros Hinv. unfold Concurrent.updateAppointmentStatus, await. cbn [andThen alone].
  unfold Prisma.appointment_findUnique, query. cbn [fst snd]. split; [exact Hinv|].
  destruct (find _ (Db.appointment db)) as [appointment|] eqn:Hfind; [|exact I].
  cbn [andThen alone].
  destruct (includes _ newStatus) eqn:Hvalid; cbn [negb]; [|exact I].
  cbn [andThen alone]. rewrite updateAppointmentStatusTransaction_unfold.
  destruct (Env.writeFails env 0); [cbn [fst snd andThen alone]; now split|].
  rewrite (find_some_existsb _ _ _ Hfind).
  destruct (Env.writeFails env 1); [cbn [fst snd andThen alone]; now split|].
  cbn [fst snd andThen alone].
  destruct Hinv as [Huniq Hnone].
  pose proof (afterUpdate_invariant env appointmentId newStatus changedBy notes db
                appointment Hfind Hvalid Huniq Hnone) as Hafter.
  split; [exact Hafter|].
  rewrite getAppointmentById_pure. now split.
Qed.

Lemma createAppointment_keeps_audit env buyerId appointmentData :
  keeps Audited (Concurrent.createAppointment env buyerId appointmentData).
Proof.
  unfold Concurrent.createAppointment, await. cbn [andThen keeps].
  split; [intros db H; exact H|].
  intros [[service|]|e]; cbn [andThen keeps]; try exact I.
  destruct (negb (Seller.isApproved _)); [exact I|].
  cbv zeta. destruct (negb (_ =? _)); [exact I|].
  cbn [andThen keeps]. split; [intros db H; exact H|].
  intros [isAvailable|e]; cbn [andThen keeps]; [|exact I].
  destruct (negb isAvailable); [exact I|].
  cbn [andThen keeps]. split; [intros db H; exact H|].
  intros [rows|e]; cbn [andThen keeps]; [|exact I].
  split.
  - intros db Haud. rewrite createAppointmentTransaction_unfold.
    destruct (Env.writeFails env 0); [exact Haud|].
    destruct (existsb (fun a => String.eqb (Appointment.id a) _) _) eqn:Hfresh;
      [exact Haud|].
    destruct (existsb (fun a => String.eqb (Appointment.appointmentNumber a) _) _);
      [exact Haud|].
    destruct (Env.writeFails env 1); [exact Haud|].
    cbn [snd]. now apply afterCreate_audited.
  - intros [appointment|e]; cbn [andThen keeps]; [|exact I].
    split; [|intros; exact I].
    intros db Haud. now rewrite getAppointmentById_pure.
Qed.

Lemma updateAppointmentStatus_keeps_audit env appointmentId newStatus changedBy notes :
  keeps Audited
        (Concurrent.updateAppointmentStatus env appointmentId newStatus changedBy notes).
Proof.
  unfold Concurrent.updateAppointmentStatus, await. cbn [andThen keeps].
  split; [intros db H; exact H|].
  intros [[appointment|]|e]; cbn [andThen keeps]; try exact I.
  destruct (negb (includes _ _)); [exact I|].
  cbn [andThen keeps]. split.
  - intros db Haud. rewrite updateAppointmentStatusTransaction_unfold.
    destruct (Env.writeFails env 0); [exact Haud|].
    destruct (existsb _ (Db.appointment db)) eqn:Hexists; [|exact Haud].
    destruct (Env.writeFails env 1); [exact Haud|].
    cbn [snd]. apply existsb_find in Hexists as [row Hrow].
    eapply afterUpdate_audited; eassumption.
  - intros [[]|e]; cbn [andThen keeps]; [|exact I].
    split; [|intros; exact I].
    intros db Haud. now rewrite getAppointmentById_pure.
Qed.

(** ** No double booking *)

Lemma reachable_advance db0 i s :
  Server.reachable db0 s -> Server.reachable db0 (Server.advance i s).
Proof. intros H. eapply Server.reach_step; [exact H | apply Server.step_advance]. Qed.

Lemma reachable_begin db0 s s' :
  Server.reachable db0 s -> Server.begins s s' -> Server.reachable db0 s'.
Proof. intros H Hb. eapply Server.reach_step; [exact H | now apply Server.step_begin]. Qed.

Lemma serve_oneAtATime db0 c s :
  Server.oneAtATime db0 s -> Server.idle s = true -> Server.begins s (Server.start c s) ->
  Server.oneAtATime db0 (Rush.serve c s).
Proof.
  intros H Hidle Hbegin. unfold Rush.serve. cbn [Nat.iter].
  repeat apply Server.serial_advance.
  now apply Server.serial_begin with (s := s).
Qed.

Lemma conflicting_counted sellerId startTime endTime db :
  conflicting sellerId startTime endTime db ->
  Nat.eqb (List.length (filter (overlappingWhere sellerId startTime endTime)
                               (Db.appointment db))) 0 = false.
Proof.
  intros (a & Hin & Hs & Hn & Ho). apply filter_length_zero.
  exists a. split; [exact Hin|]. now apply overlappingWhere_complete.
Qed.

(** C1 (as first stated) fails.  Two buyers ask for the Monday
    09:00-10:00 slot of the same seller, and the datastore answers the
    requests of the two calls in turn: each call has its overlap count
    answered, with zero, before the transaction of the other commits.
    Both transactions commit, and the store holds two Pending
    appointments of the seller with the same window. *)
Lemma double_booking_race :
  NoDoubleBooking (Db.appointment Scenario.db)
  /\ Server.reachable Scenario.db Rush.inTurn
  /\ map (fun c => match c with Settled result => isOk result | Await _ _ => false end)
         (Server.calls Rush.inTurn) = [true; true]
  /\ Db.appointment (Server.store Rush.inTurn) = [Rush.firstRow; Rush.secondRow]
  /\ Appointment.id Rush.firstRow <> Appointment.id Rush.secondRow
  /\ Appointment.sellerId Rush.firstRow = Appointment.sellerId Rush.secondRow
  /\ Appointment.status Rush.firstRow = PENDING
  /\ Appointment.status Rush.secondRow = PENDING
  /\ windowsOverlap Rush.firstRow Rush.secondRow
  /\ ~ NoDoubleBooking (Db.appointment (Server.store Rush.inTurn)).
Proof.
  assert (Hrows : Db.appointment (Server.store Rush.inTurn)
                  = [Rush.firstRow; Rush.secondRow]) by (vm_compute; reflexivity).
  assert (Hoverlap : windowsOverlap Rush.firstRow Rush.secondRow)
    by (split; reflexivity).
  split; [intros a1 a2 []|].
  split.
  { unfold Rush.inTurn. cbn [Nat.iter]. repeat apply reachable_advance.
    eapply reachable_begin; [|apply Server.begin_createAppointment].
    eapply reachable_begin; [|apply Server.begin_createAppointment].
    apply Server.reach_init. }
  split; [vm_compute; reflexivity|].
  split; [exact Hrows|].
  assert (Hid : Appointment.id Rush.firstRow <> Appointment.id Rush.secondRow)
    by (cbn; discriminate).
  split; [exact Hid|]. split; [reflexivity|].
  split; [reflexivity|]. split; [reflexivity|].
  split; [exact Hoverlap|].
  intros Hnone. rewrite Hrows in Hnone.
  exact (Hnone Rush.firstRow Rush.secondRow
               (or_introl eq_refl) (or_intror (or_introl eq_refl))
               Hid eq_refl (or_introl eq_refl) (or_introl eq_refl) Hoverlap).
Qed.

(** Status changes race in the same way.  The buyer cancels the booked
    09:00-10:00 appointment while the seller confirms it, and both calls
    read the Pending row before either writes.  The cancellation
    commits, another buyer books the slot that it freed, and then the
    confirmation commits on the cancelled row: the seller has a Confirmed
    and a Pending appointment with the same window, and no call has
    thrown. *)
Lemma cancelled_booking_revived :
  Server.reachable Scenario.db Rush.revived
  /\ map (fun c => match c with Settled result => isOk result | Await _ _ => false end)
         (Server.calls Rush.revived) = [true; true; true; true]
  /\ map (fun a => (Appointment.id a, Appointment.status a,
                    Appointment.scheduledTimeStart a, Appointment.scheduledTimeEnd a))
         (Db.appointment (Server.store Rush.revived))
     = [ ("appt-1", CONFIRMED, Scenario.monday + 32400000, Scenario.monday + 36000000);
         ("appt-2", PENDING, Scenario.monday + 32400000, Scenario.monday + 36000000) ]
  /\ map StatusHistory.status
         (filter (fun h => String.eqb (StatusHistory.appointmentId h) "appt-1")
                 (Db.appointmentStatusHistory (Server.store Rush.revived)))
     = [PENDING; CANCELLED; CONFIRMED].
Proof.
  split; [|split; [|split]]; try (vm_compute; reflexivity).
  unfold Rush.revived, Rush.cancelledAndRebooked, Rush.serve, Rush.bothRead, Rush.booked,
    Rush.serve.
  cbn [Nat.iter].
  repeat first
    [ apply reachable_advance
    | eapply reachable_begin; [|apply Server.begin_createAppointment]
    | eapply reachable_begin; [|apply Server.begin_updateAppointmentStatus] ].
  apply Server.reach_init.
Qed.

(** C1 (as amended).  Let a call arrive only when every earlier call has
    settled.  Then from a store that has its primary key and no double
    booking, and so from a store without appointments, no seller ever
    has two distinct appointments with overlapping [start, end) windows
    that are both Pending, Confirmed or InProgress, whatever calls of
    [createAppointment] and [updateAppointmentStatus] are made and
    whether they succeed or throw.  [createAppointment] refuses a window
    that overlaps an appointment of the seller in one of these three
    statuses, and [updateAppointmentStatus] refuses every change to an
    appointment that is Completed or Cancelled; both leave the store as
    it was. *)
Theorem no_double_booking :
  (forall db0 s,
     UniqueIds (Db.appointment db0) ->
     NoDoubleBooking (Db.appointment db0) ->
     Server.oneAtATime db0 s ->
     NoDoubleBooking (Db.appointment (Server.store s)))
  /\ (forall env buyerId appointmentData db service,
        find (fun s => String.eqb (Service.id s)
                         (AppointmentCreateData.serviceId appointmentData))
             (Db.service db) = Some service ->
        Service.isActive service = true ->
        Seller.isApproved (Service.seller service) = true ->
        AppointmentCreateData.scheduledTimeEnd appointmentData
          = AppointmentCreateData.scheduledTimeStart appointmentData
            + Service.durationMinutes service * 60000 ->
        conflicting (Seller.id (Service.seller service))
                    (AppointmentCreateData.scheduledTimeStart appointmentData)
                    (AppointmentCreateData.scheduledTimeEnd appointmentData) db ->
        AppointmentService.createAppointment env buyerId appointmentData db
          = (Throw "The selected time slot is not available", db))
  /\ (forall env appointmentId newStatus changedBy notes db appointment,
        find (fun a => String.eqb (Appointment.id a) appointmentId) (Db.appointment db)
          = Some appointment ->
        Appointment.status appointment = COMPLETED
        \/ Appointment.status appointment = CANCELLED ->
        AppointmentService.updateAppointmentStatus
          env appointmentId newStatus changedBy notes db
          = (Throw ("Cannot change status from "
                    ++ statusName (Appointment.status appointment)
                    ++ " to " ++ statusName newStatus), db)).
Proof.
  split; [|split].
  - intros db0 s Huniq Hnone Hserial.
    apply (oneAtATime_keeps SoundLedger createAppointment_alone
             updateAppointmentStatus_alone db0 s (conj Huniq Hnone) Hserial).
  - intros env buyerId data db service Hfind Hactive Happroved Hlen Hconflict.
    rewrite createAppointment_unfold, (find_active _ _ _ Hfind Hactive), Happroved.
    rewrite Hlen, Z.eqb_refl. rewrite Hlen in Hconflict.
    now rewrite (conflicting_counted _ _ _ _ Hconflict).
  - intros env appointmentId newStatus changedBy notes db appointment Hfind Hterminal.
    rewrite updateAppointmentStatus_unfold, Hfind.
    now destruct Hterminal as [-> | ->].
Qed.

(** One call at a time on the Monday of the scenario: 09:00-10:00 is
    booked, 09:30-10:30 is refused, 10:00-11:00 is booked and the first
    booking is confirmed.  The store holds two appointments of the
    seller that are not terminal, and they do not overlap. *)
Lemma no_double_booking_witness :
  NoDoubleBooking (Db.appointment (Server.store Rush.confirmed))
  /\ map (fun a => (Appointment.id a, Appointment.status a,
                    Appointment.scheduledTimeStart a, Appointment.scheduledTimeEnd a))
         (Db.appointment (Server.store Rush.confirmed))
     = [ ("appt-1", CONFIRMED, Scenario.monday + 32400000, Scenario.monday + 36000000);
         ("appt-3", PENDING, Scenario.monday + 36000000, Scenario.monday + 39600000) ]
  /\ AppointmentService.createAppointment
       Scenario.env2 "buyer-2" Rush.halfPastNine (Server.store Rush.booked)
     = (Throw "The selected time slot is not available", Server.store Rush.booked).
Proof.
  split; [|split].
  - apply (proj1 no_double_booking Scenario.db Rush.confirmed).
    + constructor.
    + intros a1 a2 [].
    + apply serve_oneAtATime; [|reflexivity|apply Server.begin_updateAppointmentStatus].
      apply serve_oneAtATime; [|reflexivity|apply Server.begin_createAppointment].
      apply serve_oneAtATime; [|reflexivity|apply Server.begin_createAppointment].
      apply serve_oneAtATime; [|reflexivity|apply Server.begin_createAppointment].
      apply Server.serial_init.
  - reflexivity.
  - apply (proj1 (proj2 no_double_booking) Scenario.env2 "buyer-2" Rush.halfPastNine
             (Server.store Rush.booked) Scenario.service).
    + reflexivity.
    + reflexivity.
    + reflexivity.
    + reflexivity.
    + exists Rush.firstRow. split; [left; reflexivity|].
      split; [reflexivity|]. split; [left; reflexivity|].
      split; reflexivity.
Defined.

(** ** Atomic writes and the audit log *)

(** C8.  [createAppointment], once its checks have passed, stores the
    Pending appointment row and its one "Appointment created" audit row
    when the datastore takes both writes, and stores nothing when the
    datastore rejects either of them, also when it rejects the audit row
    after it has taken the appointment row.  [updateAppointmentStatus],
    for a transition of the table, stores the new status and appends one
    audit row when the datastore takes both writes, and stores nothing
    when it rejects either.  No call of either method leaves the store in
    any other state.  Hence, whatever calls are made and in whatever
    order their requests reach the datastore, from a store with no
    appointments and no audit rows every appointment has audit rows, the
    last recording its status, and every audit row has its appointment. *)
Theorem writes_are_atomic :
  (forall env buyerId appointmentData db service,
     find (fun s => String.eqb (Service.id s)
                      (AppointmentCreateData.serviceId appointmentData))
          (Db.service db) = Some service ->
     Service.isActive service = true ->
     Seller.isApproved (Service.seller service) = true ->
     AppointmentCreateData.scheduledTimeEnd appointmentData
       = AppointmentCreateData.scheduledTimeStart appointmentData
         + Service.durationMinutes service * 60000 ->
     fst (AppointmentService.checkTimeSlotAvailability
            (Seller.id (Service.seller service))
            (AppointmentCreateData.scheduledTimeStart appointmentData)
            (AppointmentCreateData.scheduledTimeEnd appointmentData) db) = Ok true ->
     let out := AppointmentService.createAppointment env buyerId appointmentData db in
     let row := createdAppointment env buyerId appointmentData service in
     (datastoreAccepts env db ->
      exists details,
        fst out = Ok details
        /\ AppointmentDetails.appointment details = row
        /\ Appointment.status row = PENDING
        /\ Db.appointment (snd out) = (Db.appointment db ++ [row])%list
        /\ Db.appointmentStatusHistory (snd out)
           = (Db.appointmentStatusHistory db
              ++ [StatusHistory.mk (Appointment.id row) PENDING
                    (Some "Appointment created") buyerId (Env.now env)])%list
        /\ snd out = afterCreate env buyerId appointmentData service db)
     /\ (Env.writeFails env 0 = true -> isOk (fst out) = false /\ snd out = db)
     /\ (Env.writeFails env 0 = false ->
         existsb (fun a => String.eqb (Appointment.id a) (Env.cuid env)) (Db.appointment db)
           = false ->
         existsb (fun a => String.eqb (Appointment.appointmentNumber a)
                             (Appointment.appointmentNumber row))
                 (Db.appointment db) = false ->
         Env.writeFails env 1 = true ->
         isOk (fst out) = false /\ snd out = db))
  /\ (forall env buyerId appointmentData db,
        let out := AppointmentService.createAppointment env buyerId appointmentData db in
        (isOk (fst out) = false /\ snd out = db)
        \/ (exists service,
              isOk (fst out) = true
              /\ snd out = afterCreate env buyerId appointmentData service db))
  /\ (forall env appointmentId newStatus changedBy notes db appointment,
        find (fun a => String.eqb (Appointment.id a) appointmentId) (Db.appointment db)
          = Some appointment ->
        In (Appointment.status appointment, newStatus) transitionTable ->
        let out := AppointmentService.updateAppointmentStatus
                     env appointmentId newStatus changedBy notes db in
        (Env.writeFails env 0 = false -> Env.writeFails env 1 = false ->
         exists details,
           fst out = Ok details
           /\ AppointmentDetails.appointment details
              = Appointment.withStatus appointment newStatus (Env.now env)
           /\ Db.appointment (snd out)
              = map (fun a => if String.eqb (Appointment.id a) appointmentId
                              then Appointment.withStatus a newStatus (Env.now env)
                              else a)
                    (Db.appointment db)
           /\ Db.appointmentStatusHistory (snd out)
              = (Db.appointmentStatusHistory db
                 ++ [StatusHistory.mk appointmentId newStatus notes changedBy
                       (Env.now env)])%list
           /\ snd out = afterUpdate env appointmentId newStatus changedBy notes db)
        /\ (Env.writeFails env 0 = true \/ Env.writeFails env 1 = true ->
            isOk (fst out) = false /\ snd out = db))
  /\ (forall env appointmentId newStatus changedBy notes db,
        let out := AppointmentService.updateAppointmentStatus
                     env appointmentId newStatus changedBy notes db in
        (isOk (fst out) = false /\ snd out = db)
        \/ (isOk (fst out) = true
            /\ snd out = afterUpdate env appointmentId newStatus changedBy notes db))
  /\ (forall db0 s,
        Db.appointment db0 = [] ->
        Db.appointmentStatusHistory db0 = [] ->
        Server.reachable db0 s ->
        Audited (Server.store s)).
Proof.
  refine (conj _ (conj _ (conj _ (conj _ _)))).
  - intros env buyerId data db service Hfind Hactive Happroved Hlen Hfree out row.
    subst out row. rewrite createAppointment_unfold, (find_active _ _ _ Hfind Hactive),
      Happroved.
    rewrite checkTimeSlotAvailability_unfold in Hfree. cbn [fst] in Hfree.
    injection Hfree as Hfree.
    rewrite Hlen, Z.eqb_refl. rewrite Hlen in Hfree. rewrite Hfree. cbn [negb].
    refine (conj _ (conj _ _)).
    + intros (Hw0 & Hw1 & Hid & Hnum). rewrite Hw0, Hid, Hnum, Hw1.
      eexists. cbn [fst snd]. repeat split.
    + intros Hw0. rewrite Hw0. now split.
    + intros Hw0 Hid Hnum Hw1.
      cbn [createdAppointment Appointment.appointmentNumber] in Hnum.
      rewrite Hw0, Hid, Hnum, Hw1. now split.
  - intros env buyerId data db out. subst out. rewrite createAppointment_unfold.
    destruct (find _ (Db.service db)) as [service|]; [|auto].
    destruct (negb (Seller.isApproved _)); [auto|].
    destruct (negb (_ =? _)); [auto|].
    destruct (negb (Nat.eqb _ 0)); [auto|].
    destruct (Env.writeFails env 0); [auto|].
    destruct (existsb (fun a => String.eqb (Appointment.id a) _) _); [auto|].
    destruct (existsb (fun a => String.eqb (Appointment.appointmentNumber a) _) _);
      [auto|].
    destruct (Env.writeFails env 1); [auto|].
    right. exists service. split; reflexivity.
  - intros env appointmentId newStatus changedBy notes db appointment Hfind Htable out.
    subst out. rewrite updateAppointmentStatus_unfold, Hfind.
    apply validTransitions_table in Htable. rewrite Htable. cbn [negb].
    split.
    + intros Hw0 Hw1. rewrite Hw0, Hw1. eexists. cbn [fst snd]. repeat split.
    + intros [Hw | Hw]; rewrite Hw; [now split|].
      now destruct (Env.writeFails env 0).
  - intros env appointmentId newStatus changedBy notes db out. subst out.
    rewrite updateAppointmentStatus_unfold.
    destruct (find _ (Db.appointment db)) as [appointment|]; [|auto].
    destruct (negb (includes _ newStatus)); [auto|].
    destruct (Env.writeFails env 0); [auto|].
    destruct (Env.writeFails env 1); [auto|].
    right. split; reflexivity.
  - intros db0 s Happ Hhist Hreach.
    apply (reachable_keeps Audited createAppointment_keeps_audit
             updateAppointmentStatus_keeps_audit db0 s); [|exact Hreach].
    split; [rewrite Happ | rewrite Hhist]; intros ? [].
Qed.

(** The 09:00-10:00 booking of the scenario stores its two rows; with a
    datastore that rejects the audit row it stores nothing.  The store
    that two overlapping calls leave is audited. *)
Lemma writes_are_atomic_witness :
  Db.appointment
    (snd (AppointmentService.createAppointment
            Scenario.env "buyer-1" Scenario.nineToTen Scenario.db))
  = [Rush.firstRow]
  /\ Db.appointmentStatusHistory
       (snd (AppointmentService.createAppointment
               Scenario.env "buyer-1" Scenario.nineToTen Scenario.db))
     = [StatusHistory.mk "appt-1" PENDING (Some "Appointment created") "buyer-1"
          (Env.now Scenario.env)]
  /\ (isOk (fst (AppointmentService.createAppointment
                    Workshop.envSecondRejected "buyer-1" Scenario.nineToTen Scenario.db))
      = false
      /\ snd (AppointmentService.createAppointment
                Workshop.envSecondRejected "buyer-1" Scenario.nineToTen Scenario.db)
         = Scenario.db)
  /\ Audited (Server.store Rush.inTurn).
Proof.
  destruct (proj1 writes_are_atomic Scenario.env "buyer-1" Scenario.nineToTen
              Scenario.db Scenario.service eq_refl eq_refl eq_refl eq_refl eq_refl)
    as (Hstored & _ & _).
  destruct (Hstored (conj eq_refl (conj eq_refl (conj eq_refl eq_refl))))
    as (details & _ & _ & _ & Happointment & Hhistory & _).
  split; [exact Happointment|]. split; [exact Hhistory|]. split.
  - apply (proj2 (proj2 (proj1 writes_are_atomic Workshop.envSecondRejected "buyer-1"
                           Scenario.nineToTen Scenario.db Scenario.service
                           eq_refl eq_refl eq_refl eq_refl eq_refl)));
      reflexivity.
  - apply (proj2 (proj2 (proj2 (proj2 writes_are_atomic))) Scenario.db);
      [reflexivity | reflexivity |].
    unfold Rush.inTurn. cbn [Nat.iter]. repeat apply reachable_advance.
    eapply reachable_begin; [|apply Server.begin_createAppointment].
    eapply reachable_begin; [|apply Server.begin_createAppointment].
    apply Server.reach_init.
Defined.

(** ** The scan of [getNextAvailableSlot] *)

Lemma availableAt_true sellerId durationMinutes currentDate db slotStart :
  availableAt sellerId durationMinutes currentDate db slotStart = true
  <-> AvailabilityService.isSellerAvailable
        sellerId currentDate slotStart (slotStart + durationMinutes * 60000) db
      = (Ok (Availability.mk true None), db).
Proof.
  unfold availableAt. rewrite isSellerAvailable_unfold. cbn [fst].
  destruct (find _ (Db.sellerAvailability db)) as [availability|];
    [|split; [discriminate | intros [=]]].
  destruct (negb (SellerAvailability.isAvailable availability));
    [split; [discriminate | intros [=]]|].
  destruct (String.ltb _ _ || String.leb _ _); [split; [discriminate | intros [=]]|].
  destruct (find _ (Db.sellerTimeOff db)); [split; [discriminate | intros [=]]|].
  destruct (0 <? _)%nat; [split; [discriminate | intros [=]] | split; reflexivity].
Qed.

Lemma accepted_iff sellerId durationMinutes currentDate dayEnd db slotStart :
  accepted sellerId durationMinutes currentDate dayEnd db slotStart = true
  <-> slotStart + durationMinutes * 60000 <= dayEnd
      /\ AvailabilityService.isSellerAvailable
           sellerId currentDate slotStart (slotStart + durationMinutes * 60000) db
         = (Ok (Availability.mk true None), db).
Proof.
  unfold accepted. now rewrite andb_true_iff, Z.leb_le, availableAt_true.
Qed.

(** A day on which every probe is refused is passed over. *)
Lemma probeLoop_none sellerId durationMinutes currentDate dayEnd db slotStart :
  (forall k, probe slotStart k < dayEnd ->
     accepted sellerId durationMinutes currentDate dayEnd db (probe slotStart k) = false) ->
  AvailabilityService.probeLoop (AvailabilityService.probeFuel dayEnd slotStart)
    sellerId durationMinutes currentDate dayEnd slotStart db
  = (Ok Fallthrough, db).
Proof.
  intros Hnone.
  destruct (probeLoop_pure (AvailabilityService.probeFuel dayEnd slotStart) sellerId
              durationMinutes currentDate dayEnd slotStart db) as [[| |slot] Hr].
  - exfalso. revert Hr. apply probeLoop_terminates, probeFuel_enough.
  - exact Hr.
  - exfalso. apply probeLoop_returned in Hr as (k & _ & Hk & Hacc & _).
    rewrite (Hnone k Hk) in Hacc. discriminate.
Qed.

Lemma probeDay_none env sellerId durationMinutes currentDate db :
  (forall first dayEnd k,
     windowOf env sellerId currentDate db = Some (first, dayEnd) ->
     probe first k < dayEnd ->
     accepted sellerId durationMinutes currentDate dayEnd db (probe first k) = false) ->
  AvailabilityService.probeDay env sellerId durationMinutes currentDate db
  = (Ok Fallthrough, db).
Proof.
  intros Hnone. rewrite probeDay_unfold.
  destruct (windowOf env sellerId currentDate db) as [[first dayEnd]|]; [|reflexivity].
  apply probeLoop_none. intros k Hk. now apply (Hnone first dayEnd k).
Qed.

Lemma probeDay_fallthrough env sellerId durationMinutes currentDate db :
  AvailabilityService.probeDay env sellerId durationMinutes currentDate db
  = (Ok Fallthrough, db) ->
  forall first dayEnd k,
    windowOf env sellerId currentDate db = Some (first, dayEnd) ->
    probe first k < dayEnd ->
    accepted sellerId durationMinutes currentDate dayEnd db (probe first k) = false.
Proof.
  rewrite probeDay_unfold. intros Hday first dayEnd k Hwin Hk.
  rewrite Hwin in Hday. now apply (probeLoop_fallthrough _ _ _ _ _ _ _ Hday).
Qed.

Lemma probeDay_first env sellerId durationMinutes currentDate db first dayEnd k :
  windowOf env sellerId currentDate db = Some (first, dayEnd) ->
  probe first k < dayEnd ->
  accepted sellerId durationMinutes currentDate dayEnd db (probe first k) = true ->
  (forall j, (j < k)%nat ->
     accepted sellerId durationMinutes currentDate dayEnd db (probe first j) = false) ->
  AvailabilityService.probeDay env sellerId durationMinutes currentDate db
  = (Ok (Returned (slotAt durationMinutes currentDate (probe first k))), db).
Proof.
  intros Hwin Hk Hacc Hbefore. rewrite probeDay_unfold, Hwin.
  apply probeLoop_first; auto.
  unfold AvailabilityService.probeFuel.
  assert (Z.of_nat k <= (dayEnd - first) / (30 * 60000)).
  { apply Z.div_le_lower_bound; [lia|]. unfold probe in Hk. lia. }
  lia.
Qed.

Lemma probeDay_returned env sellerId durationMinutes currentDate db slot :
  AvailabilityService.probeDay env sellerId durationMinutes currentDate db
  = (Ok (Returned slot), db) ->
  exists first dayEnd k,
    windowOf env sellerId currentDate db = Some (first, dayEnd)
    /\ slot = slotAt durationMinutes currentDate (probe first k)
    /\ probe first k < dayEnd
    /\ accepted sellerId durationMinutes currentDate dayEnd db (probe first k) = true
    /\ forall j, (j < k)%nat ->
         accepted sellerId durationMinutes currentDate dayEnd db (probe first j) = false.
Proof.
  rewrite probeDay_unfold.
  destruct (windowOf env sellerId currentDate db) as [[first dayEnd]|]; [|discriminate].
  intros Hday. apply probeLoop_returned in Hday as (k & H).
  exists first, dayEnd, k. split; [reflexivity | exact H].
Qed.

Lemma dayFuel_reaches endDate currentDate d :
  dayAt currentDate d <= endDate ->
  (d < AvailabilityService.dayFuel endDate currentDate)%nat.
Proof.
  intros Hd. unfold AvailabilityService.dayFuel, dayAt in *.
  assert (Z.of_nat d <= (endDate - currentDate) / JsDate.MS_PER_DAY).
  { apply Z.div_le_lower_bound; unfold JsDate.MS_PER_DAY in *; lia. }
  lia.
Qed.

Section Scan.

Variables (env : Env.t) (db : Db.t) (sellerId : string).
Variables (durationMinutes fromDate daysAhead : Z).

Hypothesis duration_positive : 0 < durationMinutes.

(** The k-th probe of the d-th day of the scan is examined and
    accepted. *)
Let probed (d k : nat) (start : Z) : Prop :=
  JsDate.startOfDay fromDate + Z.of_nat d * 86400000 <= fromDate + daysAhead * 86400000
  /\ exists first dayEnd,
       windowOf env sellerId (JsDate.startOfDay fromDate + Z.of_nat d * 86400000) db
         = Some (first, dayEnd)
       /\ start = first + Z.of_nat k * 1800000
       /\ start + durationMinutes * 60000 <= dayEnd
       /\ AvailabilityService.isSellerAvailable
            sellerId (JsDate.startOfDay fromDate + Z.of_nat d * 86400000)
            start (start + durationMinutes * 60000) db
          = (Ok (Availability.mk true None), db).

Let scan : Result (Loop Slot.t) * Db.t :=
  AvailabilityService.dayLoop
    (AvailabilityService.dayFuel (fromDate + daysAhead * 24 * 60 * 60 * 1000)
                                 (JsDate.startOfDay fromDate))
    env sellerId durationMinutes
    (fromDate + daysAhead * 24 * 60 * 60 * 1000) (JsDate.startOfDay fromDate) db.

Lemma dayAt_explicit d :
  dayAt (JsDate.startOfDay fromDate) d
  = JsDate.startOfDay fromDate + Z.of_nat d * 86400000.
Proof. reflexivity. Qed.

Lemma probed_accepted d k start :
  probed d k start <->
  dayAt (JsDate.startOfDay fromDate) d <= fromDate + daysAhead * 24 * 60 * 60 * 1000
  /\ exists first dayEnd,
       windowOf env sellerId (dayAt (JsDate.startOfDay fromDate) d) db = Some (first, dayEnd)
       /\ start = probe first k
       /\ probe first k < dayEnd
       /\ accepted sellerId durationMinutes (dayAt (JsDate.startOfDay fromDate) d)
                   dayEnd db (probe first k) = true.
Proof.
  unfold probed. rewrite dayAt_explicit. split.
  - intros [Hd (first & dayEnd & Hwin & -> & Hfit & Havailable)].
    split; [lia|]. exists first, dayEnd.
    replace (probe first k) with (first + Z.of_nat k * 1800000) by (unfold probe; lia).
    split; [exact Hwin|]. split; [reflexivity|]. split; [lia|].
    now apply accepted_iff.
  - intros [Hd (first & dayEnd & Hwin & -> & _ & Hacc)].
    split; [lia|]. exists first, dayEnd. apply accepted_iff in Hacc as [Hfit Havailable].
    split; [exact Hwin|]. split; [unfold probe; lia|]. split; assumption.
Qed.

Lemma scan_returned slot :
  scan = (Ok (Returned slot), db) ->
  exists d k,
    probed d k (Slot.startTime slot)
    /\ (forall d' k' start',
          (d' < d)%nat \/ (d' = d /\ (k' < k)%nat) -> ~ probed d' k' start')
    /\ Slot.date slot = JsDate.startOfDay fromDate + Z.of_nat d * 86400000
    /\ Slot.endTime slot = Slot.startTime slot + durationMinutes * 60000.
Proof.
  unfold scan. intros Hscan.
  apply dayLoop_returned in Hscan as (d & Hd & Hday & Hbefore).
  apply probeDay_returned in Hday as (first & dayEnd & k & Hwin & -> & Hk & Hacc & Hfirst).
  exists d, k. cbn [slotAt Slot.date Slot.startTime Slot.endTime].
  split; [|split; [|split; reflexivity]].
  - apply probed_accepted. split; [exact Hd|]. exists first, dayEnd. auto.
  - intros d' k' start' Hearlier Hprobed.
    apply probed_accepted in Hprobed as [_ (first' & dayEnd' & Hwin' & _ & Hk' & Hacc')].
    destruct Hearlier as [Hlt | [-> Hlt]].
    + rewrite (probeDay_fallthrough _ _ _ _ _ (Hbefore d' Hlt) _ _ _ Hwin' Hk') in Hacc'.
      discriminate.
    + rewrite Hwin in Hwin'. injection Hwin' as <- <-.
      rewrite (Hfirst k' Hlt) in Hacc'. discriminate.
Qed.

Lemma scan_first d k start :
  probed d k start ->
  (forall d' k' start',
     (d' < d)%nat \/ (d' = d /\ (k' < k)%nat) -> ~ probed d' k' start') ->
  scan = (Ok (Returned (Slot.mk (JsDate.startOfDay fromDate + Z.of_nat d * 86400000)
                                start (start + durationMinutes * 60000))), db).
Proof.
  intros Hprobed Hearlier.
  apply probed_accepted in Hprobed as [Hd (first & dayEnd & Hwin & -> & Hk & Hacc)].
  assert (Hnot : forall d' k' first' dayEnd',
            (d' < d)%nat \/ (d' = d /\ (k' < k)%nat) ->
            windowOf env sellerId (dayAt (JsDate.startOfDay fromDate) d') db
              = Some (first', dayEnd') ->
            probe first' k' < dayEnd' ->
            accepted sellerId durationMinutes (dayAt (JsDate.startOfDay fromDate) d')
                     dayEnd' db (probe first' k') = false).
  { intros d' k' first' dayEnd' Hlt Hwin' Hk'.
    destruct (accepted _ _ _ dayEnd' db (probe first' k')) eqn:Hacc'; [|reflexivity].
    exfalso. apply (Hearlier d' k' (probe first' k') Hlt).
    apply probed_accepted. split.
    - destruct Hlt as [Hlt | [-> _]]; [|exact Hd].
      pose proof (dayAt_mono (JsDate.startOfDay fromDate) d' d). lia.
    - exists first', dayEnd'. auto. }
  unfold scan. rewrite <- dayAt_explicit.
  change (Slot.mk (dayAt (JsDate.startOfDay fromDate) d) (probe first k)
                  (probe first k + durationMinutes * 60000))
    with (slotAt durationMinutes (dayAt (JsDate.startOfDay fromDate) d) (probe first k)).
  apply dayLoop_first with (d := d).
  - now apply dayFuel_reaches.
  - exact Hd.
  - apply (probeDay_first _ _ _ _ _ first dayEnd k Hwin Hk Hacc).
    intros j Hj. apply (Hnot d j first dayEnd); [right; now split | exact Hwin |].
    pose proof (probe_mono first j k). lia.
  - intros d' Hd'. apply probeDay_none. intros first' dayEnd' k' Hwin' Hk'.
    apply (Hnot d' k' first' dayEnd'); [now left | exact Hwin' | exact Hk'].
Qed.

Lemma scan_none :
  (forall d k start, ~ probed d k start) <-> scan = (Ok Fallthrough, db).
Proof.
  split.
  - intros Hnone. unfold scan.
    match goal with |- AvailabilityService.dayLoop ?f ?e ?s ?du ?en ?c db = _ =>
      destruct (dayLoop_pure f e s du en c db) as [[| |slot] Hr];
      pose proof (dayLoop_terminates e s du en db f c (dayFuel_enough _ _)) as Hne
    end.
    + contradiction.
    + exact Hr.
    + exfalso. apply scan_returned in Hr as (d & k & Hprobed & _).
      exact (Hnone d k _ Hprobed).
  - unfold scan. intros Hscan d k start Hprobed.
    apply probed_accepted in Hprobed as [Hd (first & dayEnd & Hwin & _ & Hk & Hacc)].
    pose proof (dayLoop_fallthrough _ _ _ _ _ _ _ Hscan d Hd) as Hday.
    rewrite (probeDay_fallthrough _ _ _ _ _ Hday _ _ _ Hwin Hk) in Hacc. discriminate.
Qed.

End Scan.



(** X1.  On rows written as the request validation requires, the window
    that [getNextAvailableSlot] returns ends by the end of the recurring
    availability window of its day: the closing time of the seller's row
    for the weekday of the slot's date, an hour from 0 to 23 and a minute
    from 0 to 59, set on that date. *)
Lemma getNextAvailableSlot_within_window env serviceId fromDate daysAhead db slot :
  (forall row, In row (Db.sellerAvailability db) -> WellFormedHours row) ->
  fst (AvailabilityService.getNextAvailableSlot env serviceId fromDate daysAhead db)
    = Ok (Returned slot) ->
  exists service availability endHour endMinute,
    find (fun s => String.eqb (Service.id s) serviceId) (Db.service db) = Some service
    /\ find (fun r => String.eqb (SellerAvailability.sellerId r)
                                 (Seller.id (Service.seller service))
                      && (SellerAvailability.dayOfWeek r =? JsDate.getDay (Slot.date slot)))
            (Db.sellerAvailability db) = Some availability
    /\ hourMinute (SellerAvailability.endTime availability) = Some (endHour, endMinute)
    /\ 0 <= endHour <= 23 /\ 0 <= endMinute <= 59
    /\ Slot.endTime slot <= JsDate.setHours (Slot.date slot) endHour endMinute 0 0
    /\ Slot.endTime slot < JsDate.startOfDay (Slot.date slot) + 86400000.
Proof.
  intros Hwf H. apply getNextAvailableSlot_returned in H
    as (service & d & slotStart & dayEnd & k & Hs & _ & _ & Hwin & _ & Hend & Hacc & _).
  apply windowOf_some in Hwin
    as (availability & sh & sm & eh & em & Hrow & _ & _ & Hparse & _ & ->).
  pose proof (find_some _ _ Hrow) as [Hin _].
  destruct (Hwf availability Hin) as [_ Hclose].
  apply timePattern_parses in Hclose as (eh' & em' & Hparse' & Heh & Hem & _).
  rewrite Hparse in Hparse'. injection Hparse' as <- <-.
  exists service, availability, eh, em.
  apply accepted_within in Hacc. rewrite <- Hend in Hacc.
  repeat split; try assumption; try apply Heh; try apply Hem.
  unfold JsDate.setHours, JsDate.MS_PER_HOUR, JsDate.MS_PER_MINUTE in Hacc. lia.
Qed.

(** At 08:00 on the Monday of the scenario the slot found is 09:00-10:00:
    it ends before the window closes at 12:00. *)
Lemma getNextAvailableSlot_within_window_witness :
  exists service availability endHour endMinute,
    find (fun s => String.eqb (Service.id s) "service-1") (Db.service Scenario.db)
      = Some service
    /\ find (fun r => String.eqb (SellerAvailability.sellerId r)
                                 (Seller.id (Service.seller service))
                      && (SellerAvailability.dayOfWeek r =? JsDate.getDay Scenario.monday))
            (Db.sellerAvailability Scenario.db) = Some availability
    /\ hourMinute (SellerAvailability.endTime availability) = Some (endHour, endMinute)
    /\ 0 <= endHour <= 23 /\ 0 <= endMinute <= 59
    /\ Scenario.monday + 36000000 <= JsDate.setHours Scenario.monday endHour endMinute 0 0
    /\ Scenario.monday + 36000000 < JsDate.startOfDay Scenario.monday + 86400000.
Proof.
  apply (getNextAvailableSlot_within_window
           Scenario.env "service-1" (Scenario.monday + Scenario.hours 8) 30 Scenario.db
           (Slot.mk Scenario.monday (Scenario.monday + 32400000)
                    (Scenario.monday + 36000000))).
  - intros row [<- | []]. split; reflexivity.
  - reflexivity.
Defined.
